(** * tinynurbs/io/obj.h : Wavefront OBJ reading and writing of NURBS
      curves and surfaces

    A shallow embedding of [tinynurbs::internal::curveReadOBJ],
    [surfaceReadOBJ], [curveSaveOBJ], [surfaceSaveOBJ] and of the public
    overloads built on them, followed by the properties of the format
    codec that are stated about them.

    Conventions of the embedding.
    - A text file is the [string] of its characters; [std::getline] takes
      it apart into physical lines ([getlines]).  The lines that a reader
      has not read yet are a list; an empty last element stands for the
      call of [getline] that empties [sline] and fails at the end of a
      text that ends with a newline.
    - [std::istringstream] is a buffer of unread characters and the
      [failbit].  [eofbit] is not stored: it is set exactly when the buffer
      is exhausted, and every [ssline.str(..)] of the source is preceded by
      [ssline.clear()] with no read in between.
    - C++ [int] and [unsigned int] are 32-bit, [size_t] is 64-bit; integers
      are [Z] with the wrap-around written out.
    - Floating point is not interpreted: the scalar types and the numeric
      conversions of the C++ standard library are the fields of the class
      [Numerics].
    - A call either returns, throws a C++ exception, fails an [assert],
      runs into undefined behaviour (an unchecked [operator[]] out of
      range), or never leaves a loop: type [outcome]. *)

From Stdlib Require Import ZArith List String Ascii Bool Lia DecimalString.
From stdpp Require Import list strings.

Local Open Scope Z_scope.

(** ** Outcomes of a call *)

Inductive outcome (A : Type) : Type :=
| Returns (a : A)
| Throws (what : string)
| Aborts (assertion : string)
| Undefined (why : string)
| Diverges
| OutOfFuel.

Arguments Returns {A} a.
Arguments Throws {A} what.
Arguments Aborts {A} assertion.
Arguments Undefined {A} why.
Arguments Diverges {A}.
Arguments OutOfFuel {A}.

Definition obind {A B : Type} (m : outcome A) (k : A -> outcome B) : outcome B :=
  match m with
  | Returns a => k a
  | Throws w => Throws w
  | Aborts w => Aborts w
  | Undefined w => Undefined w
  | Diverges => Diverges
  | OutOfFuel => OutOfFuel
  end.

Declare Scope outcome_scope.
Delimit Scope outcome_scope with outcome.
Notation "x <- m ;; k" := (obind m (fun x => k))
  (at level 60, m at next level, right associativity) : outcome_scope.
Local Open Scope outcome_scope.

Definition returns {A : Type} (m : outcome A) : Prop := exists a, m = Returns a.

(** ** Machine integers *)

(** Conversion to [unsigned int]. *)
Definition to_uint (z : Z) : Z := z mod 2 ^ 32.

(** Conversion to [int] (two's complement). *)
Definition to_int (z : Z) : Z := (z + 2 ^ 31) mod 2 ^ 32 - 2 ^ 31.

Definition INT_MAX : Z := 2 ^ 31 - 1.

(** [v[i]] for a [std::vector] and an index that has been converted to
    [size_t]: the access is unchecked. *)
Definition at_index {A : Type} (what : string) (v : list A) (i : Z) : outcome A :=
  if (0 <=? i) && (i <? Z.of_nat (length v))
  then match v !! Z.to_nat i with
       | Some a => Returns a
       | None => Undefined what
       end
  else Undefined what.

(** [v.resize(n)] where [n] is an [int] converted to [size_t]: a negative
    [n] becomes a count beyond [max_size()] and [std::length_error] is
    thrown. *)
Definition vector_resize {A : Type} (n : Z) (val : A) (v : list A) : outcome (list A) :=
  if n <? 0 then Throws "std::length_error: vector::resize"
  else Returns (resize (Z.to_nat n) val v).

(** ** Characters, lines and tokens *)

Definition newline : ascii := "010"%char.
Definition endl : string := String newline "".

(** The continuation marker, a token made of one backslash. *)
Definition backslash : ascii := "092"%char.
Definition continuation : string := String backslash "".

(** [std::getline(file, sline)], call after call.  A call that finds the
    stream good empties [sline] and reads the characters up to the next
    newline, or up to the end of the file.  [getlines] lists what these
    calls leave in [sline]: an element for every line that a newline ends,
    and a last element for the call that reaches the end of the file.
    - When the last element is not empty (the last line has no newline),
      that call succeeds and sets [eofbit].
    - When it is empty (the text is empty or ends with a newline), that
      call has emptied [sline] and read nothing: it fails.
    A call made after the last element finds a stream that is not good any
    more: it fails and leaves [sline] as it was. *)
Fixpoint getlines_from (cur : string) (s : string) : list string :=
  match s with
  | EmptyString => [cur]
  | String c s' =>
      if Ascii.eqb c newline then cur :: getlines_from "" s'
      else getlines_from (cur +:+ String c "") s'
  end.

Definition getlines (contents : string) : list string :=
  getlines_from "" contents.

(** Leading white space is skipped by the sentry of a formatted input
    function ([std::isspace] in the C locale). *)
Fixpoint skipws (s : string) : string :=
  match s with
  | EmptyString => ""
  | String c s' => if Ascii.is_space c then skipws s' else s
  end.

(** [operator>>(std::string&)] after the sentry: the characters up to the
    next white space, and what is left. *)
Fixpoint get_word (s : string) : string * string :=
  match s with
  | EmptyString => ("", "")
  | String c s' =>
      if Ascii.is_space c then ("", s)
      else let '(w, r) := get_word s' in (String c w, r)
  end.

(** All the tokens that [while (ssline >> token)] meets in a buffer. *)
Fixpoint words_from (cur : string) (s : string) : list string :=
  match s with
  | EmptyString => match cur with EmptyString => [] | _ => [cur] end
  | String c s' =>
      if Ascii.is_space c
      then match cur with
           | EmptyString => words_from "" s'
           | _ => cur :: words_from "" s'
           end
      else words_from (cur +:+ String c "") s'
  end.

Definition words (s : string) : list string := words_from "" s.

(** The buffer after [n] characters have been consumed. *)
Fixpoint drop_chars (n : nat) (s : string) : string :=
  match n, s with
  | S n', String _ s' => drop_chars n' s'
  | _, _ => s
  end.

(** ** std::istringstream *)

Record istringstream : Type := { buf : string; failbit : bool }.

Definition ss_str (s : string) (ss : istringstream) : istringstream :=
  {| buf := s; failbit := failbit ss |}.

Definition ss_clear (ss : istringstream) : istringstream :=
  {| buf := buf ss; failbit := false |}.

Definition ss_fail : istringstream := {| buf := ""; failbit := true |}.

(** The sentry of a formatted extraction: it refuses a failed stream, skips
    white space, and refuses (setting [failbit]) when nothing is left. *)
Definition sentry (ss : istringstream) : option string :=
  if failbit ss then None
  else match skipws (buf ss) with
       | EmptyString => None
       | b => Some b
       end.

(** [ssline >> str]: the token read, if any.  When the sentry refuses, the
    destination string is left as it was. *)
Definition get_token (ss : istringstream) : option string * istringstream :=
  match sentry ss with
  | None => (None, ss_fail)
  | Some b => let '(w, r) := get_word b in (Some w, {| buf := r; failbit := false |})
  end.

(** [ssline >> x] for an arithmetic [x], by a conversion [get] of the
    standard library that maps the buffer (after the sentry) to the value
    stored in [x], whether the conversion succeeded, and the number of
    characters consumed.  When the sentry refuses, [x] is left as it
    was. *)
Definition extract {A : Type} (get : string -> A * bool * nat)
    (ss : istringstream) : option A * istringstream :=
  match sentry ss with
  | None => (None, ss_fail)
  | Some b =>
      let '(v, ok, n) := get b in
      (Some v, {| buf := drop_chars n b; failbit := negb ok |})
  end.

(** The tokens that [while (ssline >> token)] reads from a stream. *)
Definition tokens (ss : istringstream) : list string :=
  if failbit ss then [] else words (buf ss).

(** ** Numeric types and conversions of the C++ standard library *)

Class Numerics : Type := {
  (** [double], [float] and the template parameter [T] *)
  dbl : Type;
  flt : Type;
  T : Type;
  (** the literals [0.0] and [1.0] *)
  dbl_zero : dbl;
  dbl_one : dbl;
  (** [T()] or [T(0)], and [T(1)] *)
  T_zero : T;
  T_one : T;
  (** implicit conversions *)
  T_of_dbl : dbl -> T;
  T_of_flt : flt -> T;
  int_of_flt : flt -> Z;
  (** [operator>>] for [double], [T] and [unsigned int] *)
  get_dbl : string -> dbl * bool * nat;
  get_T : string -> T * bool * nat;
  get_uint : string -> Z * bool * nat;
  (** [std::stof]; [None] when it throws [std::invalid_argument] or
      [std::out_of_range] *)
  stof : string -> option flt;
  (** [operator<<] for [T], [unsigned int] and [int] *)
  put_T : T -> string;
  put_uint : Z -> string;
  put_int : Z -> string
}.

(** ** The scan state that both readers share

    The flags of the local [struct ToParse].  The source declares
    [ToParse parsed;] without an initialiser, so the flags start with
    indeterminate values: a reader takes them as an argument.  The third
    flag is called [curv] in the curve reader and [surf] in the surface
    reader. *)

Record ToParse : Type := { p_deg : bool; p_cstype : bool; p_curv : bool; p_parm : bool }.

Definition set_deg (p : ToParse) : ToParse :=
  {| p_deg := true; p_cstype := p_cstype p; p_curv := p_curv p; p_parm := p_parm p |}.
Definition set_cstype (p : ToParse) : ToParse :=
  {| p_deg := p_deg p; p_cstype := true; p_curv := p_curv p; p_parm := p_parm p |}.
Definition set_curv (p : ToParse) : ToParse :=
  {| p_deg := p_deg p; p_cstype := p_cstype p; p_curv := true; p_parm := p_parm p |}.
Definition set_parm (p : ToParse) : ToParse :=
  {| p_deg := p_deg p; p_cstype := p_cstype p; p_curv := p_curv p; p_parm := true |}.

(** Whether the scan loop goes on to the next line or is left by [break]. *)
Inductive control : Type := Next | Break.

Section Records.
Context `{Numerics}.

(** [glm::vec<3, T>] *)
Record vec3 : Type := Vec3 { x : T; y : T; z : T }.

(** *** The [v] record

    [four_coords] is [{0, 0, 0, 1}]; the loop
    [while (ssline && index <= 3) ssline >> four_coords[index++];]
    runs at most [slots] = 4 - [index] times. *)
Fixpoint read_coords (slots : nat) (index : nat) (ssline : istringstream)
    (four_coords : list dbl) : list dbl :=
  match slots with
  | O => four_coords
  | S slots' =>
      if failbit ssline then four_coords
      else
        let '(v, ssline') := extract get_dbl ssline in
        read_coords slots' (S index) ssline'
          (match v with
           | Some d => <[index := d]> four_coords
           | None => four_coords
           end)
  end.

Definition four_coords_of (ssline : istringstream) : list dbl :=
  read_coords 4 0 ssline [dbl_zero; dbl_zero; dbl_zero; dbl_one].

(** The vertex and the weight appended to [ctrl_pts_buf] and
    [weights_buf]. *)
Definition v_record (ssline : istringstream) : vec3 * T :=
  let four_coords := four_coords_of ssline in
  (Vec3 (T_of_dbl (nth 0 four_coords dbl_zero))
        (T_of_dbl (nth 1 four_coords dbl_zero))
        (T_of_dbl (nth 2 four_coords dbl_zero)),
   T_of_dbl (nth 3 four_coords dbl_zero)).

(** *** The [cstype] record

    [Some false] for [bspline], [Some true] for [rat bspline]; [None] leaves
    [rational] and [parsed.cstype] as they were.  [token1] and [token2] are
    fresh empty strings, which a refused extraction leaves empty. *)
Definition cstype_record (ssline : istringstream) : option bool :=
  let '(t1, ssline1) := get_token ssline in
  let token1 := default "" t1 in
  if String.eqb token1 "bspline" then Some false
  else if String.eqb token1 "rat" then
    let '(t2, _) := get_token ssline1 in
    let token2 := default "" t2 in
    if String.eqb token2 "bspline" then Some true else None
  else None.

(** *** Lists of values with continuation lines

<<
    while (ssline >> token) {
        if (token == "\\") {
            ssline.clear(); getline(file, sline); ssline.str(sline);
        } else {
            values.push_back(std::stof(token));
        }
    }
>>
    [file] holds what the calls of [getline] still to come leave in
    [sline] ([getlines]).  The result of [getline] is not tested here.
    - A marker in a line that a newline ends is followed by an element of
      [file].  When this is the empty last element of a text that ends with
      a newline, [getline] fails with [sline] emptied: the stream holds no
      token and the loop ends, as it does after an empty line.
    - A marker in a last line without a newline meets the end of [file]:
      [eofbit] is set, [getline] fails and leaves [sline] as it was, so
      that [ssline.str(sline)] rewinds the stream to the start of the line
      that holds the marker ([replay_list]): either a token of that line
      makes [std::stof] throw, or the marker is met again in the same
      state and the loop never ends. *)
Fixpoint replay_list {A : Type} (conv : flt -> A) (toks : list string)
    (values : list A) : outcome (list A) :=
  match toks with
  | [] => Returns values
  | token :: toks' =>
      if String.eqb token continuation then Diverges
      else match stof token with
           | Some f => replay_list conv toks' (values ++ [conv f])
           | None => Throws "std::invalid_argument: stof"
           end
  end.

(** The result is the lines left in the file, the last line read into
    [sline], and the values. *)
Fixpoint read_list {A : Type} (conv : flt -> A) (file : list string)
    : string -> list string -> list A -> outcome (list string * string * list A) :=
  fix go (sline : string) (toks : list string) (values : list A) {struct toks} :=
    match toks with
    | [] => Returns (file, sline, values)
    | token :: toks' =>
        if String.eqb token continuation then
          match file with
          | l :: file' => read_list conv file' l (words l) values
          | [] =>
              values' <- replay_list conv (words sline) values ;;
              Returns ([], sline, values')
          end
        else match stof token with
             | Some f => go sline toks' (values ++ [conv f])
             | None => Throws "std::invalid_argument: stof"
             end
    end.

End Records.

(** ** internal::curveReadOBJ *)

Module curve.
Section Reader.
Context `{Numerics}.

Record scan_state : Type := {
  sline : string;
  start : string;
  deg : Z;
  rational : bool;
  parsed : ToParse;
  ctrl_pts_buf : list vec3;
  weights_buf : list T;
  indices : list Z;
  temp_knots : list T
}.

Definition with_line (l : string) (st : scan_state) : scan_state :=
  {| sline := l; start := start st; deg := deg st; rational := rational st;
     parsed := parsed st; ctrl_pts_buf := ctrl_pts_buf st;
     weights_buf := weights_buf st; indices := indices st;
     temp_knots := temp_knots st |}.

Definition with_start (s : string) (st : scan_state) : scan_state :=
  {| sline := sline st; start := s; deg := deg st; rational := rational st;
     parsed := parsed st; ctrl_pts_buf := ctrl_pts_buf st;
     weights_buf := weights_buf st; indices := indices st;
     temp_knots := temp_knots st |}.

Definition on_v (ssline : istringstream) (st : scan_state) : scan_state :=
  let '(p, w) := v_record ssline in
  {| sline := sline st; start := start st; deg := deg st; rational := rational st;
     parsed := parsed st; ctrl_pts_buf := ctrl_pts_buf st ++ [p];
     weights_buf := weights_buf st ++ [w]; indices := indices st;
     temp_knots := temp_knots st |}.

Definition on_cstype (ssline : istringstream) (st : scan_state) : scan_state :=
  match cstype_record ssline with
  | Some r =>
      {| sline := sline st; start := start st; deg := deg st; rational := r;
         parsed := set_cstype (parsed st); ctrl_pts_buf := ctrl_pts_buf st;
         weights_buf := weights_buf st; indices := indices st;
         temp_knots := temp_knots st |}
  | None => st
  end.

(** [ssline >> deg; parsed.deg = true;] *)
Definition on_deg (ssline : istringstream) (st : scan_state) : scan_state :=
  let '(d, _) := extract get_uint ssline in
  {| sline := sline st; start := start st; deg := default (deg st) d;
     rational := rational st; parsed := set_deg (parsed st);
     ctrl_pts_buf := ctrl_pts_buf st; weights_buf := weights_buf st;
     indices := indices st; temp_knots := temp_knots st |}.

(** [ssline >> knot_min >> knot_max;] then the index list.  [knot_min] and
    [knot_max] are not used afterwards and are not kept. *)
Definition on_curv (file : list string) (ssline : istringstream) (st : scan_state)
    : outcome (list string * scan_state) :=
  let '(_, ssline1) := extract get_T ssline in
  let '(_, ssline2) := extract get_T ssline1 in
  r <- read_list int_of_flt file (sline st) (tokens ssline2) (indices st) ;;
  let '(file', sline', indices') := r in
  Returns (file',
    {| sline := sline'; start := start st; deg := deg st; rational := rational st;
       parsed := set_curv (parsed st); ctrl_pts_buf := ctrl_pts_buf st;
       weights_buf := weights_buf st; indices := indices';
       temp_knots := temp_knots st |}).

(** [ssline >> start;] then, for the axis [u], the knot list. *)
Definition on_parm (file : list string) (ssline : istringstream) (st : scan_state)
    : outcome (list string * scan_state) :=
  let '(axis, ssline1) := get_token ssline in
  let start' := default (start st) axis in
  if String.eqb start' "u" then
    r <- read_list T_of_flt file (sline st) (tokens ssline1) (temp_knots st) ;;
    let '(file', sline', temp_knots') := r in
    Returns (file',
      {| sline := sline'; start := start'; deg := deg st; rational := rational st;
         parsed := set_parm (parsed st); ctrl_pts_buf := ctrl_pts_buf st;
         weights_buf := weights_buf st; indices := indices st;
         temp_knots := temp_knots' |})
  else
    Returns (file,
      {| sline := sline st; start := start'; deg := deg st; rational := rational st;
         parsed := set_parm (parsed st); ctrl_pts_buf := ctrl_pts_buf st;
         weights_buf := weights_buf st; indices := indices st;
         temp_knots := temp_knots st |}).

(** The body of the scan loop for a line that is not empty: [sline] holds
    the line and [file] the lines after it. *)
Definition process_line (file : list string) (st : scan_state)
    : outcome (control * list string * scan_state) :=
  let ssline := {| buf := sline st; failbit := false |} in
  let '(s, ssline) := get_token ssline in
  let st := with_start (default (start st) s) st in
  if String.eqb (start st) "v" then Returns (Next, file, on_v ssline st)
  else if String.eqb (start st) "cstype" then Returns (Next, file, on_cstype ssline st)
  else if String.eqb (start st) "deg" then Returns (Next, file, on_deg ssline st)
  else if String.eqb (start st) "curv" then
    r <- on_curv file ssline st ;; Returns (Next, fst r, snd r)
  else if String.eqb (start st) "parm" then
    r <- on_parm file ssline st ;; Returns (Next, fst r, snd r)
  else if String.eqb (start st) "end" then Returns (Break, file, st)
  else Returns (Next, file, st).

(** [while (std::getline(file, sline)) { if (sline.size() == 0) continue; .. }]
    Every iteration reads at least one line: [length file] iterations are
    enough.  The loop is left when [getline] fails: at the end of [file]
    with [sline] as it was, or, for a text that ends with a newline, at the
    empty last element with [sline] emptied, after which [file] is at its
    end. *)
Fixpoint scan (fuel : nat) (file : list string) (st : scan_state) : outcome scan_state :=
  match file with
  | [] => Returns st
  | l :: file' =>
      match fuel with
      | O => OutOfFuel
      | S fuel' =>
          if String.eqb l "" then scan fuel' file' (with_line l st)
          else
            r <- process_line file' (with_line l st) ;;
            let '(c, file'', st') := r in
            match c with
            | Next => scan fuel' file'' st'
            | Break => Returns st'
            end
      end
  end.

(** "Check if necessary data was available in file" *)
Definition check_parsed (p : ToParse) : outcome unit :=
  if negb (p_cstype p) then
    Throws "'cstype bspline / cstype rat bspline' line missing in file"
  else if negb (p_deg p) then Throws "'deg' line missing/incomplete in file"
  else if negb (p_curv p) then Throws "'curv' line missing/incomplete in file"
  else if negb (p_parm p) then Throws "'parm' line missing/incomplete in file"
  else Returns tt.

(** One iteration of the loop that fills [ctrlPts] and [weights]. *)
Definition fill_step (st : scan_state) (i : nat) (acc : list vec3 * list T)
    : outcome (list vec3 * list T) :=
  let '(ctrlPts, weights) := acc in
  if negb (i <? length ctrlPts)%nat then Aborts "i < ctrlPts.size()"
  else
    idx <- at_index "indices[num]" (indices st) (Z.of_nat i) ;;
    p <- at_index "ctrl_pts_buf[indices[num] - 1]" (ctrl_pts_buf st) (idx - 1) ;;
    w <- at_index "weights_buf[indices[num] - 1]" (weights_buf st) (idx - 1) ;;
    Returns (<[i := p]> ctrlPts, <[i := w]> weights).

Fixpoint fill (st : scan_state) (count : nat) (i : nat) (acc : list vec3 * list T)
    : outcome (list vec3 * list T) :=
  match count with
  | O => Returns acc
  | S count' => acc' <- fill_step st i acc ;; fill st count' (S i) acc'
  end.

(** The out-parameters [deg], [knots], [ctrlPts], [weights], [rational]. *)
Record result : Type := {
  r_deg : Z;
  r_knots : list T;
  r_ctrlPts : list vec3;
  r_weights : list T;
  r_rational : bool
}.

(** Everything after [file.close()]. *)
Definition build (ctrlPts0 : list vec3) (weights0 : list T) (st : scan_state)
    : outcome result :=
  _ <- check_parsed (parsed st) ;;
  let num_knots := to_int (Z.of_nat (length (temp_knots st))) in
  let num_cp := to_int (to_uint (to_uint num_knots - deg st) - 1) in
  ctrlPts <- vector_resize num_cp (Vec3 T_zero T_zero T_zero) ctrlPts0 ;;
  weights <- vector_resize num_cp T_zero weights0 ;;
  filled <- fill st (Z.to_nat num_cp) 0 (ctrlPts, weights) ;;
  Returns {| r_deg := deg st; r_knots := temp_knots st;
             r_ctrlPts := fst filled; r_weights := snd filled;
             r_rational := rational st |}.

(** [contents] is what the file holds, [None] when it cannot be opened.
    [garbage] is the indeterminate initial value of [parsed]; the other
    arguments are the values that the reference parameters hold at the
    call. *)
Definition initial (garbage : ToParse) (deg0 : Z) (rational0 : bool) : scan_state :=
  {| sline := ""; start := ""; deg := deg0; rational := rational0;
     parsed := garbage; ctrl_pts_buf := []; weights_buf := [];
     indices := []; temp_knots := [] |}.

(** The function on a file that has been opened, as the lines it holds. *)
Definition read_lines (file : list string) (garbage : ToParse) (deg0 : Z)
    (ctrlPts0 : list vec3) (weights0 : list T) (rational0 : bool) : outcome result :=
  st <- scan (length file) file (initial garbage deg0 rational0) ;;
  build ctrlPts0 weights0 st.

Definition curveReadOBJ (filename : string) (contents : option string)
    (garbage : ToParse) (deg0 : Z) (ctrlPts0 : list vec3) (weights0 : list T)
    (rational0 : bool) : outcome result :=
  match contents with
  | None => Throws ("File not found: " +:+ filename)
  | Some text => read_lines (getlines text) garbage deg0 ctrlPts0 weights0 rational0
  end.

End Reader.
End curve.

(** ** util/array2.h *)

(** Modelled from the spec: the header [util/array2.h], of which the source
    only shows the uses.  The spec describes "a 2D-grid container type
    supporting [resize(rows, cols)], [(i, j)] element access, [rows()],
    [cols()]", stored as a "row-major 2D grid".  The cells are kept in one
    sequence, cell [(i, j)] at position [i * cols + j]. *)
Record array2 (A : Type) : Type := Array2 { rows : nat; cols : nat; data : list A }.

Arguments Array2 {A} rows cols data.
Arguments rows {A} a.
Arguments cols {A} a.
Arguments data {A} a.

(** Modelled from the spec: [resize(rows, cols)] called with two [int]
    extents.  As for [std::vector::resize], a negative extent is taken to
    ask for more cells than can be allocated; cells that stay keep their
    contents and new cells hold [val]. *)
Definition array2_resize {A : Type} (r c : Z) (val : A) (a : array2 A)
    : outcome (array2 A) :=
  if (r <? 0) || (c <? 0) then Throws "std::length_error: array2::resize"
  else Returns (Array2 (Z.to_nat r) (Z.to_nat c)
                  (resize (Z.to_nat r * Z.to_nat c) val (data a))).

(** Modelled from the spec: reading cell [(i, j)]; the access is not
    checked. *)
Definition array2_get {A : Type} (what : string) (a : array2 A) (i j : nat)
    : outcome A :=
  if (i <? rows a)%nat && (j <? cols a)%nat
  then match data a !! (i * cols a + j)%nat with
       | Some v => Returns v
       | None => Undefined what
       end
  else Undefined what.

(** Modelled from the spec: writing cell [(i, j)], for [(i, j)] in range. *)
Definition array2_set {A : Type} (a : array2 A) (i j : nat) (v : A) : array2 A :=
  Array2 (rows a) (cols a) (<[(i * cols a + j)%nat := v]> (data a)).

(** ** internal::surfaceReadOBJ *)

Module surface.
Section Reader.
Context `{Numerics}.

Record scan_state : Type := {
  sline : string;
  start : string;
  deg_u : Z;
  deg_v : Z;
  rational : bool;
  parsed : ToParse;
  ctrl_pts_buf : list vec3;
  weights_buf : list T;
  indices : list Z;
  temp_uknots : list T;
  temp_vknots : list T
}.

Definition with_line (l : string) (st : scan_state) : scan_state :=
  {| sline := l; start := start st; deg_u := deg_u st; deg_v := deg_v st;
     rational := rational st; parsed := parsed st;
     ctrl_pts_buf := ctrl_pts_buf st; weights_buf := weights_buf st;
     indices := indices st; temp_uknots := temp_uknots st;
     temp_vknots := temp_vknots st |}.

Definition with_start (s : string) (st : scan_state) : scan_state :=
  {| sline := sline st; start := s; deg_u := deg_u st; deg_v := deg_v st;
     rational := rational st; parsed := parsed st;
     ctrl_pts_buf := ctrl_pts_buf st; weights_buf := weights_buf st;
     indices := indices st; temp_uknots := temp_uknots st;
     temp_vknots := temp_vknots st |}.

Definition on_v (ssline : istringstream) (st : scan_state) : scan_state :=
  let '(p, w) := v_record ssline in
  {| sline := sline st; start := start st; deg_u := deg_u st; deg_v := deg_v st;
     rational := rational st; parsed := parsed st;
     ctrl_pts_buf := ctrl_pts_buf st ++ [p]; weights_buf := weights_buf st ++ [w];
     indices := indices st; temp_uknots := temp_uknots st;
     temp_vknots := temp_vknots st |}.

Definition on_cstype (ssline : istringstream) (st : scan_state) : scan_state :=
  match cstype_record ssline with
  | Some r =>
      {| sline := sline st; start := start st; deg_u := deg_u st; deg_v := deg_v st;
         rational := r; parsed := set_cstype (parsed st);
         ctrl_pts_buf := ctrl_pts_buf st; weights_buf := weights_buf st;
         indices := indices st; temp_uknots := temp_uknots st;
         temp_vknots := temp_vknots st |}
  | None => st
  end.

(** [ssline >> deg_u >> deg_v; parsed.deg = true;] *)
Definition on_deg (ssline : istringstream) (st : scan_state) : scan_state :=
  let '(du, ssline1) := extract get_uint ssline in
  let '(dv, _) := extract get_uint ssline1 in
  {| sline := sline st; start := start st; deg_u := default (deg_u st) du;
     deg_v := default (deg_v st) dv; rational := rational st;
     parsed := set_deg (parsed st); ctrl_pts_buf := ctrl_pts_buf st;
     weights_buf := weights_buf st; indices := indices st;
     temp_uknots := temp_uknots st; temp_vknots := temp_vknots st |}.

(** [ssline >> uknot_min >> uknot_max >> vknot_min >> vknot_max;] then the
    index list. *)
Definition on_surf (file : list string) (ssline : istringstream) (st : scan_state)
    : outcome (list string * scan_state) :=
  let '(_, ssline1) := extract get_T ssline in
  let '(_, ssline2) := extract get_T ssline1 in
  let '(_, ssline3) := extract get_T ssline2 in
  let '(_, ssline4) := extract get_T ssline3 in
  r <- read_list int_of_flt file (sline st) (tokens ssline4) (indices st) ;;
  let '(file', sline', indices') := r in
  Returns (file',
    {| sline := sline'; start := start st; deg_u := deg_u st; deg_v := deg_v st;
       rational := rational st; parsed := set_curv (parsed st);
       ctrl_pts_buf := ctrl_pts_buf st; weights_buf := weights_buf st;
       indices := indices'; temp_uknots := temp_uknots st;
       temp_vknots := temp_vknots st |}).

(** [ssline >> start;] then the knot list of the axis [u] or [v]. *)
Definition on_parm (file : list string) (ssline : istringstream) (st : scan_state)
    : outcome (list string * scan_state) :=
  let '(axis, ssline1) := get_token ssline in
  let start' := default (start st) axis in
  if String.eqb start' "u" then
    r <- read_list T_of_flt file (sline st) (tokens ssline1) (temp_uknots st) ;;
    let '(file', sline', temp_uknots') := r in
    Returns (file',
      {| sline := sline'; start := start'; deg_u := deg_u st; deg_v := deg_v st;
         rational := rational st; parsed := set_parm (parsed st);
         ctrl_pts_buf := ctrl_pts_buf st; weights_buf := weights_buf st;
         indices := indices st; temp_uknots := temp_uknots';
         temp_vknots := temp_vknots st |})
  else if String.eqb start' "v" then
    r <- read_list T_of_flt file (sline st) (tokens ssline1) (temp_vknots st) ;;
    let '(file', sline', temp_vknots') := r in
    Returns (file',
      {| sline := sline'; start := start'; deg_u := deg_u st; deg_v := deg_v st;
         rational := rational st; parsed := set_parm (parsed st);
         ctrl_pts_buf := ctrl_pts_buf st; weights_buf := weights_buf st;
         indices := indices st; temp_uknots := temp_uknots st;
         temp_vknots := temp_vknots' |})
  else
    Returns (file,
      {| sline := sline st; start := start'; deg_u := deg_u st; deg_v := deg_v st;
         rational := rational st; parsed := set_parm (parsed st);
         ctrl_pts_buf := ctrl_pts_buf st; weights_buf := weights_buf st;
         indices := indices st; temp_uknots := temp_uknots st;
         temp_vknots := temp_vknots st |}).

Definition process_line (file : list string) (st : scan_state)
    : outcome (control * list string * scan_state) :=
  let ssline := {| buf := sline st; failbit := false |} in
  let '(s, ssline) := get_token ssline in
  let st := with_start (default (start st) s) st in
  if String.eqb (start st) "v" then Returns (Next, file, on_v ssline st)
  else if String.eqb (start st) "cstype" then Returns (Next, file, on_cstype ssline st)
  else if String.eqb (start st) "deg" then Returns (Next, file, on_deg ssline st)
  else if String.eqb (start st) "surf" then
    r <- on_surf file ssline st ;; Returns (Next, fst r, snd r)
  else if String.eqb (start st) "parm" then
    r <- on_parm file ssline st ;; Returns (Next, fst r, snd r)
  else if String.eqb (start st) "end" then Returns (Break, file, st)
  else Returns (Next, file, st).

(** [while (std::getline(file, sline)) { if (sline.size() == 0) break; .. }]
    The loop is left at an empty line, and when [getline] fails: at the end
    of [file] with [sline] as it was, or at the empty last element of a
    text that ends with a newline, with [sline] emptied. *)
Fixpoint scan (fuel : nat) (file : list string) (st : scan_state) : outcome scan_state :=
  match file with
  | [] => Returns st
  | l :: file' =>
      match fuel with
      | O => OutOfFuel
      | S fuel' =>
          if String.eqb l "" then Returns (with_line l st)
          else
            r <- process_line file' (with_line l st) ;;
            let '(c, file'', st') := r in
            match c with
            | Next => scan fuel' file'' st'
            | Break => Returns st'
            end
      end
  end.

Definition check_parsed (p : ToParse) : outcome unit :=
  if negb (p_cstype p) then
    Throws "'cstype bspline / cstype rat bspline' line missing in file"
  else if negb (p_deg p) then Throws "'deg' line missing/incomplete in file"
  else if negb (p_curv p) then Throws "'surf' line missing/incomplete in file"
  else if negb (p_parm p) then Throws "'parm' line missing/incomplete in file"
  else Returns tt.

(** The body of the two nested loops; [num] counts the cells filled. *)
Definition fill_step (st : scan_state) (i j : nat)
    (acc : array2 vec3 * array2 T * nat) : outcome (array2 vec3 * array2 T * nat) :=
  let '(ctrlPts, weights, num) := acc in
  if negb ((i <? rows ctrlPts)%nat && (j <? cols ctrlPts)%nat)
  then Aborts "i < ctrlPts.rows() && j < ctrlPts.cols()"
  else
    idx <- at_index "indices[num]" (indices st) (Z.of_nat num) ;;
    p <- at_index "ctrl_pts_buf[indices[num] - 1]" (ctrl_pts_buf st) (idx - 1) ;;
    w <- at_index "weights_buf[indices[num] - 1]" (weights_buf st) (idx - 1) ;;
    Returns (array2_set ctrlPts i j p, array2_set weights i j w, S num).

(** [for (int i = 0; i < num_cp_u; ++i)] *)
Fixpoint fill_u (st : scan_state) (count : nat) (i j : nat)
    (acc : array2 vec3 * array2 T * nat) : outcome (array2 vec3 * array2 T * nat) :=
  match count with
  | O => Returns acc
  | S count' => acc' <- fill_step st i j acc ;; fill_u st count' (S i) j acc'
  end.

(** [for (int j = 0; j < num_cp_v; ++j)] *)
Fixpoint fill_v (st : scan_state) (num_cp_u : nat) (count : nat) (j : nat)
    (acc : array2 vec3 * array2 T * nat) : outcome (array2 vec3 * array2 T * nat) :=
  match count with
  | O => Returns acc
  | S count' =>
      acc' <- fill_u st num_cp_u 0 j acc ;; fill_v st num_cp_u count' (S j) acc'
  end.

Record result : Type := {
  r_deg_u : Z;
  r_deg_v : Z;
  r_knots_u : list T;
  r_knots_v : list T;
  r_ctrlPts : array2 vec3;
  r_weights : array2 T;
  r_rational : bool
}.

Definition build (ctrlPts0 : array2 vec3) (weights0 : array2 T) (st : scan_state)
    : outcome result :=
  _ <- check_parsed (parsed st) ;;
  let num_knots_u := to_int (Z.of_nat (length (temp_uknots st))) in
  let num_knots_v := to_int (Z.of_nat (length (temp_vknots st))) in
  let num_cp_u := to_int (to_uint (to_uint num_knots_u - deg_u st) - 1) in
  let num_cp_v := to_int (to_uint (to_uint num_knots_v - deg_v st) - 1) in
  ctrlPts <- array2_resize num_cp_u num_cp_v (Vec3 T_zero T_zero T_zero) ctrlPts0 ;;
  weights <- array2_resize num_cp_u num_cp_v T_zero weights0 ;;
  filled <- fill_v st (Z.to_nat num_cp_u) (Z.to_nat num_cp_v) 0 (ctrlPts, weights, O) ;;
  Returns {| r_deg_u := deg_u st; r_deg_v := deg_v st;
             r_knots_u := temp_uknots st; r_knots_v := temp_vknots st;
             r_ctrlPts := fst (fst filled); r_weights := snd (fst filled);
             r_rational := rational st |}.

Definition initial (garbage : ToParse) (deg_u0 deg_v0 : Z) (rational0 : bool)
    : scan_state :=
  {| sline := ""; start := ""; deg_u := deg_u0; deg_v := deg_v0;
     rational := rational0; parsed := garbage; ctrl_pts_buf := [];
     weights_buf := []; indices := []; temp_uknots := []; temp_vknots := [] |}.

Definition read_lines (file : list string) (garbage : ToParse) (deg_u0 deg_v0 : Z)
    (ctrlPts0 : array2 vec3) (weights0 : array2 T) (rational0 : bool)
    : outcome result :=
  st <- scan (length file) file (initial garbage deg_u0 deg_v0 rational0) ;;
  build ctrlPts0 weights0 st.

Definition surfaceReadOBJ (filename : string) (contents : option string)
    (garbage : ToParse) (deg_u0 deg_v0 : Z) (ctrlPts0 : array2 vec3)
    (weights0 : array2 T) (rational0 : bool) : outcome result :=
  match contents with
  | None => Throws ("File not found: " +:+ filename)
  | Some text =>
      read_lines (getlines text) garbage deg_u0 deg_v0 ctrlPts0 weights0 rational0
  end.

End Reader.
End surface.

(** ** internal::curveSaveOBJ and internal::surfaceSaveOBJ

    A writer returns the characters sent to [fout]. *)

Section Writers.
Context `{Numerics}.

(** ["v " << p.x << " " << p.y << " " << p.z << " " << w << endl] *)
Definition v_line (p : vec3) (w : T) : string :=
  "v " +:+ put_T (x p) +:+ " " +:+ put_T (y p) +:+ " " +:+ put_T (z p)
    +:+ " " +:+ put_T w +:+ endl.

(** [for (int i = 0; i < ctrlPts.size(); ++i)], with [weights[i]]
    unchecked. *)
Fixpoint put_vertices (ctrlPts : list vec3) (i : nat) (weights : list T)
    : outcome string :=
  match ctrlPts with
  | [] => Returns ""
  | p :: ctrlPts' =>
      w <- at_index "weights[i]" weights (Z.of_nat i) ;;
      s <- put_vertices ctrlPts' (S i) weights ;;
      Returns (v_line p w +:+ s)
  end.

(** [for (int i = 0; i < n; ++i) fout << " " << i + 1;] *)
Fixpoint put_indices (count : nat) (i : Z) : string :=
  match count with
  | O => ""
  | S count' => " " +:+ put_int (i + 1) +:+ put_indices count' (i + 1)
  end.

(** [for (auto knot : knots) fout << " " << knot;] *)
Fixpoint put_knots (knots : list T) : string :=
  match knots with
  | [] => ""
  | knot :: knots' => " " +:+ put_T knot +:+ put_knots knots'
  end.

Definition cstype_line (rational : bool) : string :=
  if negb rational then "cstype bspline" +:+ endl
  else "cstype rat bspline" +:+ endl.

Definition curveSaveOBJ (degree : Z) (knots : list T) (ctrlPts : list vec3)
    (weights : list T) (rational : bool) : outcome string :=
  vs <- put_vertices ctrlPts 0 weights ;;
  let n_knots := to_int (Z.of_nat (length knots)) in
  let n_cp := to_int (Z.of_nat (length ctrlPts)) in
  k_lo <- at_index "knots[degree]" knots degree ;;
  k_hi <- at_index "knots[n_knots - degree - 1]" knots
            (to_uint (to_uint (to_uint n_knots - degree) - 1)) ;;
  Returns (vs +:+ cstype_line rational
             +:+ "deg " +:+ put_uint degree +:+ endl
             +:+ "curv " +:+ put_T k_lo +:+ " " +:+ put_T k_hi
             +:+ put_indices (Z.to_nat n_cp) 0 +:+ endl
             +:+ "parm u" +:+ put_knots knots +:+ endl
             +:+ "end").

(** [for (int i = 0; i < ctrlPts.rows(); i++)], at column [j] *)
Fixpoint put_column (ctrlPts : array2 vec3) (weights : array2 T)
    (count : nat) (i j : nat) : outcome string :=
  match count with
  | O => Returns ""
  | S count' =>
      p <- array2_get "ctrlPts(i, j)" ctrlPts i j ;;
      w <- array2_get "weights(i, j)" weights i j ;;
      s <- put_column ctrlPts weights count' (S i) j ;;
      Returns (v_line p w +:+ s)
  end.

(** [for (int j = 0; j < ctrlPts.cols(); j++)] *)
Fixpoint put_grid (ctrlPts : array2 vec3) (weights : array2 T)
    (count : nat) (j : nat) : outcome string :=
  match count with
  | O => Returns ""
  | S count' =>
      c <- put_column ctrlPts weights (rows ctrlPts) 0 j ;;
      s <- put_grid ctrlPts weights count' (S j) ;;
      Returns (c +:+ s)
  end.

Definition surfaceSaveOBJ (deg_u deg_v : Z) (knots_u knots_v : list T)
    (ctrlPts : array2 vec3) (weights : array2 T) (rational : bool)
    : outcome string :=
  if (rows ctrlPts =? 0)%nat || (cols ctrlPts =? 0)%nat then Returns ""
  else
    vs <- put_grid ctrlPts weights (cols ctrlPts) 0 ;;
    let nknots_u := to_int (Z.of_nat (length knots_u)) in
    let nknots_v := to_int (Z.of_nat (length knots_v)) in
    let nCpU := to_int (Z.of_nat (rows ctrlPts)) in
    let nCpV := to_int (Z.of_nat (cols ctrlPts)) in
    ku_lo <- at_index "knots_u[deg_u]" knots_u deg_u ;;
    ku_hi <- at_index "knots_u[nknots_u - deg_u - 1]" knots_u
               (to_uint (to_uint (to_uint nknots_u - deg_u) - 1)) ;;
    kv_lo <- at_index "knots_v[deg_v]" knots_v deg_v ;;
    kv_hi <- at_index "knots_v[nknots_v - deg_v - 1]" knots_v
               (to_uint (to_uint (to_uint nknots_v - deg_v) - 1)) ;;
    if (INT_MAX <? nCpU * nCpV) || (nCpU * nCpV <? - INT_MAX - 1)
    then Undefined "nCpU*nCpV"
    else
      Returns (vs +:+ cstype_line rational
                 +:+ "deg " +:+ put_uint deg_u +:+ " " +:+ put_uint deg_v +:+ endl
                 +:+ "surf " +:+ put_T ku_lo +:+ " " +:+ put_T ku_hi +:+ " "
                 +:+ put_T kv_lo +:+ " " +:+ put_T kv_hi
                 +:+ put_indices (Z.to_nat (nCpU * nCpV)) 0 +:+ endl
                 +:+ "parm u" +:+ put_knots knots_u +:+ endl
                 +:+ "parm v" +:+ put_knots knots_v +:+ endl
                 +:+ "end").

End Writers.

(** ** The geometry types *)

(** Modelled from the spec: [Curve<dim, T>] of [geometry/curve.h], "degree
    (non-negative integer), knot vector, ordered sequence of control points
    (each a vector of [dim] coordinates)".  A [glm::vec<dim, T>] is the
    list of its [dim] coordinates. *)
Module Curve.
Section Def.
Context `{Numerics}.
Record t : Type := { degree : Z; knots : list T; control_points : list (list T) }.
End Def.
End Curve.

(** Modelled from the spec: [RationalCurve<dim, T>] of [geometry/curve.h],
    a curve with "a parallel ordered sequence of weights". *)
Module RationalCurve.
Section Def.
Context `{Numerics}.
Record t : Type := {
  degree : Z; knots : list T; control_points : list (list T); weights : list T }.
End Def.
End RationalCurve.

(** Modelled from the spec: [Surface<3, T>] of [geometry/surface.h],
    "degree_u, degree_v; knot vector along u and along v; a 2D grid of
    control points indexed (i, j)". *)
Module Surface.
Section Def.
Context `{Numerics}.
Record t : Type := {
  degree_u : Z; degree_v : Z; knots_u : list T; knots_v : list T;
  control_points : array2 vec3 }.
End Def.
End Surface.

(** Modelled from the spec: [RationalSurface<3, T>] of
    [geometry/surface.h], a surface with "a parallel 2D grid of weights". *)
Module RationalSurface.
Section Def.
Context `{Numerics}.
Record t : Type := {
  degree_u : Z; degree_v : Z; knots_u : list T; knots_v : list T;
  control_points : array2 vec3; weights : array2 T }.
End Def.
End RationalSurface.

(** ** The public overloads *)

Section Public.
Context `{Numerics}.

Fixpoint omap {A B : Type} (f : A -> outcome B) (l : list A) : outcome (list B) :=
  match l with
  | [] => Returns []
  | a :: l' => b <- f a ;; bs <- omap f l' ;; Returns (b :: bs)
  end.

(** [v[j]] for a [glm::vec<3, T>], which asserts [j < 3]. *)
Definition vec3_get (v : vec3) (j : nat) : outcome T :=
  match j with
  | 0%nat => Returns (x v)
  | 1%nat => Returns (y v)
  | 2%nat => Returns (z v)
  | _ => Aborts "glm::vec<3, T>::operator[]"
  end.

Definition vec3_set (v : vec3) (j : nat) (t : T) : outcome vec3 :=
  match j with
  | 0%nat => Returns (Vec3 t (y v) (z v))
  | 1%nat => Returns (Vec3 (x v) t (z v))
  | 2%nat => Returns (Vec3 (x v) (y v) t)
  | _ => Aborts "glm::vec<3, T>::operator[]"
  end.

(** [for (int j = 0; j < dim; ++j) crv.control_points[i][j] =
    control_points[i][j];] gives the [dim] coordinates of the point. *)
Fixpoint from_vec3 (count : nat) (j : nat) (v : vec3) : outcome (list T) :=
  match count with
  | O => Returns []
  | S count' => t <- vec3_get v j ;; r <- from_vec3 count' (S j) v ;; Returns (t :: r)
  end.

(** [for (int j = 0; j < dim; ++j) cp[i][j] = crv.control_points[i][j];] on
    a [cp[i]] that starts as [glm::vec<3, T>(0)]. *)
Fixpoint to_vec3 (count : nat) (j : nat) (p : list T) (v : vec3) : outcome vec3 :=
  match count with
  | O => Returns v
  | S count' =>
      t <- at_index "crv.control_points[i][j]" p (Z.of_nat j) ;;
      v' <- vec3_set v j t ;;
      to_vec3 count' (S j) p v'
  end.

Variable dim : nat.

(** [curveReadOBJ(filename, Curve<dim, T> &crv)]: the weights are read into
    a local vector and dropped. *)
Definition curveReadOBJ_Curve (filename : string) (contents : option string)
    (garbage : ToParse) (rat : bool) (crv : Curve.t) : outcome Curve.t :=
  r <- curve.curveReadOBJ filename contents garbage (Curve.degree crv) [] [] rat ;;
  control_points <- omap (from_vec3 dim 0) (curve.r_ctrlPts r) ;;
  Returns {| Curve.degree := curve.r_deg r; Curve.knots := curve.r_knots r;
             Curve.control_points := control_points |}.

(** [curveReadOBJ(filename, RationalCurve<dim, T> &crv)] *)
Definition curveReadOBJ_RationalCurve (filename : string) (contents : option string)
    (garbage : ToParse) (rat : bool) (crv : RationalCurve.t)
    : outcome RationalCurve.t :=
  r <- curve.curveReadOBJ filename contents garbage (RationalCurve.degree crv)
         [] (RationalCurve.weights crv) rat ;;
  control_points <- omap (from_vec3 dim 0) (curve.r_ctrlPts r) ;;
  Returns {| RationalCurve.degree := curve.r_deg r;
             RationalCurve.knots := curve.r_knots r;
             RationalCurve.control_points := control_points;
             RationalCurve.weights := curve.r_weights r |}.

(** [surfaceReadOBJ(filename, RationalSurface<3, T> &srf)] *)
Definition surfaceReadOBJ_RationalSurface (filename : string)
    (contents : option string) (garbage : ToParse) (rat : bool)
    (srf : RationalSurface.t) : outcome RationalSurface.t :=
  r <- surface.surfaceReadOBJ filename contents garbage
         (RationalSurface.degree_u srf) (RationalSurface.degree_v srf)
         (RationalSurface.control_points srf) (RationalSurface.weights srf) rat ;;
  Returns {| RationalSurface.degree_u := surface.r_deg_u r;
             RationalSurface.degree_v := surface.r_deg_v r;
             RationalSurface.knots_u := surface.r_knots_u r;
             RationalSurface.knots_v := surface.r_knots_v r;
             RationalSurface.control_points := surface.r_ctrlPts r;
             RationalSurface.weights := surface.r_weights r |}.

(** [surfaceReadOBJ(filename, Surface<3, T> &srf)]: the weights are read
    into a local grid and dropped. *)
Definition surfaceReadOBJ_Surface (filename : string) (contents : option string)
    (garbage : ToParse) (rat : bool) (srf : Surface.t) : outcome Surface.t :=
  r <- surface.surfaceReadOBJ filename contents garbage
         (Surface.degree_u srf) (Surface.degree_v srf)
         (Surface.control_points srf) (Array2 0 0 []) rat ;;
  Returns {| Surface.degree_u := surface.r_deg_u r;
             Surface.degree_v := surface.r_deg_v r;
             Surface.knots_u := surface.r_knots_u r;
             Surface.knots_v := surface.r_knots_v r;
             Surface.control_points := surface.r_ctrlPts r |}.

(** [curveSaveOBJ(filename, Curve<dim, T> &crv)]: every weight written is
    [T(1)] and the curve is declared non-rational. *)
Definition curveSaveOBJ_Curve (crv : Curve.t) : outcome string :=
  cp <- omap (fun p => to_vec3 dim 0 p (Vec3 T_zero T_zero T_zero))
          (Curve.control_points crv) ;;
  let w := replicate (length (Curve.control_points crv)) T_one in
  curveSaveOBJ (Curve.degree crv) (Curve.knots crv) cp w false.

(** [curveSaveOBJ(filename, RationalCurve<dim, T> &crv)] *)
Definition curveSaveOBJ_RationalCurve (crv : RationalCurve.t) : outcome string :=
  cp <- omap (fun p => to_vec3 dim 0 p (Vec3 T_zero T_zero T_zero))
          (RationalCurve.control_points crv) ;;
  curveSaveOBJ (RationalCurve.degree crv) (RationalCurve.knots crv) cp
    (RationalCurve.weights crv) true.

(** [surfaceSaveOBJ(filename, Surface<dim, T> &srf)] *)
Definition surfaceSaveOBJ_Surface (srf : Surface.t) : outcome string :=
  let cp := Surface.control_points srf in
  let w := Array2 (rows cp) (cols cp) (replicate (rows cp * cols cp) T_one) in
  surfaceSaveOBJ (Surface.degree_u srf) (Surface.degree_v srf)
    (Surface.knots_u srf) (Surface.knots_v srf) cp w false.

(** [surfaceSaveOBJ(filename, RationalSurface<dim, T> &srf)] *)
Definition surfaceSaveOBJ_RationalSurface (srf : RationalSurface.t) : outcome string :=
  surfaceSaveOBJ (RationalSurface.degree_u srf) (RationalSurface.degree_v srf)
    (RationalSurface.knots_u srf) (RationalSurface.knots_v srf)
    (RationalSurface.control_points srf) (RationalSurface.weights srf) true.

End Public.

(** ** An executable instance: decimal integer literals

    The numeric fields of the files used as examples below are small
    decimal integers, which [float] and [double] represent and print
    exactly.  On such fields the conversions of the standard library are
    those of this instance, with [Z] for the three scalar types. *)

Module IntegerLiterals.

Definition digit (c : ascii) : option Z := Z.of_nat <$> Ascii.is_nat c.

(** The value of a run of digits and its length. *)
Fixpoint get_digits (acc : Z) (s : string) : Z * nat :=
  match s with
  | EmptyString => (acc, O)
  | String c s' =>
      match digit c with
      | Some d => let '(v, n) := get_digits (10 * acc + d) s' in (v, S n)
      | None => (acc, O)
      end
  end.

(** An optional sign and a non-empty run of digits. *)
Definition get_Z (s : string) : Z * bool * nat :=
  let '(neg, s1, k) := match s with
                       | String "-" s' => (true, s', 1%nat)
                       | String "+" s' => (false, s', 1%nat)
                       | _ => (false, s, O)
                       end in
  match s1 with
  | EmptyString => (0, false, O)
  | String c _ =>
      match digit c with
      | Some _ =>
          let '(v, n) := get_digits 0 s1 in ((if neg then - v else v), true, (k + n)%nat)
      | None => (0, false, O)
      end
  end.

(** For [unsigned int], a value out of range stores the largest value and
    fails; a negative value in range is negated modulo 2^32. *)
Definition get_unsigned (s : string) : Z * bool * nat :=
  let '(v, ok, r) := get_Z s in
  if ok then
    if (2 ^ 32 <=? v) || (2 ^ 32 <=? - v) then (2 ^ 32 - 1, false, r)
    else ((if v <? 0 then v + 2 ^ 32 else v), true, r)
  else (0, false, r).

Definition stoz (s : string) : option Z :=
  let '(v, ok, _) := get_Z (skipws s) in if ok then Some v else None.

(** Decimal digits, with a minus sign for a negative number. *)
Definition put_Z (z : Z) : string := NilZero.string_of_int (Z.to_int z).

#[export] Instance numerics : Numerics := {|
  dbl := Z; flt := Z; T := Z;
  dbl_zero := 0; dbl_one := 1; T_zero := 0; T_one := 1;
  T_of_dbl := id; T_of_flt := id; int_of_flt := id;
  get_dbl := get_Z; get_T := get_Z; get_uint := get_unsigned;
  stof := stoz;
  put_T := put_Z; put_uint := put_Z; put_int := put_Z
|}.

End IntegerLiterals.

(** A file made of the given lines, each ended by a newline. *)
Definition unlines (l : list string) : string :=
  fold_right (fun a b => a +:+ endl +:+ b) "" l.

Definition no_garbage : ToParse :=
  {| p_deg := false; p_cstype := false; p_curv := false; p_parm := false |}.

(** ** Vocabulary of the statements *)

(** A string without white space. *)
Fixpoint no_space (s : string) : bool :=
  match s with
  | EmptyString => true
  | String c s' => negb (Ascii.is_space c) && no_space s'
  end.

(** A token: what [ssline >> token] can read. *)
Definition is_token (s : string) : bool :=
  match s with EmptyString => false | _ => no_space s end.

(** A token that stands for a value, not for a continuation. *)
Definition is_value_token (s : string) : bool :=
  is_token s && negb (String.eqb s continuation).

(** Where a token ends: at the end of the buffer or at a white space. *)
Definition delimited (s : string) : bool :=
  match s with EmptyString => true | String c _ => Ascii.is_space c end.

(** A line in which no backslash occurs. *)
Fixpoint no_backslash (s : string) : bool :=
  match s with
  | EmptyString => true
  | String c s' => negb (Ascii.eqb c backslash) && no_backslash s'
  end.

(** The tokens [ts], each after one space. *)
Fixpoint join (ts : list string) : string :=
  match ts with
  | [] => ""
  | t :: ts' => " " +:+ t +:+ join ts'
  end.

(** A list of tokens cut into chunks, with a continuation marker and a line
    break after every chunk but the last: what goes on the first line, and
    the lines that follow. *)
Fixpoint continued (chunks : list (list string)) : string * list string :=
  match chunks with
  | [] => ("", [])
  | c :: chunks' =>
      match chunks' with
      | [] => (join c, [])
      | _ :: _ =>
          let '(f, r) := continued chunks' in
          (join c +:+ " " +:+ continuation, f :: r)
      end
  end.

(** The lines of a record that starts with [head] and holds the list. *)
Definition split_lines (head : string) (chunks : list (list string)) : list string :=
  (head +:+ fst (continued chunks)) :: snd (continued chunks).

(** The same record on one unbroken line. *)
Definition one_line (head : string) (chunks : list (list string)) : string :=
  head +:+ join (concat chunks).

(** [tok] is a token that the conversion [get] reads as a whole, whatever
    comes after the white space that ends it. *)
Definition reads_whole {A : Type} (get : string -> A * bool * nat) (tok : string)
    : Prop :=
  is_token tok = true
  /\ exists v, forall rest,
       delimited rest = true -> get (tok +:+ rest) = (v, true, String.length tok).

Section Fields.
Context `{Numerics}.

(** The result of a reader, from the outcome of its scan. *)
Definition curve_result (ctrlPts0 : list vec3) (weights0 : list T)
    (o : outcome curve.scan_state) : outcome curve.result :=
  st <- o ;; curve.build ctrlPts0 weights0 st.

Definition surface_result (ctrlPts0 : array2 vec3) (weights0 : array2 T)
    (o : outcome surface.scan_state) : outcome surface.result :=
  st <- o ;; surface.build ctrlPts0 weights0 st.

(** [numeric_fields s ds r]: from the buffer [s], [operator>>] reads the
    numbers [ds] one after the other, and leaves [r]. *)
Inductive numeric_fields : string -> list dbl -> string -> Prop :=
| fields_nil s : numeric_fields s [] s
| fields_cons s d n ds r :
    skipws s <> "" ->
    get_dbl (skipws s) = (d, true, n) ->
    numeric_fields (drop_chars n (skipws s)) ds r ->
    numeric_fields s (d :: ds) r.

(** The vertex and the weight that the fields [ds] of a [v] record stand
    for: a missing coordinate is 0 and a missing weight is 1. *)
Definition vertex_of (ds : list dbl) : vec3 :=
  Vec3 (T_of_dbl (nth 0 ds dbl_zero)) (T_of_dbl (nth 1 ds dbl_zero))
       (T_of_dbl (nth 2 ds dbl_zero)).

Definition weight_of (ds : list dbl) : T := T_of_dbl (nth 3 ds dbl_one).

End Fields.

(** ** What is assumed of the numeric conversions for a round trip *)

(** A string without a newline. *)
Fixpoint no_newline (s : string) : bool :=
  match s with
  | EmptyString => true
  | String c s' => negb (Ascii.eqb c newline) && no_newline s'
  end.

(** [tok] is a token that the conversion [get] reads as the value [v],
    whatever comes after the white space that ends it. *)
Definition reads_as {A : Type} (get : string -> A * bool * nat) (tok : string)
    (v : A) : Prop :=
  is_token tok = true
  /\ forall rest,
       delimited rest = true -> get (tok +:+ rest) = (v, true, String.length tok).

Section Codec.
Context `{Numerics}.

(** The coordinate or weight [x] is written as a token that
    [operator>>(double&)] reads back, as a number that converts to [x']. *)
Definition coordinate_reads_back (x x' : T) : Prop :=
  exists d, reads_as get_dbl (put_T x) d /\ T_of_dbl d = x'.

(** The knot [k] is written as a token, other than the continuation
    marker, that [std::stof] converts to a number that converts to [k'];
    as a knot bound of a [curv] or [surf] record the token is read by
    [operator>>(T&)]. *)
Definition knot_reads_back (k k' : T) : Prop :=
  is_value_token (put_T k) = true
  /\ (exists f, stof (put_T k) = Some f /\ T_of_flt f = k')
  /\ reads_whole get_T (put_T k).

(** The index [i] is written as a token that [std::stof] converts to a
    number whose conversion to [int] is [i]. *)
Definition index_reads_back (i : Z) : Prop :=
  is_value_token (put_int i) = true
  /\ exists f, stof (put_int i) = Some f /\ int_of_flt f = i.

(** The degree [d] is written as a token that [operator>>(unsigned&)]
    reads back as [d]. *)
Definition degree_reads_back (d : Z) : Prop := reads_as get_uint (put_uint d) d.

Definition vec3_coords (p : vec3) : list T := [x p; y p; z p].

Definition map_vec3 (f : T -> T) (p : vec3) : vec3 := Vec3 (f (x p)) (f (y p)) (f (z p)).

(** The text of a [v] record. *)
Definition v_text (p : vec3) (w : T) : string :=
  "v " +:+ put_T (x p) +:+ " " +:+ put_T (y p) +:+ " " +:+ put_T (z p)
    +:+ " " +:+ put_T w.

(** The indices 1 .. [n]. *)
Definition indices_upto (n : nat) : list Z := map Z.of_nat (seq 1 n).

(** The lines of the file that [curveSaveOBJ] writes, but for the last
    line [end]. *)
Definition curve_lines (degree : Z) (knots : list T) (ctrlPts : list vec3)
    (weights : list T) (rational : bool) (k_lo k_hi : T) : list string :=
  zip_with v_text ctrlPts weights
  ++ [ (if rational then "cstype rat bspline" else "cstype bspline");
       "deg " +:+ put_uint degree;
       ("curv " +:+ put_T k_lo +:+ " " +:+ put_T k_hi)
         +:+ join (map put_int (indices_upto (length ctrlPts)));
       "parm u" +:+ join (map put_T knots) ].

(** The cells of column [j] of a grid in the rows [is], and the cells of
    the grid in the order in which [surfaceSaveOBJ] writes them: column
    after column. *)
Definition cells {A : Type} (a : array2 A) (j : nat) (rs : list nat) : list A :=
  flat_map (fun i => option_list (data a !! (i * cols a + j)%nat)) rs.

Definition column {A : Type} (a : array2 A) (j : nat) : list A :=
  cells a j (seq 0 (rows a)).

Definition column_major {A : Type} (a : array2 A) : list A :=
  flat_map (column a) (seq 0 (cols a)).

(** The grid [a] with [f] applied to every cell. *)
Definition array2_map {A B : Type} (f : A -> B) (a : array2 A) : array2 B :=
  Array2 (rows a) (cols a) (map f (data a)).

(** The [glm::vec<3, T>] that the public writers make of the coordinates
    [p] of a point: a coordinate that the point does not have is 0. *)
Definition vec3_of_coords (p : list T) : vec3 :=
  Vec3 (nth 0 p T_zero) (nth 1 p T_zero) (nth 2 p T_zero).

(** The lines of the file that [surfaceSaveOBJ] writes, but for the last
    line [end]. *)
Definition surface_lines (deg_u deg_v : Z) (knots_u knots_v : list T)
    (ctrlPts : array2 vec3) (weights : array2 T) (rational : bool)
    (ku_lo ku_hi kv_lo kv_hi : T) : list string :=
  zip_with v_text (column_major ctrlPts) (column_major weights)
  ++ [ (if rational then "cstype rat bspline" else "cstype bspline");
       "deg " +:+ put_uint deg_u +:+ " " +:+ put_uint deg_v;
       ("surf " +:+ put_T ku_lo +:+ " " +:+ put_T ku_hi +:+ " " +:+ put_T kv_lo
          +:+ " " +:+ put_T kv_hi)
         +:+ join (map put_int (indices_upto (rows ctrlPts * cols ctrlPts)));
       "parm u" +:+ join (map put_T knots_u);
       "parm v" +:+ join (map put_T knots_v) ].

End Codec.

(** ** The grid that the surface reader fills *)

Section GridCells.
Context `{Numerics}.
Variable st : surface.scan_state.
Variables nu nv : nat.

(** Cell [(i, j)] of the two grids holds the vertex and the weight that the
    entry [num] of the index list refers to. *)
Definition cell_from_index (cp : array2 vec3) (w : array2 T) (i j num : nat) : Prop :=
  exists idx p wv,
    surface.indices st !! num = Some idx
    /\ 1 <= idx
    /\ surface.ctrl_pts_buf st !! Z.to_nat (idx - 1) = Some p
    /\ surface.weights_buf st !! Z.to_nat (idx - 1) = Some wv
    /\ data cp !! (i * nv + j)%nat = Some p
    /\ data w !! (i * nv + j)%nat = Some wv.

Definition shaped (cp : array2 vec3) (w : array2 T) : Prop :=
  rows cp = nu /\ cols cp = nv /\ rows w = nu /\ cols w = nv
  /\ length (data cp) = (nu * nv)%nat /\ length (data w) = (nu * nv)%nat.

(** The first [k] cells, in the order of the loops, have been filled. *)
Definition filled (cp : array2 vec3) (w : array2 T) (k : nat) : Prop :=
  forall i j, (i < nu)%nat -> (j < nv)%nat -> (j * nu + i < k)%nat ->
    cell_from_index cp w i j (j * nu + i).

End GridCells.

(** ** The conditions of a round trip *)

Section RoundTripConditions.
Context `{Numerics}.

(** What a number is read back as: [rt_c] for a coordinate or a weight,
    [rt_k] for a knot. *)
Variables rt_c rt_k : T -> T.

(** The arguments of [internal::curveSaveOBJ] satisfy the length
    invariants, the number of knots fits an [int], and every number is
    written as a token that is read back. *)
Record curve_conditions (degree : Z) (knots : list T) (ctrlPts : list vec3)
    (weights : list T) : Prop := {
  cc_degree : 0 <= degree;
  cc_knots : Z.of_nat (length knots) = Z.of_nat (length ctrlPts) + degree + 1;
  cc_small : Z.of_nat (length knots) < 2 ^ 31;
  cc_weights : length weights = length ctrlPts;
  cc_points_read :
    Forall (fun p => Forall (fun c => coordinate_reads_back c (rt_c c)) (vec3_coords p))
      ctrlPts;
  cc_weights_read : Forall (fun c => coordinate_reads_back c (rt_c c)) weights;
  cc_knots_read : Forall (fun k => knot_reads_back k (rt_k k)) knots;
  cc_degree_read : degree_reads_back degree;
  cc_indices_read :
    forall i, 1 <= i <= Z.of_nat (length ctrlPts) -> index_reads_back i
}.

(** The same for the arguments of [internal::surfaceSaveOBJ], with a grid
    that has at least one row and one column, whose number of cells fits an
    [int]. *)
Record surface_conditions (deg_u deg_v : Z) (knots_u knots_v : list T)
    (ctrlPts : array2 vec3) (weights : array2 T) : Prop := {
  sc_rows : (0 < rows ctrlPts)%nat;
  sc_cols : (0 < cols ctrlPts)%nat;
  sc_cells : length (data ctrlPts) = (rows ctrlPts * cols ctrlPts)%nat;
  sc_weights_rows : rows weights = rows ctrlPts;
  sc_weights_cols : cols weights = cols ctrlPts;
  sc_weights_cells : length (data weights) = (rows ctrlPts * cols ctrlPts)%nat;
  sc_small : Z.of_nat (rows ctrlPts * cols ctrlPts) < 2 ^ 31;
  sc_deg_u : 0 <= deg_u;
  sc_deg_v : 0 <= deg_v;
  sc_knots_u : Z.of_nat (length knots_u) = Z.of_nat (rows ctrlPts) + deg_u + 1;
  sc_knots_v : Z.of_nat (length knots_v) = Z.of_nat (cols ctrlPts) + deg_v + 1;
  sc_small_u : Z.of_nat (length knots_u) < 2 ^ 31;
  sc_small_v : Z.of_nat (length knots_v) < 2 ^ 31;
  sc_points_read :
    Forall (fun p => Forall (fun c => coordinate_reads_back c (rt_c c)) (vec3_coords p))
      (data ctrlPts);
  sc_weights_read : Forall (fun c => coordinate_reads_back c (rt_c c)) (data weights);
  sc_knots_u_read : Forall (fun k => knot_reads_back k (rt_k k)) knots_u;
  sc_knots_v_read : Forall (fun k => knot_reads_back k (rt_k k)) knots_v;
  sc_deg_u_read : degree_reads_back deg_u;
  sc_deg_v_read : degree_reads_back deg_v;
  sc_indices_read :
    forall i, 1 <= i <= Z.of_nat (rows ctrlPts * cols ctrlPts) -> index_reads_back i
}.

End RoundTripConditions.

Import IntegerLiterals.

(** ** Example files *)

(** A curve file whose only [parm] record is for the axis [v]. *)
Definition parm_v_only : list string :=
  ["v 0 0 0 1"; "v 1 0 0 1"; "v 2 0 0 1"; "cstype bspline"; "deg 2";
   "curv 0 1 1 2 3"; "parm v 0 0 0 1 1 1"; "end"].

(** A curve file and a surface file without a [deg] record. *)
Definition curve_without_deg : string :=
  unlines ["v 0 0 0 1"; "cstype bspline"; "curv 0 1 1"; "parm u 0 0 1"; "end"].

Definition surface_without_deg : string :=
  unlines ["v 0 0 0 1"; "cstype bspline"; "surf 0 1 0 1 1"; "parm u 0 0 1";
           "parm v 0 0 1"; "end"].

(** A curve file whose [v] record holds three numbers and then a word. *)
Definition curve_v_three_numbers : string :=
  unlines ["v 1 2 3 abc"; "cstype rat bspline"; "deg 0"; "curv 0 1 1"; "parm u 0 1";
           "end"].

(** Indeterminate flags in which only [parsed.deg] happens to be set. *)
Definition deg_garbage : ToParse :=
  {| p_deg := true; p_cstype := false; p_curv := false; p_parm := false |}.

(** A curve file and a surface file with one vertex and the index 5. *)
Definition curve_index_5 : string :=
  unlines ["v 0 0 0 1"; "cstype bspline"; "deg 2"; "curv 0 1 5"; "parm u 0 0 0 1"; "end"].

Definition surface_index_5 : string :=
  unlines ["v 0 0 0 1"; "cstype bspline"; "deg 1 1"; "surf 0 1 0 1 5";
           "parm u 0 0 1"; "parm v 0 0 1"; "end"].

(** A curve file with an index list shorter than the number of control
    points that the knots and the degree ask for. *)
Definition curve_short_index_list : string :=
  unlines ["v 0 0 0 1"; "v 1 0 0 1"; "cstype bspline"; "deg 1"; "curv 0 1 1";
           "parm u 0 0 1 1"; "end"].

(** Files with the largest degree that an [unsigned int] holds. *)
Definition curve_huge_degree : string :=
  unlines ["cstype bspline"; "deg 4294967295"; "curv 0 1"; "parm u"; "end"].

Definition surface_huge_degree : string :=
  unlines ["cstype bspline"; "deg 4294967295 4294967295"; "surf 0 1 0 1";
           "parm u"; "parm v"; "end"].

(** A surface file with six vertices, the index list 1 2 3 4 5 6, degree 1
    in both directions, 4 knots along u and 5 along v: [nU] = 2 and
    [nV] = 3.  Then the state after its scan and the surface built. *)
Definition grid_2_by_3_file : list string :=
  ["v 1 0 0 1"; "v 2 0 0 1"; "v 3 0 0 1"; "v 4 0 0 1"; "v 5 0 0 1"; "v 6 0 0 1";
   "cstype bspline"; "deg 1 1"; "surf 0 1 0 2 1 2 3 4 5 6"; "parm u 0 0 1 1";
   "parm v 0 0 1 2 2"; "end"].

Definition grid_2_by_3 : surface.scan_state :=
  {| surface.sline := "end"; surface.start := "end";
     surface.deg_u := 1; surface.deg_v := 1; surface.rational := false;
     surface.parsed :=
       {| p_deg := true; p_cstype := true; p_curv := true; p_parm := true |};
     surface.ctrl_pts_buf :=
       [Vec3 1 0 0; Vec3 2 0 0; Vec3 3 0 0; Vec3 4 0 0; Vec3 5 0 0; Vec3 6 0 0];
     surface.weights_buf := [1; 1; 1; 1; 1; 1];
     surface.indices := [1; 2; 3; 4; 5; 6];
     surface.temp_uknots := [0; 0; 1; 1];
     surface.temp_vknots := [0; 0; 1; 2; 2] |}.

Definition grid_2_by_3_result : surface.result :=
  {| surface.r_deg_u := 1; surface.r_deg_v := 1;
     surface.r_knots_u := [0; 0; 1; 1]; surface.r_knots_v := [0; 0; 1; 2; 2];
     surface.r_ctrlPts :=
       Array2 2 3 [Vec3 1 0 0; Vec3 3 0 0; Vec3 5 0 0;
                   Vec3 2 0 0; Vec3 4 0 0; Vec3 6 0 0];
     surface.r_weights := Array2 2 3 [1; 1; 1; 1; 1; 1];
     surface.r_rational := false |}.

(** A curve file with an empty line before its [curv] and [parm] records. *)
Definition before_blank_line : list string :=
  ["v 0 0 0 1"; "cstype bspline"; "deg 0"].

Definition after_blank_line : list string :=
  ["curv 0 1 1"; "parm u 0 1"; "end"].

(** The numbers that are written with one digit. *)
Definition one_digit (z : Z) : bool := (0 <=? z) && (z <=? 9).


(** A curve in the plane and a surface, with and without weights. *)
Definition a_curve : Curve.t :=
  {| Curve.degree := 1; Curve.knots := [0; 0; 1; 1];
     Curve.control_points := [[0; 0]; [1; 2]] |}.


Definition a_surface : Surface.t :=
  {| Surface.degree_u := 1; Surface.degree_v := 0;
     Surface.knots_u := [0; 0; 1; 1]; Surface.knots_v := [0; 1; 2; 3];
     Surface.control_points :=
       Array2 2 3 [Vec3 0 0 0; Vec3 0 1 0; Vec3 0 2 1;
                   Vec3 1 0 0; Vec3 1 1 2; Vec3 1 2 0] |}.

Definition a_rational_surface : RationalSurface.t :=
  {| RationalSurface.degree_u := 1; RationalSurface.degree_v := 0;
     RationalSurface.knots_u := [0; 0; 1; 1]; RationalSurface.knots_v := [0; 1; 2; 3];
     RationalSurface.control_points :=
       Array2 2 3 [Vec3 0 0 0; Vec3 0 1 0; Vec3 0 2 1;
                   Vec3 1 0 0; Vec3 1 1 2; Vec3 1 2 0];
     RationalSurface.weights := Array2 2 3 [1; 1; 2; 1; 3; 1] |}.


(** ** More example files *)

(** A curve file with two vertices, and the curve that is read from it. *)
Definition two_point_curve_file : string :=
  unlines ["v 0 0 0 1"; "v 1 2 0 3"; "cstype rat bspline"; "deg 1"; "curv 0 1 2 1";
           "parm u 0 0 1 1"; "end"].

Definition two_point_curve : curve.result :=
  {| curve.r_deg := 1; curve.r_knots := [0; 0; 1; 1];
     curve.r_ctrlPts := [Vec3 1 2 0; Vec3 0 0 0]; curve.r_weights := [3; 1];
     curve.r_rational := true |}.

(** The state of the curve reader after the scan of that file. *)
Definition two_point_curve_scanned : curve.scan_state :=
  {| curve.sline := "end"; curve.start := "end"; curve.deg := 1;
     curve.rational := true;
     curve.parsed :=
       {| p_deg := true; p_cstype := true; p_curv := true; p_parm := true |};
     curve.ctrl_pts_buf := [Vec3 0 0 0; Vec3 1 2 0];
     curve.weights_buf := [1; 3];
     curve.indices := [2; 1];
     curve.temp_knots := [0; 0; 1; 1] |}.

(** ** Cells of a grid written so far *)

(** Position [k] of the cells is that of a cell [(i, j)] of a grid of
    [nu] rows and [nv] columns which the loops of the surface reader have
    written when [num] cells are written: the cells are written column
    after column. *)
Definition written (nu nv num k : nat) : Prop :=
  exists i j, (i < nu)%nat /\ (j < nv)%nat /\ k = (i * nv + j)%nat
              /\ (j * nu + i < num)%nat.

(** Two grids of [nu] rows and [nv] columns that hold the same values in
    the cells written so far. *)
Definition same_cells {A : Type} (nu nv num : nat) (a a2 : array2 A) : Prop :=
  rows a = nu /\ cols a = nv /\ rows a2 = nu /\ cols a2 = nv
  /\ length (data a) = (nu * nv)%nat /\ length (data a2) = (nu * nv)%nat
  /\ forall k, written nu nv num k -> data a !! k = data a2 !! k.


(** * Strings *)

Lemma str_app_cons c s t : String c s +:+ t = String c (s +:+ t).
Proof. reflexivity. Qed.

Lemma str_app_nil_l s : "" +:+ s = s.
Proof. reflexivity. Qed.

Lemma str_app_nil_r s : s +:+ "" = s.
Proof. induction s as [|c s IH]; [reflexivity|]. rewrite str_app_cons, IH. reflexivity. Qed.

Lemma str_app_assoc s t u : (s +:+ t) +:+ u = s +:+ (t +:+ u).
Proof. induction s as [|c s IH]; [reflexivity|]. rewrite !str_app_cons, IH. reflexivity. Qed.

Lemma str_app_eq_nil s t : s +:+ t = "" -> s = "" /\ t = "".
Proof. destruct s; [rewrite str_app_nil_l; auto | rewrite str_app_cons; discriminate]. Qed.

Lemma no_space_app s t : no_space (s +:+ t) = no_space s && no_space t.
Proof.
  induction s as [|c s IH]; [reflexivity|].
  rewrite str_app_cons. simpl. rewrite IH. apply andb_assoc.
Qed.

Lemma skipws_token w s : is_token w = true -> skipws (w +:+ s) = w +:+ s.
Proof.
  destruct w as [|c w]; [discriminate|]. simpl. intros Hw.
  apply andb_true_iff in Hw as [Hc _]. rewrite str_app_cons. simpl.
  destruct (Ascii.is_space c); [discriminate | reflexivity].
Qed.

Lemma skipws_space s : skipws (" " +:+ s) = skipws s.
Proof. reflexivity. Qed.

Lemma get_word_token w s :
  no_space w = true -> delimited s = true -> get_word (w +:+ s) = (w, s).
Proof.
  intros Hw Hs. induction w as [|c w IH].
  - rewrite str_app_nil_l. destruct s as [|c s]; [reflexivity|].
    simpl in *. rewrite Hs. reflexivity.
  - simpl in Hw. apply andb_true_iff in Hw as [Hc Hw]. rewrite str_app_cons. simpl.
    destruct (Ascii.is_space c); [discriminate|]. rewrite (IH Hw). reflexivity.
Qed.

Lemma words_from_no_space cur w s :
  no_space w = true -> words_from cur (w +:+ s) = words_from (cur +:+ w) s.
Proof.
  revert cur. induction w as [|c w IH]; intros cur Hw.
  - rewrite str_app_nil_l, str_app_nil_r. reflexivity.
  - simpl in Hw. apply andb_true_iff in Hw as [Hc Hw]. rewrite str_app_cons. simpl.
    destruct (Ascii.is_space c); [discriminate|].
    rewrite (IH _ Hw), str_app_assoc. reflexivity.
Qed.

Lemma words_from_delimited cur s :
  cur <> "" -> delimited s = true -> words_from cur s = cur :: words s.
Proof.
  intros Hcur Hs. destruct s as [|c s]; simpl in *.
  - destruct cur; [congruence | reflexivity].
  - unfold words. simpl. rewrite Hs. destruct cur; [congruence | reflexivity].
Qed.

Lemma words_token w s :
  is_token w = true -> delimited s = true -> words (w +:+ s) = w :: words s.
Proof.
  intros Hw Hs. unfold words. rewrite words_from_no_space.
  - rewrite str_app_nil_l. apply words_from_delimited; [|exact Hs].
    destruct w; [discriminate | congruence].
  - destruct w; [discriminate | exact Hw].
Qed.

Lemma words_skipws s : words (skipws s) = words s.
Proof.
  unfold words. induction s as [|c s IH]; [reflexivity|]. simpl.
  destruct (Ascii.is_space c) eqn:Hc; [exact IH|]. simpl. rewrite Hc. reflexivity.
Qed.

Lemma get_word_spec b :
  delimited b = false ->
  is_token (fst (get_word b)) = true /\ delimited (snd (get_word b)) = true /\
  b = fst (get_word b) +:+ snd (get_word b).
Proof.
  induction b as [|c b IH]; [discriminate|]. simpl. intros Hc. rewrite Hc.
  destruct (get_word b) as [w r] eqn:Hg. simpl. rewrite Hc. simpl.
  destruct b as [|c' b].
  - simpl in Hg. injection Hg as <- <-. auto.
  - destruct (Ascii.is_space c') eqn:Hc'.
    + simpl in Hg. rewrite Hc' in Hg. injection Hg as <- <-. simpl. rewrite Hc'. auto.
    + destruct (IH Hc') as (H1 & H2 & H3). simpl in H1, H2, H3.
      rewrite str_app_cons, <- H3. split; [|auto]. destruct w; [discriminate | exact H1].
Qed.

Lemma skipws_delimited s : skipws s = "" \/ delimited (skipws s) = false.
Proof.
  induction s as [|c s IH]; [left; reflexivity|]. simpl.
  destruct (Ascii.is_space c) eqn:Hc; [exact IH|]. right. simpl. exact Hc.
Qed.

(** The tokens of a buffer are what repeated [>>] reads from it. *)
Lemma words_unfold s :
  words s = match skipws s with
            | EmptyString => []
            | b => let '(w, r) := get_word b in w :: words r
            end.
Proof.
  rewrite <- words_skipws. destruct (skipws_delimited s) as [-> | Hd]; [reflexivity|].
  destruct (skipws s) as [|c b] eqn:Hb; [discriminate|].
  destruct (get_word_spec _ Hd) as (H1 & H2 & H3).
  destruct (get_word (String c b)) as [w r]. simpl in *.
  rewrite H3. apply words_token; assumption.
Qed.


(** * The [v] record *)

Section VRecord.
Context `{Numerics}.

Lemma extract_field s d n :
  skipws s <> "" -> get_dbl (skipws s) = (d, true, n) ->
  extract get_dbl {| buf := s; failbit := false |}
  = (Some d, {| buf := drop_chars n (skipws s); failbit := false |}).
Proof.
  intros Hs Hg. unfold extract, sentry. simpl.
  destruct (skipws s) eqn:Hb; [congruence|]. rewrite Hg. reflexivity.
Qed.

Lemma extract_nothing {A : Type} (get : string -> A * bool * nat) s :
  skipws s = "" ->
  extract get {| buf := s; failbit := false |} = (None, ss_fail).
Proof. intros Hs. unfold extract, sentry. simpl. rewrite Hs. reflexivity. Qed.

Lemma read_coords_failed slots index four :
  read_coords slots index ss_fail four = four.
Proof. destruct slots; reflexivity. Qed.

(** The slots after storing the fields [ds] from [index] on. *)
Lemma read_coords_fields s ds r :
  numeric_fields s ds r ->
  forall slots index four,
  length ds = slots \/ ((length ds < slots)%nat /\ skipws r = "") ->
  read_coords slots index {| buf := s; failbit := false |} four
  = fold_left (fun l '(i, d) => <[i := d]> l) (zip (seq index (length ds)) ds) four.
Proof.
  induction 1 as [s | s d n ds r Hne Hget Hf IH]; intros slots index four Hlen.
  - destruct slots as [|slots]; [reflexivity|].
    destruct Hlen as [Hlen | [_ Hr]]; [discriminate Hlen|].
    simpl. rewrite (extract_nothing _ _ Hr), read_coords_failed. reflexivity.
  - destruct slots as [|slots]; [simpl in Hlen; lia|].
    simpl. rewrite (extract_field _ _ _ Hne Hget). apply IH.
    simpl in Hlen. destruct Hlen as [Hlen | [Hlen Hr]]; [left | right; split]; auto; lia.
Qed.

Lemma four_coords_of_fields s ds r :
  numeric_fields s ds r ->
  length ds = 4%nat \/ ((length ds < 4)%nat /\ skipws r = "") ->
  four_coords_of {| buf := s; failbit := false |}
  = [nth 0 ds dbl_zero; nth 1 ds dbl_zero; nth 2 ds dbl_zero; nth 3 ds dbl_one].
Proof.
  intros Hf Hlen. unfold four_coords_of.
  rewrite (read_coords_fields _ _ _ Hf 4 0 _ Hlen).
  destruct ds as [|a [|b [|c [|d [|e ds]]]]]; simpl in *; try reflexivity; lia.
Qed.

Lemma v_record_fields s ds r :
  numeric_fields s ds r ->
  length ds = 4%nat \/ ((length ds < 4)%nat /\ skipws r = "") ->
  v_record {| buf := s; failbit := false |} = (vertex_of ds, weight_of ds).
Proof.
  intros Hf Hlen. unfold v_record. rewrite (four_coords_of_fields _ _ _ Hf Hlen).
  reflexivity.
Qed.

End VRecord.


Section VRecordClaim.
Context `{Numerics}.

Lemma get_token_some s w ss :
  get_token s = (Some w, ss) -> failbit ss = false.
Proof.
  unfold get_token. destruct (sentry s); [|discriminate].
  destruct (get_word s0). intros [= _ <-]. reflexivity.
Qed.

(** X21.  A line whose keyword is [v], followed by numeric fields [ds] (four
    of them, or fewer and then only white space up to the end of the line),
    makes either reader append exactly one vertex and one weight: the
    coordinates are the first three fields, 0 where a field is missing, and
    the weight is the fourth field, 1 where it is missing.  With exactly
    three such fields the weight is 1.0. *)
Theorem v_record_defaults (l : string) (ss : istringstream) (ds : list dbl) (r : string) :
  get_token {| buf := l; failbit := false |} = (Some "v", ss) ->
  numeric_fields (buf ss) ds r ->
  length ds = 4%nat \/ ((length ds < 4)%nat /\ skipws r = "") ->
  (forall file st,
     curve.process_line file (curve.with_line l st)
     = Returns (Next, file,
         {| curve.sline := l; curve.start := "v"; curve.deg := curve.deg st;
            curve.rational := curve.rational st; curve.parsed := curve.parsed st;
            curve.ctrl_pts_buf := curve.ctrl_pts_buf st ++ [vertex_of ds];
            curve.weights_buf := curve.weights_buf st ++ [weight_of ds];
            curve.indices := curve.indices st;
            curve.temp_knots := curve.temp_knots st |}))
  /\ (forall file st,
     surface.process_line file (surface.with_line l st)
     = Returns (Next, file,
         {| surface.sline := l; surface.start := "v";
            surface.deg_u := surface.deg_u st; surface.deg_v := surface.deg_v st;
            surface.rational := surface.rational st;
            surface.parsed := surface.parsed st;
            surface.ctrl_pts_buf := surface.ctrl_pts_buf st ++ [vertex_of ds];
            surface.weights_buf := surface.weights_buf st ++ [weight_of ds];
            surface.indices := surface.indices st;
            surface.temp_uknots := surface.temp_uknots st;
            surface.temp_vknots := surface.temp_vknots st |}))
  /\ (length ds = 3%nat -> weight_of ds = T_of_dbl dbl_one).
Proof.
  intros Htok Hf Hlen.
  pose proof (get_token_some _ _ _ Htok) as Hfb.
  destruct ss as [b fb]. simpl in Hfb, Hf. subst fb.
  pose proof (v_record_fields _ _ _ Hf Hlen) as Hv.
  split; [|split].
  - intros file st. unfold curve.process_line. simpl. rewrite Htok. simpl.
    unfold curve.on_v. rewrite Hv. reflexivity.
  - intros file st. unfold surface.process_line. simpl. rewrite Htok. simpl.
    unfold surface.on_v. rewrite Hv. reflexivity.
  - intros H3. destruct ds as [|a [|b' [|c [|d ds]]]]; try discriminate H3.
    reflexivity.
Qed.

End VRecordClaim.

Lemma v_record_defaults_witness :
  exists st',
    curve.process_line (H := IntegerLiterals.numerics) []
      (curve.with_line "v 1 2 3" (curve.initial no_garbage 0 false))
    = Returns (Next, [], st')
    /\ curve.ctrl_pts_buf st' = [Vec3 1 2 3] /\ curve.weights_buf st' = [1].
Proof.
  assert (Hf : numeric_fields (H := IntegerLiterals.numerics) " 1 2 3" [1; 2; 3] "").
  { apply (fields_cons (H := numerics) " 1 2 3" 1 1); [discriminate | reflexivity |].
    apply (fields_cons (H := numerics) " 2 3" 2 1); [discriminate | reflexivity |].
    apply (fields_cons (H := numerics) " 3" 3 1); [discriminate | reflexivity |].
    apply (fields_nil (H := numerics)). }
  destruct (v_record_defaults (H := IntegerLiterals.numerics) "v 1 2 3"
              {| buf := " 1 2 3"; failbit := false |} [1; 2; 3] "" eq_refl Hf
              (or_intror (conj (le_n 4) eq_refl))) as (Hc & _ & _).
  eexists. split; [apply Hc|]. split; reflexivity.
Defined.

(** C4.  The weight of a [v] record is preset to 1.0, but the loop makes a
    fourth extraction whenever the third has succeeded, and an extraction
    that fails on a token that is not a number stores 0.  So a [v] line
    that holds exactly three numbers and then a word appends the weight 0
    and not 1, in both readers, and the curve read from a file with that
    line has the weight 0.  With two numbers before the word the loop
    stops at the third extraction and the weight is 1. *)
Theorem v_record_weight_overwritten :
  curve.process_line []
    (curve.with_line "v 1 2 3 abc" (curve.initial no_garbage 0 false))
  = Returns (Next, [],
      {| curve.sline := "v 1 2 3 abc"; curve.start := "v"; curve.deg := 0;
         curve.rational := false; curve.parsed := no_garbage;
         curve.ctrl_pts_buf := [Vec3 1 2 3]; curve.weights_buf := [0];
         curve.indices := []; curve.temp_knots := [] |})
  /\ surface.process_line []
       (surface.with_line "v 1 2 3 abc" (surface.initial no_garbage 0 0 false))
     = Returns (Next, [],
         {| surface.sline := "v 1 2 3 abc"; surface.start := "v";
            surface.deg_u := 0; surface.deg_v := 0; surface.rational := false;
            surface.parsed := no_garbage;
            surface.ctrl_pts_buf := [Vec3 1 2 3]; surface.weights_buf := [0];
            surface.indices := []; surface.temp_uknots := [];
            surface.temp_vknots := [] |})
  /\ curve.curveReadOBJ "crv.obj" (Some curve_v_three_numbers) no_garbage 7 [] [] false
     = Returns {| curve.r_deg := 0; curve.r_knots := [0; 1];
                  curve.r_ctrlPts := [Vec3 1 2 3]; curve.r_weights := [0];
                  curve.r_rational := true |}
  /\ curve.process_line []
       (curve.with_line "v 1 2 abc" (curve.initial no_garbage 0 false))
     = Returns (Next, [],
         {| curve.sline := "v 1 2 abc"; curve.start := "v"; curve.deg := 0;
            curve.rational := false; curve.parsed := no_garbage;
            curve.ctrl_pts_buf := [Vec3 1 2 0]; curve.weights_buf := [1];
            curve.indices := []; curve.temp_knots := [] |}).
Proof. repeat split; vm_compute; reflexivity. Qed.

(** * Writing a surface without control points *)

Section EmptyGrid.
Context `{Numerics}.

(** C9.  For a grid of control points with no row or no column,
    [surfaceSaveOBJ] returns without an error and nothing has been written:
    the file is empty.  The same holds for the two public overloads. *)
Theorem surfaceSaveOBJ_empty_grid (deg_u deg_v : Z) (knots_u knots_v : list T)
    (ctrlPts : array2 vec3) (weights : array2 T) (rational : bool) :
  rows ctrlPts = 0%nat \/ cols ctrlPts = 0%nat ->
  surfaceSaveOBJ deg_u deg_v knots_u knots_v ctrlPts weights rational = Returns ""
  /\ surfaceSaveOBJ_RationalSurface
       {| RationalSurface.degree_u := deg_u; RationalSurface.degree_v := deg_v;
          RationalSurface.knots_u := knots_u; RationalSurface.knots_v := knots_v;
          RationalSurface.control_points := ctrlPts;
          RationalSurface.weights := weights |} = Returns ""
  /\ surfaceSaveOBJ_Surface
       {| Surface.degree_u := deg_u; Surface.degree_v := deg_v;
          Surface.knots_u := knots_u; Surface.knots_v := knots_v;
          Surface.control_points := ctrlPts |} = Returns "".
Proof.
  intros Hempty.
  assert (Hguard : (rows ctrlPts =? 0)%nat || (cols ctrlPts =? 0)%nat = true).
  { apply orb_true_iff. destruct Hempty as [-> | ->]; auto. }
  unfold surfaceSaveOBJ_RationalSurface, surfaceSaveOBJ_Surface, surfaceSaveOBJ.
  simpl. rewrite Hguard. auto.
Qed.

End EmptyGrid.

Lemma surfaceSaveOBJ_empty_grid_witness :
  surfaceSaveOBJ (H := IntegerLiterals.numerics) 1 1 [0; 0; 1; 1] [0; 1]
    (Array2 2 0 []) (Array2 2 0 []) true = Returns "".
Proof.
  apply (surfaceSaveOBJ_empty_grid (H := IntegerLiterals.numerics) 1 1 [0; 0; 1; 1]
           [0; 1] (Array2 2 0 []) (Array2 2 0 []) true).
  right. reflexivity.
Defined.


(** * The [parm] record of the curve reader *)

Section ParmRecord.
Context `{Numerics}.

Lemma obind_returns {A B : Type} (m : outcome A) (k : A -> outcome B) (b : B) :
  obind m k = Returns b -> exists a, m = Returns a /\ k a = Returns b.
Proof. destruct m; simpl; try discriminate. eauto. Qed.

(** Whatever follows the keyword, a [parm] record that is processed to its
    end has marked the section as seen. *)
Lemma curve_parm_marks_seen l ss1 file st c file' st' :
  get_token {| buf := l; failbit := false |} = (Some "parm", ss1) ->
  curve.process_line file (curve.with_line l st) = Returns (c, file', st') ->
  p_parm (curve.parsed st') = true.
Proof.
  intros Htok. unfold curve.process_line. simpl. rewrite Htok. simpl.
  unfold curve.on_parm. simpl. destruct (get_token ss1) as [axis ss2].
  destruct (String.eqb (default "parm" axis) "u").
  - intros Hr. apply obind_returns in Hr as ([f s] & Hr & Hk).
    apply obind_returns in Hr as ([[f1 s1] k1] & _ & Hr).
    injection Hr as <- <-. injection Hk as _ _ <-. reflexivity.
  - simpl. intros [= _ _ <-]. reflexivity.
Qed.

(** Knots are collected for the axis [u] only. *)
Lemma curve_parm_other_axis l ss1 file st :
  get_token {| buf := l; failbit := false |} = (Some "parm", ss1) ->
  fst (get_token ss1) <> Some "u" ->
  exists st',
    curve.process_line file (curve.with_line l st) = Returns (Next, file, st')
    /\ curve.temp_knots st' = curve.temp_knots st
    /\ p_parm (curve.parsed st') = true.
Proof.
  intros Htok Haxis. unfold curve.process_line. simpl. rewrite Htok. simpl.
  unfold curve.on_parm. simpl. destruct (get_token ss1) as [axis ss2]. simpl in Haxis.
  destruct (String.eqb (default "parm" axis) "u") eqn:Hu.
  - apply String.eqb_eq in Hu. destruct axis as [a|]; simpl in Hu; [|discriminate].
    subst a. congruence.
  - simpl. eexists. split; [reflexivity|]. split; reflexivity.
Qed.

End ParmRecord.

(** C10.  In [curveReadOBJ] a record with the keyword [parm] that is
    processed to its end marks the section as seen whatever the axis token
    is, and knots are appended only for the axis [u]: with another axis
    token, or none, the collected knots stay as they were.  So a file
    whose only [parm] record is [parm v ...] passes the check of the
    required records with an empty list of knots. *)
Theorem parm_seen_whatever_the_axis :
  (forall (N : Numerics) l ss1 file st,
     get_token {| buf := l; failbit := false |} = (Some "parm", ss1) ->
     (forall c file' st',
        curve.process_line file (curve.with_line l st) = Returns (c, file', st') ->
        p_parm (curve.parsed st') = true)
     /\ (fst (get_token ss1) <> Some "u" ->
         exists st',
           curve.process_line file (curve.with_line l st) = Returns (Next, file, st')
           /\ curve.temp_knots st' = curve.temp_knots st
           /\ p_parm (curve.parsed st') = true))
  /\ (forall garbage deg0 rational0,
        exists st,
          curve.scan (length parm_v_only) parm_v_only
            (curve.initial garbage deg0 rational0) = Returns st
          /\ curve.temp_knots st = []
          /\ curve.check_parsed (curve.parsed st) = Returns tt).
Proof.
  split.
  - intros N l ss1 file st Htok. split.
    + intros c file' st'. apply curve_parm_marks_seen with (ss1 := ss1). exact Htok.
    + apply curve_parm_other_axis. exact Htok.
  - intros garbage deg0 rational0. eexists. split; [vm_compute; reflexivity|].
    split; reflexivity.
Qed.

Lemma parm_seen_whatever_the_axis_witness :
  exists st',
    curve.process_line [] (curve.with_line "parm v 0 0 1 1" (curve.initial no_garbage 1 false))
    = Returns (Next, [], st')
    /\ curve.temp_knots st' = []
    /\ p_parm (curve.parsed st') = true.
Proof.
  destruct parm_seen_whatever_the_axis as [Hstep _].
  destruct (Hstep numerics "parm v 0 0 1 1" {| buf := " v 0 0 1 1"; failbit := false |}
              [] (curve.initial no_garbage 1 false) eq_refl) as [_ Hv].
  apply Hv. simpl. discriminate.
Defined.

(** * Evaluations of the readers *)

(** C2.  The flags of [parsed] are never initialised.  Read with flags in
    which [parsed.deg] happens to be set, a curve file (and a surface file)
    without a [deg] record is not rejected: the reader returns a curve
    (a surface) whose degree is the value that the caller's object held. *)
Theorem missing_deg_not_reported :
  curve.curveReadOBJ "crv.obj" (Some curve_without_deg) deg_garbage 1 [] [] false
  = Returns {| curve.r_deg := 1; curve.r_knots := [0; 0; 1];
               curve.r_ctrlPts := [Vec3 0 0 0]; curve.r_weights := [1];
               curve.r_rational := false |}
  /\ surface.surfaceReadOBJ "srf.obj" (Some surface_without_deg) deg_garbage 1 1
       (Array2 0 0 []) (Array2 0 0 []) false
  = Returns {| surface.r_deg_u := 1; surface.r_deg_v := 1;
               surface.r_knots_u := [0; 0; 1]; surface.r_knots_v := [0; 0; 1];
               surface.r_ctrlPts := Array2 1 1 [Vec3 0 0 0];
               surface.r_weights := Array2 1 1 [1];
               surface.r_rational := false |}.
Proof. split; vm_compute; reflexivity. Qed.

(** C3.  The index taken from the index list is used without a check.  An
    index beyond the vertex pool, and an index list shorter than the number
    of control points, make the readers index a vector out of its range,
    which is undefined behaviour and not a reported error. *)
Theorem index_out_of_range_unchecked :
  curve.curveReadOBJ "crv.obj" (Some curve_index_5) no_garbage 0 [] [] false
  = Undefined "ctrl_pts_buf[indices[num] - 1]"
  /\ curve.curveReadOBJ "crv.obj" (Some curve_short_index_list) no_garbage 0 [] [] false
  = Undefined "indices[num]"
  /\ surface.surfaceReadOBJ "srf.obj" (Some surface_index_5) no_garbage 0 0
       (Array2 0 0 []) (Array2 0 0 []) false
  = Undefined "ctrl_pts_buf[indices[num] - 1]".
Proof. repeat split; vm_compute; reflexivity. Qed.

(** C8.  With the degree 4294967295 and no knot, the 32-bit computation of
    [num_knots - deg - 1] wraps around to 0: the readers return a curve
    (a surface) without control points and without knots, for which
    [len(knots) == n + degree + 1] does not hold. *)
Theorem huge_degree_breaks_invariant :
  (exists r,
     curve.curveReadOBJ "crv.obj" (Some curve_huge_degree) no_garbage 0 [] [] false
     = Returns r
     /\ Z.of_nat (length (curve.r_knots r))
        <> Z.of_nat (length (curve.r_ctrlPts r)) + curve.r_deg r + 1)
  /\ (exists r,
     surface.surfaceReadOBJ "srf.obj" (Some surface_huge_degree) no_garbage 0 0
       (Array2 0 0 []) (Array2 0 0 []) false
     = Returns r
     /\ Z.of_nat (length (surface.r_knots_u r))
        <> Z.of_nat (rows (surface.r_ctrlPts r)) + surface.r_deg_u r + 1
     /\ Z.of_nat (length (surface.r_knots_v r))
        <> Z.of_nat (cols (surface.r_ctrlPts r)) + surface.r_deg_v r + 1).
Proof.
  split; eexists; (split; [vm_compute; reflexivity|]); simpl; repeat split; discriminate.
Qed.


(** * The order in which the surface reader fills the grid *)

Section GridOrder.
Context `{Numerics}.

Lemma at_index_returns {A : Type} what (v : list A) (i : Z) (a : A) :
  at_index what v i = Returns a -> 0 <= i /\ v !! Z.to_nat i = Some a.
Proof.
  unfold at_index. destruct (0 <=? i) eqn:H0; simpl; [|discriminate].
  destruct (i <? Z.of_nat (length v)); [|discriminate].
  destruct (v !! Z.to_nat i) eqn:Hl; [|discriminate].
  intros [= ->]. split; [lia | reflexivity].
Qed.

Lemma at_index_lookup {A : Type} what (v : list A) (n : nat) (a : A) :
  v !! n = Some a -> at_index what v (Z.of_nat n) = Returns a.
Proof.
  intros Hl. unfold at_index. pose proof (lookup_lt_Some _ _ _ Hl) as Hlt.
  replace (0 <=? Z.of_nat n) with true by (symmetry; apply Z.leb_le; lia).
  replace (Z.of_nat n <? Z.of_nat (length v)) with true
    by (symmetry; apply Z.ltb_lt; lia).
  simpl. rewrite Nat2Z.id, Hl. reflexivity.
Qed.

Lemma cell_position_inj (a b a' b' n : nat) :
  (b < n)%nat -> (b' < n)%nat -> (a * n + b = a' * n + b')%nat -> a = a' /\ b = b'.
Proof.
  intros Hb Hb' Heq. apply (Nat.div_mod_unique n); [assumption..|].
  rewrite !(Nat.mul_comm n). exact Heq.
Qed.

Variable st : surface.scan_state.
Variables nu nv : nat.

Lemma fill_step_filled cp w i j cp' w' num' :
  (i < nu)%nat ->
  shaped nu nv cp w -> filled st nu nv cp w (j * nu + i) ->
  surface.fill_step st i j (cp, w, (j * nu + i)%nat) = Returns (cp', w', num') ->
  shaped nu nv cp' w' /\ filled st nu nv cp' w' (j * nu + S i) /\ num' = (j * nu + S i)%nat.
Proof.
  intros Hi (Hr & Hc & Hrw & Hcw & Hl & Hlw) Hfilled. unfold surface.fill_step.
  destruct ((i <? rows cp)%nat && (j <? cols cp)%nat) eqn:Hin; simpl; [|discriminate].
  apply andb_true_iff in Hin as [_ Hj]. apply Nat.ltb_lt in Hj. rewrite Hc in Hj.
  intros Hstep.
  apply obind_returns in Hstep as (idx & Hidx & Hstep).
  apply obind_returns in Hstep as (p & Hp & Hstep).
  apply obind_returns in Hstep as (wv & Hw & Hstep).
  injection Hstep as <- <- <-.
  apply at_index_returns in Hidx as [_ Hidx]. rewrite Nat2Z.id in Hidx.
  apply at_index_returns in Hp as [Hpos Hp].
  apply at_index_returns in Hw as [_ Hw].
  assert (Hcell : (i * nv + j < nu * nv)%nat) by nia.
  split; [|split].
  - unfold shaped, array2_set. simpl. rewrite !length_insert. tauto.
  - intros i' j' Hi' Hj' Hlt.
    destruct (decide (j' * nu + i' = j * nu + i)%nat) as [Heq | Hne].
    + destruct (cell_position_inj j' i' j i nu Hi' Hi Heq) as [-> ->].
      exists idx, p, wv. unfold array2_set. simpl. rewrite Hc, Hcw.
      rewrite !list_lookup_insert_eq by (rewrite ?Hl, ?Hlw; exact Hcell).
      repeat split; auto. lia.
    + destruct (Hfilled i' j' Hi' Hj') as (idx' & p' & wv' & H1 & H2 & H3 & H4 & H5 & H6);
        [lia|].
      exists idx', p', wv'. unfold array2_set. simpl. rewrite Hc, Hcw.
      assert (i * nv + j <> i' * nv + j')%nat.
      { intros Heq. destruct (cell_position_inj i j i' j' nv Hj Hj' Heq) as [-> ->].
        apply Hne. reflexivity. }
      rewrite !list_lookup_insert_ne by assumption. repeat split; auto.
  - lia.
Qed.

Lemma fill_u_filled count : forall i j cp w cp' w' num',
  (i + count = nu)%nat ->
  shaped nu nv cp w -> filled st nu nv cp w (j * nu + i) ->
  surface.fill_u st count i j (cp, w, (j * nu + i)%nat) = Returns (cp', w', num') ->
  shaped nu nv cp' w' /\ filled st nu nv cp' w' (S j * nu) /\ num' = (S j * nu)%nat.
Proof.
  induction count as [|count IH]; intros i j cp w cp' w' num' Hcount Hs Hf Hfill.
  - simpl in Hfill. injection Hfill as <- <- <-.
    replace (S j * nu)%nat with (j * nu + i)%nat by lia. auto.
  - simpl in Hfill.
    apply obind_returns in Hfill as ([[cp1 w1] num1] & Hstep & Hfill).
    apply fill_step_filled in Hstep as (Hs1 & Hf1 & ->); [|lia|assumption..].
    eapply (IH (S i)); [lia | exact Hs1 | exact Hf1 | exact Hfill].
Qed.

Lemma fill_v_filled count : forall j cp w cp' w' num',
  shaped nu nv cp w -> filled st nu nv cp w (j * nu) ->
  surface.fill_v st nu count j (cp, w, (j * nu)%nat) = Returns (cp', w', num') ->
  shaped nu nv cp' w' /\ filled st nu nv cp' w' ((j + count) * nu).
Proof.
  induction count as [|count IH]; intros j cp w cp' w' num' Hs Hf Hfill.
  - simpl in Hfill. injection Hfill as <- <- <-. rewrite Nat.add_0_r. auto.
  - simpl in Hfill.
    apply obind_returns in Hfill as ([[cp1 w1] num1] & Hu & Hfill).
    replace (j * nu)%nat with (j * nu + 0)%nat in Hu, Hf by lia.
    apply fill_u_filled in Hu as (Hs1 & Hf1 & ->); [|lia|assumption..].
    replace (j + S count)%nat with (S j + count)%nat by lia.
    eapply IH; [exact Hs1 | exact Hf1 | exact Hfill].
Qed.

End GridOrder.

Section GridOrderClaim.
Context `{Numerics}.

(** C6.  In a surface that [surfaceReadOBJ] has built, with [nU] rows and
    [nV] columns of control points, cell [(i, j)] holds the vertex (and the
    weight) number [indices[j * nU + i]], counted from 1, of the vertex
    pool: the index list is consumed with the u-index varying fastest.
    For [nU] = 2, [nV] = 3 and the index list 1 2 3 4 5 6 the cells (0,0),
    (1,0), (0,1), (1,1), (0,2), (1,2) hold the vertices 1 to 6. *)
Theorem surface_grid_order (file : list string) (garbage : ToParse)
    (deg_u0 deg_v0 : Z) (ctrlPts0 : array2 vec3) (weights0 : array2 T)
    (rational0 : bool) (st : surface.scan_state) (r : surface.result) :
  surface.scan (length file) file (surface.initial garbage deg_u0 deg_v0 rational0)
  = Returns st ->
  surface.read_lines file garbage deg_u0 deg_v0 ctrlPts0 weights0 rational0
  = Returns r ->
  forall i j : nat,
    (i < rows (surface.r_ctrlPts r))%nat -> (j < cols (surface.r_ctrlPts r))%nat ->
    exists idx p w,
      surface.indices st !! (j * rows (surface.r_ctrlPts r) + i)%nat = Some idx
      /\ 1 <= idx
      /\ surface.ctrl_pts_buf st !! Z.to_nat (idx - 1) = Some p
      /\ surface.weights_buf st !! Z.to_nat (idx - 1) = Some w
      /\ (forall what, array2_get what (surface.r_ctrlPts r) i j = Returns p)
      /\ (forall what, array2_get what (surface.r_weights r) i j = Returns w).
Proof.
  unfold surface.read_lines. intros Hscan Hb. rewrite Hscan in Hb. simpl in Hb.
  unfold surface.build in Hb.
  apply obind_returns in Hb as (_ & _ & Hb).
  set (nu := to_int (to_uint (to_uint (to_int (Z.of_nat (length (surface.temp_uknots st))))
                                - surface.deg_u st) - 1)) in Hb.
  set (nv := to_int (to_uint (to_uint (to_int (Z.of_nat (length (surface.temp_vknots st))))
                                - surface.deg_v st) - 1)) in Hb.
  apply obind_returns in Hb as (cp & Hcp & Hb).
  apply obind_returns in Hb as (w & Hw & Hb).
  apply obind_returns in Hb as ([[cp' w'] num'] & Hfill & Hb).
  injection Hb as <-. simpl.
  unfold array2_resize in Hcp, Hw.
  destruct ((nu <? 0) || (nv <? 0)); [discriminate|].
  injection Hcp as <-. injection Hw as <-.
  apply (fill_v_filled st (Z.to_nat nu) (Z.to_nat nv) (Z.to_nat nv) 0) in Hfill
    as ((Hr & Hc & Hrw & Hcw & Hl & Hlw) & Hfilled).
  - intros i j Hi Hj. rewrite Hr in Hi |- *. rewrite Hc in Hj.
    destruct (Hfilled i j Hi Hj) as (idx & p & wv & H1 & H2 & H3 & H4 & H5 & H6); [nia|].
    exists idx, p, wv. repeat split; auto.
    + intros what. unfold array2_get. rewrite Hr, Hc.
      replace (i <? Z.to_nat nu)%nat with true by (symmetry; apply Nat.ltb_lt; lia).
      replace (j <? Z.to_nat nv)%nat with true by (symmetry; apply Nat.ltb_lt; lia).
      simpl. rewrite H5. reflexivity.
    + intros what. unfold array2_get. rewrite Hrw, Hcw.
      replace (i <? Z.to_nat nu)%nat with true by (symmetry; apply Nat.ltb_lt; lia).
      replace (j <? Z.to_nat nv)%nat with true by (symmetry; apply Nat.ltb_lt; lia).
      simpl. rewrite H6. reflexivity.
  - unfold shaped. simpl. rewrite !length_resize. tauto.
  - intros i j _ _ Hlt. simpl in Hlt. lia.
Qed.

End GridOrderClaim.

Lemma surface_grid_order_witness :
  exists r,
    surface.read_lines grid_2_by_3_file no_garbage 0 0 (Array2 0 0 []) (Array2 0 0 [])
      false = Returns r
    /\ forall what,
       array2_get what (surface.r_ctrlPts r) 0 0 = Returns (Vec3 1 0 0)
       /\ array2_get what (surface.r_ctrlPts r) 1 0 = Returns (Vec3 2 0 0)
       /\ array2_get what (surface.r_ctrlPts r) 0 1 = Returns (Vec3 3 0 0)
       /\ array2_get what (surface.r_ctrlPts r) 1 1 = Returns (Vec3 4 0 0)
       /\ array2_get what (surface.r_ctrlPts r) 0 2 = Returns (Vec3 5 0 0)
       /\ array2_get what (surface.r_ctrlPts r) 1 2 = Returns (Vec3 6 0 0).
Proof.
  assert (Hs : surface.scan (length grid_2_by_3_file) grid_2_by_3_file
                 (surface.initial no_garbage 0 0 false) = Returns grid_2_by_3)
    by (vm_compute; reflexivity).
  assert (Hb : surface.read_lines grid_2_by_3_file no_garbage 0 0 (Array2 0 0 [])
                 (Array2 0 0 []) false = Returns grid_2_by_3_result)
    by (vm_compute; reflexivity).
  exists grid_2_by_3_result. split; [exact Hb|]. intros what.
  pose proof (surface_grid_order _ _ _ _ _ _ _ _ _ Hs Hb) as Hg.
  assert (Hcell : forall i j v,
            (i < 2)%nat -> (j < 3)%nat ->
            surface.ctrl_pts_buf grid_2_by_3
              !! Z.to_nat (default 0 (surface.indices grid_2_by_3 !! (j * 2 + i)%nat) - 1)
            = Some v ->
            array2_get what (surface.r_ctrlPts grid_2_by_3_result) i j = Returns v).
  { intros i j v Hi Hj Hv.
    destruct (Hg i j Hi Hj) as (idx & p & w & H1 & _ & H3 & _ & H5 & _).
    change (rows (surface.r_ctrlPts grid_2_by_3_result)) with 2%nat in H1.
    rewrite H1 in Hv. change (default 0 (Some idx)) with idx in Hv. rewrite H3 in Hv.
    injection Hv as <-. apply H5. }
  split; [|split; [|split; [|split; [|split]]]]; apply Hcell; try lia; reflexivity.
Defined.


(** * Lists of values and continuation lines *)

Lemma obind_assoc {A B C : Type} (m : outcome A) (f : A -> outcome B)
    (g : B -> outcome C) :
  obind (obind m f) g = obind m (fun a => obind (f a) g).
Proof. destruct m; reflexivity. Qed.

Lemma obind_ext {A B : Type} (m : outcome A) (f g : A -> outcome B) :
  (forall a, f a = g a) -> obind m f = obind m g.
Proof. intros Hfg. destruct m; simpl; auto. Qed.

Lemma obind_ret {A : Type} (m : outcome A) : obind m Returns = m.
Proof. destruct m; reflexivity. Qed.

Section ReadList.
Context `{Numerics}.
Context {A : Type} (conv : flt -> A).

Lemma read_list_nil file sline values :
  read_list conv file sline [] values = Returns (file, sline, values).
Proof. destruct file; reflexivity. Qed.

Lemma read_list_cons file sline token toks values :
  read_list conv file sline (token :: toks) values
  = if String.eqb token continuation then
      match file with
      | l :: file' => read_list conv file' l (words l) values
      | [] =>
          values' <- replay_list conv (words sline) values ;;
          Returns ([], sline, values')
      end
    else match stof token with
         | Some f => read_list conv file sline toks (values ++ [conv f])
         | None => Throws "std::invalid_argument: stof"
         end.
Proof. destruct file; reflexivity. Qed.

(** Tokens none of which is the marker are converted one after the other,
    and no line is read. *)
Lemma read_list_values toks : forall file sline rest values,
  Forall (fun t => t <> continuation) toks ->
  read_list conv file sline (toks ++ rest) values
  = values' <- replay_list conv toks values ;;
    read_list conv file sline rest values'.
Proof.
  induction toks as [|t toks IH]; intros file sline rest values Hall.
  - reflexivity.
  - inversion Hall as [|? ? Ht Hall']; subst. simpl app.
    rewrite read_list_cons. simpl.
    destruct (String.eqb t continuation) eqn:Heq;
      [apply String.eqb_eq in Heq; contradiction|].
    destruct (stof t); [|reflexivity]. apply IH. exact Hall'.
Qed.

Lemma read_list_no_marker toks file sline values :
  Forall (fun t => t <> continuation) toks ->
  read_list conv file sline toks values
  = values' <- replay_list conv toks values ;; Returns (file, sline, values').
Proof.
  intros Hall. rewrite <- (app_nil_r toks) at 1.
  rewrite (read_list_values _ _ _ _ _ Hall). apply obind_ext. intros v.
  apply read_list_nil.
Qed.

(** A marker at the end of the tokens makes the loop go on with the next
    line of the file. *)
Lemma read_list_continue toks l file sline values :
  Forall (fun t => t <> continuation) toks ->
  read_list conv (l :: file) sline (toks ++ [continuation]) values
  = values' <- replay_list conv toks values ;;
    read_list conv file l (words l) values'.
Proof.
  intros Hall. rewrite (read_list_values _ _ _ _ _ Hall). apply obind_ext.
  intros v. rewrite read_list_cons. reflexivity.
Qed.

(** The loop only ever removes lines from the front of the file. *)
Lemma read_list_suffix file : forall sline toks values file' sline' values',
  read_list conv file sline toks values = Returns (file', sline', values') ->
  exists taken, file = taken ++ file'.
Proof.
  induction file as [|l file IH]; intros sline toks; induction toks as [|t toks IHt];
    intros values file' sline' values'; rewrite ?read_list_nil, ?read_list_cons.
  - intros [= <- _ _]. exists []. reflexivity.
  - destruct (String.eqb t continuation).
    + intros Hr. apply obind_returns in Hr as (v & _ & Hr). injection Hr as <- _ _.
      exists []. reflexivity.
    + destruct (stof t); [|discriminate]. apply IHt.
  - intros [= <- _ _]. exists []. reflexivity.
  - destruct (String.eqb t continuation).
    + intros Hr. apply IH in Hr as [taken ->]. exists (l :: taken). reflexivity.
    + destruct (stof t); [|discriminate]. apply IHt.
Qed.

Lemma replay_list_fuel toks : forall values,
  replay_list conv toks values <> OutOfFuel.
Proof.
  induction toks as [|t toks IH]; intros values; simpl; [discriminate|].
  destruct (String.eqb t continuation); [discriminate|].
  destruct (stof t); [apply IH | discriminate].
Qed.

Lemma read_list_fuel file : forall sline toks values,
  read_list conv file sline toks values <> OutOfFuel.
Proof.
  induction file as [|l file IH]; intros sline toks; induction toks as [|t toks IHt];
    intros values; rewrite ?read_list_nil, ?read_list_cons; try discriminate.
  - destruct (String.eqb t continuation).
    + pose proof (replay_list_fuel (words sline) values) as Hr.
      destruct (replay_list conv (words sline) values); simpl; congruence.
    + destruct (stof t); [apply IHt | discriminate].
  - destruct (String.eqb t continuation); [apply IH|].
    destruct (stof t); [apply IHt | discriminate].
Qed.

End ReadList.

(** * Lines without a backslash *)

Lemma no_backslash_app s t :
  no_backslash (s +:+ t) = no_backslash s && no_backslash t.
Proof.
  induction s as [|c s IH]; [reflexivity|].
  rewrite str_app_cons. simpl. rewrite IH. apply andb_assoc.
Qed.

Lemma drop_chars_no_backslash n : forall s,
  no_backslash s = true -> no_backslash (drop_chars n s) = true.
Proof.
  induction n as [|n IH]; intros [|c s] Hs; simpl; auto.
  simpl in Hs. apply andb_true_iff in Hs as [_ Hs]. auto.
Qed.

Lemma skipws_no_backslash s :
  no_backslash s = true -> no_backslash (skipws s) = true.
Proof.
  induction s as [|c s IH]; simpl; [auto|]. intros Hs.
  destruct (Ascii.is_space c); [|exact Hs].
  apply andb_true_iff in Hs as [_ Hs]. auto.
Qed.

Lemma get_word_no_backslash s :
  no_backslash s = true -> no_backslash (snd (get_word s)) = true.
Proof.
  induction s as [|c s IH]; simpl; [auto|]. intros Hs.
  destruct (Ascii.is_space c); [exact Hs|].
  apply andb_true_iff in Hs as [_ Hs]. destruct (get_word s). simpl in *. auto.
Qed.

Lemma words_from_no_backslash s : forall cur,
  no_backslash cur = true -> no_backslash s = true ->
  Forall (fun t => no_backslash t = true) (words_from cur s).
Proof.
  induction s as [|c s IH]; intros cur Hcur Hs; simpl.
  - destruct cur; constructor; auto.
  - simpl in Hs. apply andb_true_iff in Hs as [Hc Hs].
    destruct (Ascii.is_space c).
    + destruct cur; [|constructor]; auto.
    + apply IH; [|exact Hs]. rewrite no_backslash_app, Hcur. simpl. rewrite Hc.
      reflexivity.
Qed.

Lemma words_no_marker s :
  no_backslash s = true -> Forall (fun t => t <> continuation) (words s).
Proof.
  intros Hs. eapply Forall_impl; [apply (words_from_no_backslash s "" eq_refl Hs)|].
  intros t Ht ->. discriminate Ht.
Qed.

Lemma get_token_no_backslash ss t ss' :
  no_backslash (buf ss) = true -> get_token ss = (t, ss') ->
  no_backslash (buf ss') = true.
Proof.
  unfold get_token, sentry. intros Hs.
  destruct (failbit ss); [intros [= _ <-]; reflexivity|].
  pose proof (skipws_no_backslash _ Hs) as Hb.
  destruct (skipws (buf ss)) as [|c b] eqn:Heq; [intros [= _ <-]; reflexivity|].
  pose proof (get_word_no_backslash _ Hb) as Hw.
  destruct (get_word (String c b)). intros [= _ <-]. exact Hw.
Qed.

Lemma extract_no_backslash {A : Type} (get : string -> A * bool * nat) ss v ss' :
  no_backslash (buf ss) = true -> extract get ss = (v, ss') ->
  no_backslash (buf ss') = true.
Proof.
  unfold extract, sentry. intros Hs.
  destruct (failbit ss); [intros [= _ <-]; reflexivity|].
  pose proof (skipws_no_backslash _ Hs) as Hb.
  destruct (skipws (buf ss)) as [|c b] eqn:Heq; [intros [= _ <-]; reflexivity|].
  destruct (get (String c b)) as [[a ok] n]. intros [= _ <-]. simpl.
  apply drop_chars_no_backslash. exact Hb.
Qed.

Lemma tokens_no_marker ss :
  no_backslash (buf ss) = true -> Forall (fun t => t <> continuation) (tokens ss).
Proof.
  intros Hs. unfold tokens. destruct (failbit ss); [constructor|].
  apply words_no_marker. exact Hs.
Qed.


(** * The scan loop of the curve reader *)

Section CurveScan.
Context `{Numerics}.

Lemma curve_with_line_twice a b st :
  curve.with_line a (curve.with_line b st) = curve.with_line a st.
Proof. reflexivity. Qed.

Lemma curve_fill_sline a st count : forall i acc,
  curve.fill (curve.with_line a st) count i acc = curve.fill st count i acc.
Proof.
  induction count as [|count IH]; intros i acc; [reflexivity|]. simpl.
  replace (curve.fill_step (curve.with_line a st) i acc) with (curve.fill_step st i acc)
    by (destruct acc; reflexivity).
  apply obind_ext. intros acc'. apply IH.
Qed.

(** What is built does not depend on the last line read. *)
Lemma curve_build_sline ctrlPts0 weights0 a st :
  curve.build ctrlPts0 weights0 (curve.with_line a st)
  = curve.build ctrlPts0 weights0 st.
Proof.
  unfold curve.build. simpl. apply obind_ext. intros _.
  apply obind_ext. intros cp. apply obind_ext. intros w.
  rewrite curve_fill_sline. reflexivity.
Qed.

Lemma curve_process_line_suffix file st c file' st' :
  curve.process_line file st = Returns (c, file', st') ->
  exists taken, file = taken ++ file'.
Proof.
  unfold curve.process_line.
  destruct (get_token {| buf := curve.sline st; failbit := false |}) as [s ss].
  simpl.
  repeat match goal with
         | |- context [if ?b then _ else _] => destruct b
         end;
    try (intros [= _ <- _]; exists []; reflexivity).
  - unfold curve.on_curv. destruct (extract get_T ss) as [? ss1].
    destruct (extract get_T ss1) as [? ss2]. intros Hr.
    apply obind_returns in Hr as ([f s'] & Hr & Hk). injection Hk as _ <- _.
    apply obind_returns in Hr as ([[f1 s1] v1] & Hr & Hk). injection Hk as <- _.
    apply read_list_suffix in Hr. exact Hr.
  - unfold curve.on_parm. destruct (get_token ss) as [axis ss1].
    destruct (String.eqb (default (curve.start _) axis) "u").
    + intros Hr. apply obind_returns in Hr as ([f s'] & Hr & Hk).
      injection Hk as _ <- _.
      apply obind_returns in Hr as ([[f1 s1] v1] & Hr & Hk). injection Hk as <- _.
      apply read_list_suffix in Hr. exact Hr.
    + simpl. intros [= _ <- _]. exists []. reflexivity.
Qed.

Lemma curve_process_line_fuel file st :
  curve.process_line file st <> OutOfFuel.
Proof.
  unfold curve.process_line. destruct (get_token _) as [s ss]. simpl.
  repeat match goal with
         | |- context [if ?b then _ else _] => destruct b
         end; try discriminate.
  - unfold curve.on_curv. destruct (extract get_T ss) as [? ss1].
    destruct (extract get_T ss1) as [? ss2].
    pose proof (read_list_fuel int_of_flt file (curve.sline (curve.with_start
      (default (curve.start st) s) st)) (tokens ss2) (curve.indices st)) as Hr.
    simpl in Hr. destruct (read_list _ _ _ _ _) as [[[? ?] ?]| | | | |]; simpl; congruence.
  - unfold curve.on_parm. destruct (get_token ss) as [axis ss1].
    destruct (String.eqb _ "u"); [|discriminate].
    pose proof (read_list_fuel T_of_flt file (curve.sline (curve.with_start
      (default (curve.start st) s) st)) (tokens ss1) (curve.temp_knots st)) as Hr.
    simpl in Hr. destruct (read_list _ _ _ _ _) as [[[? ?] ?]| | | | |]; simpl; congruence.
Qed.

(** Every iteration of the scan loop reads at least one line: any fuel that
    covers the lines of the file gives the same result. *)
Lemma curve_scan_fuel n : forall m file st,
  (length file <= n)%nat -> (length file <= m)%nat ->
  curve.scan n file st = curve.scan m file st.
Proof.
  induction n as [|n IH]; intros m [|l file] st Hn Hm; simpl in *; try lia.
  - destruct m; reflexivity.
  - destruct m; reflexivity.
  - destruct m as [|m]; [lia|]. simpl.
    destruct (String.eqb l ""); [apply IH; lia|].
    destruct (curve.process_line file (curve.with_line l st))
      as [[[c file''] st'] | | | | |] eqn:Hp; simpl; try reflexivity.
    destruct c; [|reflexivity].
    apply curve_process_line_suffix in Hp as [taken ->].
    rewrite length_app in Hn, Hm. apply IH; lia.
Qed.

Lemma curve_scan_never_out_of_fuel n : forall file st,
  (length file <= n)%nat -> curve.scan n file st <> OutOfFuel.
Proof.
  induction n as [|n IH]; intros [|l file] st Hn; simpl in *; try lia; try discriminate.
  destruct (String.eqb l ""); [apply IH; lia|].
  destruct (curve.process_line file (curve.with_line l st))
    as [[[c file''] st'] | | | | |] eqn:Hp; simpl; try discriminate.
  - destruct c; [|discriminate].
    apply curve_process_line_suffix in Hp as [taken ->].
    rewrite length_app in Hn. apply IH; lia.
  - apply curve_process_line_fuel in Hp. destruct Hp.
Qed.

(** A line without a backslash is processed without reading another
    line. *)
Lemma curve_process_line_self_contained l file st :
  no_backslash l = true ->
  curve.process_line file (curve.with_line l st)
  = r <- curve.process_line [] (curve.with_line l st) ;;
    Returns (fst (fst r), file, snd r).
Proof.
  intros Hl. unfold curve.process_line. simpl.
  destruct (get_token {| buf := l; failbit := false |}) as [s ss] eqn:Htok.
  pose proof (get_token_no_backslash {| buf := l; failbit := false |} _ _ Hl Htok)
    as Hss. simpl.
  repeat match goal with
         | |- context [if ?b then _ else _] => destruct b
         end; try reflexivity.
  - unfold curve.on_curv.
    destruct (extract get_T ss) as [v1 ss1] eqn:H1.
    pose proof (extract_no_backslash _ _ _ _ Hss H1) as Hss1.
    destruct (extract get_T ss1) as [v2 ss2] eqn:H2.
    pose proof (extract_no_backslash _ _ _ _ Hss1 H2) as Hss2.
    rewrite !(read_list_no_marker _ _ _ _ _ (tokens_no_marker _ Hss2)).
    destruct (replay_list _ _ _); reflexivity.
  - unfold curve.on_parm. destruct (get_token ss) as [axis ss1] eqn:H1.
    pose proof (get_token_no_backslash _ _ _ Hss H1) as Hss1.
    destruct (String.eqb _ "u"); [|reflexivity].
    rewrite !(read_list_no_marker _ _ _ _ _ (tokens_no_marker _ Hss1)).
    destruct (replay_list _ _ _); reflexivity.
Qed.

Section Finish.
Variables (ctrlPts0 : list vec3) (weights0 : list T).

(** The line held by [sline] when the scan starts is of no consequence. *)
Lemma curve_scan_sline a n file st :
  curve_result ctrlPts0 weights0 (curve.scan n file (curve.with_line a st)) = curve_result ctrlPts0 weights0 (curve.scan n file st).
Proof.
  destruct n, file as [|l file]; try reflexivity; apply curve_build_sline.
Qed.

(** Lines without a backslash in front of two files that the reader does
    not tell apart. *)
Lemma curve_scan_prefix pre : forall f1 f2 st n m,
  Forall (fun l => no_backslash l = true) pre ->
  (forall st n m, (length f1 <= n)%nat -> (length f2 <= m)%nat ->
     curve_result ctrlPts0 weights0 (curve.scan n f1 st) = curve_result ctrlPts0 weights0 (curve.scan m f2 st)) ->
  (length (pre ++ f1) <= n)%nat -> (length (pre ++ f2) <= m)%nat ->
  curve_result ctrlPts0 weights0 (curve.scan n (pre ++ f1) st) = curve_result ctrlPts0 weights0 (curve.scan m (pre ++ f2) st).
Proof.
  induction pre as [|l pre IH]; intros f1 f2 st n m Hpre Hf Hn Hm.
  - apply Hf; assumption.
  - inversion Hpre as [|? ? Hl Hpre']; subst. simpl in Hn, Hm.
    destruct n as [|n]; [lia|]. destruct m as [|m]; [lia|]. simpl.
    destruct (String.eqb l ""); [apply IH; auto; lia|].
    rewrite (curve_process_line_self_contained l (pre ++ f1) st Hl).
    rewrite (curve_process_line_self_contained l (pre ++ f2) st Hl).
    destruct (curve.process_line [] (curve.with_line l st))
      as [[[c file''] st'] | | | | |]; simpl; try reflexivity.
    destruct c; [|reflexivity]. apply IH; auto; lia.
Qed.

End Finish.

End CurveScan.


(** * The scan loop of the surface reader *)

Section SurfaceScan.
Context `{Numerics}.

Lemma surface_with_line_twice a b st :
  surface.with_line a (surface.with_line b st) = surface.with_line a st.
Proof. reflexivity. Qed.

Lemma surface_fill_u_sline a st count : forall i j acc,
  surface.fill_u (surface.with_line a st) count i j acc = surface.fill_u st count i j acc.
Proof.
  induction count as [|count IH]; intros i j acc; [reflexivity|]. simpl.
  replace (surface.fill_step (surface.with_line a st) i j acc)
    with (surface.fill_step st i j acc) by (destruct acc as [[? ?] ?]; reflexivity).
  apply obind_ext. intros acc'. apply IH.
Qed.

Lemma surface_fill_v_sline a st nu count : forall j acc,
  surface.fill_v (surface.with_line a st) nu count j acc
  = surface.fill_v st nu count j acc.
Proof.
  induction count as [|count IH]; intros j acc; [reflexivity|]. simpl.
  rewrite surface_fill_u_sline. apply obind_ext. intros acc'. apply IH.
Qed.

(** What is built does not depend on the last line read. *)
Lemma surface_build_sline ctrlPts0 weights0 a st :
  surface.build ctrlPts0 weights0 (surface.with_line a st)
  = surface.build ctrlPts0 weights0 st.
Proof.
  unfold surface.build. simpl. apply obind_ext. intros _.
  apply obind_ext. intros cp. apply obind_ext. intros w.
  rewrite surface_fill_v_sline. reflexivity.
Qed.

Lemma surface_process_line_suffix file st c file' st' :
  surface.process_line file st = Returns (c, file', st') ->
  exists taken, file = taken ++ file'.
Proof.
  unfold surface.process_line.
  destruct (get_token {| buf := surface.sline st; failbit := false |}) as [s ss].
  simpl.
  repeat match goal with
         | |- context [if ?b then _ else _] => destruct b
         end;
    try (intros [= _ <- _]; exists []; reflexivity).
  - unfold surface.on_surf. destruct (extract get_T ss) as [? ss1].
    destruct (extract get_T ss1) as [? ss2]. destruct (extract get_T ss2) as [? ss3].
    destruct (extract get_T ss3) as [? ss4]. intros Hr.
    apply obind_returns in Hr as ([f s'] & Hr & Hk). injection Hk as _ <- _.
    apply obind_returns in Hr as ([[f1 s1] v1] & Hr & Hk). injection Hk as <- _.
    apply read_list_suffix in Hr. exact Hr.
  - unfold surface.on_parm. destruct (get_token ss) as [axis ss1].
    destruct (String.eqb (default (surface.start _) axis) "u");
      [|destruct (String.eqb (default (surface.start _) axis) "v")].
    + intros Hr. apply obind_returns in Hr as ([f s'] & Hr & Hk).
      injection Hk as _ <- _.
      apply obind_returns in Hr as ([[f1 s1] v1] & Hr & Hk). injection Hk as <- _.
      apply read_list_suffix in Hr. exact Hr.
    + intros Hr. apply obind_returns in Hr as ([f s'] & Hr & Hk).
      injection Hk as _ <- _.
      apply obind_returns in Hr as ([[f1 s1] v1] & Hr & Hk). injection Hk as <- _.
      apply read_list_suffix in Hr. exact Hr.
    + simpl. intros [= _ <- _]. exists []. reflexivity.
Qed.

Lemma surface_process_line_fuel file st :
  surface.process_line file st <> OutOfFuel.
Proof.
  unfold surface.process_line. destruct (get_token _) as [s ss]. simpl.
  repeat match goal with
         | |- context [if ?b then _ else _] => destruct b
         end; try discriminate.
  - unfold surface.on_surf. destruct (extract get_T ss) as [? ss1].
    destruct (extract get_T ss1) as [? ss2]. destruct (extract get_T ss2) as [? ss3].
    destruct (extract get_T ss3) as [? ss4].
    pose proof (read_list_fuel int_of_flt file (surface.sline (surface.with_start
      (default (surface.start st) s) st)) (tokens ss4) (surface.indices st)) as Hr.
    simpl in Hr. destruct (read_list _ _ _ _ _) as [[[? ?] ?]| | | | |]; simpl; congruence.
  - unfold surface.on_parm. destruct (get_token ss) as [axis ss1].
    destruct (String.eqb _ "u"); [|destruct (String.eqb _ "v"); [|discriminate]].
    + pose proof (read_list_fuel T_of_flt file (surface.sline (surface.with_start
        (default (surface.start st) s) st)) (tokens ss1) (surface.temp_uknots st)) as Hr.
      simpl in Hr.
      destruct (read_list _ _ _ _ _) as [[[? ?] ?]| | | | |]; simpl; congruence.
    + pose proof (read_list_fuel T_of_flt file (surface.sline (surface.with_start
        (default (surface.start st) s) st)) (tokens ss1) (surface.temp_vknots st)) as Hr.
      simpl in Hr.
      destruct (read_list _ _ _ _ _) as [[[? ?] ?]| | | | |]; simpl; congruence.
Qed.

(** Every iteration of the scan loop reads at least one line: any fuel that
    covers the lines of the file gives the same result. *)
Lemma surface_scan_fuel n : forall m file st,
  (length file <= n)%nat -> (length file <= m)%nat ->
  surface.scan n file st = surface.scan m file st.
Proof.
  induction n as [|n IH]; intros m [|l file] st Hn Hm; simpl in *; try lia.
  - destruct m; reflexivity.
  - destruct m; reflexivity.
  - destruct m as [|m]; [lia|]. simpl.
    destruct (String.eqb l ""); [reflexivity|].
    destruct (surface.process_line file (surface.with_line l st))
      as [[[c file''] st'] | | | | |] eqn:Hp; simpl; try reflexivity.
    destruct c; [|reflexivity].
    apply surface_process_line_suffix in Hp as [taken ->].
    rewrite length_app in Hn, Hm. apply IH; lia.
Qed.

Lemma surface_scan_never_out_of_fuel n : forall file st,
  (length file <= n)%nat -> surface.scan n file st <> OutOfFuel.
Proof.
  induction n as [|n IH]; intros [|l file] st Hn; simpl in *; try lia; try discriminate.
  destruct (String.eqb l ""); [discriminate|].
  destruct (surface.process_line file (surface.with_line l st))
    as [[[c file''] st'] | | | | |] eqn:Hp; simpl; try discriminate.
  - destruct c; [|discriminate].
    apply surface_process_line_suffix in Hp as [taken ->].
    rewrite length_app in Hn. apply IH; lia.
  - apply surface_process_line_fuel in Hp. destruct Hp.
Qed.

(** A line without a backslash is processed without reading another
    line. *)
Lemma surface_process_line_self_contained l file st :
  no_backslash l = true ->
  surface.process_line file (surface.with_line l st)
  = r <- surface.process_line [] (surface.with_line l st) ;;
    Returns (fst (fst r), file, snd r).
Proof.
  intros Hl. unfold surface.process_line. simpl.
  destruct (get_token {| buf := l; failbit := false |}) as [s ss] eqn:Htok.
  pose proof (get_token_no_backslash {| buf := l; failbit := false |} _ _ Hl Htok)
    as Hss. simpl.
  repeat match goal with
         | |- context [if ?b then _ else _] => destruct b
         end; try reflexivity.
  - unfold surface.on_surf.
    destruct (extract get_T ss) as [v1 ss1] eqn:H1.
    pose proof (extract_no_backslash _ _ _ _ Hss H1) as Hss1.
    destruct (extract get_T ss1) as [v2 ss2] eqn:H2.
    pose proof (extract_no_backslash _ _ _ _ Hss1 H2) as Hss2.
    destruct (extract get_T ss2) as [v3 ss3] eqn:H3.
    pose proof (extract_no_backslash _ _ _ _ Hss2 H3) as Hss3.
    destruct (extract get_T ss3) as [v4 ss4] eqn:H4.
    pose proof (extract_no_backslash _ _ _ _ Hss3 H4) as Hss4.
    rewrite !(read_list_no_marker _ _ _ _ _ (tokens_no_marker _ Hss4)).
    destruct (replay_list _ _ _); reflexivity.
  - unfold surface.on_parm. destruct (get_token ss) as [axis ss1] eqn:H1.
    pose proof (get_token_no_backslash _ _ _ Hss H1) as Hss1.
    destruct (String.eqb _ "u"); [|destruct (String.eqb _ "v"); [|reflexivity]].
    + rewrite !(read_list_no_marker _ _ _ _ _ (tokens_no_marker _ Hss1)).
      destruct (replay_list _ _ _); reflexivity.
    + rewrite !(read_list_no_marker _ _ _ _ _ (tokens_no_marker _ Hss1)).
      destruct (replay_list _ _ _); reflexivity.
Qed.

Section Finish.
Variables (ctrlPts0 : array2 vec3) (weights0 : array2 T).

(** The line held by [sline] when the scan starts is of no consequence. *)
Lemma surface_scan_sline a n file st :
  surface_result ctrlPts0 weights0 (surface.scan n file (surface.with_line a st)) = surface_result ctrlPts0 weights0 (surface.scan n file st).
Proof.
  destruct n, file as [|l file]; try reflexivity; apply surface_build_sline.
Qed.

(** Lines without a backslash in front of two files that the reader does
    not tell apart. *)
Lemma surface_scan_prefix pre : forall f1 f2 st n m,
  Forall (fun l => no_backslash l = true) pre ->
  (forall st n m, (length f1 <= n)%nat -> (length f2 <= m)%nat ->
     surface_result ctrlPts0 weights0 (surface.scan n f1 st) = surface_result ctrlPts0 weights0 (surface.scan m f2 st)) ->
  (length (pre ++ f1) <= n)%nat -> (length (pre ++ f2) <= m)%nat ->
  surface_result ctrlPts0 weights0 (surface.scan n (pre ++ f1) st) = surface_result ctrlPts0 weights0 (surface.scan m (pre ++ f2) st).
Proof.
  induction pre as [|l pre IH]; intros f1 f2 st n m Hpre Hf Hn Hm.
  - apply Hf; assumption.
  - inversion Hpre as [|? ? Hl Hpre']; subst. simpl in Hn, Hm.
    destruct n as [|n]; [lia|]. destruct m as [|m]; [lia|]. simpl.
    destruct (String.eqb l ""); [reflexivity|].
    rewrite (surface_process_line_self_contained l (pre ++ f1) st Hl).
    rewrite (surface_process_line_self_contained l (pre ++ f2) st Hl).
    destruct (surface.process_line [] (surface.with_line l st))
      as [[[c file''] st'] | | | | |]; simpl; try reflexivity.
    destruct c; [|reflexivity]. apply IH; auto; lia.
Qed.

End Finish.

End SurfaceScan.


(** * Empty lines *)

(** C7, as stated, does not hold for the curve reader: it is not the case
    that [curveReadOBJ] processes no record after the first empty line.
    The file made of [before_blank_line], an empty line and
    [after_blank_line] is read as a curve with the knots 0 1 of the [parm]
    record that follows the empty line, while the lines before the empty
    line alone are rejected. *)
Lemma curve_scan_goes_past_empty_line :
  ~ (forall (pre post : list string) garbage deg0 ctrlPts0 weights0 rational0,
       curve.read_lines (pre ++ "" :: post) garbage deg0 ctrlPts0 weights0 rational0
       = curve.read_lines pre garbage deg0 ctrlPts0 weights0 rational0).
Proof.
  intros Hclaim.
  specialize (Hclaim before_blank_line after_blank_line no_garbage 0 [] [] false).
  assert (Hfull : curve.read_lines (before_blank_line ++ "" :: after_blank_line)
                    no_garbage 0 [] [] false
                  = Returns {| curve.r_deg := 0; curve.r_knots := [0; 1];
                               curve.r_ctrlPts := [Vec3 0 0 0];
                               curve.r_weights := [1];
                               curve.r_rational := false |})
    by (vm_compute; reflexivity).
  assert (Hcut : curve.read_lines before_blank_line no_garbage 0 [] [] false
                 = Throws "'curv' line missing/incomplete in file")
    by (vm_compute; reflexivity).
  rewrite Hfull, Hcut in Hclaim. discriminate Hclaim.
Qed.

Section EmptyLines.
Context `{Numerics}.

(** C7, amended.  An empty line that the scan loop reads (the lines
    before it hold no backslash, so that it is not taken as the
    continuation of a list) is skipped by [curveReadOBJ], which reads the
    file as if the line were not there, and ends the scan of
    [surfaceReadOBJ] without an error: the surface reader processes no
    record after it and reads the file as if it ended before that line. *)
Theorem empty_line_skipped_or_last (pre post : list string) :
  Forall (fun l => no_backslash l = true) pre ->
  (forall garbage deg0 ctrlPts0 weights0 rational0,
     curve.read_lines (pre ++ "" :: post) garbage deg0 ctrlPts0 weights0 rational0
     = curve.read_lines (pre ++ post) garbage deg0 ctrlPts0 weights0 rational0)
  /\ (forall garbage deg_u0 deg_v0 ctrlPts0 weights0 rational0,
     surface.read_lines (pre ++ "" :: post) garbage deg_u0 deg_v0 ctrlPts0 weights0
       rational0
     = surface.read_lines pre garbage deg_u0 deg_v0 ctrlPts0 weights0 rational0).
Proof.
  intros Hpre. split.
  - intros garbage deg0 ctrlPts0 weights0 rational0.
    apply (curve_scan_prefix ctrlPts0 weights0 pre ("" :: post) post); auto.
    intros st n m Hn Hm. simpl in Hn. destruct n as [|n]; [lia|]. simpl.
    rewrite curve_scan_sline. f_equal. apply curve_scan_fuel; lia.
  - intros garbage deg_u0 deg_v0 ctrlPts0 weights0 rational0.
    unfold surface.read_lines. rewrite <- (app_nil_r pre) at 3 4.
    apply (surface_scan_prefix ctrlPts0 weights0 pre ("" :: post) []); auto.
    intros st n m Hn Hm. simpl in Hn. destruct n as [|n]; [lia|].
    destruct m; simpl; apply surface_build_sline.
Qed.

End EmptyLines.

Lemma empty_line_skipped_or_last_witness :
  curve.read_lines (before_blank_line ++ "" :: after_blank_line) no_garbage 0 [] [] false
  = curve.read_lines (before_blank_line ++ after_blank_line) no_garbage 0 [] [] false.
Proof.
  apply (empty_line_skipped_or_last before_blank_line after_blank_line).
  repeat constructor.
Defined.


(** * Lists split across lines *)

Lemma delimited_join ts s : delimited s = true -> delimited (join ts +:+ s) = true.
Proof. destruct ts; [rewrite str_app_nil_l; auto | reflexivity]. Qed.

Lemma words_space s : words (" " +:+ s) = words s.
Proof. reflexivity. Qed.

Lemma words_join ts : forall s,
  Forall (fun t => is_token t = true) ts -> delimited s = true ->
  words (join ts +:+ s) = ts ++ words s.
Proof.
  induction ts as [|t ts IH]; intros s Hts Hs; [reflexivity|].
  inversion Hts as [|? ? Ht Hts']; subst. simpl join.
  rewrite !str_app_assoc, words_space.
  rewrite words_token; [|exact Ht | apply delimited_join; exact Hs].
  rewrite IH by assumption. reflexivity.
Qed.

Lemma value_token_is_token t : is_value_token t = true -> is_token t = true.
Proof. unfold is_value_token. intros Ht. apply andb_true_iff in Ht. tauto. Qed.

Lemma value_token_not_marker t : is_value_token t = true -> t <> continuation.
Proof.
  unfold is_value_token. intros Ht ->. apply andb_true_iff in Ht as [_ Ht].
  discriminate Ht.
Qed.

Lemma value_tokens_are_tokens ts :
  Forall (fun t => is_value_token t = true) ts ->
  Forall (fun t => is_token t = true) ts.
Proof. intros Hts. eapply Forall_impl; [exact Hts|]. apply value_token_is_token. Qed.

Lemma value_tokens_not_marker ts :
  Forall (fun t => is_value_token t = true) ts ->
  Forall (fun t => t <> continuation) ts.
Proof. intros Hts. eapply Forall_impl; [exact Hts|]. apply value_token_not_marker. Qed.

Lemma delimited_continued chunks : delimited (fst (continued chunks)) = true.
Proof.
  destruct chunks as [|c [|c' chunks]]; [reflexivity| |].
  - simpl. rewrite <- (str_app_nil_r (join c)). apply delimited_join. reflexivity.
  - change (continued (c :: c' :: chunks))
      with (let '(f, r) := continued (c' :: chunks) in
            (join c +:+ " " +:+ continuation, f :: r)).
    destruct (continued (c' :: chunks)). simpl. apply delimited_join. reflexivity.
Qed.

Lemma last_cons_default {A : Type} (l : list A) (a d : A) :
  List.last (a :: l) d = List.last l a.
Proof.
  revert a d. induction l as [|b l IH]; intros a d; [reflexivity|].
  change (List.last (a :: b :: l) d) with (List.last (b :: l) d).
  rewrite (IH b d), (IH b a). reflexivity.
Qed.

Section Chunks.
Context `{Numerics}.
Context {A : Type} (conv : flt -> A).

Lemma replay_list_app toks1 : forall toks2 values,
  replay_list conv (toks1 ++ toks2) values
  = values' <- replay_list conv toks1 values ;; replay_list conv toks2 values'.
Proof.
  induction toks1 as [|t toks1 IH]; intros toks2 values; [reflexivity|]. simpl.
  destruct (String.eqb t continuation); [reflexivity|].
  destruct (stof t); [apply IH | reflexivity].
Qed.

(** Reading a list that is cut into chunks: the lines of the chunks are
    taken from the file, and the values are those of all the tokens in
    their order. *)
Lemma read_list_continued chunks : forall toks0 sline values post,
  Forall (Forall (fun t => is_value_token t = true)) chunks ->
  Forall (fun t => t <> continuation) toks0 ->
  read_list conv (snd (continued chunks) ++ post) sline
    (toks0 ++ words (fst (continued chunks))) values
  = values' <- replay_list conv (toks0 ++ concat chunks) values ;;
    Returns (post, List.last (snd (continued chunks)) sline, values').
Proof.
  induction chunks as [|c chunks IH]; intros toks0 sline values post Hchunks Htoks0.
  - simpl. rewrite !app_nil_r. apply read_list_no_marker. exact Htoks0.
  - inversion Hchunks as [|? ? Hc Hchunks']; subst.
    destruct chunks as [|c' chunks].
    + simpl. rewrite app_nil_r.
      rewrite <- (str_app_nil_r (join c)), words_join;
        [|apply value_tokens_are_tokens; exact Hc | reflexivity].
      change (words "") with (@nil string). rewrite app_nil_r.
      apply read_list_no_marker. apply Forall_app. split; [exact Htoks0|].
      apply value_tokens_not_marker. exact Hc.
    + specialize (IH [] (fst (continued (c' :: chunks)))).
      change (continued (c :: c' :: chunks))
        with (let '(f, r) := continued (c' :: chunks) in
              (join c +:+ " " +:+ continuation, f :: r)).
      destruct (continued (c' :: chunks)) as [f r] eqn:Hcont. simpl fst. simpl snd.
      simpl fst in IH. simpl snd in IH.
      rewrite words_join; [|apply value_tokens_are_tokens; exact Hc | reflexivity].
      change (words (" " +:+ continuation)) with [continuation].
      rewrite app_assoc. change ((f :: r) ++ post) with (f :: (r ++ post)).
      rewrite read_list_continue;
        [|apply Forall_app; split;
          [exact Htoks0 | apply value_tokens_not_marker; exact Hc]].
      change (concat (c :: c' :: chunks)) with (c ++ concat (c' :: chunks)).
      rewrite (app_assoc toks0).
      rewrite (replay_list_app (toks0 ++ c) (concat (c' :: chunks))), obind_assoc.
      apply obind_ext. intros v.
      pose proof (IH v post Hchunks' (List.Forall_nil _)) as IHv.
      simpl app in IHv. rewrite IHv, last_cons_default. reflexivity.
Qed.

End Chunks.

(** * Reading the head of a record *)

Lemma drop_chars_app tok s : drop_chars (String.length tok) (tok +:+ s) = s.
Proof. induction tok as [|c tok IH]; [destruct s; reflexivity | exact IH]. Qed.

Lemma sentry_token w s :
  is_token w = true -> sentry {| buf := w +:+ s; failbit := false |} = Some (w +:+ s).
Proof.
  intros Hw. unfold sentry. simpl. rewrite (skipws_token _ _ Hw).
  destruct w; [discriminate | reflexivity].
Qed.

Lemma get_token_word w s :
  is_token w = true -> delimited s = true ->
  get_token {| buf := w +:+ s; failbit := false |}
  = (Some w, {| buf := s; failbit := false |}).
Proof.
  intros Hw Hs. unfold get_token. rewrite (sentry_token _ _ Hw).
  rewrite get_word_token; [reflexivity | | exact Hs].
  destruct w; [discriminate | exact Hw].
Qed.

Lemma get_token_space_word w s :
  is_token w = true -> delimited s = true ->
  get_token {| buf := " " +:+ w +:+ s; failbit := false |}
  = (Some w, {| buf := s; failbit := false |}).
Proof.
  intros Hw Hs. rewrite <- (get_token_word w s Hw Hs). reflexivity.
Qed.

Lemma extract_space_whole {A : Type} (get : string -> A * bool * nat) tok s :
  reads_whole get tok -> delimited s = true ->
  exists v,
    extract get {| buf := " " +:+ tok +:+ s; failbit := false |}
    = (Some v, {| buf := s; failbit := false |}).
Proof.
  intros [Htok [v Hget]] Hs. exists v. unfold extract.
  change (sentry {| buf := " " +:+ tok +:+ s; failbit := false |})
    with (sentry {| buf := tok +:+ s; failbit := false |}).
  rewrite (sentry_token _ _ Htok), (Hget s Hs), drop_chars_app. reflexivity.
Qed.

Lemma delimited_space s : delimited (" " +:+ s) = true.
Proof. reflexivity. Qed.

(** * A list record of the curve reader, split or not *)

Section CurveListRecord.
Context `{Numerics}.
Context {X : Type} (conv : flt -> X).
Variable head : string.
Variable values0 : curve.scan_state -> list X.
Variable update : curve.scan_state -> string -> list X -> curve.scan_state.

Hypothesis head_not_empty : forall f, String.eqb (head +:+ f) "" = false.
Hypothesis update_line : forall st s v,
  update st s v = curve.with_line s (update st "" v).
Hypothesis process_head : forall st f file,
  delimited f = true ->
  curve.process_line file (curve.with_line (head +:+ f) st)
  = r <- read_list conv file (head +:+ f) (words f) (values0 st) ;;
    Returns (Next, fst (fst r), update st (snd (fst r)) (snd r)).

Lemma curve_list_record chunks post ctrlPts0 weights0 st n m :
  Forall (Forall (fun t => is_value_token t = true)) chunks ->
  (length (split_lines head chunks ++ post) <= n)%nat ->
  (length (one_line head chunks :: post) <= m)%nat ->
  curve_result ctrlPts0 weights0 (curve.scan n (split_lines head chunks ++ post) st)
  = curve_result ctrlPts0 weights0 (curve.scan m (one_line head chunks :: post) st).
Proof.
  intros Hchunks Hn Hm. unfold split_lines, one_line in *. simpl in Hn, Hm.
  destruct n as [|n]; [lia|]. destruct m as [|m]; [lia|].
  simpl. rewrite !head_not_empty.
  rewrite process_head by apply delimited_continued.
  rewrite process_head
    by (rewrite <- (str_app_nil_r (join _)); apply delimited_join; reflexivity).
  pose proof (read_list_continued conv chunks [] (head +:+ fst (continued chunks))
                (values0 st) post Hchunks (List.Forall_nil _)) as Hsplit.
  simpl app in Hsplit. rewrite Hsplit. clear Hsplit.
  rewrite <- (str_app_nil_r (join (concat chunks))) at 2.
  rewrite words_join;
    [|apply value_tokens_are_tokens; apply Forall_concat; exact Hchunks | reflexivity].
  change (words "") with (@nil string). rewrite app_nil_r.
  rewrite read_list_no_marker
    by (apply value_tokens_not_marker; apply Forall_concat; exact Hchunks).
  unfold curve_result. rewrite !obind_assoc. apply obind_ext. intros v. simpl.
  rewrite (update_line st (List.last _ _)), (update_line st (head +:+ _)).
  pose proof (curve_scan_sline ctrlPts0 weights0) as Hsl. unfold curve_result in Hsl.
  rewrite !Hsl. f_equal. apply curve_scan_fuel.
  - rewrite length_app in Hn. lia.
  - lia.
Qed.

End CurveListRecord.

Section CurveRecords.
Context `{Numerics}.

Lemma curve_parm_u_head st f file :
  delimited f = true ->
  curve.process_line file (curve.with_line ("parm u" +:+ f) st)
  = r <- read_list T_of_flt file ("parm u" +:+ f) (words f) (curve.temp_knots st) ;;
    Returns (Next, fst (fst r),
      {| curve.sline := snd (fst r); curve.start := "u"; curve.deg := curve.deg st;
         curve.rational := curve.rational st;
         curve.parsed := set_parm (curve.parsed st);
         curve.ctrl_pts_buf := curve.ctrl_pts_buf st;
         curve.weights_buf := curve.weights_buf st;
         curve.indices := curve.indices st; curve.temp_knots := snd r |}).
Proof.
  intros Hf. unfold curve.process_line. simpl. unfold curve.on_parm.
  change (String " " ("u" +:+ f)) with (" " +:+ "u" +:+ f).
  rewrite (get_token_space_word "u" f eq_refl Hf). simpl.
  rewrite obind_assoc. apply obind_ext. intros [[file' sline'] knots']. reflexivity.
Qed.

Lemma curve_curv_head kmin kmax st f file :
  reads_whole get_T kmin -> reads_whole get_T kmax ->
  delimited f = true ->
  curve.process_line file
    (curve.with_line (("curv " +:+ kmin +:+ " " +:+ kmax) +:+ f) st)
  = r <- read_list int_of_flt file (("curv " +:+ kmin +:+ " " +:+ kmax) +:+ f)
           (words f) (curve.indices st) ;;
    Returns (Next, fst (fst r),
      {| curve.sline := snd (fst r); curve.start := "curv"; curve.deg := curve.deg st;
         curve.rational := curve.rational st;
         curve.parsed := set_curv (curve.parsed st);
         curve.ctrl_pts_buf := curve.ctrl_pts_buf st;
         curve.weights_buf := curve.weights_buf st;
         curve.indices := snd r; curve.temp_knots := curve.temp_knots st |}).
Proof.
  intros Hmin Hmax Hf. unfold curve.process_line. simpl. unfold curve.on_curv.
  simpl.
  assert (Hbuf : String " " (("" +:+ kmin +:+ " " +:+ kmax) +:+ f)
                 = " " +:+ kmin +:+ " " +:+ kmax +:+ f).
  { rewrite str_app_nil_l, !str_app_assoc. reflexivity. }
  rewrite Hbuf.
  destruct (extract_space_whole get_T kmin (" " +:+ kmax +:+ f) Hmin eq_refl)
    as [v1 ->].
  destruct (extract_space_whole get_T kmax f Hmax Hf) as [v2 ->].
  rewrite obind_assoc. apply obind_ext. intros [[file' sline'] indices']. reflexivity.
Qed.

End CurveRecords.


(** * A list record of the surface reader, split or not *)

Section SurfaceListRecord.
Context `{Numerics}.
Context {X : Type} (conv : flt -> X).
Variable head : string.
Variable values0 : surface.scan_state -> list X.
Variable update : surface.scan_state -> string -> list X -> surface.scan_state.

Hypothesis head_not_empty : forall f, String.eqb (head +:+ f) "" = false.
Hypothesis update_line : forall st s v,
  update st s v = surface.with_line s (update st "" v).
Hypothesis process_head : forall st f file,
  delimited f = true ->
  surface.process_line file (surface.with_line (head +:+ f) st)
  = r <- read_list conv file (head +:+ f) (words f) (values0 st) ;;
    Returns (Next, fst (fst r), update st (snd (fst r)) (snd r)).

Lemma surface_list_record chunks post ctrlPts0 weights0 st n m :
  Forall (Forall (fun t => is_value_token t = true)) chunks ->
  (length (split_lines head chunks ++ post) <= n)%nat ->
  (length (one_line head chunks :: post) <= m)%nat ->
  surface_result ctrlPts0 weights0
    (surface.scan n (split_lines head chunks ++ post) st)
  = surface_result ctrlPts0 weights0
      (surface.scan m (one_line head chunks :: post) st).
Proof.
  intros Hchunks Hn Hm. unfold split_lines, one_line in *. simpl in Hn, Hm.
  destruct n as [|n]; [lia|]. destruct m as [|m]; [lia|].
  simpl. rewrite !head_not_empty.
  rewrite process_head by apply delimited_continued.
  rewrite process_head
    by (rewrite <- (str_app_nil_r (join _)); apply delimited_join; reflexivity).
  pose proof (read_list_continued conv chunks [] (head +:+ fst (continued chunks))
                (values0 st) post Hchunks (List.Forall_nil _)) as Hsplit.
  simpl app in Hsplit. rewrite Hsplit. clear Hsplit.
  rewrite <- (str_app_nil_r (join (concat chunks))) at 2.
  rewrite words_join;
    [|apply value_tokens_are_tokens; apply Forall_concat; exact Hchunks | reflexivity].
  change (words "") with (@nil string). rewrite app_nil_r.
  rewrite read_list_no_marker
    by (apply value_tokens_not_marker; apply Forall_concat; exact Hchunks).
  unfold surface_result. rewrite !obind_assoc. apply obind_ext. intros v. simpl.
  rewrite (update_line st (List.last _ _)), (update_line st (head +:+ _)).
  pose proof (surface_scan_sline ctrlPts0 weights0) as Hsl.
  unfold surface_result in Hsl.
  rewrite !Hsl. f_equal. apply surface_scan_fuel.
  - rewrite length_app in Hn. lia.
  - lia.
Qed.

End SurfaceListRecord.

Section SurfaceRecords.
Context `{Numerics}.

Lemma surface_parm_u_head st f file :
  delimited f = true ->
  surface.process_line file (surface.with_line ("parm u" +:+ f) st)
  = r <- read_list T_of_flt file ("parm u" +:+ f) (words f) (surface.temp_uknots st) ;;
    Returns (Next, fst (fst r),
      {| surface.sline := snd (fst r); surface.start := "u";
         surface.deg_u := surface.deg_u st; surface.deg_v := surface.deg_v st;
         surface.rational := surface.rational st;
         surface.parsed := set_parm (surface.parsed st);
         surface.ctrl_pts_buf := surface.ctrl_pts_buf st;
         surface.weights_buf := surface.weights_buf st;
         surface.indices := surface.indices st;
         surface.temp_uknots := snd r;
         surface.temp_vknots := surface.temp_vknots st |}).
Proof.
  intros Hf. unfold surface.process_line. simpl. unfold surface.on_parm.
  change (String " " ("u" +:+ f)) with (" " +:+ "u" +:+ f).
  rewrite (get_token_space_word "u" f eq_refl Hf). simpl.
  rewrite obind_assoc. apply obind_ext. intros [[file' sline'] knots']. reflexivity.
Qed.

Lemma surface_parm_v_head st f file :
  delimited f = true ->
  surface.process_line file (surface.with_line ("parm v" +:+ f) st)
  = r <- read_list T_of_flt file ("parm v" +:+ f) (words f) (surface.temp_vknots st) ;;
    Returns (Next, fst (fst r),
      {| surface.sline := snd (fst r); surface.start := "v";
         surface.deg_u := surface.deg_u st; surface.deg_v := surface.deg_v st;
         surface.rational := surface.rational st;
         surface.parsed := set_parm (surface.parsed st);
         surface.ctrl_pts_buf := surface.ctrl_pts_buf st;
         surface.weights_buf := surface.weights_buf st;
         surface.indices := surface.indices st;
         surface.temp_uknots := surface.temp_uknots st;
         surface.temp_vknots := snd r |}).
Proof.
  intros Hf. unfold surface.process_line. simpl. unfold surface.on_parm.
  change (String " " ("v" +:+ f)) with (" " +:+ "v" +:+ f).
  rewrite (get_token_space_word "v" f eq_refl Hf). simpl.
  rewrite obind_assoc. apply obind_ext. intros [[file' sline'] knots']. reflexivity.
Qed.

Lemma surface_surf_head umin umax vmin vmax st f file :
  reads_whole get_T umin -> reads_whole get_T umax ->
  reads_whole get_T vmin -> reads_whole get_T vmax ->
  delimited f = true ->
  surface.process_line file
    (surface.with_line
       (("surf " +:+ umin +:+ " " +:+ umax +:+ " " +:+ vmin +:+ " " +:+ vmax) +:+ f) st)
  = r <- read_list int_of_flt file
           (("surf " +:+ umin +:+ " " +:+ umax +:+ " " +:+ vmin +:+ " " +:+ vmax) +:+ f)
           (words f) (surface.indices st) ;;
    Returns (Next, fst (fst r),
      {| surface.sline := snd (fst r); surface.start := "surf";
         surface.deg_u := surface.deg_u st; surface.deg_v := surface.deg_v st;
         surface.rational := surface.rational st;
         surface.parsed := set_curv (surface.parsed st);
         surface.ctrl_pts_buf := surface.ctrl_pts_buf st;
         surface.weights_buf := surface.weights_buf st;
         surface.indices := snd r;
         surface.temp_uknots := surface.temp_uknots st;
         surface.temp_vknots := surface.temp_vknots st |}).
Proof.
  intros Humin Humax Hvmin Hvmax Hf. unfold surface.process_line. simpl.
  unfold surface.on_surf. simpl.
  assert (Hbuf : String " "
                   (("" +:+ umin +:+ " " +:+ umax +:+ " " +:+ vmin +:+ " " +:+ vmax)
                    +:+ f)
                 = " " +:+ umin +:+ " " +:+ umax +:+ " " +:+ vmin +:+ " " +:+ vmax
                   +:+ f).
  { rewrite str_app_nil_l, !str_app_assoc. reflexivity. }
  rewrite Hbuf.
  destruct (extract_space_whole get_T umin
              (" " +:+ umax +:+ " " +:+ vmin +:+ " " +:+ vmax +:+ f) Humin eq_refl)
    as [v1 ->].
  destruct (extract_space_whole get_T umax (" " +:+ vmin +:+ " " +:+ vmax +:+ f)
              Humax eq_refl) as [v2 ->].
  destruct (extract_space_whole get_T vmin (" " +:+ vmax +:+ f) Hvmin eq_refl)
    as [v3 ->].
  destruct (extract_space_whole get_T vmax f Hvmax Hf) as [v4 ->].
  rewrite obind_assoc. apply obind_ext. intros [[file' sline'] indices']. reflexivity.
Qed.

End SurfaceRecords.

(** * Continuation lines *)

Section Continuation.
Context `{Numerics}.

(** C5.  A knot list or an index list that is cut into chunks, with the
    continuation marker at the end of every line but the last, is read
    exactly as the same list on one unbroken line: the two files give the
    same result, for the [parm u] and [curv] records of [curveReadOBJ] and
    for the [parm u], [parm v] and [surf] records of [surfaceReadOBJ].
    The tokens of the list are any tokens other than the marker, the knot
    bounds of [curv] and [surf] are tokens that are read as numbers, and
    the record is reached by the scan loop (no backslash before it). *)
Theorem continuation_lines (pre post : list string) (chunks : list (list string)) :
  Forall (fun l => no_backslash l = true) pre ->
  Forall (Forall (fun t => is_value_token t = true)) chunks ->
  (forall garbage deg0 ctrlPts0 weights0 rational0,
     curve.read_lines (pre ++ split_lines "parm u" chunks ++ post)
       garbage deg0 ctrlPts0 weights0 rational0
     = curve.read_lines (pre ++ one_line "parm u" chunks :: post)
         garbage deg0 ctrlPts0 weights0 rational0)
  /\ (forall kmin kmax garbage deg0 ctrlPts0 weights0 rational0,
     reads_whole get_T kmin -> reads_whole get_T kmax ->
     curve.read_lines
       (pre ++ split_lines ("curv " +:+ kmin +:+ " " +:+ kmax) chunks ++ post)
       garbage deg0 ctrlPts0 weights0 rational0
     = curve.read_lines
         (pre ++ one_line ("curv " +:+ kmin +:+ " " +:+ kmax) chunks :: post)
         garbage deg0 ctrlPts0 weights0 rational0)
  /\ (forall garbage deg_u0 deg_v0 ctrlPts0 weights0 rational0,
     surface.read_lines (pre ++ split_lines "parm u" chunks ++ post)
       garbage deg_u0 deg_v0 ctrlPts0 weights0 rational0
     = surface.read_lines (pre ++ one_line "parm u" chunks :: post)
         garbage deg_u0 deg_v0 ctrlPts0 weights0 rational0)
  /\ (forall garbage deg_u0 deg_v0 ctrlPts0 weights0 rational0,
     surface.read_lines (pre ++ split_lines "parm v" chunks ++ post)
       garbage deg_u0 deg_v0 ctrlPts0 weights0 rational0
     = surface.read_lines (pre ++ one_line "parm v" chunks :: post)
         garbage deg_u0 deg_v0 ctrlPts0 weights0 rational0)
  /\ (forall umin umax vmin vmax garbage deg_u0 deg_v0 ctrlPts0 weights0 rational0,
     reads_whole get_T umin -> reads_whole get_T umax ->
     reads_whole get_T vmin -> reads_whole get_T vmax ->
     surface.read_lines
       (pre ++ split_lines
                 ("surf " +:+ umin +:+ " " +:+ umax +:+ " " +:+ vmin +:+ " " +:+ vmax)
                 chunks ++ post)
       garbage deg_u0 deg_v0 ctrlPts0 weights0 rational0
     = surface.read_lines
         (pre ++ one_line
                   ("surf " +:+ umin +:+ " " +:+ umax +:+ " " +:+ vmin +:+ " " +:+ vmax)
                   chunks :: post)
         garbage deg_u0 deg_v0 ctrlPts0 weights0 rational0).
Proof.
  intros Hpre Hchunks. repeat split.
  - intros. apply (curve_scan_prefix ctrlPts0 weights0 pre); auto.
    intros st n m Hn Hm.
    apply (curve_list_record T_of_flt "parm u" curve.temp_knots
             (fun st s v =>
                {| curve.sline := s; curve.start := "u"; curve.deg := curve.deg st;
                   curve.rational := curve.rational st;
                   curve.parsed := set_parm (curve.parsed st);
                   curve.ctrl_pts_buf := curve.ctrl_pts_buf st;
                   curve.weights_buf := curve.weights_buf st;
                   curve.indices := curve.indices st; curve.temp_knots := v |}));
      auto.
    intros st' f file Hf. apply curve_parm_u_head. exact Hf.
  - intros kmin kmax garbage deg0 ctrlPts0 weights0 rational0 Hmin Hmax.
    apply (curve_scan_prefix ctrlPts0 weights0 pre); auto.
    intros st n m Hn Hm.
    apply (curve_list_record int_of_flt ("curv " +:+ kmin +:+ " " +:+ kmax)
             curve.indices
             (fun st s v =>
                {| curve.sline := s; curve.start := "curv"; curve.deg := curve.deg st;
                   curve.rational := curve.rational st;
                   curve.parsed := set_curv (curve.parsed st);
                   curve.ctrl_pts_buf := curve.ctrl_pts_buf st;
                   curve.weights_buf := curve.weights_buf st;
                   curve.indices := v; curve.temp_knots := curve.temp_knots st |}));
      auto.
    intros st' f file Hf. apply curve_curv_head; assumption.
  - intros. apply (surface_scan_prefix ctrlPts0 weights0 pre); auto.
    intros st n m Hn Hm.
    apply (surface_list_record T_of_flt "parm u" surface.temp_uknots
             (fun st s v =>
                {| surface.sline := s; surface.start := "u";
                   surface.deg_u := surface.deg_u st; surface.deg_v := surface.deg_v st;
                   surface.rational := surface.rational st;
                   surface.parsed := set_parm (surface.parsed st);
                   surface.ctrl_pts_buf := surface.ctrl_pts_buf st;
                   surface.weights_buf := surface.weights_buf st;
                   surface.indices := surface.indices st;
                   surface.temp_uknots := v;
                   surface.temp_vknots := surface.temp_vknots st |}));
      auto.
    intros st' f file Hf. apply surface_parm_u_head. exact Hf.
  - intros. apply (surface_scan_prefix ctrlPts0 weights0 pre); auto.
    intros st n m Hn Hm.
    apply (surface_list_record T_of_flt "parm v" surface.temp_vknots
             (fun st s v =>
                {| surface.sline := s; surface.start := "v";
                   surface.deg_u := surface.deg_u st; surface.deg_v := surface.deg_v st;
                   surface.rational := surface.rational st;
                   surface.parsed := set_parm (surface.parsed st);
                   surface.ctrl_pts_buf := surface.ctrl_pts_buf st;
                   surface.weights_buf := surface.weights_buf st;
                   surface.indices := surface.indices st;
                   surface.temp_uknots := surface.temp_uknots st;
                   surface.temp_vknots := v |}));
      auto.
    intros st' f file Hf. apply surface_parm_v_head. exact Hf.
  - intros umin umax vmin vmax garbage deg_u0 deg_v0 ctrlPts0 weights0 rational0
      Humin Humax Hvmin Hvmax.
    apply (surface_scan_prefix ctrlPts0 weights0 pre); auto.
    intros st n m Hn Hm.
    apply (surface_list_record int_of_flt
             ("surf " +:+ umin +:+ " " +:+ umax +:+ " " +:+ vmin +:+ " " +:+ vmax)
             surface.indices
             (fun st s v =>
                {| surface.sline := s; surface.start := "surf";
                   surface.deg_u := surface.deg_u st; surface.deg_v := surface.deg_v st;
                   surface.rational := surface.rational st;
                   surface.parsed := set_curv (surface.parsed st);
                   surface.ctrl_pts_buf := surface.ctrl_pts_buf st;
                   surface.weights_buf := surface.weights_buf st;
                   surface.indices := v;
                   surface.temp_uknots := surface.temp_uknots st;
                   surface.temp_vknots := surface.temp_vknots st |}));
      auto.
    intros st' f file Hf. apply surface_surf_head; assumption.
Qed.

End Continuation.

Lemma continuation_lines_witness :
  curve.read_lines
    (["v 0 0 0 1"; "cstype bspline"; "deg 0"; "curv 0 1 1"]
     ++ split_lines "parm u" [["0"]; ["1"]] ++ ["end"])
    no_garbage 0 [] [] false
  = curve.read_lines
      (["v 0 0 0 1"; "cstype bspline"; "deg 0"; "curv 0 1 1"]
       ++ one_line "parm u" [["0"]; ["1"]] :: ["end"])
      no_garbage 0 [] [] false.
Proof.
  assert (Hpre : Forall (fun l => no_backslash l = true)
                   ["v 0 0 0 1"; "cstype bspline"; "deg 0"; "curv 0 1 1"])
    by (repeat constructor).
  assert (Hchunks : Forall (Forall (fun t => is_value_token t = true)) [["0"]; ["1"]])
    by (repeat constructor).
  exact (proj1 (continuation_lines _ ["end"] _ Hpre Hchunks) no_garbage 0 [] [] false).
Defined.


(** * The lines of a written file *)

Lemma no_newline_app s t : no_newline (s +:+ t) = no_newline s && no_newline t.
Proof.
  induction s as [|c s IH]; [reflexivity|].
  rewrite str_app_cons. simpl. rewrite IH. apply andb_assoc.
Qed.

Lemma no_space_no_newline s : no_space s = true -> no_newline s = true.
Proof.
  induction s as [|c s IH]; [reflexivity|]. simpl. intros Hs.
  apply andb_true_iff in Hs as [Hc Hs]. rewrite (IH Hs), andb_true_r.
  destruct (Ascii.eqb c newline) eqn:Heq; [|reflexivity].
  apply Ascii.eqb_eq in Heq. subst c. discriminate Hc.
Qed.

Lemma token_no_newline t : is_token t = true -> no_newline t = true.
Proof. intros Ht. apply no_space_no_newline. destruct t; [discriminate | exact Ht]. Qed.

Lemma join_no_newline ts :
  Forall (fun t => is_token t = true) ts -> no_newline (join ts) = true.
Proof.
  induction 1 as [|t ts Ht _ IH]; [reflexivity|]. simpl.
  rewrite !no_newline_app, (token_no_newline _ Ht), IH. reflexivity.
Qed.

Lemma getlines_from_line l : forall cur rest,
  no_newline l = true ->
  getlines_from cur (l +:+ endl +:+ rest) = (cur +:+ l) :: getlines_from "" rest.
Proof.
  induction l as [|c l IH]; intros cur rest Hl.
  - rewrite str_app_nil_l, str_app_nil_r. reflexivity.
  - simpl in Hl. apply andb_true_iff in Hl as [Hc Hl]. rewrite str_app_cons. simpl.
    destruct (Ascii.eqb c newline); [discriminate|].
    rewrite (IH _ _ Hl), str_app_assoc. reflexivity.
Qed.

Lemma getlines_from_last l : forall cur,
  no_newline l = true -> getlines_from cur l = [cur +:+ l].
Proof.
  induction l as [|c l IH]; intros cur Hl.
  - rewrite str_app_nil_r. reflexivity.
  - simpl in Hl. apply andb_true_iff in Hl as [Hc Hl]. simpl.
    destruct (Ascii.eqb c newline); [discriminate|].
    rewrite (IH _ Hl), str_app_assoc. reflexivity.
Qed.

Lemma unlines_cons l ls : unlines (l :: ls) = l +:+ endl +:+ unlines ls.
Proof. reflexivity. Qed.

Lemma unlines_app ls1 ls2 : unlines (ls1 ++ ls2) = unlines ls1 +:+ unlines ls2.
Proof.
  induction ls1 as [|l ls1 IH]; [reflexivity|].
  simpl app. rewrite !unlines_cons, IH, !str_app_assoc. reflexivity.
Qed.

(** [getline] takes a written file apart into the lines written, the
    last of them without a newline. *)
Lemma getlines_unlines ls last :
  Forall (fun l => no_newline l = true) ls ->
  no_newline last = true ->
  getlines (unlines ls +:+ last) = ls ++ [last].
Proof.
  intros Hls Hlast. unfold getlines.
  induction Hls as [|l ls Hl _ IH].
  - rewrite str_app_nil_l. apply getlines_from_last. exact Hlast.
  - rewrite unlines_cons, !str_app_assoc, (getlines_from_line _ _ _ Hl), IH.
    reflexivity.
Qed.

Section WrittenLines.
Context `{Numerics}.

Lemma v_line_text p w : v_line p w = v_text p w +:+ endl.
Proof. unfold v_line, v_text. rewrite !str_app_assoc. reflexivity. Qed.

Lemma put_vertices_lines ctrlPts : forall i weights,
  (i + length ctrlPts <= length weights)%nat ->
  put_vertices ctrlPts i weights
  = Returns (unlines (zip_with v_text ctrlPts (drop i weights))).
Proof.
  induction ctrlPts as [|p ctrlPts IH]; intros i weights Hlen; [reflexivity|].
  simpl in Hlen. simpl put_vertices.
  destruct (lookup_lt_is_Some_2 weights i) as [w Hw]; [lia|].
  rewrite (at_index_lookup _ _ _ _ Hw). cbn [obind].
  rewrite IH by lia. cbn [obind].
  rewrite (drop_S _ _ _ Hw). cbn [zip_with].
  rewrite unlines_cons, v_line_text, str_app_assoc. reflexivity.
Qed.

Lemma put_indices_join count : forall i,
  put_indices count i
  = join (map (fun k => put_int (i + Z.of_nat k)) (seq 1 count)).
Proof.
  induction count as [|count IH]; intros i; [reflexivity|].
  simpl put_indices. rewrite IH. simpl. f_equal. f_equal.
  rewrite <- (seq_shift count 1), map_map. f_equal. apply map_ext. intros k.
  f_equal. lia.
Qed.

Lemma put_indices_upto count :
  put_indices count 0 = join (map put_int (indices_upto count)).
Proof. rewrite put_indices_join. unfold indices_upto. rewrite map_map. reflexivity. Qed.

Lemma put_knots_join knots : put_knots knots = join (map put_T knots).
Proof. induction knots as [|k knots IH]; [reflexivity|]. simpl. rewrite IH. reflexivity. Qed.

End WrittenLines.

(** * 32-bit counts *)

Lemma to_uint_small z : 0 <= z < 2 ^ 32 -> to_uint z = z.
Proof. intros Hz. unfold to_uint. apply Z.mod_small. exact Hz. Qed.

Lemma to_int_small z : - 2 ^ 31 <= z < 2 ^ 31 -> to_int z = z.
Proof. intros Hz. unfold to_int. rewrite Z.mod_small; lia. Qed.

(** [num_knots - deg - 1] when it does not wrap around. *)
Lemma count_of_knots (nk n d : Z) :
  nk = n + d + 1 -> 0 <= n -> 0 <= d -> nk < 2 ^ 31 ->
  to_uint (to_uint (to_uint (to_int nk) - d) - 1) = n.
Proof.
  intros -> Hn Hd Hnk. rewrite to_int_small by lia.
  rewrite (to_uint_small (n + d + 1)) by lia.
  replace (n + d + 1 - d) with (n + 1) by lia.
  rewrite (to_uint_small (n + 1)) by lia.
  replace (n + 1 - 1) with n by lia. apply to_uint_small. lia.
Qed.

Lemma to_int_to_uint z : to_int (to_uint z) = to_int z.
Proof.
  unfold to_int, to_uint.
  rewrite <- (Zplus_mod_idemp_l z (2 ^ 31) (2 ^ 32)). reflexivity.
Qed.

Section SavedCurve.
Context `{Numerics}.

(** What [curveSaveOBJ] writes for a curve that satisfies the length
    invariants. *)
Lemma curveSaveOBJ_text degree knots ctrlPts weights rational k_lo k_hi :
  0 <= degree ->
  Z.of_nat (length knots) = Z.of_nat (length ctrlPts) + degree + 1 ->
  Z.of_nat (length knots) < 2 ^ 31 ->
  length weights = length ctrlPts ->
  knots !! Z.to_nat degree = Some k_lo ->
  knots !! length ctrlPts = Some k_hi ->
  curveSaveOBJ degree knots ctrlPts weights rational
  = Returns (unlines (curve_lines degree knots ctrlPts weights rational k_lo k_hi)
             +:+ "end").
Proof.
  intros Hdeg Hlen Hsmall Hw Hlo Hhi. unfold curveSaveOBJ.
  rewrite put_vertices_lines by (rewrite Hw; apply Nat.le_refl). cbn [obind].
  replace degree with (Z.of_nat (Z.to_nat degree)) at 1 by lia.
  rewrite (at_index_lookup _ _ _ _ Hlo). cbn [obind].
  rewrite (count_of_knots _ (Z.of_nat (length ctrlPts)) degree Hlen) by lia.
  rewrite (at_index_lookup _ _ _ _ Hhi). cbn [obind].
  rewrite (to_int_small (Z.of_nat (length ctrlPts))) by lia.
  rewrite Nat2Z.id, put_indices_upto, put_knots_join.
  unfold curve_lines. rewrite unlines_app. cbn [drop].
  rewrite !unlines_cons. unfold cstype_line.
  destruct rational; cbn [negb]; rewrite !str_app_assoc; reflexivity.
Qed.

End SavedCurve.


(** * Reading back what was written: the records *)

Section ReadBack.
Context `{Numerics}.

Lemma extract_space_as {A : Type} (get : string -> A * bool * nat) tok v s :
  reads_as get tok v -> delimited s = true ->
  extract get {| buf := " " +:+ tok +:+ s; failbit := false |}
  = (Some v, {| buf := s; failbit := false |}).
Proof.
  intros [Htok Hget] Hs. unfold extract.
  change (sentry {| buf := " " +:+ tok +:+ s; failbit := false |})
    with (sentry {| buf := tok +:+ s; failbit := false |}).
  rewrite (sentry_token _ _ Htok), (Hget s Hs), drop_chars_app. reflexivity.
Qed.

Lemma extract_space_as_last {A : Type} (get : string -> A * bool * nat) tok v :
  reads_as get tok v ->
  extract get {| buf := " " +:+ tok; failbit := false |}
  = (Some v, {| buf := ""; failbit := false |}).
Proof.
  intros Hv. pose proof (extract_space_as get tok v "" Hv eq_refl) as He.
  rewrite str_app_nil_r in He. exact He.
Qed.

Lemma numeric_fields_cons tok d rest ds r :
  reads_as get_dbl tok d -> delimited rest = true ->
  numeric_fields rest ds r ->
  numeric_fields (" " +:+ tok +:+ rest) (d :: ds) r.
Proof.
  intros [Htok Hget] Hrest Hfields.
  assert (Hskip : skipws (" " +:+ tok +:+ rest) = tok +:+ rest)
    by (change (skipws (" " +:+ tok +:+ rest)) with (skipws (tok +:+ rest));
        apply skipws_token; exact Htok).
  apply (fields_cons _ d (String.length tok)).
  - rewrite Hskip. destruct tok; [discriminate | discriminate].
  - rewrite Hskip. apply Hget. exact Hrest.
  - rewrite Hskip, drop_chars_app. exact Hfields.
Qed.

(** The fields of a written [v] record. *)
Lemma v_text_fields (rt : T -> T) p w :
  Forall (fun c => coordinate_reads_back c (rt c)) (vec3_coords p ++ [w]) ->
  v_record {| buf := " " +:+ put_T (x p) +:+ " " +:+ put_T (y p) +:+ " "
                       +:+ put_T (z p) +:+ " " +:+ put_T w;
              failbit := false |}
  = (map_vec3 rt p, rt w).
Proof.
  intros Hall. unfold vec3_coords in Hall. simpl app in Hall.
  inversion Hall as [|? ? (dx & Hx & Ex) Hall1]; subst.
  inversion Hall1 as [|? ? (dy & Hy & Ey) Hall2]; subst.
  inversion Hall2 as [|? ? (dz & Hz & Ez) Hall3]; subst.
  inversion Hall3 as [|? ? (dw & Hw & Ew) _]; subst.
  rewrite (v_record_fields _ [dx; dy; dz; dw] "").
  - unfold vertex_of, weight_of, map_vec3. simpl. rewrite Ex, Ey, Ez, Ew. reflexivity.
  - apply numeric_fields_cons; [exact Hx | reflexivity |].
    apply numeric_fields_cons; [exact Hy | reflexivity |].
    apply numeric_fields_cons; [exact Hz | reflexivity |].
    rewrite <- (str_app_nil_r (put_T w)).
    apply numeric_fields_cons; [exact Hw | reflexivity |]. apply fields_nil.
  - left. reflexivity.
Qed.

Lemma curve_scan_next ctrlPts0 weights0 l rest st st' n :
  String.eqb l "" = false ->
  curve.process_line rest (curve.with_line l st) = Returns (Next, rest, st') ->
  (length (l :: rest) <= n)%nat ->
  curve_result ctrlPts0 weights0 (curve.scan n (l :: rest) st)
  = curve_result ctrlPts0 weights0 (curve.scan n rest st').
Proof.
  intros Hl Hp Hn. simpl in Hn. destruct n as [|n]; [lia|].
  simpl curve.scan at 1. rewrite Hl, Hp. cbn [obind]. f_equal.
  apply curve_scan_fuel; lia.
Qed.

Lemma curve_scan_break ctrlPts0 weights0 l rest st st' n :
  String.eqb l "" = false ->
  curve.process_line rest (curve.with_line l st) = Returns (Break, rest, st') ->
  (length (l :: rest) <= n)%nat ->
  curve_result ctrlPts0 weights0 (curve.scan n (l :: rest) st)
  = curve.build ctrlPts0 weights0 st'.
Proof.
  intros Hl Hp Hn. simpl in Hn. destruct n as [|n]; [lia|].
  simpl curve.scan. rewrite Hl, Hp. reflexivity.
Qed.

(** A line that starts with a keyword and a white space. *)
Lemma curve_process_keyword kw s file st :
  is_token kw = true -> delimited s = true ->
  curve.process_line file (curve.with_line (kw +:+ s) st)
  = let ssline := {| buf := s; failbit := false |} in
    let st := curve.with_start kw (curve.with_line (kw +:+ s) st) in
    if String.eqb kw "v" then Returns (Next, file, curve.on_v ssline st)
    else if String.eqb kw "cstype" then Returns (Next, file, curve.on_cstype ssline st)
    else if String.eqb kw "deg" then Returns (Next, file, curve.on_deg ssline st)
    else if String.eqb kw "curv" then
      r <- curve.on_curv file ssline st ;; Returns (Next, fst r, snd r)
    else if String.eqb kw "parm" then
      r <- curve.on_parm file ssline st ;; Returns (Next, fst r, snd r)
    else if String.eqb kw "end" then Returns (Break, file, st)
    else Returns (Next, file, st).
Proof.
  intros Hkw Hs. unfold curve.process_line.
  cbn [curve.sline curve.with_line]. rewrite (get_token_word kw s Hkw Hs).
  reflexivity.
Qed.

Lemma v_text_not_empty p w : String.eqb (v_text p w) "" = false.
Proof. reflexivity. Qed.

Lemma curve_v_line (rt : T -> T) p w file st :
  Forall (fun c => coordinate_reads_back c (rt c)) (vec3_coords p ++ [w]) ->
  curve.process_line file (curve.with_line (v_text p w) st)
  = Returns (Next, file,
      {| curve.sline := v_text p w; curve.start := "v"; curve.deg := curve.deg st;
         curve.rational := curve.rational st; curve.parsed := curve.parsed st;
         curve.ctrl_pts_buf := curve.ctrl_pts_buf st ++ [map_vec3 rt p];
         curve.weights_buf := curve.weights_buf st ++ [rt w];
         curve.indices := curve.indices st;
         curve.temp_knots := curve.temp_knots st |}).
Proof.
  intros Hall.
  change (v_text p w)
    with ("v" +:+ " " +:+ put_T (x p) +:+ " " +:+ put_T (y p) +:+ " "
          +:+ put_T (z p) +:+ " " +:+ put_T w).
  rewrite (curve_process_keyword "v"
             (" " +:+ put_T (x p) +:+ " " +:+ put_T (y p) +:+ " "
              +:+ put_T (z p) +:+ " " +:+ put_T w) file st eq_refl eq_refl).
  cbn [String.eqb Ascii.eqb Bool.eqb]. unfold curve.on_v.
  rewrite (v_text_fields rt p w Hall). reflexivity.
Qed.

(** The [v] records of a written file fill the vertex pool. *)
Lemma curve_scan_v_lines (rt : T -> T) ctrlPts0 weights0 ctrlPts :
  forall weights st rest n,
  length weights = length ctrlPts ->
  Forall (fun p => Forall (fun c => coordinate_reads_back c (rt c)) (vec3_coords p))
    ctrlPts ->
  Forall (fun c => coordinate_reads_back c (rt c)) weights ->
  (length (zip_with v_text ctrlPts weights ++ rest) <= n)%nat ->
  exists start',
    curve_result ctrlPts0 weights0
      (curve.scan n (zip_with v_text ctrlPts weights ++ rest) st)
    = curve_result ctrlPts0 weights0
        (curve.scan n rest
           {| curve.sline := ""; curve.start := start'; curve.deg := curve.deg st;
              curve.rational := curve.rational st; curve.parsed := curve.parsed st;
              curve.ctrl_pts_buf := curve.ctrl_pts_buf st ++ map (map_vec3 rt) ctrlPts;
              curve.weights_buf := curve.weights_buf st ++ map rt weights;
              curve.indices := curve.indices st;
              curve.temp_knots := curve.temp_knots st |}).
Proof.
  induction ctrlPts as [|p ctrlPts IH]; intros weights st rest n Hlen Hps Hws Hn.
  - destruct weights; [|discriminate]. exists (curve.start st). simpl.
    rewrite !app_nil_r. rewrite <- (curve_scan_sline ctrlPts0 weights0 "" n rest st).
    reflexivity.
  - destruct weights as [|w weights]; [discriminate|].
    inversion Hps as [|? ? Hp Hps']; subst. inversion Hws as [|? ? Hw Hws']; subst.
    simpl in Hlen. simpl zip_with in *. simpl app in *.
    erewrite curve_scan_next;
      [|apply v_text_not_empty
       |apply (curve_v_line rt); apply Forall_app; split; [exact Hp | constructor; auto]
       |exact Hn].
    simpl in Hn.
    edestruct (IH weights) as [start' IHeq]; [lia | exact Hps' | exact Hws' | |].
    2: { exists start'. rewrite IHeq. simpl. rewrite <- !app_assoc. reflexivity. }
    lia.
Qed.

End ReadBack.

(** * Reading back what was written: lists, the other records, the build *)

Lemma map_lookup {A B : Type} (f : A -> B) (l : list A) (i : nat) :
  map f l !! i = f <$> (l !! i).
Proof.
  revert i. induction l as [|a l IH]; intros [|i]; try reflexivity. apply IH.
Qed.

Lemma indices_upto_lookup n i :
  (i < n)%nat -> indices_upto n !! i = Some (Z.of_nat (S i)).
Proof.
  intros Hi. unfold indices_upto. rewrite map_lookup, lookup_seq_lt by exact Hi.
  reflexivity.
Qed.

Lemma indices_upto_length n : length (indices_upto n) = n.
Proof. unfold indices_upto. rewrite length_map, length_seq. reflexivity. Qed.

Section ReadBackLists.
Context `{Numerics}.

(** Tokens that [std::stof] converts are turned into their values. *)
Lemma replay_list_converts {A : Type} (conv : flt -> A) toks : forall vs values,
  Forall2 (fun t v => t <> continuation /\ exists f, stof t = Some f /\ conv f = v)
    toks vs ->
  replay_list conv toks values = Returns (values ++ vs).
Proof.
  induction toks as [|t toks IH]; intros vs values Hall.
  - inversion Hall; subst. rewrite app_nil_r. reflexivity.
  - inversion Hall as [|? v ? vs' [Ht (f & Hf & Hv)] Hall']; subst. simpl.
    destruct (String.eqb t continuation) eqn:Heq;
      [apply String.eqb_eq in Heq; contradiction|].
    rewrite Hf, (IH _ _ Hall'), <- app_assoc. reflexivity.
Qed.

Lemma read_list_converts {A : Type} (conv : flt -> A) toks vs file sline values :
  Forall2 (fun t v => is_value_token t = true
                      /\ exists f, stof t = Some f /\ conv f = v) toks vs ->
  read_list conv file sline (words (join toks)) values
  = Returns (file, sline, values ++ vs).
Proof.
  intros Hall.
  assert (Htoks : Forall (fun t => is_value_token t = true) toks).
  { clear -Hall. induction Hall as [|? ? ? ? [Ht _] _ IH]; constructor; auto. }
  rewrite <- (str_app_nil_r (join toks)), words_join;
    [|apply value_tokens_are_tokens; exact Htoks | reflexivity].
  change (words "") with (@nil string). rewrite app_nil_r.
  rewrite read_list_no_marker by (apply value_tokens_not_marker; exact Htoks).
  rewrite (replay_list_converts conv toks vs); [reflexivity|].
  eapply Forall2_impl; [exact Hall|]. intros t v [Ht Hf]. split; [|exact Hf].
  apply value_token_not_marker. exact Ht.
Qed.

Lemma index_tokens_convert n :
  (forall i, 1 <= i <= Z.of_nat n -> index_reads_back i) ->
  Forall2 (fun t v => is_value_token t = true
                      /\ exists f, stof t = Some f /\ int_of_flt f = v)
    (map put_int (indices_upto n)) (indices_upto n).
Proof.
  intros Hi. unfold indices_upto.
  assert (Hall : Forall (fun k => 1 <= Z.of_nat k <= Z.of_nat n)%Z (seq 1 n)).
  { apply Forall_forall. intros k Hk. apply elem_of_seq in Hk. lia. }
  induction Hall as [|k ks Hk _ IH]; simpl; constructor; [|exact IH].
  apply Hi. exact Hk.
Qed.

Lemma knot_tokens_convert (rt : T -> T) knots :
  Forall (fun k => knot_reads_back k (rt k)) knots ->
  Forall2 (fun t v => is_value_token t = true
                      /\ exists f, stof t = Some f /\ T_of_flt f = v)
    (map put_T knots) (map rt knots).
Proof.
  induction 1 as [|k knots (Ht & Hf & _) _ IH]; simpl; constructor; auto.
Qed.

Lemma curve_cstype_line (rational : bool) file st :
  curve.process_line file
    (curve.with_line (if rational then "cstype rat bspline" else "cstype bspline") st)
  = Returns (Next, file,
      {| curve.sline := (if rational then "cstype rat bspline" else "cstype bspline");
         curve.start := "cstype"; curve.deg := curve.deg st;
         curve.rational := rational; curve.parsed := set_cstype (curve.parsed st);
         curve.ctrl_pts_buf := curve.ctrl_pts_buf st;
         curve.weights_buf := curve.weights_buf st;
         curve.indices := curve.indices st;
         curve.temp_knots := curve.temp_knots st |}).
Proof. destruct rational; reflexivity. Qed.

Lemma curve_deg_line degree file st :
  degree_reads_back degree ->
  curve.process_line file (curve.with_line ("deg " +:+ put_uint degree) st)
  = Returns (Next, file,
      {| curve.sline := "deg " +:+ put_uint degree;
         curve.start := "deg"; curve.deg := degree;
         curve.rational := curve.rational st; curve.parsed := set_deg (curve.parsed st);
         curve.ctrl_pts_buf := curve.ctrl_pts_buf st;
         curve.weights_buf := curve.weights_buf st;
         curve.indices := curve.indices st;
         curve.temp_knots := curve.temp_knots st |}).
Proof.
  intros Hd.
  change ("deg " +:+ put_uint degree) with ("deg" +:+ " " +:+ put_uint degree).
  rewrite (curve_process_keyword "deg" (" " +:+ put_uint degree) file st eq_refl eq_refl).
  cbn [String.eqb Ascii.eqb Bool.eqb]. unfold curve.on_deg.
  rewrite (extract_space_as_last get_uint _ degree Hd). reflexivity.
Qed.

Lemma curve_curv_line k_lo k_hi n file st :
  reads_whole get_T (put_T k_lo) -> reads_whole get_T (put_T k_hi) ->
  (forall i, 1 <= i <= Z.of_nat n -> index_reads_back i) ->
  curve.process_line file
    (curve.with_line
       (("curv " +:+ put_T k_lo +:+ " " +:+ put_T k_hi)
        +:+ join (map put_int (indices_upto n))) st)
  = Returns (Next, file,
      {| curve.sline := ("curv " +:+ put_T k_lo +:+ " " +:+ put_T k_hi)
                        +:+ join (map put_int (indices_upto n));
         curve.start := "curv"; curve.deg := curve.deg st;
         curve.rational := curve.rational st;
         curve.parsed := set_curv (curve.parsed st);
         curve.ctrl_pts_buf := curve.ctrl_pts_buf st;
         curve.weights_buf := curve.weights_buf st;
         curve.indices := curve.indices st ++ indices_upto n;
         curve.temp_knots := curve.temp_knots st |}).
Proof.
  intros Hlo Hhi Hi.
  rewrite curve_curv_head;
    [|assumption..
     |rewrite <- (str_app_nil_r (join _)); apply delimited_join; reflexivity].
  rewrite (read_list_converts int_of_flt _ (indices_upto n))
    by (apply index_tokens_convert; exact Hi).
  reflexivity.
Qed.

Lemma curve_parm_line (rt : T -> T) knots file st :
  Forall (fun k => knot_reads_back k (rt k)) knots ->
  curve.process_line file (curve.with_line ("parm u" +:+ join (map put_T knots)) st)
  = Returns (Next, file,
      {| curve.sline := "parm u" +:+ join (map put_T knots);
         curve.start := "u"; curve.deg := curve.deg st;
         curve.rational := curve.rational st;
         curve.parsed := set_parm (curve.parsed st);
         curve.ctrl_pts_buf := curve.ctrl_pts_buf st;
         curve.weights_buf := curve.weights_buf st;
         curve.indices := curve.indices st;
         curve.temp_knots := curve.temp_knots st ++ map rt knots |}).
Proof.
  intros Hk.
  rewrite curve_parm_u_head
    by (rewrite <- (str_app_nil_r (join _)); apply delimited_join; reflexivity).
  rewrite (read_list_converts T_of_flt _ (map rt knots))
    by (apply knot_tokens_convert; exact Hk).
  reflexivity.
Qed.

Lemma curve_end_line file st :
  curve.process_line file (curve.with_line "end" st)
  = Returns (Break, file, curve.with_start "end" (curve.with_line "end" st)).
Proof. reflexivity. Qed.

(** With the indices 1 .. n, the loop of the build copies the vertex pool
    and the weights. *)
Lemma curve_fill_identity st n :
  curve.indices st = indices_upto n ->
  length (curve.ctrl_pts_buf st) = n -> length (curve.weights_buf st) = n ->
  forall count i a b,
  (i + count = n)%nat -> length a = n -> length b = n ->
  curve.fill st count i (a, b)
  = Returns (take i a ++ drop i (curve.ctrl_pts_buf st),
             take i b ++ drop i (curve.weights_buf st)).
Proof.
  intros Hidx Hcp Hw. induction count as [|count IH]; intros i a b Hi Ha Hb.
  - simpl. rewrite !take_ge, !drop_ge by lia. rewrite !app_nil_r. reflexivity.
  - simpl. unfold curve.fill_step.
    replace (i <? length a)%nat with true by (symmetry; apply Nat.ltb_lt; lia).
    cbn [negb]. rewrite Hidx.
    rewrite (at_index_lookup _ _ _ _ (indices_upto_lookup n i ltac:(lia))).
    cbn [obind]. replace (Z.of_nat (S i) - 1) with (Z.of_nat i) by lia.
    destruct (lookup_lt_is_Some_2 (curve.ctrl_pts_buf st) i) as [p Hp]; [lia|].
    destruct (lookup_lt_is_Some_2 (curve.weights_buf st) i) as [w Hwi]; [lia|].
    rewrite (at_index_lookup _ _ _ _ Hp), (at_index_lookup _ _ _ _ Hwi). cbn [obind].
    rewrite IH by (rewrite ?length_insert; lia).
    rewrite (take_S_r (<[i:=p]> a) i p) by (apply list_lookup_insert_eq; lia).
    rewrite (take_S_r (<[i:=w]> b) i w) by (apply list_lookup_insert_eq; lia).
    rewrite !take_insert_ge by lia.
    rewrite (drop_S _ _ _ Hp), (drop_S _ _ _ Hwi), <- !app_assoc. reflexivity.
Qed.

End ReadBackLists.


(** * The round trip of a curve *)

Section CurveRoundTrip.
Context `{Numerics}.

Lemma curve_build_identity ctrlPts0 weights0 st n :
  curve.check_parsed (curve.parsed st) = Returns tt ->
  curve.indices st = indices_upto n ->
  length (curve.ctrl_pts_buf st) = n -> length (curve.weights_buf st) = n ->
  Z.of_nat (length (curve.temp_knots st)) = Z.of_nat n + curve.deg st + 1 ->
  0 <= curve.deg st ->
  Z.of_nat (length (curve.temp_knots st)) < 2 ^ 31 ->
  curve.build ctrlPts0 weights0 st
  = Returns {| curve.r_deg := curve.deg st; curve.r_knots := curve.temp_knots st;
               curve.r_ctrlPts := curve.ctrl_pts_buf st;
               curve.r_weights := curve.weights_buf st;
               curve.r_rational := curve.rational st |}.
Proof.
  intros Hcheck Hidx Hcp Hw Hlen Hdeg Hsmall. unfold curve.build.
  rewrite Hcheck. cbn [obind].
  rewrite <- to_int_to_uint, (count_of_knots _ (Z.of_nat n) _ Hlen) by lia.
  rewrite to_int_small by lia. unfold vector_resize.
  replace (Z.of_nat n <? 0) with false by (symmetry; apply Z.ltb_ge; lia).
  cbn [obind]. rewrite Nat2Z.id.
  rewrite (curve_fill_identity st n Hidx Hcp Hw n 0)
    by (rewrite ?length_resize; lia).
  reflexivity.
Qed.

Lemma coordinate_token x x' : coordinate_reads_back x x' -> is_token (put_T x) = true.
Proof. intros (d & [Ht _] & _). exact Ht. Qed.

Lemma v_text_no_newline (rt : T -> T) p w :
  Forall (fun c => coordinate_reads_back c (rt c)) (vec3_coords p) ->
  coordinate_reads_back w (rt w) ->
  no_newline (v_text p w) = true.
Proof.
  intros Hp Hw. unfold vec3_coords in Hp.
  inversion Hp as [|? ? Hx Hp1]; subst. inversion Hp1 as [|? ? Hy Hp2]; subst.
  inversion Hp2 as [|? ? Hz _]; subst.
  unfold v_text. rewrite !no_newline_app.
  rewrite (token_no_newline _ (coordinate_token _ _ Hx)).
  rewrite (token_no_newline _ (coordinate_token _ _ Hy)).
  rewrite (token_no_newline _ (coordinate_token _ _ Hz)).
  rewrite (token_no_newline _ (coordinate_token _ _ Hw)). reflexivity.
Qed.

Lemma v_texts_no_newline (rt : T -> T) ctrlPts : forall weights,
  Forall (fun p => Forall (fun c => coordinate_reads_back c (rt c)) (vec3_coords p))
    ctrlPts ->
  Forall (fun c => coordinate_reads_back c (rt c)) weights ->
  Forall (fun l => no_newline l = true) (zip_with v_text ctrlPts weights).
Proof.
  induction ctrlPts as [|p ctrlPts IH]; intros [|w weights] Hps Hws; simpl;
    try constructor.
  - inversion Hps; inversion Hws; subst. eapply v_text_no_newline; eassumption.
  - inversion Hps; inversion Hws; subst. apply IH; assumption.
Qed.

Lemma tokens_of_knots (rt : T -> T) knots :
  Forall (fun k => knot_reads_back k (rt k)) knots ->
  Forall (fun t => is_token t = true) (map put_T knots).
Proof.
  induction 1 as [|k knots (Ht & _) _ IH]; simpl; constructor; auto.
  apply value_token_is_token. exact Ht.
Qed.

Lemma tokens_of_indices n :
  (forall i, 1 <= i <= Z.of_nat n -> index_reads_back i) ->
  Forall (fun t => is_token t = true) (map put_int (indices_upto n)).
Proof.
  intros Hi. pose proof (index_tokens_convert n Hi) as Hall.
  remember (indices_upto n) as l eqn:Hl. clear Hl Hi.
  induction l as [|i l IH]; simpl; constructor.
  - inversion Hall as [|? ? ? ? [Ht _] _]; subst. apply value_token_is_token. exact Ht.
  - inversion Hall; subst. apply IH. assumption.
Qed.

Lemma curve_lines_no_newline (rt_c rt_k : T -> T) degree knots ctrlPts weights
    rational k_lo k_hi :
  Forall (fun p => Forall (fun c => coordinate_reads_back c (rt_c c)) (vec3_coords p))
    ctrlPts ->
  Forall (fun c => coordinate_reads_back c (rt_c c)) weights ->
  Forall (fun k => knot_reads_back k (rt_k k)) knots ->
  degree_reads_back degree ->
  (forall i, 1 <= i <= Z.of_nat (length ctrlPts) -> index_reads_back i) ->
  reads_whole get_T (put_T k_lo) -> reads_whole get_T (put_T k_hi) ->
  Forall (fun l => no_newline l = true)
    (curve_lines degree knots ctrlPts weights rational k_lo k_hi).
Proof.
  intros Hps Hws Hks Hd Hi [Hlo _] [Hhi _]. unfold curve_lines.
  apply Forall_app. split; [apply (v_texts_no_newline rt_c); assumption|].
  repeat constructor.
  - destruct rational; reflexivity.
  - rewrite no_newline_app. destruct Hd as [Hd _].
    rewrite (token_no_newline _ Hd). reflexivity.
  - rewrite !no_newline_app, (token_no_newline _ Hlo), (token_no_newline _ Hhi).
    rewrite (join_no_newline _ (tokens_of_indices _ Hi)). reflexivity.
  - rewrite no_newline_app, (join_no_newline _ (tokens_of_knots rt_k _ Hks)).
    reflexivity.
Qed.

(** Reading the lines that [curveSaveOBJ] has written gives back the
    degree, the knots as [std::stof] converts them, the control points and
    the weights as [operator>>] converts them, and the flag. *)
Lemma curve_lines_read_back (rt_c rt_k : T -> T) degree knots ctrlPts weights
    rational k_lo k_hi garbage deg0 ctrlPts0 weights0 rational0 :
  0 <= degree ->
  Z.of_nat (length knots) = Z.of_nat (length ctrlPts) + degree + 1 ->
  Z.of_nat (length knots) < 2 ^ 31 ->
  length weights = length ctrlPts ->
  Forall (fun p => Forall (fun c => coordinate_reads_back c (rt_c c)) (vec3_coords p))
    ctrlPts ->
  Forall (fun c => coordinate_reads_back c (rt_c c)) weights ->
  Forall (fun k => knot_reads_back k (rt_k k)) knots ->
  degree_reads_back degree ->
  (forall i, 1 <= i <= Z.of_nat (length ctrlPts) -> index_reads_back i) ->
  reads_whole get_T (put_T k_lo) -> reads_whole get_T (put_T k_hi) ->
  curve.read_lines
    (curve_lines degree knots ctrlPts weights rational k_lo k_hi ++ ["end"])
    garbage deg0 ctrlPts0 weights0 rational0
  = Returns {| curve.r_deg := degree; curve.r_knots := map rt_k knots;
               curve.r_ctrlPts := map (map_vec3 rt_c) ctrlPts;
               curve.r_weights := map rt_c weights;
               curve.r_rational := rational |}.
Proof.
  intros Hdeg Hlen Hsmall Hw Hps Hws Hks Hd Hi Hlo Hhi.
  unfold curve.read_lines.
  change (curve_result ctrlPts0 weights0
            (curve.scan
               (length (curve_lines degree knots ctrlPts weights rational k_lo k_hi
                        ++ ["end"]))
               (curve_lines degree knots ctrlPts weights rational k_lo k_hi ++ ["end"])
               (curve.initial garbage deg0 rational0))
          = Returns {| curve.r_deg := degree; curve.r_knots := map rt_k knots;
                       curve.r_ctrlPts := map (map_vec3 rt_c) ctrlPts;
                       curve.r_weights := map rt_c weights;
                       curve.r_rational := rational |}).
  unfold curve_lines. rewrite <- app_assoc. simpl app.
  remember (length _) as n eqn:Hn in |- *.
  rewrite length_app in Hn. simpl in Hn.
  destruct (curve_scan_v_lines rt_c ctrlPts0 weights0 ctrlPts weights
              (curve.initial garbage deg0 rational0)
              [ (if rational then "cstype rat bspline" else "cstype bspline");
                "deg " +:+ put_uint degree;
                ("curv " +:+ put_T k_lo +:+ " " +:+ put_T k_hi)
                  +:+ join (map put_int (indices_upto (length ctrlPts)));
                "parm u" +:+ join (map put_T knots); "end" ] n Hw Hps Hws)
    as [start' ->]; [rewrite length_app; simpl; lia|].
  erewrite curve_scan_next;
    [|destruct rational; reflexivity | apply curve_cstype_line | simpl; lia].
  erewrite curve_scan_next;
    [|reflexivity | apply curve_deg_line; exact Hd | simpl; lia].
  erewrite curve_scan_next;
    [|reflexivity | apply curve_curv_line; assumption | simpl; lia].
  erewrite curve_scan_next;
    [|reflexivity | apply (curve_parm_line rt_k); exact Hks | simpl; lia].
  erewrite curve_scan_break; [|reflexivity | apply curve_end_line | simpl; lia].
  rewrite (curve_build_identity _ _ _ (length ctrlPts)).
  - reflexivity.
  - destruct garbage; reflexivity.
  - reflexivity.
  - simpl. rewrite length_map. reflexivity.
  - simpl. rewrite length_map. exact Hw.
  - simpl. rewrite length_map. exact Hlen.
  - exact Hdeg.
  - simpl. rewrite length_map. exact Hsmall.
Qed.

(** The round trip through [internal::curveSaveOBJ] and
    [internal::curveReadOBJ]. *)
Lemma curve_internal_round_trip (rt_c rt_k : T -> T) degree knots ctrlPts weights
    rational :
  0 <= degree ->
  Z.of_nat (length knots) = Z.of_nat (length ctrlPts) + degree + 1 ->
  Z.of_nat (length knots) < 2 ^ 31 ->
  length weights = length ctrlPts ->
  Forall (fun p => Forall (fun c => coordinate_reads_back c (rt_c c)) (vec3_coords p))
    ctrlPts ->
  Forall (fun c => coordinate_reads_back c (rt_c c)) weights ->
  Forall (fun k => knot_reads_back k (rt_k k)) knots ->
  degree_reads_back degree ->
  (forall i, 1 <= i <= Z.of_nat (length ctrlPts) -> index_reads_back i) ->
  exists text,
    curveSaveOBJ degree knots ctrlPts weights rational = Returns text
    /\ forall filename garbage deg0 ctrlPts0 weights0 rational0,
         curve.curveReadOBJ filename (Some text) garbage deg0 ctrlPts0 weights0
           rational0
         = Returns {| curve.r_deg := degree; curve.r_knots := map rt_k knots;
                      curve.r_ctrlPts := map (map_vec3 rt_c) ctrlPts;
                      curve.r_weights := map rt_c weights;
                      curve.r_rational := rational |}.
Proof.
  intros Hdeg Hlen Hsmall Hw Hps Hws Hks Hd Hi.
  destruct (lookup_lt_is_Some_2 knots (Z.to_nat degree)) as [k_lo Hlo]; [lia|].
  destruct (lookup_lt_is_Some_2 knots (length ctrlPts)) as [k_hi Hhi]; [lia|].
  assert (Hblo : reads_whole get_T (put_T k_lo)).
  { apply list_elem_of_lookup_2 in Hlo. rewrite Forall_forall in Hks.
    destruct (Hks _ Hlo) as (_ & _ & Hb). exact Hb. }
  assert (Hbhi : reads_whole get_T (put_T k_hi)).
  { apply list_elem_of_lookup_2 in Hhi. rewrite Forall_forall in Hks.
    destruct (Hks _ Hhi) as (_ & _ & Hb). exact Hb. }
  eexists. split.
  - apply (curveSaveOBJ_text degree knots ctrlPts weights rational k_lo k_hi);
      assumption.
  - intros filename garbage deg0 ctrlPts0 weights0 rational0. unfold curve.curveReadOBJ.
    rewrite getlines_unlines;
      [|apply (curve_lines_no_newline rt_c rt_k); assumption
       |reflexivity].
    apply (curve_lines_read_back rt_c rt_k); assumption.
Qed.

End CurveRoundTrip.


(** * The grid of a surface, column after column *)

Lemma flat_map_blocks_lookup {A : Type} (f : nat -> list A) (m : nat) :
  forall n s j i,
  (forall k, (s <= k < s + n)%nat -> length (f k) = m) ->
  (j < n)%nat -> (i < m)%nat ->
  flat_map f (seq s n) !! (j * m + i)%nat = f (s + j)%nat !! i.
Proof.
  induction n as [|n IH]; intros s j i Hlen Hj Hi; [lia|].
  simpl. destruct j as [|j].
  - rewrite Nat.add_0_r. apply lookup_app_l. rewrite Hlen by lia. exact Hi.
  - assert (Hs : length (f s) = m) by (apply Hlen; lia).
    rewrite lookup_app_r by (rewrite Hs; simpl; lia).
    rewrite Hs.
    replace (S j * m + i - m)%nat with (j * m + i)%nat by (simpl; lia).
    rewrite IH; [|intros k Hk; apply Hlen; lia | lia | exact Hi].
    replace (S s + j)%nat with (s + S j)%nat by lia. reflexivity.
Qed.

Lemma flat_map_blocks_length {A : Type} (f : nat -> list A) (m : nat) :
  forall n s,
  (forall k, (s <= k < s + n)%nat -> length (f k) = m) ->
  length (flat_map f (seq s n)) = (n * m)%nat.
Proof.
  induction n as [|n IH]; intros s Hlen; [reflexivity|].
  simpl. rewrite length_app, Hlen, IH; [lia | intros k Hk; apply Hlen; lia | lia].
Qed.

Section Columns.
Context {A : Type}.
Variable a : array2 A.
Hypothesis well_formed : length (data a) = (rows a * cols a)%nat.

Lemma cell_defined i j :
  (i < rows a)%nat -> (j < cols a)%nat ->
  exists v, data a !! (i * cols a + j)%nat = Some v.
Proof.
  intros Hi Hj. apply lookup_lt_is_Some_2. rewrite well_formed. nia.
Qed.

Lemma cells_cell j k :
  (j < cols a)%nat -> (k < rows a)%nat ->
  length (option_list (data a !! (k * cols a + j)%nat)) = 1%nat.
Proof. intros Hj Hk. destruct (cell_defined k j Hk Hj) as [v ->]. reflexivity. Qed.

Lemma cells_length j count i :
  (j < cols a)%nat -> (i + count <= rows a)%nat ->
  length (cells a j (seq i count)) = count.
Proof.
  intros Hj Hi. unfold cells.
  rewrite (flat_map_blocks_length _ 1); [lia|]. intros k Hk. apply cells_cell; lia.
Qed.

Lemma column_length j : (j < cols a)%nat -> length (column a j) = rows a.
Proof. intros Hj. apply cells_length; [exact Hj | lia]. Qed.

Lemma column_lookup i j :
  (i < rows a)%nat -> (j < cols a)%nat ->
  column a j !! i = data a !! (i * cols a + j)%nat.
Proof.
  intros Hi Hj. unfold column, cells.
  pose proof (flat_map_blocks_lookup
                (fun i => option_list (data a !! (i * cols a + j)%nat)) 1
                (rows a) 0 i 0) as Hl.
  rewrite Nat.mul_1_r, Nat.add_0_r in Hl. rewrite Hl; [|intros k Hk; apply cells_cell; lia|lia..].
  simpl. destruct (cell_defined i j Hi Hj) as [v ->]. reflexivity.
Qed.

Lemma column_major_length : length (column_major a) = (rows a * cols a)%nat.
Proof.
  unfold column_major. rewrite (flat_map_blocks_length _ (rows a)); [lia|].
  intros k Hk. apply column_length. lia.
Qed.

(** Cell [(i, j)] is written as the vertex number [j * rows + i], counted
    from 0. *)
Lemma column_major_lookup i j :
  (i < rows a)%nat -> (j < cols a)%nat ->
  column_major a !! (j * rows a + i)%nat = data a !! (i * cols a + j)%nat.
Proof.
  intros Hi Hj. unfold column_major.
  rewrite (flat_map_blocks_lookup _ (rows a));
    [apply column_lookup; assumption | intros k Hk; apply column_length; lia | lia..].
Qed.

End Columns.

Section SavedSurface.
Context `{Numerics}.
Variable ctrlPts : array2 vec3.
Variable weights : array2 T.
Hypothesis ctrlPts_well_formed : length (data ctrlPts) = (rows ctrlPts * cols ctrlPts)%nat.
Hypothesis weights_rows : rows weights = rows ctrlPts.
Hypothesis weights_cols : cols weights = cols ctrlPts.
Hypothesis weights_well_formed : length (data weights) = (rows ctrlPts * cols ctrlPts)%nat.

Lemma put_column_lines j :
  (j < cols ctrlPts)%nat ->
  forall count i, (i + count <= rows ctrlPts)%nat ->
  put_column ctrlPts weights count i j
  = Returns (unlines (zip_with v_text (cells ctrlPts j (seq i count))
                                      (cells weights j (seq i count)))).
Proof.
  intros Hj. induction count as [|count IH]; intros i Hi; [reflexivity|].
  simpl put_column. unfold array2_get. rewrite weights_rows, weights_cols.
  replace (i <? rows ctrlPts)%nat with true by (symmetry; apply Nat.ltb_lt; lia).
  replace (j <? cols ctrlPts)%nat with true by (symmetry; apply Nat.ltb_lt; lia).
  cbn [andb].
  destruct (cell_defined ctrlPts ctrlPts_well_formed i j) as [p Hp]; [lia | exact Hj |].
  destruct (cell_defined weights) with (i := i) (j := j) as [w Hw];
    [rewrite weights_rows, weights_cols; exact weights_well_formed
    |rewrite weights_rows; lia | rewrite weights_cols; exact Hj |].
  rewrite weights_cols in Hw. rewrite Hp, Hw. cbn [obind].
  rewrite IH by lia. cbn [obind].
  unfold cells. cbn [seq flat_map]. rewrite weights_cols, Hp, Hw.
  change (option_list (Some p)) with [p]. change (option_list (Some w)) with [w].
  cbn [app zip_with].
  rewrite unlines_cons, v_line_text, str_app_assoc. reflexivity.
Qed.

Lemma put_grid_lines :
  forall count j, (j + count <= cols ctrlPts)%nat ->
  put_grid ctrlPts weights count j
  = Returns (unlines (zip_with v_text (flat_map (column ctrlPts) (seq j count))
                                      (flat_map (column weights) (seq j count)))).
Proof.
  induction count as [|count IH]; intros j Hj; [reflexivity|].
  simpl put_grid. rewrite put_column_lines by lia. cbn [obind].
  rewrite IH by lia. cbn [obind]. cbn [seq flat_map].
  rewrite zip_with_app.
  - rewrite unlines_app. unfold column. rewrite weights_rows. reflexivity.
  - rewrite !column_length;
      [symmetry; exact weights_rows
      |rewrite weights_rows, weights_cols; exact weights_well_formed
      |rewrite weights_cols; lia
      |exact ctrlPts_well_formed | lia].
Qed.

(** What [surfaceSaveOBJ] writes for a surface with a grid that is not
    empty and that satisfies the length invariants. *)
Lemma surfaceSaveOBJ_text deg_u deg_v knots_u knots_v rational
    ku_lo ku_hi kv_lo kv_hi :
  (0 < rows ctrlPts)%nat -> (0 < cols ctrlPts)%nat ->
  Z.of_nat (rows ctrlPts * cols ctrlPts) < 2 ^ 31 ->
  0 <= deg_u -> 0 <= deg_v ->
  Z.of_nat (length knots_u) = Z.of_nat (rows ctrlPts) + deg_u + 1 ->
  Z.of_nat (length knots_v) = Z.of_nat (cols ctrlPts) + deg_v + 1 ->
  Z.of_nat (length knots_u) < 2 ^ 31 ->
  Z.of_nat (length knots_v) < 2 ^ 31 ->
  knots_u !! Z.to_nat deg_u = Some ku_lo ->
  knots_u !! rows ctrlPts = Some ku_hi ->
  knots_v !! Z.to_nat deg_v = Some kv_lo ->
  knots_v !! cols ctrlPts = Some kv_hi ->
  surfaceSaveOBJ deg_u deg_v knots_u knots_v ctrlPts weights rational
  = Returns (unlines (surface_lines deg_u deg_v knots_u knots_v ctrlPts weights
                        rational ku_lo ku_hi kv_lo kv_hi)
             +:+ "end").
Proof.
  intros Hr Hc Hcells Hdu Hdv Hlu Hlv Hsu Hsv Hulo Huhi Hvlo Hvhi.
  unfold surfaceSaveOBJ.
  replace (rows ctrlPts =? 0)%nat with false by (symmetry; apply Nat.eqb_neq; lia).
  replace (cols ctrlPts =? 0)%nat with false by (symmetry; apply Nat.eqb_neq; lia).
  cbn [orb]. rewrite put_grid_lines by lia. cbn [obind].
  replace deg_u with (Z.of_nat (Z.to_nat deg_u)) at 1 by lia.
  rewrite (at_index_lookup _ _ _ _ Hulo). cbn [obind].
  rewrite (count_of_knots _ (Z.of_nat (rows ctrlPts)) deg_u Hlu) by lia.
  rewrite (at_index_lookup _ _ _ _ Huhi). cbn [obind].
  replace deg_v with (Z.of_nat (Z.to_nat deg_v)) at 1 by lia.
  rewrite (at_index_lookup _ _ _ _ Hvlo). cbn [obind].
  rewrite (count_of_knots _ (Z.of_nat (cols ctrlPts)) deg_v Hlv) by lia.
  rewrite (at_index_lookup _ _ _ _ Hvhi). cbn [obind].
  rewrite (to_int_small (Z.of_nat (rows ctrlPts))) by lia.
  rewrite (to_int_small (Z.of_nat (cols ctrlPts))) by lia.
  rewrite <- Nat2Z.inj_mul.
  replace (INT_MAX <? Z.of_nat (rows ctrlPts * cols ctrlPts)) with false
    by (symmetry; apply Z.ltb_ge; unfold INT_MAX; lia).
  replace (Z.of_nat (rows ctrlPts * cols ctrlPts) <? - INT_MAX - 1) with false
    by (symmetry; apply Z.ltb_ge; unfold INT_MAX; lia).
  cbn [orb].
  rewrite Nat2Z.id, put_indices_upto, !put_knots_join.
  unfold surface_lines, column_major. rewrite weights_cols, unlines_app.
  rewrite !unlines_cons. unfold cstype_line.
  destruct rational; cbn [negb]; rewrite !str_app_assoc; reflexivity.
Qed.

End SavedSurface.


(** * Reading back a written surface: the records *)

Section SurfaceReadBack.
Context `{Numerics}.

Lemma surface_scan_next ctrlPts0 weights0 l rest st st' n :
  String.eqb l "" = false ->
  surface.process_line rest (surface.with_line l st) = Returns (Next, rest, st') ->
  (length (l :: rest) <= n)%nat ->
  surface_result ctrlPts0 weights0 (surface.scan n (l :: rest) st)
  = surface_result ctrlPts0 weights0 (surface.scan n rest st').
Proof.
  intros Hl Hp Hn. simpl in Hn. destruct n as [|n]; [lia|].
  simpl surface.scan at 1. rewrite Hl, Hp. cbn [obind]. f_equal.
  apply surface_scan_fuel; lia.
Qed.

Lemma surface_scan_break ctrlPts0 weights0 l rest st st' n :
  String.eqb l "" = false ->
  surface.process_line rest (surface.with_line l st) = Returns (Break, rest, st') ->
  (length (l :: rest) <= n)%nat ->
  surface_result ctrlPts0 weights0 (surface.scan n (l :: rest) st)
  = surface.build ctrlPts0 weights0 st'.
Proof.
  intros Hl Hp Hn. simpl in Hn. destruct n as [|n]; [lia|].
  simpl surface.scan. rewrite Hl, Hp. reflexivity.
Qed.

(** A line that starts with a keyword and a white space. *)
Lemma surface_process_keyword kw s file st :
  is_token kw = true -> delimited s = true ->
  surface.process_line file (surface.with_line (kw +:+ s) st)
  = let ssline := {| buf := s; failbit := false |} in
    let st := surface.with_start kw (surface.with_line (kw +:+ s) st) in
    if String.eqb kw "v" then Returns (Next, file, surface.on_v ssline st)
    else if String.eqb kw "cstype" then Returns (Next, file, surface.on_cstype ssline st)
    else if String.eqb kw "deg" then Returns (Next, file, surface.on_deg ssline st)
    else if String.eqb kw "surf" then
      r <- surface.on_surf file ssline st ;; Returns (Next, fst r, snd r)
    else if String.eqb kw "parm" then
      r <- surface.on_parm file ssline st ;; Returns (Next, fst r, snd r)
    else if String.eqb kw "end" then Returns (Break, file, st)
    else Returns (Next, file, st).
Proof.
  intros Hkw Hs. unfold surface.process_line.
  cbn [surface.sline surface.with_line]. rewrite (get_token_word kw s Hkw Hs).
  reflexivity.
Qed.

Lemma surface_v_line (rt : T -> T) p w file st :
  Forall (fun c => coordinate_reads_back c (rt c)) (vec3_coords p ++ [w]) ->
  surface.process_line file (surface.with_line (v_text p w) st)
  = Returns (Next, file,
      {| surface.sline := v_text p w; surface.start := "v";
         surface.deg_u := surface.deg_u st; surface.deg_v := surface.deg_v st;
         surface.rational := surface.rational st;
         surface.parsed := surface.parsed st;
         surface.ctrl_pts_buf := surface.ctrl_pts_buf st ++ [map_vec3 rt p];
         surface.weights_buf := surface.weights_buf st ++ [rt w];
         surface.indices := surface.indices st;
         surface.temp_uknots := surface.temp_uknots st;
         surface.temp_vknots := surface.temp_vknots st |}).
Proof.
  intros Hall.
  change (v_text p w)
    with ("v" +:+ " " +:+ put_T (x p) +:+ " " +:+ put_T (y p) +:+ " "
          +:+ put_T (z p) +:+ " " +:+ put_T w).
  rewrite (surface_process_keyword "v"
             (" " +:+ put_T (x p) +:+ " " +:+ put_T (y p) +:+ " "
              +:+ put_T (z p) +:+ " " +:+ put_T w) file st eq_refl eq_refl).
  cbn [String.eqb Ascii.eqb Bool.eqb]. unfold surface.on_v.
  rewrite (v_text_fields rt p w Hall). reflexivity.
Qed.

(** The [v] records of a written file fill the vertex pool. *)
Lemma surface_scan_v_lines (rt : T -> T) ctrlPts0 weights0 ctrlPts :
  forall weights st rest n,
  length weights = length ctrlPts ->
  Forall (fun p => Forall (fun c => coordinate_reads_back c (rt c)) (vec3_coords p))
    ctrlPts ->
  Forall (fun c => coordinate_reads_back c (rt c)) weights ->
  (length (zip_with v_text ctrlPts weights ++ rest) <= n)%nat ->
  exists start',
    surface_result ctrlPts0 weights0
      (surface.scan n (zip_with v_text ctrlPts weights ++ rest) st)
    = surface_result ctrlPts0 weights0
        (surface.scan n rest
           {| surface.sline := ""; surface.start := start';
              surface.deg_u := surface.deg_u st; surface.deg_v := surface.deg_v st;
              surface.rational := surface.rational st;
              surface.parsed := surface.parsed st;
              surface.ctrl_pts_buf :=
                surface.ctrl_pts_buf st ++ map (map_vec3 rt) ctrlPts;
              surface.weights_buf := surface.weights_buf st ++ map rt weights;
              surface.indices := surface.indices st;
              surface.temp_uknots := surface.temp_uknots st;
              surface.temp_vknots := surface.temp_vknots st |}).
Proof.
  induction ctrlPts as [|p ctrlPts IH]; intros weights st rest n Hlen Hps Hws Hn.
  - destruct weights; [|discriminate]. exists (surface.start st). simpl.
    rewrite !app_nil_r. rewrite <- (surface_scan_sline ctrlPts0 weights0 "" n rest st).
    reflexivity.
  - destruct weights as [|w weights]; [discriminate|].
    inversion Hps as [|? ? Hp Hps']; subst. inversion Hws as [|? ? Hw Hws']; subst.
    simpl in Hlen. simpl zip_with in *. simpl app in *.
    erewrite surface_scan_next;
      [|apply v_text_not_empty
       |apply (surface_v_line rt); apply Forall_app; split; [exact Hp | constructor; auto]
       |exact Hn].
    simpl in Hn.
    edestruct (IH weights) as [start' IHeq]; [lia | exact Hps' | exact Hws' | |].
    2: { exists start'. rewrite IHeq. simpl. rewrite <- !app_assoc. reflexivity. }
    lia.
Qed.

Lemma surface_cstype_line (rational : bool) file st :
  surface.process_line file
    (surface.with_line (if rational then "cstype rat bspline" else "cstype bspline") st)
  = Returns (Next, file,
      {| surface.sline := (if rational then "cstype rat bspline" else "cstype bspline");
         surface.start := "cstype";
         surface.deg_u := surface.deg_u st; surface.deg_v := surface.deg_v st;
         surface.rational := rational; surface.parsed := set_cstype (surface.parsed st);
         surface.ctrl_pts_buf := surface.ctrl_pts_buf st;
         surface.weights_buf := surface.weights_buf st;
         surface.indices := surface.indices st;
         surface.temp_uknots := surface.temp_uknots st;
         surface.temp_vknots := surface.temp_vknots st |}).
Proof. destruct rational; reflexivity. Qed.

Lemma surface_deg_line deg_u deg_v file st :
  degree_reads_back deg_u -> degree_reads_back deg_v ->
  surface.process_line file
    (surface.with_line ("deg " +:+ put_uint deg_u +:+ " " +:+ put_uint deg_v) st)
  = Returns (Next, file,
      {| surface.sline := "deg " +:+ put_uint deg_u +:+ " " +:+ put_uint deg_v;
         surface.start := "deg"; surface.deg_u := deg_u; surface.deg_v := deg_v;
         surface.rational := surface.rational st;
         surface.parsed := set_deg (surface.parsed st);
         surface.ctrl_pts_buf := surface.ctrl_pts_buf st;
         surface.weights_buf := surface.weights_buf st;
         surface.indices := surface.indices st;
         surface.temp_uknots := surface.temp_uknots st;
         surface.temp_vknots := surface.temp_vknots st |}).
Proof.
  intros Hu Hv.
  change ("deg " +:+ put_uint deg_u +:+ " " +:+ put_uint deg_v)
    with ("deg" +:+ " " +:+ put_uint deg_u +:+ " " +:+ put_uint deg_v).
  rewrite (surface_process_keyword "deg"
             (" " +:+ put_uint deg_u +:+ " " +:+ put_uint deg_v) file st eq_refl eq_refl).
  cbn [String.eqb Ascii.eqb Bool.eqb]. unfold surface.on_deg.
  rewrite (extract_space_as get_uint _ deg_u (" " +:+ put_uint deg_v) Hu eq_refl).
  rewrite (extract_space_as_last get_uint _ deg_v Hv). reflexivity.
Qed.

Lemma surface_surf_line ku_lo ku_hi kv_lo kv_hi n file st :
  reads_whole get_T (put_T ku_lo) -> reads_whole get_T (put_T ku_hi) ->
  reads_whole get_T (put_T kv_lo) -> reads_whole get_T (put_T kv_hi) ->
  (forall i, 1 <= i <= Z.of_nat n -> index_reads_back i) ->
  surface.process_line file
    (surface.with_line
       (("surf " +:+ put_T ku_lo +:+ " " +:+ put_T ku_hi +:+ " " +:+ put_T kv_lo
           +:+ " " +:+ put_T kv_hi)
        +:+ join (map put_int (indices_upto n))) st)
  = Returns (Next, file,
      {| surface.sline :=
           ("surf " +:+ put_T ku_lo +:+ " " +:+ put_T ku_hi +:+ " " +:+ put_T kv_lo
              +:+ " " +:+ put_T kv_hi)
           +:+ join (map put_int (indices_upto n));
         surface.start := "surf";
         surface.deg_u := surface.deg_u st; surface.deg_v := surface.deg_v st;
         surface.rational := surface.rational st;
         surface.parsed := set_curv (surface.parsed st);
         surface.ctrl_pts_buf := surface.ctrl_pts_buf st;
         surface.weights_buf := surface.weights_buf st;
         surface.indices := surface.indices st ++ indices_upto n;
         surface.temp_uknots := surface.temp_uknots st;
         surface.temp_vknots := surface.temp_vknots st |}).
Proof.
  intros Hulo Huhi Hvlo Hvhi Hi.
  rewrite surface_surf_head;
    [|assumption..
     |rewrite <- (str_app_nil_r (join _)); apply delimited_join; reflexivity].
  rewrite (read_list_converts int_of_flt _ (indices_upto n))
    by (apply index_tokens_convert; exact Hi).
  reflexivity.
Qed.

Lemma surface_parm_u_line (rt : T -> T) knots file st :
  Forall (fun k => knot_reads_back k (rt k)) knots ->
  surface.process_line file (surface.with_line ("parm u" +:+ join (map put_T knots)) st)
  = Returns (Next, file,
      {| surface.sline := "parm u" +:+ join (map put_T knots);
         surface.start := "u";
         surface.deg_u := surface.deg_u st; surface.deg_v := surface.deg_v st;
         surface.rational := surface.rational st;
         surface.parsed := set_parm (surface.parsed st);
         surface.ctrl_pts_buf := surface.ctrl_pts_buf st;
         surface.weights_buf := surface.weights_buf st;
         surface.indices := surface.indices st;
         surface.temp_uknots := surface.temp_uknots st ++ map rt knots;
         surface.temp_vknots := surface.temp_vknots st |}).
Proof.
  intros Hk.
  rewrite surface_parm_u_head
    by (rewrite <- (str_app_nil_r (join _)); apply delimited_join; reflexivity).
  rewrite (read_list_converts T_of_flt _ (map rt knots))
    by (apply knot_tokens_convert; exact Hk).
  reflexivity.
Qed.

Lemma surface_parm_v_line (rt : T -> T) knots file st :
  Forall (fun k => knot_reads_back k (rt k)) knots ->
  surface.process_line file (surface.with_line ("parm v" +:+ join (map put_T knots)) st)
  = Returns (Next, file,
      {| surface.sline := "parm v" +:+ join (map put_T knots);
         surface.start := "v";
         surface.deg_u := surface.deg_u st; surface.deg_v := surface.deg_v st;
         surface.rational := surface.rational st;
         surface.parsed := set_parm (surface.parsed st);
         surface.ctrl_pts_buf := surface.ctrl_pts_buf st;
         surface.weights_buf := surface.weights_buf st;
         surface.indices := surface.indices st;
         surface.temp_uknots := surface.temp_uknots st;
         surface.temp_vknots := surface.temp_vknots st ++ map rt knots |}).
Proof.
  intros Hk.
  rewrite surface_parm_v_head
    by (rewrite <- (str_app_nil_r (join _)); apply delimited_join; reflexivity).
  rewrite (read_list_converts T_of_flt _ (map rt knots))
    by (apply knot_tokens_convert; exact Hk).
  reflexivity.
Qed.

Lemma surface_end_line file st :
  surface.process_line file (surface.with_line "end" st)
  = Returns (Break, file, surface.with_start "end" (surface.with_line "end" st)).
Proof. reflexivity. Qed.

End SurfaceReadBack.

(** * Reading back a written surface: the grid *)

Lemma array2_ext {A : Type} (a b : array2 A) :
  rows a = rows b -> cols a = cols b -> data a = data b -> a = b.
Proof. destruct a, b. simpl. intros -> -> ->. reflexivity. Qed.

Lemma cell_of_position (k nu nv : nat) :
  (k < nu * nv)%nat ->
  exists i j, (i < nu)%nat /\ (j < nv)%nat /\ k = (i * nv + j)%nat.
Proof.
  intros Hk. assert (Hnv : nv <> 0%nat) by nia.
  exists (k / nv)%nat, (k mod nv)%nat. split; [|split].
  - apply Nat.Div0.div_lt_upper_bound. lia.
  - apply Nat.mod_upper_bound. exact Hnv.
  - rewrite (Nat.div_mod_eq k nv) at 1. lia.
Qed.

Lemma position_of_cell (i j nu nv : nat) :
  (i < nu)%nat -> (j < nv)%nat -> (j * nu + i < nu * nv)%nat.
Proof. intros Hi Hj. nia. Qed.

Section SurfaceFill.
Context `{Numerics}.
Variable st : surface.scan_state.
Variables nu nv : nat.
Hypothesis indices_in_order : surface.indices st = indices_upto (nu * nv).
Hypothesis pool_size : length (surface.ctrl_pts_buf st) = (nu * nv)%nat.
Hypothesis weights_size : length (surface.weights_buf st) = (nu * nv)%nat.

Lemma surface_fill_step_total cp w i j :
  (i < nu)%nat -> (j < nv)%nat -> shaped nu nv cp w ->
  exists cp' w' num',
    surface.fill_step st i j (cp, w, (j * nu + i)%nat) = Returns (cp', w', num').
Proof.
  intros Hi Hj (Hr & Hc & _). unfold surface.fill_step. rewrite Hr, Hc.
  replace (i <? nu)%nat with true by (symmetry; apply Nat.ltb_lt; exact Hi).
  replace (j <? nv)%nat with true by (symmetry; apply Nat.ltb_lt; exact Hj).
  cbn [andb negb]. rewrite indices_in_order.
  pose proof (position_of_cell i j nu nv Hi Hj) as Hpos.
  rewrite (at_index_lookup _ _ _ _ (indices_upto_lookup _ _ Hpos)). cbn [obind].
  replace (Z.of_nat (S (j * nu + i)) - 1) with (Z.of_nat (j * nu + i)) by lia.
  destruct (lookup_lt_is_Some_2 (surface.ctrl_pts_buf st) (j * nu + i)) as [p Hp];
    [lia|].
  destruct (lookup_lt_is_Some_2 (surface.weights_buf st) (j * nu + i)) as [wv Hw];
    [lia|].
  rewrite (at_index_lookup _ _ _ _ Hp), (at_index_lookup _ _ _ _ Hw). cbn [obind].
  eauto.
Qed.

Lemma surface_fill_u_total count : forall i j cp w,
  (i + count = nu)%nat -> (j < nv)%nat ->
  shaped nu nv cp w -> filled st nu nv cp w (j * nu + i) ->
  exists cp' w' num',
    surface.fill_u st count i j (cp, w, (j * nu + i)%nat) = Returns (cp', w', num').
Proof.
  induction count as [|count IH]; intros i j cp w Hcount Hj Hs Hf.
  - simpl. eauto.
  - cbn [surface.fill_u].
    destruct (surface_fill_step_total cp w i j) as (cp1 & w1 & num1 & Hstep);
      [lia | exact Hj | exact Hs |].
    rewrite Hstep. cbn [obind].
    destruct (fill_step_filled st nu nv cp w i j cp1 w1 num1) as (Hs1 & Hf1 & ->);
      [lia | exact Hs | exact Hf | exact Hstep |].
    apply (IH (S i) j); [lia | exact Hj | exact Hs1 | exact Hf1].
Qed.

Lemma surface_fill_v_total count : forall j cp w,
  (j + count = nv)%nat ->
  shaped nu nv cp w -> filled st nu nv cp w (j * nu) ->
  exists cp' w' num',
    surface.fill_v st nu count j (cp, w, (j * nu)%nat) = Returns (cp', w', num').
Proof.
  induction count as [|count IH]; intros j cp w Hcount Hs Hf.
  - simpl. eauto.
  - cbn [surface.fill_v].
    replace (j * nu)%nat with (j * nu + 0)%nat in Hf |- * by lia.
    destruct (surface_fill_u_total nu 0 j cp w) as (cp1 & w1 & num1 & Hu);
      [lia | lia | exact Hs | exact Hf |].
    rewrite Hu. cbn [obind].
    destruct (fill_u_filled st nu nv nu 0 j cp w cp1 w1 num1) as (Hs1 & Hf1 & ->);
      [lia | exact Hs | exact Hf | exact Hu |].
    apply (IH (S j)); [lia | exact Hs1 | exact Hf1].
Qed.

(** With the indices 1 .. [nu * nv] and a vertex pool that lists a grid
    column after column, the loops of the build make that grid. *)
Lemma surface_fill_identity (g_cp : array2 vec3) (g_w : array2 T) cp w :
  rows g_cp = nu -> cols g_cp = nv -> length (data g_cp) = (nu * nv)%nat ->
  rows g_w = nu -> cols g_w = nv -> length (data g_w) = (nu * nv)%nat ->
  surface.ctrl_pts_buf st = column_major g_cp ->
  surface.weights_buf st = column_major g_w ->
  shaped nu nv cp w ->
  exists num, surface.fill_v st nu nv 0 (cp, w, O) = Returns (g_cp, g_w, num).
Proof.
  intros Hr Hc Hl Hrw Hcw Hlw Hpool Hweights Hs.
  assert (Hf0 : filled st nu nv cp w (0 * nu)) by (intros i j _ _ Hlt; simpl in Hlt; lia).
  destruct (surface_fill_v_total nv 0 cp w) as (cp' & w' & num' & Hfill);
    [lia | exact Hs | exact Hf0 |].
  change O with (0 * nu)%nat at 2. rewrite Hfill. exists num'.
  destruct (fill_v_filled st nu nv nv 0 cp w cp' w' num' Hs Hf0 Hfill)
    as ((Hr' & Hc' & Hrw' & Hcw' & Hl' & Hlw') & Hfilled).
  assert (Hcell : forall k, data cp' !! k = data g_cp !! k /\ data w' !! k = data g_w !! k).
  { intros k. destruct (decide (k < nu * nv)%nat) as [Hk | Hk].
    - destruct (cell_of_position k nu nv Hk) as (i & j & Hi & Hj & ->).
      pose proof (position_of_cell i j nu nv Hi Hj) as Hpos.
      destruct (Hfilled i j Hi Hj) as (idx & p & wv & H1 & _ & H3 & H4 & H5 & H6);
        [simpl; lia|].
      rewrite indices_in_order, (indices_upto_lookup _ _ Hpos) in H1.
      injection H1 as <-.
      replace (Z.to_nat (Z.of_nat (S (j * nu + i)) - 1)) with (j * nu + i)%nat in H3, H4
        by lia.
      rewrite Hpool in H3. rewrite Hweights in H4.
      rewrite <- Hr in H3 at 1. rewrite <- Hrw in H4 at 1.
      rewrite column_major_lookup in H3 by (rewrite ?Hr, ?Hc; assumption).
      rewrite column_major_lookup in H4 by (rewrite ?Hrw, ?Hcw; assumption).
      rewrite Hc in H3. rewrite Hcw in H4. rewrite H5, H6, H3, H4. auto.
    - rewrite !lookup_ge_None_2 by lia. auto. }
  assert (Hcp : cp' = g_cp).
  { apply array2_ext; [congruence | congruence |].
    apply list_eq. intros k. apply Hcell. }
  assert (Hw : w' = g_w).
  { apply array2_ext; [congruence | congruence |].
    apply list_eq. intros k. apply Hcell. }
  rewrite Hcp, Hw. reflexivity.
Qed.

End SurfaceFill.


(** * The round trip of a surface *)

Lemma cells_map {A B : Type} (f : A -> B) (a : array2 A) j rs :
  cells (array2_map f a) j rs = map f (cells a j rs).
Proof.
  unfold cells, array2_map. simpl.
  induction rs as [|i rs IH]; [reflexivity|].
  simpl. rewrite map_app, IH, map_lookup.
  destruct (data a !! (i * cols a + j)%nat); reflexivity.
Qed.

Lemma column_major_map {A B : Type} (f : A -> B) (a : array2 A) :
  column_major (array2_map f a) = map f (column_major a).
Proof.
  unfold column_major. change (cols (array2_map f a)) with (cols a).
  induction (seq 0 (cols a)) as [|j js IH]; [reflexivity|].
  simpl. rewrite map_app, IH. unfold column at 1.
  change (rows (array2_map f a)) with (rows a). rewrite cells_map. reflexivity.
Qed.

Lemma cells_Forall {A : Type} (P : A -> Prop) (a : array2 A) j rs :
  Forall P (data a) -> Forall P (cells a j rs).
Proof.
  intros Hall. unfold cells. induction rs as [|i rs IH]; [constructor|].
  simpl. apply Forall_app. split; [|exact IH].
  destruct (data a !! (i * cols a + j)%nat) as [v|] eqn:Hv; [|constructor].
  constructor; [|constructor]. exact (proj1 (Forall_lookup P (data a)) Hall _ _ Hv).
Qed.

Lemma column_major_Forall {A : Type} (P : A -> Prop) (a : array2 A) :
  Forall P (data a) -> Forall P (column_major a).
Proof.
  intros Hall. unfold column_major.
  induction (seq 0 (cols a)) as [|j js IH]; [constructor|].
  simpl. apply Forall_app. split; [apply cells_Forall; exact Hall | exact IH].
Qed.

Ltac surface_fields :=
  cbn [surface.sline surface.start surface.deg_u surface.deg_v surface.rational
       surface.parsed surface.ctrl_pts_buf surface.weights_buf surface.indices
       surface.temp_uknots surface.temp_vknots surface.initial surface.with_line
       surface.with_start].

Section SurfaceRoundTrip.
Context `{Numerics}.

Lemma surface_build_identity ctrlPts0 weights0 st (g_cp : array2 vec3) (g_w : array2 T) :
  surface.check_parsed (surface.parsed st) = Returns tt ->
  surface.indices st = indices_upto (rows g_cp * cols g_cp) ->
  length (data g_cp) = (rows g_cp * cols g_cp)%nat ->
  rows g_w = rows g_cp -> cols g_w = cols g_cp ->
  length (data g_w) = (rows g_cp * cols g_cp)%nat ->
  surface.ctrl_pts_buf st = column_major g_cp ->
  surface.weights_buf st = column_major g_w ->
  Z.of_nat (length (surface.temp_uknots st))
  = Z.of_nat (rows g_cp) + surface.deg_u st + 1 ->
  Z.of_nat (length (surface.temp_vknots st))
  = Z.of_nat (cols g_cp) + surface.deg_v st + 1 ->
  0 <= surface.deg_u st -> 0 <= surface.deg_v st ->
  Z.of_nat (length (surface.temp_uknots st)) < 2 ^ 31 ->
  Z.of_nat (length (surface.temp_vknots st)) < 2 ^ 31 ->
  surface.build ctrlPts0 weights0 st
  = Returns {| surface.r_deg_u := surface.deg_u st;
               surface.r_deg_v := surface.deg_v st;
               surface.r_knots_u := surface.temp_uknots st;
               surface.r_knots_v := surface.temp_vknots st;
               surface.r_ctrlPts := g_cp; surface.r_weights := g_w;
               surface.r_rational := surface.rational st |}.
Proof.
  intros Hcheck Hidx Hl Hrw Hcw Hlw Hpool Hweights Hlu Hlv Hdu Hdv Hsu Hsv.
  unfold surface.build. rewrite Hcheck. cbn [obind].
  rewrite <- (to_int_to_uint (_ - 1)),
    (count_of_knots _ (Z.of_nat (rows g_cp)) _ Hlu) by lia.
  rewrite <- (to_int_to_uint (_ - 1)),
    (count_of_knots _ (Z.of_nat (cols g_cp)) _ Hlv) by lia.
  rewrite !to_int_small by lia. unfold array2_resize.
  replace (Z.of_nat (rows g_cp) <? 0) with false by (symmetry; apply Z.ltb_ge; lia).
  replace (Z.of_nat (cols g_cp) <? 0) with false by (symmetry; apply Z.ltb_ge; lia).
  cbn [orb obind]. rewrite !Nat2Z.id.
  destruct (surface_fill_identity st (rows g_cp) (cols g_cp) Hidx) with
    (g_cp := g_cp) (g_w := g_w)
    (cp := Array2 (rows g_cp) (cols g_cp)
             (resize (rows g_cp * cols g_cp) (Vec3 T_zero T_zero T_zero) (data ctrlPts0)))
    (w := Array2 (rows g_cp) (cols g_cp)
            (resize (rows g_cp * cols g_cp) T_zero (data weights0)))
    as [num ->]; try assumption; try reflexivity.
  all: try (unfold shaped; simpl; rewrite !length_resize; tauto).
  all: rewrite ?Hpool, ?Hweights, column_major_length; try assumption;
    rewrite ?Hrw, ?Hcw; try assumption; reflexivity.
Qed.

Lemma surface_lines_no_newline (rt_c rt_k : T -> T) deg_u deg_v knots_u knots_v
    ctrlPts weights rational ku_lo ku_hi kv_lo kv_hi :
  surface_conditions rt_c rt_k deg_u deg_v knots_u knots_v ctrlPts weights ->
  reads_whole get_T (put_T ku_lo) -> reads_whole get_T (put_T ku_hi) ->
  reads_whole get_T (put_T kv_lo) -> reads_whole get_T (put_T kv_hi) ->
  Forall (fun p => Forall (fun c => coordinate_reads_back c (rt_c c)) (vec3_coords p))
    (column_major ctrlPts) ->
  Forall (fun c => coordinate_reads_back c (rt_c c)) (column_major weights) ->
  Forall (fun l => no_newline l = true)
    (surface_lines deg_u deg_v knots_u knots_v ctrlPts weights rational
       ku_lo ku_hi kv_lo kv_hi).
Proof.
  intros C [Hulo _] [Huhi _] [Hvlo _] [Hvhi _] Hps Hws. unfold surface_lines.
  apply Forall_app. split; [apply (v_texts_no_newline rt_c); assumption|].
  repeat constructor.
  - destruct rational; reflexivity.
  - rewrite !no_newline_app.
    destruct (sc_deg_u_read _ _ _ _ _ _ _ _ C) as [Hu _].
    destruct (sc_deg_v_read _ _ _ _ _ _ _ _ C) as [Hv _].
    rewrite (token_no_newline _ Hu), (token_no_newline _ Hv). reflexivity.
  - rewrite !no_newline_app, (token_no_newline _ Hulo), (token_no_newline _ Huhi),
      (token_no_newline _ Hvlo), (token_no_newline _ Hvhi).
    rewrite (join_no_newline _
               (tokens_of_indices _ (sc_indices_read _ _ _ _ _ _ _ _ C))).
    reflexivity.
  - rewrite no_newline_app,
      (join_no_newline _ (tokens_of_knots rt_k _ (sc_knots_u_read _ _ _ _ _ _ _ _ C))).
    reflexivity.
  - rewrite no_newline_app,
      (join_no_newline _ (tokens_of_knots rt_k _ (sc_knots_v_read _ _ _ _ _ _ _ _ C))).
    reflexivity.
Qed.

(** Reading the lines that [surfaceSaveOBJ] has written gives back the
    degrees, the knots, the grids with their numbers as they are read back,
    and the flag. *)
Lemma surface_lines_read_back (rt_c rt_k : T -> T) deg_u deg_v knots_u knots_v
    ctrlPts weights rational ku_lo ku_hi kv_lo kv_hi
    garbage deg_u0 deg_v0 ctrlPts0 weights0 rational0 :
  surface_conditions rt_c rt_k deg_u deg_v knots_u knots_v ctrlPts weights ->
  reads_whole get_T (put_T ku_lo) -> reads_whole get_T (put_T ku_hi) ->
  reads_whole get_T (put_T kv_lo) -> reads_whole get_T (put_T kv_hi) ->
  surface.read_lines
    (surface_lines deg_u deg_v knots_u knots_v ctrlPts weights rational
       ku_lo ku_hi kv_lo kv_hi ++ ["end"])
    garbage deg_u0 deg_v0 ctrlPts0 weights0 rational0
  = Returns {| surface.r_deg_u := deg_u; surface.r_deg_v := deg_v;
               surface.r_knots_u := map rt_k knots_u;
               surface.r_knots_v := map rt_k knots_v;
               surface.r_ctrlPts := array2_map (map_vec3 rt_c) ctrlPts;
               surface.r_weights := array2_map rt_c weights;
               surface.r_rational := rational |}.
Proof.
  intros C Hulo Huhi Hvlo Hvhi.
  destruct C as
    [Hrows Hcols Hcells Hweights_rows Hweights_cols Hweights_cells Hsmall Hdeg_u Hdeg_v Hknots_u
     Hknots_v Hsmall_u Hsmall_v Hpoints_read Hweights_read Hknots_u_read Hknots_v_read Hdeg_u_read Hdeg_v_read Hindices_read].
  assert (Hwf : length (data weights) = (rows weights * cols weights)%nat)
    by (rewrite Hweights_rows, Hweights_cols; exact Hweights_cells).
  unfold surface.read_lines.
  change (surface_result ctrlPts0 weights0
            (surface.scan
               (length (surface_lines deg_u deg_v knots_u knots_v ctrlPts weights
                          rational ku_lo ku_hi kv_lo kv_hi ++ ["end"]))
               (surface_lines deg_u deg_v knots_u knots_v ctrlPts weights
                  rational ku_lo ku_hi kv_lo kv_hi ++ ["end"])
               (surface.initial garbage deg_u0 deg_v0 rational0))
          = Returns {| surface.r_deg_u := deg_u; surface.r_deg_v := deg_v;
                       surface.r_knots_u := map rt_k knots_u;
                       surface.r_knots_v := map rt_k knots_v;
                       surface.r_ctrlPts := array2_map (map_vec3 rt_c) ctrlPts;
                       surface.r_weights := array2_map rt_c weights;
                       surface.r_rational := rational |}).
  unfold surface_lines. rewrite <- app_assoc. simpl app.
  remember (length _) as n eqn:Hn in |- *.
  rewrite length_app in Hn. simpl in Hn.
  destruct (surface_scan_v_lines rt_c ctrlPts0 weights0 (column_major ctrlPts)
              (column_major weights)
              (surface.initial garbage deg_u0 deg_v0 rational0)
              [ (if rational then "cstype rat bspline" else "cstype bspline");
                "deg " +:+ put_uint deg_u +:+ " " +:+ put_uint deg_v;
                ("surf " +:+ put_T ku_lo +:+ " " +:+ put_T ku_hi +:+ " "
                   +:+ put_T kv_lo +:+ " " +:+ put_T kv_hi)
                  +:+ join (map put_int (indices_upto (rows ctrlPts * cols ctrlPts)));
                "parm u" +:+ join (map put_T knots_u);
                "parm v" +:+ join (map put_T knots_v); "end" ] n)
    as [start' ->].
  { rewrite !column_major_length by assumption.
    rewrite Hweights_rows, Hweights_cols. reflexivity. }
  { apply column_major_Forall. exact Hpoints_read. }
  { apply column_major_Forall. exact Hweights_read. }
  { rewrite length_app. cbn [length]. lia. }
  surface_fields.
  erewrite surface_scan_next;
    [|destruct rational; reflexivity | apply surface_cstype_line | cbn [length]; lia].
  surface_fields.
  erewrite surface_scan_next;
    [|reflexivity | apply surface_deg_line; assumption | cbn [length]; lia].
  surface_fields.
  erewrite surface_scan_next;
    [|reflexivity | apply surface_surf_line; assumption | cbn [length]; lia].
  surface_fields.
  erewrite surface_scan_next;
    [|reflexivity | apply (surface_parm_u_line rt_k); exact Hknots_u_read
     | cbn [length]; lia].
  surface_fields.
  erewrite surface_scan_next;
    [|reflexivity | apply (surface_parm_v_line rt_k); exact Hknots_v_read
     | cbn [length]; lia].
  surface_fields.
  erewrite surface_scan_break;
    [|reflexivity | apply surface_end_line | cbn [length]; lia].
  surface_fields.
  rewrite (surface_build_identity _ _ _ (array2_map (map_vec3 rt_c) ctrlPts)
             (array2_map rt_c weights)); surface_fields; cbn [app].
  - reflexivity.
  - destruct garbage; reflexivity.
  - reflexivity.
  - cbn [array2_map data rows cols]. rewrite length_map. exact Hcells.
  - exact Hweights_rows.
  - exact Hweights_cols.
  - cbn [array2_map data rows cols]. rewrite length_map. exact Hweights_cells.
  - rewrite column_major_map. reflexivity.
  - rewrite column_major_map. reflexivity.
  - rewrite length_map. exact Hknots_u.
  - rewrite length_map. exact Hknots_v.
  - exact Hdeg_u.
  - exact Hdeg_v.
  - rewrite length_map. exact Hsmall_u.
  - rewrite length_map. exact Hsmall_v.
Qed.

(** The round trip through [internal::surfaceSaveOBJ] and
    [internal::surfaceReadOBJ]. *)
Lemma surface_internal_round_trip (rt_c rt_k : T -> T) deg_u deg_v knots_u knots_v
    ctrlPts weights rational :
  surface_conditions rt_c rt_k deg_u deg_v knots_u knots_v ctrlPts weights ->
  exists text,
    surfaceSaveOBJ deg_u deg_v knots_u knots_v ctrlPts weights rational = Returns text
    /\ forall filename garbage deg_u0 deg_v0 ctrlPts0 weights0 rational0,
         surface.surfaceReadOBJ filename (Some text) garbage deg_u0 deg_v0 ctrlPts0
           weights0 rational0
         = Returns {| surface.r_deg_u := deg_u; surface.r_deg_v := deg_v;
                      surface.r_knots_u := map rt_k knots_u;
                      surface.r_knots_v := map rt_k knots_v;
                      surface.r_ctrlPts := array2_map (map_vec3 rt_c) ctrlPts;
                      surface.r_weights := array2_map rt_c weights;
                      surface.r_rational := rational |}.
Proof.
  intros C. pose proof C as C'.
  destruct C' as
    [Hrows Hcols Hcells Hweights_rows Hweights_cols Hweights_cells Hsmall Hdeg_u Hdeg_v Hknots_u
     Hknots_v Hsmall_u Hsmall_v Hpoints_read Hweights_read Hknots_u_read Hknots_v_read Hdeg_u_read Hdeg_v_read Hindices_read].
  destruct (lookup_lt_is_Some_2 knots_u (Z.to_nat deg_u)) as [ku_lo Hulo]; [lia|].
  destruct (lookup_lt_is_Some_2 knots_u (rows ctrlPts)) as [ku_hi Huhi]; [lia|].
  destruct (lookup_lt_is_Some_2 knots_v (Z.to_nat deg_v)) as [kv_lo Hvlo]; [lia|].
  destruct (lookup_lt_is_Some_2 knots_v (cols ctrlPts)) as [kv_hi Hvhi]; [lia|].
  assert (Hbound : forall knots k i,
            Forall (fun k => knot_reads_back k (rt_k k)) knots ->
            knots !! i = Some k -> reads_whole get_T (put_T k)).
  { intros knots k i Hks Hk. apply list_elem_of_lookup_2 in Hk.
    rewrite Forall_forall in Hks. destruct (Hks _ Hk) as (_ & _ & Hb). exact Hb. }
  pose proof (Hbound _ _ _ Hknots_u_read Hulo) as Bulo.
  pose proof (Hbound _ _ _ Hknots_u_read Huhi) as Buhi.
  pose proof (Hbound _ _ _ Hknots_v_read Hvlo) as Bvlo.
  pose proof (Hbound _ _ _ Hknots_v_read Hvhi) as Bvhi.
  eexists. split.
  - apply (surfaceSaveOBJ_text ctrlPts weights Hcells Hweights_rows Hweights_cols
             Hweights_cells deg_u deg_v knots_u knots_v rational
             ku_lo ku_hi kv_lo kv_hi); assumption.
  - intros filename garbage deg_u0 deg_v0 ctrlPts0 weights0 rational0.
    unfold surface.surfaceReadOBJ.
    rewrite getlines_unlines; [| |reflexivity].
    + apply (surface_lines_read_back rt_c rt_k); assumption.
    + apply (surface_lines_no_newline rt_c rt_k); try assumption.
      * apply column_major_Forall. exact Hpoints_read.
      * apply column_major_Forall. exact Hweights_read.
Qed.

End SurfaceRoundTrip.


(** * The round trip of the public overloads *)

Section PublicRoundTrip.
Context `{Numerics}.
Variables rt_c rt_k : T -> T.
Variable dim : nat.
Hypothesis dim_at_most_3 : (dim <= 3)%nat.

Lemma to_vec3_coords p :
  length p = dim ->
  to_vec3 dim 0 p (Vec3 T_zero T_zero T_zero) = Returns (vec3_of_coords p).
Proof.
  intros Hl. destruct dim as [|[|[|[|d]]]]; [..|lia];
    destruct p as [|a [|b [|c [|e p]]]]; try discriminate; reflexivity.
Qed.

Lemma from_vec3_coords p :
  length p = dim ->
  from_vec3 dim 0 (map_vec3 rt_c (vec3_of_coords p)) = Returns (map rt_c p).
Proof.
  intros Hl. destruct dim as [|[|[|[|d]]]]; [..|lia];
    destruct p as [|a [|b [|c [|e p]]]]; try discriminate; reflexivity.
Qed.

Lemma omap_to_vec3 points :
  Forall (fun p => length p = dim) points ->
  omap (fun p => to_vec3 dim 0 p (Vec3 T_zero T_zero T_zero)) points
  = Returns (map vec3_of_coords points).
Proof.
  induction 1 as [|p points Hp _ IH]; [reflexivity|].
  cbn [omap]. rewrite (to_vec3_coords p Hp), IH. reflexivity.
Qed.

Lemma omap_from_vec3 points :
  Forall (fun p => length p = dim) points ->
  omap (from_vec3 dim 0) (map (map_vec3 rt_c) (map vec3_of_coords points))
  = Returns (map (map rt_c) points).
Proof.
  induction 1 as [|p points Hp _ IH]; [reflexivity|].
  cbn [omap map]. rewrite (from_vec3_coords p Hp), IH. reflexivity.
Qed.





End PublicRoundTrip.


(** * Writing, then reading *)



Section SaveThenRead.
Context `{Numerics}.


End SaveThenRead.

(** * The round trip on files of integer literals *)

Lemma space_is_no_digit c : Ascii.is_space c = true -> digit c = None.
Proof.
  intros Hc. destruct c as [[] [] [] [] [] [] [] []]; try discriminate Hc; reflexivity.
Qed.

Lemma one_digit_cases z :
  one_digit z = true ->
  z = 0 \/ z = 1 \/ z = 2 \/ z = 3 \/ z = 4 \/ z = 5 \/ z = 6 \/ z = 7 \/ z = 8 \/ z = 9.
Proof. unfold one_digit. lia. Qed.

Lemma one_digit_get_Z z : one_digit z = true -> reads_as get_Z (put_Z z) z.
Proof.
  intros Hz.
  destruct (one_digit_cases z Hz) as [-> | [-> | [-> | [-> | [-> | [-> | [-> | [-> | [-> | ->]]]]]]]]];
    (split; [reflexivity|]; intros [|c rest] Hrest; [reflexivity|];
     simpl in Hrest; vm_compute (put_Z _); rewrite str_app_cons, str_app_nil_l;
     unfold get_Z; simpl;
     rewrite (space_is_no_digit c Hrest); reflexivity).
Qed.

Lemma one_digit_get_unsigned z : one_digit z = true -> reads_as get_unsigned (put_Z z) z.
Proof.
  intros Hz. destruct (one_digit_get_Z z Hz) as [Htok Hget]. split; [exact Htok|].
  intros rest Hrest. unfold get_unsigned. rewrite (Hget rest Hrest).
  destruct (one_digit_cases z Hz) as [-> | [-> | [-> | [-> | [-> | [-> | [-> | [-> | [-> | ->]]]]]]]]];
    reflexivity.
Qed.

Lemma one_digit_stoz z :
  one_digit z = true -> is_value_token (put_Z z) = true /\ stoz (put_Z z) = Some z.
Proof.
  intros Hz.
  destruct (one_digit_cases z Hz) as [-> | [-> | [-> | [-> | [-> | [-> | [-> | [-> | [-> | ->]]]]]]]]];
    split; reflexivity.
Qed.

Lemma one_digit_coordinate z :
  one_digit z = true -> coordinate_reads_back (H := numerics) z (id z).
Proof. intros Hz. exists z. split; [exact (one_digit_get_Z z Hz) | reflexivity]. Qed.

Lemma one_digit_knot z : one_digit z = true -> knot_reads_back (H := numerics) z (id z).
Proof.
  intros Hz. destruct (one_digit_stoz z Hz) as [Htok Hsto].
  split; [exact Htok|]. split; [exists z; split; [exact Hsto | reflexivity]|].
  destruct (one_digit_get_Z z Hz) as [Ht Hget]. split; [exact Ht|]. exists z. exact Hget.
Qed.

Lemma one_digit_index z : one_digit z = true -> index_reads_back (H := numerics) z.
Proof.
  intros Hz. destruct (one_digit_stoz z Hz) as [Htok Hsto].
  split; [exact Htok|]. exists z. split; [exact Hsto | reflexivity].
Qed.

Lemma one_digit_degree z : one_digit z = true -> degree_reads_back (H := numerics) z.
Proof. exact (one_digit_get_unsigned z). Qed.

Lemma one_digit_coordinates l :
  forallb one_digit l = true ->
  Forall (fun c => coordinate_reads_back (H := numerics) c (id c)) l.
Proof.
  intros Hl. apply Forall_forall. intros c Hc.
  apply one_digit_coordinate. rewrite forallb_forall in Hl. apply Hl.
  apply list_elem_of_In. exact Hc.
Qed.

Lemma one_digit_points (l : list (vec3 (H := numerics))) :
  forallb (fun p => forallb one_digit (vec3_coords p)) l = true ->
  Forall (fun p => Forall (fun c => coordinate_reads_back (H := numerics) c (id c))
                     (vec3_coords p)) l.
Proof.
  intros Hl. apply Forall_forall. intros p Hp. apply one_digit_coordinates.
  rewrite forallb_forall in Hl. apply Hl. apply list_elem_of_In. exact Hp.
Qed.

Lemma one_digit_knots l :
  forallb one_digit l = true ->
  Forall (fun k => knot_reads_back (H := numerics) k (id k)) l.
Proof.
  intros Hl. apply Forall_forall. intros k Hk.
  apply one_digit_knot. rewrite forallb_forall in Hl. apply Hl.
  apply list_elem_of_In. exact Hk.
Qed.

Lemma one_digit_indices (n : nat) :
  (n <= 9)%nat -> forall i, 1 <= i <= Z.of_nat n -> index_reads_back (H := numerics) i.
Proof. intros Hn i Hi. apply one_digit_index. unfold one_digit. lia. Qed.


Lemma a_curve_conditions :
  curve_conditions id id (Curve.degree a_curve) (Curve.knots a_curve)
    (map vec3_of_coords (Curve.control_points a_curve))
    (replicate (length (Curve.control_points a_curve)) T_one).
Proof.
  constructor; try (vm_compute; reflexivity); try (simpl; lia).
  - apply one_digit_points. reflexivity.
  - apply one_digit_coordinates. reflexivity.
  - apply one_digit_knots. reflexivity.
  - apply one_digit_degree. reflexivity.
  - apply one_digit_indices. simpl. lia.
Qed.

Lemma a_rational_surface_conditions :
  surface_conditions id id (RationalSurface.degree_u a_rational_surface)
    (RationalSurface.degree_v a_rational_surface)
    (RationalSurface.knots_u a_rational_surface)
    (RationalSurface.knots_v a_rational_surface)
    (RationalSurface.control_points a_rational_surface)
    (RationalSurface.weights a_rational_surface).
Proof.
  constructor; try (vm_compute; reflexivity); try (simpl; lia).
  - apply one_digit_points. reflexivity.
  - apply one_digit_coordinates. reflexivity.
  - apply one_digit_knots. reflexivity.
  - apply one_digit_knots. reflexivity.
  - apply one_digit_degree. reflexivity.
  - apply one_digit_degree. reflexivity.
  - apply one_digit_indices. simpl. lia.
Qed.




(** * What a reader returns *)



Section CurveFill.
Context `{Numerics}.
Variable st : curve.scan_state.

Lemma curve_fill_cells count : forall i a b a' b',
  length a = length b ->
  curve.fill st count i (a, b) = Returns (a', b') ->
  length a' = length a /\ length b' = length b
  /\ (forall j, (j < i)%nat -> a' !! j = a !! j /\ b' !! j = b !! j)
  /\ (forall j, (i <= j < i + count)%nat ->
        exists idx p w,
          curve.indices st !! j = Some idx
          /\ 1 <= idx
          /\ curve.ctrl_pts_buf st !! Z.to_nat (idx - 1) = Some p
          /\ curve.weights_buf st !! Z.to_nat (idx - 1) = Some w
          /\ a' !! j = Some p /\ b' !! j = Some w).
Proof.
  induction count as [|count IH]; intros i a b a' b' Hab Hfill.
  - simpl in Hfill. injection Hfill as <- <-.
    repeat split; auto. intros j Hj. lia.
  - cbn [curve.fill] in Hfill.
    apply obind_returns in Hfill as ([a1 b1] & Hstep & Hfill).
    unfold curve.fill_step in Hstep.
    destruct (i <? length a)%nat eqn:Hi; cbn [negb] in Hstep; [|discriminate].
    apply Nat.ltb_lt in Hi.
    apply obind_returns in Hstep as (idx & Hidx & Hstep).
    apply obind_returns in Hstep as (p & Hp & Hstep).
    apply obind_returns in Hstep as (w & Hw & Hstep).
    injection Hstep as <- <-.
    apply at_index_returns in Hidx as [_ Hidx]. rewrite Nat2Z.id in Hidx.
    apply at_index_returns in Hp as [Hpos Hp].
    apply at_index_returns in Hw as [_ Hw].
    apply IH in Hfill as (Hla & Hlb & Hbefore & Hcells);
      [|rewrite !length_insert; exact Hab].
    rewrite length_insert in Hla. rewrite length_insert in Hlb.
    split; [exact Hla|]. split; [exact Hlb|]. split.
    + intros j Hj. destruct (Hbefore j) as [Ha Hb]; [lia|].
      rewrite Ha, Hb, !list_lookup_insert_ne by lia. auto.
    + intros j Hj. destruct (decide (j = i)) as [-> | Hne].
      * destruct (Hbefore i) as [Ha Hb]; [lia|].
        exists idx, p, w. rewrite Ha, Hb.
        rewrite !list_lookup_insert_eq by lia. repeat split; auto. lia.
      * apply Hcells. lia.
Qed.

End CurveFill.

Section ReaderResults.
Context `{Numerics}.

(** What [build] returns is made of two vectors of [num_cp] elements. *)
Lemma curve_build_returns ctrlPts0 weights0 st r :
  curve.build ctrlPts0 weights0 st = Returns r ->
  let num_cp :=
    to_int (to_uint (to_uint (to_int (Z.of_nat (length (curve.temp_knots st))))
                     - curve.deg st) - 1) in
  0 <= num_cp
  /\ length (curve.r_ctrlPts r) = Z.to_nat num_cp
  /\ length (curve.r_weights r) = Z.to_nat num_cp
  /\ curve.r_knots r = curve.temp_knots st
  /\ curve.r_deg r = curve.deg st
  /\ forall i, (i < Z.to_nat num_cp)%nat ->
       exists idx p w,
         curve.indices st !! i = Some idx
         /\ 1 <= idx
         /\ curve.ctrl_pts_buf st !! Z.to_nat (idx - 1) = Some p
         /\ curve.weights_buf st !! Z.to_nat (idx - 1) = Some w
         /\ curve.r_ctrlPts r !! i = Some p /\ curve.r_weights r !! i = Some w.
Proof.
  unfold curve.build. intros Hb.
  apply obind_returns in Hb as (_ & _ & Hb).
  set (num_cp := to_int (to_uint (to_uint (to_int (Z.of_nat (length (curve.temp_knots st))))
                                  - curve.deg st) - 1)) in *.
  apply obind_returns in Hb as (cp & Hcp & Hb).
  apply obind_returns in Hb as (w & Hw & Hb).
  apply obind_returns in Hb as ([cp' w'] & Hfill & Hb).
  injection Hb as <-. cbn [curve.r_ctrlPts curve.r_weights curve.r_knots curve.r_deg fst snd].
  unfold vector_resize in Hcp, Hw.
  destruct (num_cp <? 0) eqn:Hneg; [discriminate|]. apply Z.ltb_ge in Hneg.
  injection Hcp as <-. injection Hw as <-.
  apply curve_fill_cells in Hfill as (Hla & Hlb & _ & Hcells);
    [|rewrite !length_resize; reflexivity].
  rewrite length_resize in Hla. rewrite length_resize in Hlb.
  repeat split; auto. intros i Hi. apply Hcells. lia.
Qed.

Lemma surface_build_returns ctrlPts0 weights0 st r :
  surface.build ctrlPts0 weights0 st = Returns r ->
  let num_cp_u :=
    to_int (to_uint (to_uint (to_int (Z.of_nat (length (surface.temp_uknots st))))
                     - surface.deg_u st) - 1) in
  let num_cp_v :=
    to_int (to_uint (to_uint (to_int (Z.of_nat (length (surface.temp_vknots st))))
                     - surface.deg_v st) - 1) in
  0 <= num_cp_u /\ 0 <= num_cp_v
  /\ shaped (Z.to_nat num_cp_u) (Z.to_nat num_cp_v)
       (surface.r_ctrlPts r) (surface.r_weights r)
  /\ surface.r_knots_u r = surface.temp_uknots st
  /\ surface.r_knots_v r = surface.temp_vknots st
  /\ surface.r_deg_u r = surface.deg_u st
  /\ surface.r_deg_v r = surface.deg_v st.
Proof.
  unfold surface.build. intros Hb.
  apply obind_returns in Hb as (_ & _ & Hb).
  set (nu := to_int (to_uint (to_uint (to_int (Z.of_nat (length (surface.temp_uknots st))))
                                - surface.deg_u st) - 1)) in *.
  set (nv := to_int (to_uint (to_uint (to_int (Z.of_nat (length (surface.temp_vknots st))))
                                - surface.deg_v st) - 1)) in *.
  apply obind_returns in Hb as (cp & Hcp & Hb).
  apply obind_returns in Hb as (w & Hw & Hb).
  apply obind_returns in Hb as ([[cp' w'] num'] & Hfill & Hb).
  injection Hb as <-.
  cbn [surface.r_ctrlPts surface.r_weights surface.r_knots_u surface.r_knots_v
       surface.r_deg_u surface.r_deg_v fst snd].
  unfold array2_resize in Hcp, Hw.
  destruct ((nu <? 0) || (nv <? 0)) eqn:Hneg; [discriminate|].
  apply orb_false_iff in Hneg as [Hu Hv]. apply Z.ltb_ge in Hu, Hv.
  injection Hcp as <-. injection Hw as <-.
  apply (fill_v_filled st (Z.to_nat nu) (Z.to_nat nv) (Z.to_nat nv) 0) in Hfill
    as (Hshaped & _).
  - repeat split; auto; apply Hshaped.
  - unfold shaped. simpl. rewrite !length_resize. tauto.
  - intros i j _ _ Hlt. simpl in Hlt. lia.
Qed.

(** X1.  Whatever the file holds, a curve that [curveReadOBJ] returns has
    as many weights as control points, and a surface that [surfaceReadOBJ]
    returns has a grid of weights with the rows and columns of the grid of
    control points, both with a cell for every position. *)
Theorem read_arrays_are_parallel :
  (forall filename contents garbage deg0 ctrlPts0 weights0 rational0 r,
     curve.curveReadOBJ filename contents garbage deg0 ctrlPts0 weights0 rational0
     = Returns r ->
     length (curve.r_weights r) = length (curve.r_ctrlPts r))
  /\ (forall filename contents garbage deg_u0 deg_v0 ctrlPts0 weights0 rational0 r,
        surface.surfaceReadOBJ filename contents garbage deg_u0 deg_v0 ctrlPts0
          weights0 rational0 = Returns r ->
        rows (surface.r_weights r) = rows (surface.r_ctrlPts r)
        /\ cols (surface.r_weights r) = cols (surface.r_ctrlPts r)
        /\ length (data (surface.r_ctrlPts r))
           = (rows (surface.r_ctrlPts r) * cols (surface.r_ctrlPts r))%nat
        /\ length (data (surface.r_weights r))
           = (rows (surface.r_ctrlPts r) * cols (surface.r_ctrlPts r))%nat).
Proof.
  split.
  - intros filename [text|] garbage deg0 ctrlPts0 weights0 rational0 r Hread;
      [|discriminate Hread].
    unfold curve.curveReadOBJ, curve.read_lines in Hread.
    apply obind_returns in Hread as (st & _ & Hb).
    apply curve_build_returns in Hb as (_ & Hcp & Hw & _). congruence.
  - intros filename [text|] garbage deg_u0 deg_v0 ctrlPts0 weights0 rational0 r Hread;
      [|discriminate Hread].
    unfold surface.surfaceReadOBJ, surface.read_lines in Hread.
    apply obind_returns in Hread as (st & _ & Hb).
    apply surface_build_returns in Hb
      as (_ & _ & (Hr & Hc & Hrw & Hcw & Hl & Hlw) & _).
    rewrite Hr, Hc, Hrw, Hcw. auto.
Qed.


(** X3.  In a curve that [curveReadOBJ] has built, control point [i] and
    weight [i] are the vertex and the weight number [indices[i]], counted
    from 1, of the vertex pool. *)
Theorem curve_control_point_order (file : list string) (garbage : ToParse)
    (deg0 : Z) (ctrlPts0 : list vec3) (weights0 : list T) (rational0 : bool)
    (st : curve.scan_state) (r : curve.result) :
  curve.scan (length file) file (curve.initial garbage deg0 rational0) = Returns st ->
  curve.read_lines file garbage deg0 ctrlPts0 weights0 rational0 = Returns r ->
  forall i : nat,
    (i < length (curve.r_ctrlPts r))%nat ->
    exists idx p w,
      curve.indices st !! i = Some idx
      /\ 1 <= idx
      /\ curve.ctrl_pts_buf st !! Z.to_nat (idx - 1) = Some p
      /\ curve.weights_buf st !! Z.to_nat (idx - 1) = Some w
      /\ curve.r_ctrlPts r !! i = Some p
      /\ curve.r_weights r !! i = Some w.
Proof.
  unfold curve.read_lines. intros Hscan Hb. rewrite Hscan in Hb. cbn [obind] in Hb.
  apply curve_build_returns in Hb as (_ & Hcp & _ & _ & _ & Hcells).
  intros i Hi. apply Hcells. rewrite <- Hcp. exact Hi.
Qed.

End ReaderResults.

Lemma read_arrays_are_parallel_witness :
  length (curve.r_weights two_point_curve) = length (curve.r_ctrlPts two_point_curve)
  /\ rows (surface.r_weights grid_2_by_3_result)
     = rows (surface.r_ctrlPts grid_2_by_3_result).
Proof.
  assert (Hc : curve.curveReadOBJ "crv.obj" (Some two_point_curve_file) no_garbage 0
                 [] [] false = Returns two_point_curve)
    by (vm_compute; reflexivity).
  assert (Hs : surface.surfaceReadOBJ "srf.obj" (Some (unlines grid_2_by_3_file))
                 no_garbage 0 0 (Array2 0 0 []) (Array2 0 0 []) false
               = Returns grid_2_by_3_result)
    by (vm_compute; reflexivity).
  destruct read_arrays_are_parallel as [Hcurve Hsurface].
  split.
  - exact (Hcurve _ _ _ _ _ _ _ _ Hc).
  - exact (proj1 (Hsurface _ _ _ _ _ _ _ _ _ Hs)).
Defined.


Lemma curve_control_point_order_witness :
  curve.r_ctrlPts two_point_curve !! 0%nat = Some (Vec3 1 2 0)
  /\ curve.r_weights two_point_curve !! 0%nat = Some 3.
Proof.
  assert (Hs : curve.scan (length (getlines two_point_curve_file))
                 (getlines two_point_curve_file) (curve.initial no_garbage 0 false)
               = Returns two_point_curve_scanned)
    by (vm_compute; reflexivity).
  assert (Hb : curve.read_lines (getlines two_point_curve_file) no_garbage 0 [] [] false
               = Returns two_point_curve)
    by (vm_compute; reflexivity).
  destruct (curve_control_point_order _ _ _ _ _ _ _ _ Hs Hb 0%nat)
    as (idx & p & w & H1 & _ & H3 & H4 & H5 & H6); [simpl; lia|].
  injection H1 as <-. injection H3 as <-. injection H4 as <-. auto.
Defined.


(** * Records that a file does not hold *)

(** The token that [>>] reads is the first word of the buffer. *)
Lemma get_token_words b w ss :
  get_token {| buf := b; failbit := false |} = (Some w, ss) ->
  failbit ss = false /\ words b = w :: words (buf ss).
Proof.
  unfold get_token, sentry. cbn [failbit buf]. rewrite (words_unfold b).
  destruct (skipws b) as [|c b'] eqn:Hs; [discriminate|].
  destruct (get_word (String c b')) as [w' r] eqn:Hg.
  intros [= <- <-]. split; reflexivity.
Qed.

Lemma get_token_refused ss ss' : get_token ss = (None, ss') -> ss' = ss_fail.
Proof.
  unfold get_token. destruct (sentry ss); [|intros [= <-]; reflexivity].
  destruct (get_word s). discriminate.
Qed.

Lemma get_token_failed : get_token ss_fail = (None, ss_fail).
Proof. reflexivity. Qed.

(** The keyword and the axis of a line are among its words. *)
Lemma first_token_in_words l s ss (kw : string) :
  get_token {| buf := l; failbit := false |} = (s, ss) ->
  ~ In kw (words l) -> s <> Some kw.
Proof.
  intros Htok Hnot ->. apply get_token_words in Htok as [_ Hw].
  apply Hnot. rewrite Hw. left. reflexivity.
Qed.

Lemma second_token_in_words l s ss a ss1 (kw : string) :
  get_token {| buf := l; failbit := false |} = (s, ss) ->
  get_token ss = (a, ss1) ->
  ~ In kw (words l) -> a <> Some kw.
Proof.
  intros Htok Hax Hnot ->. destruct s as [w|].
  - apply get_token_words in Htok as [Hfb Hw]. destruct ss as [b fb].
    cbn [failbit] in Hfb. subst fb. apply get_token_words in Hax as [_ Hw2].
    cbn [buf] in Hw. apply Hnot. rewrite Hw, Hw2. right. left. reflexivity.
  - apply get_token_refused in Htok. subst ss. discriminate Hax.
Qed.

Lemma default_not kw (s0 : string) (s : option string) :
  s0 <> kw -> s <> Some kw -> default s0 s <> kw.
Proof. intros H0 Hs. destruct s as [w|]; simpl; congruence. Qed.

Section CurveRecordNotSeen.
Context `{Numerics}.
Variable kw : string.
Variable seen : ToParse -> bool.
Hypothesis seen_cstype : kw <> "cstype" -> forall p, seen (set_cstype p) = seen p.
Hypothesis seen_deg : kw <> "deg" -> forall p, seen (set_deg p) = seen p.
Hypothesis seen_curv : kw <> "curv" -> forall p, seen (set_curv p) = seen p.
Hypothesis seen_parm : kw <> "parm" -> forall p, seen (set_parm p) = seen p.

Lemma curve_process_line_not_seen l file st c file' st' :
  ~ In kw (words l) ->
  curve.start st <> kw -> seen (curve.parsed st) = false ->
  curve.process_line file (curve.with_line l st) = Returns (c, file', st') ->
  curve.start st' <> kw /\ seen (curve.parsed st') = false.
Proof.
  intros Hnot Hstart Hseen. unfold curve.process_line.
  cbn [curve.sline curve.with_line].
  destruct (get_token {| buf := l; failbit := false |}) as [s ss] eqn:Htok.
  pose proof (default_not kw (curve.start st) s Hstart
                (first_token_in_words _ _ _ _ Htok Hnot)) as Hstart1.
  cbn [curve.start curve.with_start curve.with_line].
  set (start1 := default (curve.start st) s) in *.
  destruct (String.eqb start1 "v") eqn:Ev.
  { intros [= <- <- <-]. unfold curve.on_v. destruct (v_record ss). split; assumption. }
  destruct (String.eqb start1 "cstype") eqn:Ec.
  { intros [= <- <- <-]. apply String.eqb_eq in Ec. unfold curve.on_cstype.
    destruct (cstype_record ss); cbn [curve.start curve.parsed curve.with_start];
      [|split; assumption].
    split; [exact Hstart1|]. rewrite seen_cstype by congruence. exact Hseen. }
  destruct (String.eqb start1 "deg") eqn:Ed.
  { intros [= <- <- <-]. apply String.eqb_eq in Ed. unfold curve.on_deg.
    destruct (extract get_uint ss). cbn [curve.start curve.parsed curve.with_start].
    split; [exact Hstart1|]. rewrite seen_deg by congruence. exact Hseen. }
  destruct (String.eqb start1 "curv") eqn:Eu.
  { intros Hr. apply String.eqb_eq in Eu.
    apply obind_returns in Hr as ([f s1] & Hr & Hk). injection Hk as <- <- <-.
    unfold curve.on_curv in Hr.
    destruct (extract get_T ss) as [v1 ss1]. destruct (extract get_T ss1) as [v2 ss2].
    apply obind_returns in Hr as ([[f1 l1] k1] & _ & Hr). injection Hr as <- <-.
    cbn [snd curve.start curve.parsed curve.with_start].
    split; [exact Hstart1|]. rewrite seen_curv by congruence. exact Hseen. }
  destruct (String.eqb start1 "parm") eqn:Ep.
  { intros Hr. apply String.eqb_eq in Ep.
    apply obind_returns in Hr as ([f s1] & Hr & Hk). injection Hk as <- <- <-.
    unfold curve.on_parm in Hr. cbn [curve.start curve.with_start] in Hr.
    destruct (get_token ss) as [axis ss1] eqn:Hax.
    pose proof (default_not kw start1 axis Hstart1
                  (second_token_in_words _ _ _ _ _ _ Htok Hax Hnot)) as Hstart2.
    destruct (String.eqb (default start1 axis) "u").
    - apply obind_returns in Hr as ([[f1 l1] k1] & _ & Hr). injection Hr as <- <-.
      cbn [snd curve.start curve.parsed curve.with_start].
      split; [exact Hstart2|]. rewrite seen_parm by congruence. exact Hseen.
    - injection Hr as <- <-. cbn [snd curve.start curve.parsed curve.with_start].
      split; [exact Hstart2|]. rewrite seen_parm by congruence. exact Hseen. }
  destruct (String.eqb start1 "end"); intros [= <- <- <-]; split; assumption.
Qed.

Lemma curve_scan_not_seen n : forall file st st',
  Forall (fun l => ~ In kw (words l)) file ->
  curve.start st <> kw -> seen (curve.parsed st) = false ->
  curve.scan n file st = Returns st' ->
  seen (curve.parsed st') = false.
Proof.
  induction n as [|n IH]; intros [|l file] st st' Hfile Hstart Hseen Hscan;
    simpl in Hscan; try discriminate.
  - injection Hscan as <-. exact Hseen.
  - injection Hscan as <-. exact Hseen.
  - inversion Hfile as [|? ? Hl Hrest]; subst.
    destruct (String.eqb l "").
    + apply (IH _ _ _ Hrest) in Hscan; assumption.
    + apply obind_returns in Hscan as ([[c file''] st1] & Hp & Hscan).
      pose proof (curve_process_line_not_seen _ _ _ _ _ _ Hl Hstart Hseen Hp)
        as [Hstart1 Hseen1].
      destruct c; [|injection Hscan as <-; exact Hseen1].
      apply curve_process_line_suffix in Hp as [taken ->].
      apply Forall_app in Hrest as [_ Hrest].
      apply (IH _ _ _ Hrest Hstart1 Hseen1 Hscan).
Qed.

End CurveRecordNotSeen.

Section SurfaceRecordNotSeen.
Context `{Numerics}.
Variable kw : string.
Variable seen : ToParse -> bool.
Hypothesis seen_cstype : kw <> "cstype" -> forall p, seen (set_cstype p) = seen p.
Hypothesis seen_deg : kw <> "deg" -> forall p, seen (set_deg p) = seen p.
Hypothesis seen_surf : kw <> "surf" -> forall p, seen (set_curv p) = seen p.
Hypothesis seen_parm : kw <> "parm" -> forall p, seen (set_parm p) = seen p.

Lemma surface_process_line_not_seen l file st c file' st' :
  ~ In kw (words l) ->
  surface.start st <> kw -> seen (surface.parsed st) = false ->
  surface.process_line file (surface.with_line l st) = Returns (c, file', st') ->
  surface.start st' <> kw /\ seen (surface.parsed st') = false.
Proof.
  intros Hnot Hstart Hseen. unfold surface.process_line.
  cbn [surface.sline surface.with_line].
  destruct (get_token {| buf := l; failbit := false |}) as [s ss] eqn:Htok.
  pose proof (default_not kw (surface.start st) s Hstart
                (first_token_in_words _ _ _ _ Htok Hnot)) as Hstart1.
  cbn [surface.start surface.with_start surface.with_line].
  set (start1 := default (surface.start st) s) in *.
  destruct (String.eqb start1 "v") eqn:Ev.
  { intros [= <- <- <-]. unfold surface.on_v. destruct (v_record ss).
    split; assumption. }
  destruct (String.eqb start1 "cstype") eqn:Ec.
  { intros [= <- <- <-]. apply String.eqb_eq in Ec. unfold surface.on_cstype.
    destruct (cstype_record ss);
      cbn [surface.start surface.parsed surface.with_start]; [|split; assumption].
    split; [exact Hstart1|]. rewrite seen_cstype by congruence. exact Hseen. }
  destruct (String.eqb start1 "deg") eqn:Ed.
  { intros [= <- <- <-]. apply String.eqb_eq in Ed. unfold surface.on_deg.
    destruct (extract get_uint ss) as [du ss1]. destruct (extract get_uint ss1).
    cbn [surface.start surface.parsed surface.with_start].
    split; [exact Hstart1|]. rewrite seen_deg by congruence. exact Hseen. }
  destruct (String.eqb start1 "surf") eqn:Eu.
  { intros Hr. apply String.eqb_eq in Eu.
    apply obind_returns in Hr as ([f s1] & Hr & Hk). injection Hk as <- <- <-.
    unfold surface.on_surf in Hr.
    destruct (extract get_T ss) as [v1 ss1]. destruct (extract get_T ss1) as [v2 ss2].
    destruct (extract get_T ss2) as [v3 ss3]. destruct (extract get_T ss3) as [v4 ss4].
    apply obind_returns in Hr as ([[f1 l1] k1] & _ & Hr). injection Hr as <- <-.
    cbn [snd surface.start surface.parsed surface.with_start].
    split; [exact Hstart1|]. rewrite seen_surf by congruence. exact Hseen. }
  destruct (String.eqb start1 "parm") eqn:Ep.
  { intros Hr. apply String.eqb_eq in Ep.
    apply obind_returns in Hr as ([f s1] & Hr & Hk). injection Hk as <- <- <-.
    unfold surface.on_parm in Hr. cbn [surface.start surface.with_start] in Hr.
    destruct (get_token ss) as [axis ss1] eqn:Hax.
    pose proof (default_not kw start1 axis Hstart1
                  (second_token_in_words _ _ _ _ _ _ Htok Hax Hnot)) as Hstart2.
    destruct (String.eqb (default start1 axis) "u");
      [|destruct (String.eqb (default start1 axis) "v")].
    - apply obind_returns in Hr as ([[f1 l1] k1] & _ & Hr). injection Hr as <- <-.
      cbn [snd surface.start surface.parsed surface.with_start].
      split; [exact Hstart2|]. rewrite seen_parm by congruence. exact Hseen.
    - apply obind_returns in Hr as ([[f1 l1] k1] & _ & Hr). injection Hr as <- <-.
      cbn [snd surface.start surface.parsed surface.with_start].
      split; [exact Hstart2|]. rewrite seen_parm by congruence. exact Hseen.
    - injection Hr as <- <-. cbn [snd surface.start surface.parsed surface.with_start].
      split; [exact Hstart2|]. rewrite seen_parm by congruence. exact Hseen. }
  destruct (String.eqb start1 "end"); intros [= <- <- <-]; split; assumption.
Qed.

Lemma surface_scan_not_seen n : forall file st st',
  Forall (fun l => ~ In kw (words l)) file ->
  surface.start st <> kw -> seen (surface.parsed st) = false ->
  surface.scan n file st = Returns st' ->
  seen (surface.parsed st') = false.
Proof.
  induction n as [|n IH]; intros [|l file] st st' Hfile Hstart Hseen Hscan;
    simpl in Hscan; try discriminate.
  - injection Hscan as <-. exact Hseen.
  - injection Hscan as <-. exact Hseen.
  - inversion Hfile as [|? ? Hl Hrest]; subst.
    destruct (String.eqb l "").
    + injection Hscan as <-. exact Hseen.
    + apply obind_returns in Hscan as ([[c file''] st1] & Hp & Hscan).
      pose proof (surface_process_line_not_seen _ _ _ _ _ _ Hl Hstart Hseen Hp)
        as [Hstart1 Hseen1].
      destruct c; [|injection Hscan as <-; exact Hseen1].
      apply surface_process_line_suffix in Hp as [taken ->].
      apply Forall_app in Hrest as [_ Hrest].
      apply (IH _ _ _ Hrest Hstart1 Hseen1 Hscan).
Qed.

End SurfaceRecordNotSeen.

Section MissingRecords.
Context `{Numerics}.

Lemma curve_not_built ctrlPts0 weights0 st r :
  curve.build ctrlPts0 weights0 st = Returns r ->
  p_cstype (curve.parsed st) = true /\ p_deg (curve.parsed st) = true
  /\ p_curv (curve.parsed st) = true /\ p_parm (curve.parsed st) = true.
Proof.
  unfold curve.build. intros Hb. apply obind_returns in Hb as (u & Hc & _).
  unfold curve.check_parsed in Hc.
  destruct (p_cstype (curve.parsed st)), (p_deg (curve.parsed st)),
    (p_curv (curve.parsed st)), (p_parm (curve.parsed st)); try discriminate Hc.
  auto.
Qed.

Lemma surface_not_built ctrlPts0 weights0 st r :
  surface.build ctrlPts0 weights0 st = Returns r ->
  p_cstype (surface.parsed st) = true /\ p_deg (surface.parsed st) = true
  /\ p_curv (surface.parsed st) = true /\ p_parm (surface.parsed st) = true.
Proof.
  unfold surface.build. intros Hb. apply obind_returns in Hb as (u & Hc & _).
  unfold surface.check_parsed in Hc.
  destruct (p_cstype (surface.parsed st)), (p_deg (surface.parsed st)),
    (p_curv (surface.parsed st)), (p_parm (surface.parsed st)); try discriminate Hc.
  auto.
Qed.

(** X4.  When the flag of a required record ([cstype], [deg], [curv] or
    [parm]) starts as false, [curveReadOBJ] returns no curve from a file in
    which the keyword of that record occurs in no line. *)
Theorem curve_without_a_record_is_not_read (text : string) (garbage : ToParse) :
  (p_cstype garbage = false ->
   Forall (fun l => ~ In "cstype" (words l)) (getlines text) ->
   forall filename deg0 ctrlPts0 weights0 rational0 r,
     curve.curveReadOBJ filename (Some text) garbage deg0 ctrlPts0 weights0 rational0
     <> Returns r)
  /\ (p_deg garbage = false ->
      Forall (fun l => ~ In "deg" (words l)) (getlines text) ->
      forall filename deg0 ctrlPts0 weights0 rational0 r,
        curve.curveReadOBJ filename (Some text) garbage deg0 ctrlPts0 weights0
          rational0 <> Returns r)
  /\ (p_curv garbage = false ->
      Forall (fun l => ~ In "curv" (words l)) (getlines text) ->
      forall filename deg0 ctrlPts0 weights0 rational0 r,
        curve.curveReadOBJ filename (Some text) garbage deg0 ctrlPts0 weights0
          rational0 <> Returns r)
  /\ (p_parm garbage = false ->
      Forall (fun l => ~ In "parm" (words l)) (getlines text) ->
      forall filename deg0 ctrlPts0 weights0 rational0 r,
        curve.curveReadOBJ filename (Some text) garbage deg0 ctrlPts0 weights0
          rational0 <> Returns r).
Proof.
  assert (Hgen : forall kw seen,
            (kw <> "cstype" -> forall p, seen (set_cstype p) = seen p) ->
            (kw <> "deg" -> forall p, seen (set_deg p) = seen p) ->
            (kw <> "curv" -> forall p, seen (set_curv p) = seen p) ->
            (kw <> "parm" -> forall p, seen (set_parm p) = seen p) ->
            (forall ctrlPts0 weights0 st r,
               curve.build ctrlPts0 weights0 st = Returns r ->
               seen (curve.parsed st) = true) ->
            "" <> kw ->
            seen garbage = false ->
            Forall (fun l => ~ In kw (words l)) (getlines text) ->
            forall filename deg0 ctrlPts0 weights0 rational0 r,
              curve.curveReadOBJ filename (Some text) garbage deg0 ctrlPts0 weights0
                rational0 <> Returns r).
  { intros kw seen H1 H2 H3 H4 Hbuilt Hkw Hseen Hfile filename deg0 ctrlPts0 weights0
      rational0 r Hread.
    unfold curve.curveReadOBJ, curve.read_lines in Hread.
    apply obind_returns in Hread as (st & Hscan & Hb).
    apply (curve_scan_not_seen kw seen H1 H2 H3 H4) in Hscan;
      [|exact Hfile | exact Hkw | exact Hseen].
    apply Hbuilt in Hb. congruence. }
  split; [|split; [|split]]; intros Hflag Hfile.
  - apply (Hgen "cstype" p_cstype); try reflexivity; try assumption;
      try discriminate; try congruence.
    intros c w st r Hb. apply curve_not_built in Hb. tauto.
  - apply (Hgen "deg" p_deg); try reflexivity; try assumption;
      try discriminate; try congruence.
    intros c w st r Hb. apply curve_not_built in Hb. tauto.
  - apply (Hgen "curv" p_curv); try reflexivity; try assumption;
      try discriminate; try congruence.
    intros c w st r Hb. apply curve_not_built in Hb. tauto.
  - apply (Hgen "parm" p_parm); try reflexivity; try assumption;
      try discriminate; try congruence.
    intros c w st r Hb. apply curve_not_built in Hb. tauto.
Qed.

(** X5.  The same for [surfaceReadOBJ] and the records [cstype], [deg],
    [surf] and [parm]. *)
Theorem surface_without_a_record_is_not_read (text : string) (garbage : ToParse) :
  (p_cstype garbage = false ->
   Forall (fun l => ~ In "cstype" (words l)) (getlines text) ->
   forall filename deg_u0 deg_v0 ctrlPts0 weights0 rational0 r,
     surface.surfaceReadOBJ filename (Some text) garbage deg_u0 deg_v0 ctrlPts0
       weights0 rational0 <> Returns r)
  /\ (p_deg garbage = false ->
      Forall (fun l => ~ In "deg" (words l)) (getlines text) ->
      forall filename deg_u0 deg_v0 ctrlPts0 weights0 rational0 r,
        surface.surfaceReadOBJ filename (Some text) garbage deg_u0 deg_v0 ctrlPts0
          weights0 rational0 <> Returns r)
  /\ (p_curv garbage = false ->
      Forall (fun l => ~ In "surf" (words l)) (getlines text) ->
      forall filename deg_u0 deg_v0 ctrlPts0 weights0 rational0 r,
        surface.surfaceReadOBJ filename (Some text) garbage deg_u0 deg_v0 ctrlPts0
          weights0 rational0 <> Returns r)
  /\ (p_parm garbage = false ->
      Forall (fun l => ~ In "parm" (words l)) (getlines text) ->
      forall filename deg_u0 deg_v0 ctrlPts0 weights0 rational0 r,
        surface.surfaceReadOBJ filename (Some text) garbage deg_u0 deg_v0 ctrlPts0
          weights0 rational0 <> Returns r).
Proof.
  assert (Hgen : forall kw seen,
            (kw <> "cstype" -> forall p, seen (set_cstype p) = seen p) ->
            (kw <> "deg" -> forall p, seen (set_deg p) = seen p) ->
            (kw <> "surf" -> forall p, seen (set_curv p) = seen p) ->
            (kw <> "parm" -> forall p, seen (set_parm p) = seen p) ->
            (forall ctrlPts0 weights0 st r,
               surface.build ctrlPts0 weights0 st = Returns r ->
               seen (surface.parsed st) = true) ->
            "" <> kw ->
            seen garbage = false ->
            Forall (fun l => ~ In kw (words l)) (getlines text) ->
            forall filename deg_u0 deg_v0 ctrlPts0 weights0 rational0 r,
              surface.surfaceReadOBJ filename (Some text) garbage deg_u0 deg_v0
                ctrlPts0 weights0 rational0 <> Returns r).
  { intros kw seen H1 H2 H3 H4 Hbuilt Hkw Hseen Hfile filename deg_u0 deg_v0 ctrlPts0
      weights0 rational0 r Hread.
    unfold surface.surfaceReadOBJ, surface.read_lines in Hread.
    apply obind_returns in Hread as (st & Hscan & Hb).
    apply (surface_scan_not_seen kw seen H1 H2 H3 H4) in Hscan;
      [|exact Hfile | exact Hkw | exact Hseen].
    apply Hbuilt in Hb. congruence. }
  split; [|split; [|split]]; intros Hflag Hfile.
  - apply (Hgen "cstype" p_cstype); try reflexivity; try assumption;
      try discriminate; try congruence.
    intros c w st r Hb. apply surface_not_built in Hb. tauto.
  - apply (Hgen "deg" p_deg); try reflexivity; try assumption;
      try discriminate; try congruence.
    intros c w st r Hb. apply surface_not_built in Hb. tauto.
  - apply (Hgen "surf" p_curv); try reflexivity; try assumption;
      try discriminate; try congruence.
    intros c w st r Hb. apply surface_not_built in Hb. tauto.
  - apply (Hgen "parm" p_parm); try reflexivity; try assumption;
      try discriminate; try congruence.
    intros c w st r Hb. apply surface_not_built in Hb. tauto.
Qed.

End MissingRecords.

Lemma curve_without_a_record_is_not_read_witness :
  ~ returns
      (curve.curveReadOBJ "crv.obj" (Some curve_without_deg) no_garbage 1 [] [] false).
Proof.
  assert (Hfile : Forall (fun l => ~ In "deg" (words l)) (getlines curve_without_deg)).
  { vm_compute. repeat constructor; intros Hin; simpl in Hin; intuition discriminate. }
  intros [r Hr].
  exact (proj1 (proj2 (curve_without_a_record_is_not_read curve_without_deg no_garbage))
           eq_refl Hfile "crv.obj" 1 [] [] false r Hr).
Defined.

Lemma surface_without_a_record_is_not_read_witness :
  ~ returns
      (surface.surfaceReadOBJ "srf.obj" (Some surface_without_deg) no_garbage 1 1
         (Array2 0 0 []) (Array2 0 0 []) false).
Proof.
  assert (Hfile : Forall (fun l => ~ In "deg" (words l)) (getlines surface_without_deg)).
  { vm_compute. repeat constructor; intros Hin; simpl in Hin; intuition discriminate. }
  intros [r Hr].
  exact (proj1 (proj2 (surface_without_a_record_is_not_read surface_without_deg
                         no_garbage))
           eq_refl Hfile "srf.obj" 1 1 (Array2 0 0 []) (Array2 0 0 []) false r Hr).
Defined.


(** * Lines of white space, records without their fields, lines after [end] *)

Lemma blank_delimited s : skipws s = "" -> delimited s = true.
Proof.
  destruct s as [|c s]; [reflexivity|]. simpl.
  destruct (Ascii.is_space c); [reflexivity | discriminate].
Qed.

Lemma get_token_blank s :
  skipws s = "" -> get_token {| buf := s; failbit := false |} = (None, ss_fail).
Proof. intros Hs. unfold get_token, sentry. simpl. rewrite Hs. reflexivity. Qed.

Lemma not_empty_eqb s : s <> "" -> String.eqb s "" = false.
Proof. intros Hs. apply String.eqb_neq. exact Hs. Qed.

Section BlankLines.
Context `{Numerics}.

Lemma v_record_of_failed_stream :
  v_record ss_fail
  = (Vec3 (T_of_dbl dbl_zero) (T_of_dbl dbl_zero) (T_of_dbl dbl_zero),
     T_of_dbl dbl_one).
Proof. reflexivity. Qed.

(** X6.  A line that holds white space only is not an empty line: the
    extraction of the keyword fails and leaves the keyword of the record
    before.  After a [v] record, each such line makes either reader add
    the vertex (0, 0, 0) with the weight 1 to the vertex pool. *)
Theorem white_space_line_repeats_v (blank : string) :
  blank <> "" -> skipws blank = "" ->
  (forall file st n,
     curve.start st = "v" ->
     curve.scan (S n) (blank :: file) st
     = curve.scan n file
         {| curve.sline := blank; curve.start := "v"; curve.deg := curve.deg st;
            curve.rational := curve.rational st; curve.parsed := curve.parsed st;
            curve.ctrl_pts_buf :=
              curve.ctrl_pts_buf st
              ++ [Vec3 (T_of_dbl dbl_zero) (T_of_dbl dbl_zero) (T_of_dbl dbl_zero)];
            curve.weights_buf := curve.weights_buf st ++ [T_of_dbl dbl_one];
            curve.indices := curve.indices st;
            curve.temp_knots := curve.temp_knots st |})
  /\ (forall file st n,
        surface.start st = "v" ->
        surface.scan (S n) (blank :: file) st
        = surface.scan n file
            {| surface.sline := blank; surface.start := "v";
               surface.deg_u := surface.deg_u st; surface.deg_v := surface.deg_v st;
               surface.rational := surface.rational st;
               surface.parsed := surface.parsed st;
               surface.ctrl_pts_buf :=
                 surface.ctrl_pts_buf st
                 ++ [Vec3 (T_of_dbl dbl_zero) (T_of_dbl dbl_zero) (T_of_dbl dbl_zero)];
               surface.weights_buf := surface.weights_buf st ++ [T_of_dbl dbl_one];
               surface.indices := surface.indices st;
               surface.temp_uknots := surface.temp_uknots st;
               surface.temp_vknots := surface.temp_vknots st |}).
Proof.
  intros Hne Hblank. split.
  - intros file st n Hstart. cbn [curve.scan]. rewrite (not_empty_eqb _ Hne).
    unfold curve.process_line. cbn [curve.sline curve.with_line].
    rewrite (get_token_blank _ Hblank).
    cbn [default curve.start curve.with_start curve.with_line]. rewrite Hstart.
    cbn [String.eqb Ascii.eqb Bool.eqb obind]. unfold curve.on_v.
    rewrite v_record_of_failed_stream. reflexivity.
  - intros file st n Hstart. cbn [surface.scan]. rewrite (not_empty_eqb _ Hne).
    unfold surface.process_line. cbn [surface.sline surface.with_line].
    rewrite (get_token_blank _ Hblank).
    cbn [default surface.start surface.with_start surface.with_line]. rewrite Hstart.
    cbn [String.eqb Ascii.eqb Bool.eqb obind]. unfold surface.on_v.
    rewrite v_record_of_failed_stream. reflexivity.
Qed.

(** X7.  A [deg] record counts as seen whether or not a degree follows the
    keyword.  When only white space follows the keyword, the degree keeps
    the value that the caller passed (or that an earlier record set); in a
    surface file with one number and then only white space, [deg_v] keeps
    its value.  When what follows the keyword is not read as a number, the
    extraction fails and the degree ([deg_u] in a surface file, where
    [deg_v] keeps its value) becomes the value [d] that the failed
    extraction stores: 0 for a word, the largest [unsigned int] for a
    number out of range. *)
Theorem deg_record_without_number (s : string) :
  skipws s = "" ->
  (forall file st,
     curve.process_line file (curve.with_line ("deg" +:+ s) st)
     = Returns (Next, file,
         {| curve.sline := "deg" +:+ s; curve.start := "deg";
            curve.deg := curve.deg st; curve.rational := curve.rational st;
            curve.parsed := set_deg (curve.parsed st);
            curve.ctrl_pts_buf := curve.ctrl_pts_buf st;
            curve.weights_buf := curve.weights_buf st;
            curve.indices := curve.indices st;
            curve.temp_knots := curve.temp_knots st |}))
  /\ (forall file st,
        surface.process_line file (surface.with_line ("deg" +:+ s) st)
        = Returns (Next, file,
            {| surface.sline := "deg" +:+ s; surface.start := "deg";
               surface.deg_u := surface.deg_u st; surface.deg_v := surface.deg_v st;
               surface.rational := surface.rational st;
               surface.parsed := set_deg (surface.parsed st);
               surface.ctrl_pts_buf := surface.ctrl_pts_buf st;
               surface.weights_buf := surface.weights_buf st;
               surface.indices := surface.indices st;
               surface.temp_uknots := surface.temp_uknots st;
               surface.temp_vknots := surface.temp_vknots st |}))
  /\ (forall tok d file st,
        reads_as get_uint tok d ->
        surface.process_line file
          (surface.with_line ("deg" +:+ " " +:+ tok +:+ s) st)
        = Returns (Next, file,
            {| surface.sline := "deg" +:+ " " +:+ tok +:+ s; surface.start := "deg";
               surface.deg_u := d; surface.deg_v := surface.deg_v st;
               surface.rational := surface.rational st;
               surface.parsed := set_deg (surface.parsed st);
               surface.ctrl_pts_buf := surface.ctrl_pts_buf st;
               surface.weights_buf := surface.weights_buf st;
               surface.indices := surface.indices st;
               surface.temp_uknots := surface.temp_uknots st;
               surface.temp_vknots := surface.temp_vknots st |}))
  /\ (forall t d n,
        delimited t = true -> skipws t <> "" ->
        get_uint (skipws t) = (d, false, n) ->
        (forall file st,
           curve.process_line file (curve.with_line ("deg" +:+ t) st)
           = Returns (Next, file,
               {| curve.sline := "deg" +:+ t; curve.start := "deg";
                  curve.deg := d; curve.rational := curve.rational st;
                  curve.parsed := set_deg (curve.parsed st);
                  curve.ctrl_pts_buf := curve.ctrl_pts_buf st;
                  curve.weights_buf := curve.weights_buf st;
                  curve.indices := curve.indices st;
                  curve.temp_knots := curve.temp_knots st |}))
        /\ (forall file st,
              surface.process_line file (surface.with_line ("deg" +:+ t) st)
              = Returns (Next, file,
                  {| surface.sline := "deg" +:+ t; surface.start := "deg";
                     surface.deg_u := d; surface.deg_v := surface.deg_v st;
                     surface.rational := surface.rational st;
                     surface.parsed := set_deg (surface.parsed st);
                     surface.ctrl_pts_buf := surface.ctrl_pts_buf st;
                     surface.weights_buf := surface.weights_buf st;
                     surface.indices := surface.indices st;
                     surface.temp_uknots := surface.temp_uknots st;
                     surface.temp_vknots := surface.temp_vknots st |}))).
Proof.
  intros Hs. pose proof (blank_delimited s Hs) as Hd. split; [|split; [|split]].
  - intros file st.
    rewrite (curve_process_keyword "deg" s file st eq_refl Hd).
    cbn [String.eqb Ascii.eqb Bool.eqb]. unfold curve.on_deg.
    rewrite (extract_nothing get_uint s Hs). reflexivity.
  - intros file st.
    rewrite (surface_process_keyword "deg" s file st eq_refl Hd).
    cbn [String.eqb Ascii.eqb Bool.eqb]. unfold surface.on_deg.
    rewrite (extract_nothing get_uint s Hs). reflexivity.
  - intros tok d file st Htok.
    rewrite (surface_process_keyword "deg" (" " +:+ tok +:+ s) file st eq_refl eq_refl).
    cbn [String.eqb Ascii.eqb Bool.eqb]. unfold surface.on_deg.
    rewrite (extract_space_as get_uint tok d s Htok Hd).
    rewrite (extract_nothing get_uint s Hs). reflexivity.
  - intros t d n Ht Hne Hget.
    assert (Hx : extract get_uint {| buf := t; failbit := false |}
                 = (Some d, {| buf := drop_chars n (skipws t); failbit := true |})).
    { unfold extract, sentry. cbn [failbit buf].
      destruct (skipws t) as [|c b] eqn:Hb; [congruence|]. rewrite Hget. reflexivity. }
    split; intros file st.
    + rewrite (curve_process_keyword "deg" t file st eq_refl Ht).
      cbn [String.eqb Ascii.eqb Bool.eqb]. unfold curve.on_deg.
      rewrite Hx. reflexivity.
    + rewrite (surface_process_keyword "deg" t file st eq_refl Ht).
      cbn [String.eqb Ascii.eqb Bool.eqb]. unfold surface.on_deg.
      rewrite Hx. reflexivity.
Qed.

(** X8.  The scan stops at the record [end]: the lines after it are not
    read, whatever they hold. *)
Theorem lines_after_end_are_not_read (pre post : list string) (l : string)
    (ss : istringstream) :
  Forall (fun l => no_backslash l = true) pre ->
  get_token {| buf := l; failbit := false |} = (Some "end", ss) ->
  (forall garbage deg0 ctrlPts0 weights0 rational0,
     curve.read_lines (pre ++ l :: post) garbage deg0 ctrlPts0 weights0 rational0
     = curve.read_lines (pre ++ [l]) garbage deg0 ctrlPts0 weights0 rational0)
  /\ (forall garbage deg_u0 deg_v0 ctrlPts0 weights0 rational0,
        surface.read_lines (pre ++ l :: post) garbage deg_u0 deg_v0 ctrlPts0 weights0
          rational0
        = surface.read_lines (pre ++ [l]) garbage deg_u0 deg_v0 ctrlPts0 weights0
            rational0).
Proof.
  intros Hpre Htok.
  assert (Hl : String.eqb l "" = false).
  { apply not_empty_eqb. intros ->. discriminate Htok. }
  split.
  - intros garbage deg0 ctrlPts0 weights0 rational0. unfold curve.read_lines.
    apply (curve_scan_prefix ctrlPts0 weights0 pre (l :: post) [l]);
      [exact Hpre | | apply Nat.le_refl..].
    intros st n m Hn Hm. simpl in Hn, Hm.
    destruct n as [|n]; [lia|]. destruct m as [|m]; [lia|].
    cbn [curve.scan]. rewrite Hl. unfold curve.process_line.
    cbn [curve.sline curve.with_line]. rewrite Htok. reflexivity.
  - intros garbage deg_u0 deg_v0 ctrlPts0 weights0 rational0. unfold surface.read_lines.
    apply (surface_scan_prefix ctrlPts0 weights0 pre (l :: post) [l]);
      [exact Hpre | | apply Nat.le_refl..].
    intros st n m Hn Hm. simpl in Hn, Hm.
    destruct n as [|n]; [lia|]. destruct m as [|m]; [lia|].
    cbn [surface.scan]. rewrite Hl. unfold surface.process_line.
    cbn [surface.sline surface.with_line]. rewrite Htok. reflexivity.
Qed.

End BlankLines.

Lemma white_space_line_repeats_v_witness :
  curve.scan 1 ["  "] (curve.with_start "v" (curve.initial no_garbage 0 false))
  = Returns
      {| curve.sline := "  "; curve.start := "v"; curve.deg := 0;
         curve.rational := false; curve.parsed := no_garbage;
         curve.ctrl_pts_buf := [Vec3 0 0 0]; curve.weights_buf := [1];
         curve.indices := []; curve.temp_knots := [] |}.
Proof.
  assert (Hne : "  " <> "") by discriminate.
  assert (Hblank : skipws "  " = "") by reflexivity.
  exact (proj1 (white_space_line_repeats_v "  " Hne Hblank) []
           (curve.with_start "v" (curve.initial no_garbage 0 false)) 0%nat eq_refl).
Defined.

Lemma deg_record_without_number_witness :
  curve.process_line [] (curve.with_line "deg" (curve.initial no_garbage 7 false))
  = Returns (Next, [],
      {| curve.sline := "deg"; curve.start := "deg"; curve.deg := 7;
         curve.rational := false; curve.parsed := set_deg no_garbage;
         curve.ctrl_pts_buf := []; curve.weights_buf := [];
         curve.indices := []; curve.temp_knots := [] |})
  /\ curve.process_line []
       (curve.with_line "deg abc" (curve.initial no_garbage 7 false))
     = Returns (Next, [],
         {| curve.sline := "deg abc"; curve.start := "deg"; curve.deg := 0;
            curve.rational := false; curve.parsed := set_deg no_garbage;
            curve.ctrl_pts_buf := []; curve.weights_buf := [];
            curve.indices := []; curve.temp_knots := [] |}).
Proof.
  assert (Hblank : skipws "" = "") by reflexivity.
  assert (Hword : skipws " abc" <> "") by discriminate.
  assert (Hget : get_uint (skipws " abc") = (0, false, 0%nat)) by reflexivity.
  destruct (deg_record_without_number "" Hblank) as (Hbare & _ & _ & Hfailed).
  split.
  - exact (Hbare [] (curve.initial no_garbage 7 false)).
  - exact (proj1 (Hfailed " abc" 0 0%nat eq_refl Hword Hget) []
             (curve.initial no_garbage 7 false)).
Defined.

Lemma lines_after_end_are_not_read_witness :
  curve.read_lines (["v 0 0 0 1"; "cstype bspline"] ++ "end" :: ["deg 1"; "v 1 1 1 1"])
    no_garbage 0 [] [] false
  = curve.read_lines (["v 0 0 0 1"; "cstype bspline"] ++ ["end"])
      no_garbage 0 [] [] false.
Proof.
  assert (Hpre : Forall (fun l => no_backslash l = true) ["v 0 0 0 1"; "cstype bspline"])
    by (repeat constructor).
  assert (Htok : get_token {| buf := "end"; failbit := false |}
                 = (Some "end", {| buf := ""; failbit := false |})) by reflexivity.
  exact (proj1 (lines_after_end_are_not_read _ ["deg 1"; "v 1 1 1 1"] "end" _ Hpre Htok)
           no_garbage 0 [] [] false).
Defined.


(** * List records on one line *)

Lemma words_of_join ts :
  Forall (fun t => is_value_token t = true) ts -> words (join ts) = ts.
Proof.
  intros Hts. rewrite <- (str_app_nil_r (join ts)).
  rewrite words_join; [|apply value_tokens_are_tokens; exact Hts | reflexivity].
  change (words "") with (@nil string). apply app_nil_r.
Qed.

Lemma join_delimited ts : delimited (join ts) = true.
Proof. rewrite <- (str_app_nil_r (join ts)). apply delimited_join. reflexivity. Qed.

Section CurveOneLineRecords.
Context `{Numerics}.
Variables (ctrlPts0 : list vec3) (weights0 : list T).

(** A [parm u] record on one line appends its knots. *)
Lemma curve_parm_u_record toks file st n :
  Forall (fun t => is_value_token t = true) toks ->
  curve_result ctrlPts0 weights0
    (curve.scan (S n) (("parm u" +:+ join toks) :: file) st)
  = obind (replay_list T_of_flt toks (curve.temp_knots st))
      (fun knots =>
         curve_result ctrlPts0 weights0
           (curve.scan n file
              {| curve.sline := ""; curve.start := "u"; curve.deg := curve.deg st;
                 curve.rational := curve.rational st;
                 curve.parsed := set_parm (curve.parsed st);
                 curve.ctrl_pts_buf := curve.ctrl_pts_buf st;
                 curve.weights_buf := curve.weights_buf st;
                 curve.indices := curve.indices st;
                 curve.temp_knots := knots |})).
Proof.
  intros Htoks. cbn [curve.scan].
  assert (Hl : String.eqb ("parm u" +:+ join toks) "" = false) by reflexivity.
  rewrite Hl, (curve_parm_u_head st (join toks) file (join_delimited toks)).
  rewrite (words_of_join toks Htoks).
  rewrite read_list_no_marker by (apply value_tokens_not_marker; exact Htoks).
  unfold curve_result. rewrite !obind_assoc. apply obind_ext. intros knots.
  cbn [obind fst snd].
  pose proof (curve_scan_sline ctrlPts0 weights0) as Hsl. unfold curve_result in Hsl.
  match goal with
  | |- _ = obind (_ _ _ ?s) _ => exact (Hsl ("parm u" +:+ join toks) n file s)
  end.
Qed.

(** A [curv] record on one line appends its indices; the two knot bounds
    are read and dropped. *)
Lemma curve_curv_record kmin kmax toks file st n :
  reads_whole get_T kmin -> reads_whole get_T kmax ->
  Forall (fun t => is_value_token t = true) toks ->
  curve_result ctrlPts0 weights0
    (curve.scan (S n) ((("curv " +:+ kmin +:+ " " +:+ kmax) +:+ join toks) :: file) st)
  = obind (replay_list int_of_flt toks (curve.indices st))
      (fun indices =>
         curve_result ctrlPts0 weights0
           (curve.scan n file
              {| curve.sline := ""; curve.start := "curv"; curve.deg := curve.deg st;
                 curve.rational := curve.rational st;
                 curve.parsed := set_curv (curve.parsed st);
                 curve.ctrl_pts_buf := curve.ctrl_pts_buf st;
                 curve.weights_buf := curve.weights_buf st;
                 curve.indices := indices;
                 curve.temp_knots := curve.temp_knots st |})).
Proof.
  intros Hmin Hmax Htoks. cbn [curve.scan].
  assert (Hl : String.eqb (("curv " +:+ kmin +:+ " " +:+ kmax) +:+ join toks) ""
               = false) by reflexivity.
  rewrite Hl, (curve_curv_head kmin kmax st (join toks) file Hmin Hmax
                 (join_delimited toks)).
  rewrite (words_of_join toks Htoks).
  rewrite read_list_no_marker by (apply value_tokens_not_marker; exact Htoks).
  unfold curve_result. rewrite !obind_assoc. apply obind_ext. intros indices.
  cbn [obind fst snd].
  pose proof (curve_scan_sline ctrlPts0 weights0) as Hsl. unfold curve_result in Hsl.
  match goal with
  | |- _ = obind (_ _ _ ?s) _ => exact (Hsl (("curv " +:+ kmin +:+ " " +:+ kmax) +:+ join toks) n file s)
  end.
Qed.

End CurveOneLineRecords.

Section SurfaceOneLineRecords.
Context `{Numerics}.
Variables (ctrlPts0 : array2 vec3) (weights0 : array2 T).

Lemma surface_parm_u_record toks file st n :
  Forall (fun t => is_value_token t = true) toks ->
  surface_result ctrlPts0 weights0
    (surface.scan (S n) (("parm u" +:+ join toks) :: file) st)
  = obind (replay_list T_of_flt toks (surface.temp_uknots st))
      (fun knots =>
         surface_result ctrlPts0 weights0
           (surface.scan n file
              {| surface.sline := ""; surface.start := "u";
                 surface.deg_u := surface.deg_u st; surface.deg_v := surface.deg_v st;
                 surface.rational := surface.rational st;
                 surface.parsed := set_parm (surface.parsed st);
                 surface.ctrl_pts_buf := surface.ctrl_pts_buf st;
                 surface.weights_buf := surface.weights_buf st;
                 surface.indices := surface.indices st;
                 surface.temp_uknots := knots;
                 surface.temp_vknots := surface.temp_vknots st |})).
Proof.
  intros Htoks. cbn [surface.scan].
  assert (Hl : String.eqb ("parm u" +:+ join toks) "" = false) by reflexivity.
  rewrite Hl, (surface_parm_u_head st (join toks) file (join_delimited toks)).
  rewrite (words_of_join toks Htoks).
  rewrite read_list_no_marker by (apply value_tokens_not_marker; exact Htoks).
  unfold surface_result. rewrite !obind_assoc. apply obind_ext. intros knots.
  cbn [obind fst snd].
  pose proof (surface_scan_sline ctrlPts0 weights0) as Hsl.
  unfold surface_result in Hsl.
  match goal with
  | |- _ = obind (_ _ _ ?s) _ => exact (Hsl ("parm u" +:+ join toks) n file s)
  end.
Qed.

Lemma surface_parm_v_record toks file st n :
  Forall (fun t => is_value_token t = true) toks ->
  surface_result ctrlPts0 weights0
    (surface.scan (S n) (("parm v" +:+ join toks) :: file) st)
  = obind (replay_list T_of_flt toks (surface.temp_vknots st))
      (fun knots =>
         surface_result ctrlPts0 weights0
           (surface.scan n file
              {| surface.sline := ""; surface.start := "v";
                 surface.deg_u := surface.deg_u st; surface.deg_v := surface.deg_v st;
                 surface.rational := surface.rational st;
                 surface.parsed := set_parm (surface.parsed st);
                 surface.ctrl_pts_buf := surface.ctrl_pts_buf st;
                 surface.weights_buf := surface.weights_buf st;
                 surface.indices := surface.indices st;
                 surface.temp_uknots := surface.temp_uknots st;
                 surface.temp_vknots := knots |})).
Proof.
  intros Htoks. cbn [surface.scan].
  assert (Hl : String.eqb ("parm v" +:+ join toks) "" = false) by reflexivity.
  rewrite Hl, (surface_parm_v_head st (join toks) file (join_delimited toks)).
  rewrite (words_of_join toks Htoks).
  rewrite read_list_no_marker by (apply value_tokens_not_marker; exact Htoks).
  unfold surface_result. rewrite !obind_assoc. apply obind_ext. intros knots.
  cbn [obind fst snd].
  pose proof (surface_scan_sline ctrlPts0 weights0) as Hsl.
  unfold surface_result in Hsl.
  match goal with
  | |- _ = obind (_ _ _ ?s) _ => exact (Hsl ("parm v" +:+ join toks) n file s)
  end.
Qed.

Lemma surface_surf_record umin umax vmin vmax toks file st n :
  reads_whole get_T umin -> reads_whole get_T umax ->
  reads_whole get_T vmin -> reads_whole get_T vmax ->
  Forall (fun t => is_value_token t = true) toks ->
  surface_result ctrlPts0 weights0
    (surface.scan (S n)
       ((("surf " +:+ umin +:+ " " +:+ umax +:+ " " +:+ vmin +:+ " " +:+ vmax)
         +:+ join toks) :: file) st)
  = obind (replay_list int_of_flt toks (surface.indices st))
      (fun indices =>
         surface_result ctrlPts0 weights0
           (surface.scan n file
              {| surface.sline := ""; surface.start := "surf";
                 surface.deg_u := surface.deg_u st; surface.deg_v := surface.deg_v st;
                 surface.rational := surface.rational st;
                 surface.parsed := set_curv (surface.parsed st);
                 surface.ctrl_pts_buf := surface.ctrl_pts_buf st;
                 surface.weights_buf := surface.weights_buf st;
                 surface.indices := indices;
                 surface.temp_uknots := surface.temp_uknots st;
                 surface.temp_vknots := surface.temp_vknots st |})).
Proof.
  intros Humin Humax Hvmin Hvmax Htoks. cbn [surface.scan].
  assert (Hl : String.eqb
                 (("surf " +:+ umin +:+ " " +:+ umax +:+ " " +:+ vmin +:+ " " +:+ vmax)
                  +:+ join toks) "" = false) by reflexivity.
  rewrite Hl, (surface_surf_head umin umax vmin vmax st (join toks) file
                 Humin Humax Hvmin Hvmax (join_delimited toks)).
  rewrite (words_of_join toks Htoks).
  rewrite read_list_no_marker by (apply value_tokens_not_marker; exact Htoks).
  unfold surface_result. rewrite !obind_assoc. apply obind_ext. intros indices.
  cbn [obind fst snd].
  pose proof (surface_scan_sline ctrlPts0 weights0) as Hsl.
  unfold surface_result in Hsl.
  match goal with
  | |- _ = obind (_ _ _ ?s) _ => exact (Hsl (("surf " +:+ umin +:+ " " +:+ umax +:+ " " +:+ vmin +:+ " " +:+ vmax)
              +:+ join toks) n file s)
  end.
Qed.

End SurfaceOneLineRecords.

Section RecordsCompose.
Context `{Numerics}.

(** X9.  The knots of several [parm] records of one axis are appended in
    the order of the records: two [parm u] records read as one record
    with the knots of the first followed by those of the second, in
    [curveReadOBJ] and in [surfaceReadOBJ], where the same holds for
    [parm v]. *)
Theorem parm_records_accumulate (pre post : list string) (toks1 toks2 : list string) :
  Forall (fun l => no_backslash l = true) pre ->
  Forall (fun t => is_value_token t = true) toks1 ->
  Forall (fun t => is_value_token t = true) toks2 ->
  (forall garbage deg0 ctrlPts0 weights0 rational0,
     curve.read_lines
       (pre ++ ("parm u" +:+ join toks1) :: ("parm u" +:+ join toks2) :: post)
       garbage deg0 ctrlPts0 weights0 rational0
     = curve.read_lines (pre ++ ("parm u" +:+ join (toks1 ++ toks2)) :: post)
         garbage deg0 ctrlPts0 weights0 rational0)
  /\ (forall garbage deg_u0 deg_v0 ctrlPts0 weights0 rational0,
        surface.read_lines
          (pre ++ ("parm u" +:+ join toks1) :: ("parm u" +:+ join toks2) :: post)
          garbage deg_u0 deg_v0 ctrlPts0 weights0 rational0
        = surface.read_lines (pre ++ ("parm u" +:+ join (toks1 ++ toks2)) :: post)
            garbage deg_u0 deg_v0 ctrlPts0 weights0 rational0)
  /\ (forall garbage deg_u0 deg_v0 ctrlPts0 weights0 rational0,
        surface.read_lines
          (pre ++ ("parm v" +:+ join toks1) :: ("parm v" +:+ join toks2) :: post)
          garbage deg_u0 deg_v0 ctrlPts0 weights0 rational0
        = surface.read_lines (pre ++ ("parm v" +:+ join (toks1 ++ toks2)) :: post)
            garbage deg_u0 deg_v0 ctrlPts0 weights0 rational0).
Proof.
  intros Hpre H1 H2.
  assert (H12 : Forall (fun t => is_value_token t = true) (toks1 ++ toks2))
    by (apply Forall_app; split; assumption).
  split; [|split].
  - intros garbage deg0 ctrlPts0 weights0 rational0. unfold curve.read_lines.
    apply (curve_scan_prefix ctrlPts0 weights0 pre); [exact Hpre | | apply Nat.le_refl..].
    intros st n m Hn Hm. simpl in Hn, Hm.
    destruct n as [|[|n]]; [lia | lia |]. destruct m as [|m]; [lia|].
    rewrite (curve_parm_u_record _ _ _ _ _ _ H1).
    rewrite (curve_parm_u_record _ _ _ _ _ _ H12).
    rewrite replay_list_app, obind_assoc. apply obind_ext. intros knots1.
    rewrite (curve_parm_u_record _ _ _ _ _ _ H2). apply obind_ext. intros knots2.
    cbn [curve.temp_knots curve.parsed curve.deg curve.rational curve.ctrl_pts_buf
         curve.weights_buf curve.indices].
    unfold curve_result. f_equal. apply curve_scan_fuel; lia.
  - intros garbage deg_u0 deg_v0 ctrlPts0 weights0 rational0. unfold surface.read_lines.
    apply (surface_scan_prefix ctrlPts0 weights0 pre);
      [exact Hpre | | apply Nat.le_refl..].
    intros st n m Hn Hm. simpl in Hn, Hm.
    destruct n as [|[|n]]; [lia | lia |]. destruct m as [|m]; [lia|].
    rewrite (surface_parm_u_record _ _ _ _ _ _ H1).
    rewrite (surface_parm_u_record _ _ _ _ _ _ H12).
    rewrite replay_list_app, obind_assoc. apply obind_ext. intros knots1.
    rewrite (surface_parm_u_record _ _ _ _ _ _ H2). apply obind_ext. intros knots2.
    cbn [surface.temp_uknots surface.temp_vknots surface.parsed surface.deg_u
         surface.deg_v surface.rational surface.ctrl_pts_buf surface.weights_buf
         surface.indices].
    unfold surface_result. f_equal. apply surface_scan_fuel; lia.
  - intros garbage deg_u0 deg_v0 ctrlPts0 weights0 rational0. unfold surface.read_lines.
    apply (surface_scan_prefix ctrlPts0 weights0 pre);
      [exact Hpre | | apply Nat.le_refl..].
    intros st n m Hn Hm. simpl in Hn, Hm.
    destruct n as [|[|n]]; [lia | lia |]. destruct m as [|m]; [lia|].
    rewrite (surface_parm_v_record _ _ _ _ _ _ H1).
    rewrite (surface_parm_v_record _ _ _ _ _ _ H12).
    rewrite replay_list_app, obind_assoc. apply obind_ext. intros knots1.
    rewrite (surface_parm_v_record _ _ _ _ _ _ H2). apply obind_ext. intros knots2.
    cbn [surface.temp_uknots surface.temp_vknots surface.parsed surface.deg_u
         surface.deg_v surface.rational surface.ctrl_pts_buf surface.weights_buf
         surface.indices].
    unfold surface_result. f_equal. apply surface_scan_fuel; lia.
Qed.

(** X10.  The parameter bounds of a [curv] or [surf] record are read and
    dropped: two files that differ in these bounds only are read as the
    same curve or surface. *)
Theorem record_bounds_are_not_used (pre post : list string) (toks : list string) :
  Forall (fun l => no_backslash l = true) pre ->
  Forall (fun t => is_value_token t = true) toks ->
  (forall kmin kmax kmin' kmax' garbage deg0 ctrlPts0 weights0 rational0,
     reads_whole get_T kmin -> reads_whole get_T kmax ->
     reads_whole get_T kmin' -> reads_whole get_T kmax' ->
     curve.read_lines
       (pre ++ (("curv " +:+ kmin +:+ " " +:+ kmax) +:+ join toks) :: post)
       garbage deg0 ctrlPts0 weights0 rational0
     = curve.read_lines
         (pre ++ (("curv " +:+ kmin' +:+ " " +:+ kmax') +:+ join toks) :: post)
         garbage deg0 ctrlPts0 weights0 rational0)
  /\ (forall umin umax vmin vmax umin' umax' vmin' vmax'
             garbage deg_u0 deg_v0 ctrlPts0 weights0 rational0,
        reads_whole get_T umin -> reads_whole get_T umax ->
        reads_whole get_T vmin -> reads_whole get_T vmax ->
        reads_whole get_T umin' -> reads_whole get_T umax' ->
        reads_whole get_T vmin' -> reads_whole get_T vmax' ->
        surface.read_lines
          (pre ++ (("surf " +:+ umin +:+ " " +:+ umax +:+ " " +:+ vmin +:+ " " +:+ vmax)
                   +:+ join toks) :: post)
          garbage deg_u0 deg_v0 ctrlPts0 weights0 rational0
        = surface.read_lines
            (pre ++ (("surf " +:+ umin' +:+ " " +:+ umax' +:+ " " +:+ vmin' +:+ " "
                        +:+ vmax') +:+ join toks) :: post)
            garbage deg_u0 deg_v0 ctrlPts0 weights0 rational0).
Proof.
  intros Hpre Htoks. split.
  - intros kmin kmax kmin' kmax' garbage deg0 ctrlPts0 weights0 rational0 H1 H2 H3 H4.
    unfold curve.read_lines.
    apply (curve_scan_prefix ctrlPts0 weights0 pre); [exact Hpre | | apply Nat.le_refl..].
    intros st n m Hn Hm. simpl in Hn, Hm.
    destruct n as [|n]; [lia|]. destruct m as [|m]; [lia|].
    rewrite (curve_curv_record _ _ kmin kmax _ _ _ _ H1 H2 Htoks).
    rewrite (curve_curv_record _ _ kmin' kmax' _ _ _ _ H3 H4 Htoks).
    apply obind_ext. intros indices. unfold curve_result. f_equal.
    apply curve_scan_fuel; lia.
  - intros umin umax vmin vmax umin' umax' vmin' vmax' garbage deg_u0 deg_v0 ctrlPts0
      weights0 rational0 H1 H2 H3 H4 H5 H6 H7 H8.
    unfold surface.read_lines.
    apply (surface_scan_prefix ctrlPts0 weights0 pre);
      [exact Hpre | | apply Nat.le_refl..].
    intros st n m Hn Hm. simpl in Hn, Hm.
    destruct n as [|n]; [lia|]. destruct m as [|m]; [lia|].
    rewrite (surface_surf_record _ _ umin umax vmin vmax _ _ _ _ H1 H2 H3 H4 Htoks).
    rewrite (surface_surf_record _ _ umin' umax' vmin' vmax' _ _ _ _ H5 H6 H7 H8 Htoks).
    apply obind_ext. intros indices. unfold surface_result. f_equal.
    apply surface_scan_fuel; lia.
Qed.

End RecordsCompose.

Lemma parm_records_accumulate_witness :
  curve.read_lines
    ["v 0 0 0 1"; "v 1 0 0 1"; "cstype bspline"; "deg 1"; "curv 0 1 1 2";
     "parm u 0 0"; "parm u 1 1"; "end"] no_garbage 0 [] [] false
  = curve.read_lines
      ["v 0 0 0 1"; "v 1 0 0 1"; "cstype bspline"; "deg 1"; "curv 0 1 1 2";
       "parm u 0 0 1 1"; "end"] no_garbage 0 [] [] false.
Proof.
  assert (Hpre : Forall (fun l => no_backslash l = true)
                   ["v 0 0 0 1"; "v 1 0 0 1"; "cstype bspline"; "deg 1";
                    "curv 0 1 1 2"]) by (repeat constructor).
  assert (H1 : Forall (fun t => is_value_token t = true) ["0"; "0"])
    by (repeat constructor).
  assert (H2 : Forall (fun t => is_value_token t = true) ["1"; "1"])
    by (repeat constructor).
  exact (proj1 (parm_records_accumulate _ ["end"] _ _ Hpre H1 H2)
           no_garbage 0 [] [] false).
Defined.

Lemma record_bounds_are_not_used_witness :
  curve.read_lines
    ["v 0 0 0 1"; "v 1 0 0 1"; "cstype bspline"; "deg 1"; "curv 0 1 1 2";
     "parm u 0 0 1 1"; "end"] no_garbage 0 [] [] false
  = curve.read_lines
      ["v 0 0 0 1"; "v 1 0 0 1"; "cstype bspline"; "deg 1"; "curv 5 2 1 2";
       "parm u 0 0 1 1"; "end"] no_garbage 0 [] [] false.
Proof.
  assert (Hpre : Forall (fun l => no_backslash l = true)
                   ["v 0 0 0 1"; "v 1 0 0 1"; "cstype bspline"; "deg 1"])
    by (repeat constructor).
  assert (Htoks : Forall (fun t => is_value_token t = true) ["1"; "2"])
    by (repeat constructor).
  assert (Hw : forall z, one_digit z = true -> reads_whole get_Z (put_Z z)).
  { intros z Hz. destruct (one_digit_get_Z z Hz) as [Ht Hg].
    split; [exact Ht|]. exists z. exact Hg. }
  exact (proj1 (record_bounds_are_not_used _ ["parm u 0 0 1 1"; "end"] _ Hpre Htoks)
           "0" "1" "5" "2" no_garbage 0 [] [] false
           (Hw 0 eq_refl) (Hw 1 eq_refl) (Hw 5 eq_refl) (Hw 2 eq_refl)).
Defined.


(** * What the writers do not check, and the order of a written grid *)

Lemma at_index_beyond {A : Type} what (v : list A) (i : Z) :
  Z.of_nat (length v) <= i -> at_index what v i = Undefined what.
Proof.
  intros Hi. unfold at_index.
  replace (i <? Z.of_nat (length v)) with false by (symmetry; apply Z.ltb_ge; exact Hi).
  rewrite andb_false_r. reflexivity.
Qed.

Section WriterBounds.
Context `{Numerics}.

Lemma put_vertices_short ctrlPts : forall i weights,
  (i <= length weights)%nat -> (length weights < i + length ctrlPts)%nat ->
  put_vertices ctrlPts i weights = Undefined "weights[i]".
Proof.
  induction ctrlPts as [|p ctrlPts IH]; intros i weights Hi Hlen; simpl in Hlen; [lia|].
  cbn [put_vertices].
  destruct (decide (i < length weights)%nat) as [Hlt | Hge].
  - destruct (lookup_lt_is_Some_2 weights i Hlt) as [w Hw].
    rewrite (at_index_lookup _ _ _ _ Hw). cbn [obind].
    rewrite IH by lia. reflexivity.
  - rewrite at_index_beyond by lia. reflexivity.
Qed.

(** X11.  [curveSaveOBJ] does not compare the sizes of its arguments: with
    fewer weights than control points it reads [weights[i]] beyond the
    end of the vector, and with a knot vector of at most [degree] knots it
    reads [knots[degree]] beyond the end; both are undefined behaviour,
    not a reported error. *)
Theorem curveSaveOBJ_sizes_unchecked (degree : Z) (knots : list T)
    (ctrlPts : list vec3) (weights : list T) (rational : bool) :
  ((length weights < length ctrlPts)%nat ->
   curveSaveOBJ degree knots ctrlPts weights rational = Undefined "weights[i]")
  /\ ((length ctrlPts <= length weights)%nat ->
      Z.of_nat (length knots) <= degree ->
      curveSaveOBJ degree knots ctrlPts weights rational = Undefined "knots[degree]").
Proof.
  split.
  - intros Hlen. unfold curveSaveOBJ.
    rewrite put_vertices_short by lia. reflexivity.
  - intros Hlen Hknots. unfold curveSaveOBJ.
    rewrite put_vertices_lines by lia. cbn [obind].
    rewrite at_index_beyond by exact Hknots. reflexivity.
Qed.

(** X12.  [surfaceSaveOBJ] writes the grid of control points column after
    column: for a grid with at least one row and one column that
    satisfies the length invariants, the file has one [v] line for every
    cell and five more lines before the last line [end], and the [v] line
    number [j * rows + i], counted from 0, holds the control point and the
    weight of cell [(i, j)]. *)
Theorem surfaceSaveOBJ_writes_columns (deg_u deg_v : Z) (knots_u knots_v : list T)
    (ctrlPts : array2 vec3) (weights : array2 T) (rational : bool) :
  (0 < rows ctrlPts)%nat -> (0 < cols ctrlPts)%nat ->
  length (data ctrlPts) = (rows ctrlPts * cols ctrlPts)%nat ->
  rows weights = rows ctrlPts -> cols weights = cols ctrlPts ->
  length (data weights) = (rows ctrlPts * cols ctrlPts)%nat ->
  Z.of_nat (rows ctrlPts * cols ctrlPts) < 2 ^ 31 ->
  0 <= deg_u -> 0 <= deg_v ->
  Z.of_nat (length knots_u) = Z.of_nat (rows ctrlPts) + deg_u + 1 ->
  Z.of_nat (length knots_v) = Z.of_nat (cols ctrlPts) + deg_v + 1 ->
  Z.of_nat (length knots_u) < 2 ^ 31 ->
  Z.of_nat (length knots_v) < 2 ^ 31 ->
  exists lines,
    surfaceSaveOBJ deg_u deg_v knots_u knots_v ctrlPts weights rational
    = Returns (unlines lines +:+ "end")
    /\ length lines = (rows ctrlPts * cols ctrlPts + 5)%nat
    /\ forall i j, (i < rows ctrlPts)%nat -> (j < cols ctrlPts)%nat ->
         exists p w,
           (forall what, array2_get what ctrlPts i j = Returns p)
           /\ (forall what, array2_get what weights i j = Returns w)
           /\ lines !! (j * rows ctrlPts + i)%nat = Some (v_text p w).
Proof.
  intros Hr Hc Hcells Hwr Hwc Hwcells Hsmall Hdu Hdv Hlu Hlv Hsu Hsv.
  destruct (lookup_lt_is_Some_2 knots_u (Z.to_nat deg_u)) as [ku_lo Hulo]; [lia|].
  destruct (lookup_lt_is_Some_2 knots_u (rows ctrlPts)) as [ku_hi Huhi]; [lia|].
  destruct (lookup_lt_is_Some_2 knots_v (Z.to_nat deg_v)) as [kv_lo Hvlo]; [lia|].
  destruct (lookup_lt_is_Some_2 knots_v (cols ctrlPts)) as [kv_hi Hvhi]; [lia|].
  assert (Hwf : length (data weights) = (rows weights * cols weights)%nat)
    by (rewrite Hwr, Hwc; exact Hwcells).
  exists (surface_lines deg_u deg_v knots_u knots_v ctrlPts weights rational
            ku_lo ku_hi kv_lo kv_hi).
  split; [|split].
  - apply (surfaceSaveOBJ_text ctrlPts weights Hcells Hwr Hwc Hwcells); assumption.
  - unfold surface_lines. rewrite length_app, length_zip_with.
    rewrite !column_major_length by assumption. rewrite Hwr, Hwc. simpl. lia.
  - intros i j Hi Hj.
    destruct (cell_defined ctrlPts Hcells i j Hi Hj) as [p Hp].
    destruct (cell_defined weights Hwf i j) as [w Hw];
      [rewrite Hwr; exact Hi | rewrite Hwc; exact Hj |].
    exists p, w. split; [|split].
    + intros what. unfold array2_get.
      replace (i <? rows ctrlPts)%nat with true by (symmetry; apply Nat.ltb_lt; lia).
      replace (j <? cols ctrlPts)%nat with true by (symmetry; apply Nat.ltb_lt; lia).
      cbn [andb]. rewrite Hp. reflexivity.
    + intros what. unfold array2_get. rewrite Hwr, Hwc.
      replace (i <? rows ctrlPts)%nat with true by (symmetry; apply Nat.ltb_lt; lia).
      replace (j <? cols ctrlPts)%nat with true by (symmetry; apply Nat.ltb_lt; lia).
      cbn [andb]. rewrite Hwc in Hw. rewrite Hw. reflexivity.
    + unfold surface_lines.
      pose proof (position_of_cell i j (rows ctrlPts) (cols ctrlPts) Hi Hj) as Hpos.
      rewrite lookup_app_l
        by (rewrite length_zip_with, !column_major_length by assumption;
            rewrite Hwr, Hwc; lia).
      assert (Hcp : column_major ctrlPts !! (j * rows ctrlPts + i)%nat = Some p)
        by (rewrite (column_major_lookup ctrlPts Hcells i j Hi Hj); exact Hp).
      assert (Hcw : column_major weights !! (j * rows ctrlPts + i)%nat = Some w).
      { rewrite <- Hwr.
        rewrite (column_major_lookup weights Hwf i j)
          by (rewrite ?Hwr, ?Hwc; assumption).
        exact Hw. }
      rewrite lookup_zip_with, Hcp. cbn [mbind option_bind]. rewrite Hcw. reflexivity.
Qed.

End WriterBounds.

Lemma curveSaveOBJ_sizes_unchecked_witness :
  curveSaveOBJ (H := numerics) 1 [0; 0; 1; 1]
    [Vec3 (H := numerics) 0 0 0; Vec3 (H := numerics) 1 1 1] [1] true
  = Undefined "weights[i]"
  /\ curveSaveOBJ (H := numerics) 0 [] [] [] false = Undefined "knots[degree]".
Proof.
  split.
  - apply (proj1 (curveSaveOBJ_sizes_unchecked (H := numerics) 1 [0; 0; 1; 1]
                    [Vec3 (H := numerics) 0 0 0; Vec3 (H := numerics) 1 1 1] [1]
                    true)).
    simpl. lia.
  - apply (proj2 (curveSaveOBJ_sizes_unchecked (H := numerics) 0 [] [] [] false));
      simpl; lia.
Defined.

Lemma surfaceSaveOBJ_writes_columns_witness :
  exists lines,
    surfaceSaveOBJ_RationalSurface a_rational_surface = Returns (unlines lines +:+ "end")
    /\ lines !! 1%nat = Some "v 1 0 0 1"
    /\ lines !! 2%nat = Some "v 0 1 0 1".
Proof.
  destruct (surfaceSaveOBJ_writes_columns
              (RationalSurface.degree_u a_rational_surface)
              (RationalSurface.degree_v a_rational_surface)
              (RationalSurface.knots_u a_rational_surface)
              (RationalSurface.knots_v a_rational_surface)
              (RationalSurface.control_points a_rational_surface)
              (RationalSurface.weights a_rational_surface) true)
    as (lines & Hsave & _ & Hcells);
    try reflexivity; try (simpl; lia).
  exists lines. split; [exact Hsave|]. split.
  - destruct (Hcells 1%nat 0%nat) as (p & w & Hp & Hw & Hl); [simpl; lia..|].
    specialize (Hp ""). specialize (Hw ""). injection Hp as <-. injection Hw as <-.
    exact Hl.
  - destruct (Hcells 0%nat 1%nat) as (p & w & Hp & Hw & Hl); [simpl; lia..|].
    specialize (Hp ""). specialize (Hw ""). injection Hp as <-. injection Hw as <-.
    exact Hl.
Defined.


(** * Saved as one kind, read as the other *)

Section OtherKind.
Context `{Numerics}.

(** X13.  The file of a curve or surface without weights holds the weight
    1 for every control point, and the public readers do not use the
    [cstype] of the file.  So, under the conditions of the round trip, a
    [Curve] that is saved and read as a [RationalCurve] gets, for every
    control point, the weight that 1 is read back as; and a
    [RationalCurve] that is saved and read as a [Curve] gives the curve
    with the same control points, which are not divided by their weights.
    The same holds for [Surface] and [RationalSurface]. *)
Theorem saved_as_one_kind_read_as_the_other (rt_c rt_k : T -> T) (dim : nat) :
  (dim <= 3)%nat ->
  (forall crv : Curve.t,
     Forall (fun p => length p = dim) (Curve.control_points crv) ->
     curve_conditions rt_c rt_k (Curve.degree crv) (Curve.knots crv)
       (map vec3_of_coords (Curve.control_points crv))
       (replicate (length (Curve.control_points crv)) T_one) ->
     exists text,
       curveSaveOBJ_Curve dim crv = Returns text
       /\ forall filename garbage rat crv0,
            curveReadOBJ_RationalCurve dim filename (Some text) garbage rat crv0
            = Returns
                {| RationalCurve.degree := Curve.degree crv;
                   RationalCurve.knots := map rt_k (Curve.knots crv);
                   RationalCurve.control_points :=
                     map (map rt_c) (Curve.control_points crv);
                   RationalCurve.weights :=
                     map rt_c (replicate (length (Curve.control_points crv)) T_one) |})
  /\ (forall crv : RationalCurve.t,
        Forall (fun p => length p = dim) (RationalCurve.control_points crv) ->
        curve_conditions rt_c rt_k (RationalCurve.degree crv) (RationalCurve.knots crv)
          (map vec3_of_coords (RationalCurve.control_points crv))
          (RationalCurve.weights crv) ->
        exists text,
          curveSaveOBJ_RationalCurve dim crv = Returns text
          /\ forall filename garbage rat crv0,
               curveReadOBJ_Curve dim filename (Some text) garbage rat crv0
               = Returns
                   {| Curve.degree := RationalCurve.degree crv;
                      Curve.knots := map rt_k (RationalCurve.knots crv);
                      Curve.control_points :=
                        map (map rt_c) (RationalCurve.control_points crv) |})
  /\ (forall srf : Surface.t,
        surface_conditions rt_c rt_k (Surface.degree_u srf) (Surface.degree_v srf)
          (Surface.knots_u srf) (Surface.knots_v srf) (Surface.control_points srf)
          (Array2 (rows (Surface.control_points srf))
             (cols (Surface.control_points srf))
             (replicate (rows (Surface.control_points srf)
                         * cols (Surface.control_points srf)) T_one)) ->
        exists text,
          surfaceSaveOBJ_Surface srf = Returns text
          /\ forall filename garbage rat srf0,
               surfaceReadOBJ_RationalSurface filename (Some text) garbage rat srf0
               = Returns
                   {| RationalSurface.degree_u := Surface.degree_u srf;
                      RationalSurface.degree_v := Surface.degree_v srf;
                      RationalSurface.knots_u := map rt_k (Surface.knots_u srf);
                      RationalSurface.knots_v := map rt_k (Surface.knots_v srf);
                      RationalSurface.control_points :=
                        array2_map (map_vec3 rt_c) (Surface.control_points srf);
                      RationalSurface.weights :=
                        Array2 (rows (Surface.control_points srf))
                          (cols (Surface.control_points srf))
                          (map rt_c
                             (replicate (rows (Surface.control_points srf)
                                         * cols (Surface.control_points srf))
                                T_one)) |})
  /\ (forall srf : RationalSurface.t,
        surface_conditions rt_c rt_k (RationalSurface.degree_u srf)
          (RationalSurface.degree_v srf) (RationalSurface.knots_u srf)
          (RationalSurface.knots_v srf) (RationalSurface.control_points srf)
          (RationalSurface.weights srf) ->
        exists text,
          surfaceSaveOBJ_RationalSurface srf = Returns text
          /\ forall filename garbage rat srf0,
               surfaceReadOBJ_Surface filename (Some text) garbage rat srf0
               = Returns
                   {| Surface.degree_u := RationalSurface.degree_u srf;
                      Surface.degree_v := RationalSurface.degree_v srf;
                      Surface.knots_u := map rt_k (RationalSurface.knots_u srf);
                      Surface.knots_v := map rt_k (RationalSurface.knots_v srf);
                      Surface.control_points :=
                        array2_map (map_vec3 rt_c)
                          (RationalSurface.control_points srf) |}).
Proof.
  intros Hdim. split; [|split; [|split]].
  - intros crv Hpts C.
    destruct C as [C1 C2 C3 C4 C5 C6 C7 C8 C9].
    destruct (curve_internal_round_trip rt_c rt_k (Curve.degree crv) (Curve.knots crv)
                (map vec3_of_coords (Curve.control_points crv))
                (replicate (length (Curve.control_points crv)) T_one) false
                C1 C2 C3 C4 C5 C6 C7 C8 C9) as (text & Hsave & Hread).
    exists text. split.
    + unfold curveSaveOBJ_Curve. rewrite (omap_to_vec3 dim Hdim _ Hpts). exact Hsave.
    + intros filename garbage rat crv0. unfold curveReadOBJ_RationalCurve.
      rewrite Hread.
      cbn [obind curve.r_ctrlPts curve.r_deg curve.r_knots curve.r_weights].
      rewrite (omap_from_vec3 rt_c dim Hdim _ Hpts). reflexivity.
  - intros crv Hpts C.
    destruct C as [C1 C2 C3 C4 C5 C6 C7 C8 C9].
    destruct (curve_internal_round_trip rt_c rt_k (RationalCurve.degree crv)
                (RationalCurve.knots crv)
                (map vec3_of_coords (RationalCurve.control_points crv))
                (RationalCurve.weights crv) true
                C1 C2 C3 C4 C5 C6 C7 C8 C9) as (text & Hsave & Hread).
    exists text. split.
    + unfold curveSaveOBJ_RationalCurve. rewrite (omap_to_vec3 dim Hdim _ Hpts).
      exact Hsave.
    + intros filename garbage rat crv0. unfold curveReadOBJ_Curve.
      rewrite Hread. cbn [obind curve.r_ctrlPts curve.r_deg curve.r_knots].
      rewrite (omap_from_vec3 rt_c dim Hdim _ Hpts). reflexivity.
  - intros srf C.
    destruct (surface_internal_round_trip rt_c rt_k _ _ _ _ _ _ false C)
      as (text & Hsave & Hread).
    exists text. split; [exact Hsave|].
    intros filename garbage rat srf0. unfold surfaceReadOBJ_RationalSurface.
    rewrite Hread. reflexivity.
  - intros srf C.
    destruct (surface_internal_round_trip rt_c rt_k _ _ _ _ _ _ true C)
      as (text & Hsave & Hread).
    exists text. split; [exact Hsave|].
    intros filename garbage rat srf0. unfold surfaceReadOBJ_Surface.
    rewrite Hread. reflexivity.
Qed.

End OtherKind.

Lemma saved_as_one_kind_read_as_the_other_witness :
  (exists text,
     curveSaveOBJ_Curve 2 a_curve = Returns text
     /\ forall filename garbage rat crv0,
          curveReadOBJ_RationalCurve 2 filename (Some text) garbage rat crv0
          = Returns
              {| RationalCurve.degree := 1; RationalCurve.knots := [0; 0; 1; 1];
                 RationalCurve.control_points := [[0; 0]; [1; 2]];
                 RationalCurve.weights := [1; 1] |})
  /\ (exists text,
        surfaceSaveOBJ_RationalSurface a_rational_surface = Returns text
        /\ forall filename garbage rat srf0,
             surfaceReadOBJ_Surface filename (Some text) garbage rat srf0
             = Returns a_surface).
Proof.
  destruct (saved_as_one_kind_read_as_the_other (H := numerics) id id 2
              (le_S 2 2 (le_n 2))) as (Hc & _ & _ & Hs).
  split.
  - apply (Hc a_curve); [|exact a_curve_conditions].
    constructor; [reflexivity|]. constructor; [reflexivity|]. constructor.
  - exact (Hs a_rational_surface a_rational_surface_conditions).
Defined.


(** * The [parm] records of the surface reader *)

Lemma default_parm_axis (axis : option string) (a : string) :
  a <> "parm" -> default "parm" axis = a -> axis = Some a.
Proof. intros Ha. destruct axis as [w|]; simpl; congruence. Qed.

Section SurfaceParm.
Context `{Numerics}.

(** X14.  In [surfaceReadOBJ] one flag stands for both [parm] records: a
    record with the keyword [parm] that is processed to its end marks the
    section as seen whatever its axis token is; the knots along u change
    only for the axis [u] and the knots along v only for the axis [v]. *)
Theorem surface_parm_axes (l : string) (ss1 : istringstream) (file : list string)
    (st : surface.scan_state) (c : control) (file' : list string)
    (st' : surface.scan_state) :
  get_token {| buf := l; failbit := false |} = (Some "parm", ss1) ->
  surface.process_line file (surface.with_line l st) = Returns (c, file', st') ->
  p_parm (surface.parsed st') = true
  /\ (fst (get_token ss1) <> Some "u" ->
      surface.temp_uknots st' = surface.temp_uknots st)
  /\ (fst (get_token ss1) <> Some "v" ->
      surface.temp_vknots st' = surface.temp_vknots st).
Proof.
  intros Htok. unfold surface.process_line. simpl. rewrite Htok. simpl.
  unfold surface.on_parm. simpl. destruct (get_token ss1) as [axis ss2]. simpl.
  destruct (String.eqb (default "parm" axis) "u") eqn:Eu;
    [|destruct (String.eqb (default "parm" axis) "v") eqn:Ev].
  - apply String.eqb_eq in Eu. apply default_parm_axis in Eu; [|discriminate].
    intros Hr. apply obind_returns in Hr as ([f s] & Hr & Hk).
    apply obind_returns in Hr as ([[f1 l1] k1] & _ & Hr).
    injection Hr as <- <-. injection Hk as _ _ <-. simpl.
    split; [reflexivity|]. split; [congruence | reflexivity].
  - apply String.eqb_eq in Ev. apply default_parm_axis in Ev; [|discriminate].
    intros Hr. apply obind_returns in Hr as ([f s] & Hr & Hk).
    apply obind_returns in Hr as ([[f1 l1] k1] & _ & Hr).
    injection Hr as <- <-. injection Hk as _ _ <-. simpl.
    split; [reflexivity|]. split; [reflexivity | congruence].
  - simpl. intros [= _ _ <-]. simpl.
    split; [reflexivity|]. split; reflexivity.
Qed.

End SurfaceParm.

Lemma surface_parm_axes_witness :
  exists st',
    surface.process_line []
      (surface.with_line "parm w 0 1" (surface.initial no_garbage 0 0 false))
    = Returns (Next, [], st')
    /\ p_parm (surface.parsed st') = true
    /\ surface.temp_uknots st' = []
    /\ surface.temp_vknots st' = [].
Proof.
  assert (Htok : get_token {| buf := "parm w 0 1"; failbit := false |}
                 = (Some "parm", {| buf := " w 0 1"; failbit := false |}))
    by reflexivity.
  assert (Hstep : surface.process_line []
                    (surface.with_line "parm w 0 1"
                       (surface.initial no_garbage 0 0 false))
                  = Returns (Next, [],
                      {| surface.sline := "parm w 0 1"; surface.start := "w";
                         surface.deg_u := 0; surface.deg_v := 0;
                         surface.rational := false;
                         surface.parsed := set_parm no_garbage;
                         surface.ctrl_pts_buf := []; surface.weights_buf := [];
                         surface.indices := []; surface.temp_uknots := [];
                         surface.temp_vknots := [] |}))
    by (vm_compute; reflexivity).
  destruct (surface_parm_axes _ _ _ _ _ _ _ Htok Hstep) as (Hp & Hu & Hv).
  eexists. split; [exact Hstep|]. split; [exact Hp|]. split.
  - apply Hu. simpl. discriminate.
  - apply Hv. simpl. discriminate.
Defined.


(** * A file that ends after a continuation marker *)

Section CutFile.
Context `{Numerics}.

Lemma replay_list_returns {A : Type} (conv : flt -> A) toks : forall values,
  Forall (fun t => is_value_token t = true /\ stof t <> None) toks ->
  exists vs, replay_list conv toks values = Returns vs.
Proof.
  induction toks as [|t toks IH]; intros values Hall; [simpl; eauto|].
  inversion Hall as [|? ? [Ht Hs] Hall']; subst. simpl.
  destruct (String.eqb t continuation) eqn:Heq.
  - apply String.eqb_eq in Heq. apply value_token_not_marker in Ht. contradiction.
  - destruct (stof t) as [f|]; [apply IH; exact Hall' | congruence].
Qed.

Lemma words_of_marked_line ts :
  Forall (fun t => is_value_token t = true) ts ->
  words (join ts +:+ " " +:+ continuation) = ts ++ [continuation].
Proof.
  intros Hts. rewrite words_join; [|apply value_tokens_are_tokens; exact Hts | reflexivity].
  reflexivity.
Qed.

(** The list of a record whose lines all end with a marker, the last of
    them being the last line of the file: the loop reads the last line
    again and again. *)
Lemma read_list_cut {A : Type} (conv : flt -> A) sline toks1 toks2 values :
  Forall (fun t => is_value_token t = true /\ stof t <> None) toks1 ->
  Forall (fun t => is_value_token t = true /\ stof t <> None) toks2 ->
  read_list conv [join toks2 +:+ " " +:+ continuation] sline
    (toks1 ++ [continuation]) values
  = Diverges.
Proof.
  intros H1 H2.
  assert (V1 : Forall (fun t => is_value_token t = true) toks1)
    by (eapply Forall_impl; [exact H1 | intros t [Ht _]; exact Ht]).
  assert (V2 : Forall (fun t => is_value_token t = true) toks2)
    by (eapply Forall_impl; [exact H2 | intros t [Ht _]; exact Ht]).
  rewrite read_list_continue by (apply value_tokens_not_marker; exact V1).
  destruct (replay_list_returns conv toks1 values H1) as [v1 ->]. cbn [obind].
  rewrite (words_of_marked_line toks2 V2).
  rewrite read_list_values by (apply value_tokens_not_marker; exact V2).
  destruct (replay_list_returns conv toks2 v1 H2) as [v2 ->]. cbn [obind].
  rewrite read_list_cons. rewrite String.eqb_refl.
  rewrite (words_of_marked_line toks2 V2), replay_list_app.
  destruct (replay_list_returns conv toks2 v2 H2) as [v3 ->]. reflexivity.
Qed.

Lemma curve_break_at_end file st f st' :
  curve.process_line file st = Returns (Break, f, st') -> curve.start st' = "end".
Proof.
  unfold curve.process_line.
  destruct (get_token {| buf := curve.sline st; failbit := false |}) as [s ss].
  destruct (String.eqb _ "v"); [discriminate|].
  destruct (String.eqb _ "cstype"); [discriminate|].
  destruct (String.eqb _ "deg"); [discriminate|].
  destruct (String.eqb _ "curv").
  { intros Hr. apply obind_returns in Hr as (r & _ & Hr). discriminate Hr. }
  destruct (String.eqb _ "parm").
  { intros Hr. apply obind_returns in Hr as (r & _ & Hr). discriminate Hr. }
  destruct (String.eqb _ "end") eqn:He; [|discriminate].
  intros [= _ <-]. apply String.eqb_eq in He. exact He.
Qed.

(** Lines without a backslash and without the word [end] in front of
    lines from which the reader does not return. *)
Lemma curve_scan_no_return ctrlPts0 weights0 pre : forall rest st n,
  Forall (fun l => no_backslash l = true) pre ->
  Forall (fun l => ~ In "end" (words l)) pre ->
  (forall st n r, (length rest <= n)%nat ->
     curve_result ctrlPts0 weights0 (curve.scan n rest st) <> Returns r) ->
  curve.start st <> "end" ->
  (length (pre ++ rest) <= n)%nat ->
  forall r, curve_result ctrlPts0 weights0 (curve.scan n (pre ++ rest) st) <> Returns r.
Proof.
  induction pre as [|l pre IH]; intros rest st n Hb He Hrest Hstart Hn r.
  - apply Hrest. exact Hn.
  - inversion Hb as [|? ? Hbl Hb']; subst. inversion He as [|? ? Hel He']; subst.
    simpl in Hn. destruct n as [|n]; [lia|]. simpl app. cbn [curve.scan].
    destruct (String.eqb l "").
    + apply IH; try assumption. lia.
    + rewrite (curve_process_line_self_contained l (pre ++ rest) st Hbl).
      destruct (curve.process_line [] (curve.with_line l st))
        as [[[c f] st'] | | | | |] eqn:Hp; try discriminate.
      cbn [obind fst snd].
      pose proof (curve_process_line_not_seen "end" (fun _ => false)
                    (fun _ _ => eq_refl) (fun _ _ => eq_refl) (fun _ _ => eq_refl)
                    (fun _ _ => eq_refl) l [] st c f st' Hel Hstart eq_refl Hp)
        as [Hstart' _].
      destruct c.
      * apply IH; try assumption. lia.
      * apply curve_break_at_end in Hp. contradiction.
Qed.

(** X15.  What a continuation marker at the end of the last line of a
    [parm u] record does depends on how the file ends.
    - When the last line of the file has no newline, [getline] finds
      [eofbit] set and leaves the line as it was: the loop over the tokens
      of the record reads that line again each time it meets the marker, and
      no curve is returned from a file that ends so after lines without the
      word [end].
    - When the file ends with a newline, [getline] empties the line and
      the loop ends: the file is read as the file in which the knots of the
      record are on one line. *)
Theorem file_cut_after_a_marker (toks1 toks2 : list string) (pre : list string) :
  Forall (fun t => is_value_token t = true /\ stof t <> None) toks1 ->
  Forall (fun t => is_value_token t = true /\ stof t <> None) toks2 ->
  Forall (fun l => no_newline l = true) pre ->
  Forall (fun l => no_backslash l = true) pre ->
  (Forall (fun l => ~ In "end" (words l)) pre ->
   forall filename garbage deg0 ctrlPts0 weights0 rational0,
     ~ returns
         (curve.curveReadOBJ filename
            (Some (unlines (pre ++ ["parm u" +:+ join toks1 +:+ " " +:+ continuation])
                   +:+ (join toks2 +:+ " " +:+ continuation)))
            garbage deg0 ctrlPts0 weights0 rational0))
  /\ (forall filename garbage deg0 ctrlPts0 weights0 rational0,
        curve.curveReadOBJ filename
          (Some (unlines (pre ++ ["parm u" +:+ join toks1 +:+ " " +:+ continuation;
                                  join toks2 +:+ " " +:+ continuation])))
          garbage deg0 ctrlPts0 weights0 rational0
        = curve.curveReadOBJ filename
            (Some (unlines (pre ++ ["parm u" +:+ join (toks1 ++ toks2)])))
            garbage deg0 ctrlPts0 weights0 rational0).
Proof.
  intros H1 H2 Hnl Hbs.
  assert (V1 : Forall (fun t => is_value_token t = true) toks1)
    by (eapply Forall_impl; [exact H1 | intros t [Ht _]; exact Ht]).
  assert (V2 : Forall (fun t => is_value_token t = true) toks2)
    by (eapply Forall_impl; [exact H2 | intros t [Ht _]; exact Ht]).
  assert (V12 : Forall (fun t => is_value_token t = true) (toks1 ++ toks2))
    by (apply Forall_app; split; assumption).
  assert (Hlast : no_newline (join toks2 +:+ " " +:+ continuation) = true).
  { rewrite no_newline_app.
    rewrite (join_no_newline _ (value_tokens_are_tokens _ V2)). reflexivity. }
  assert (Hhead : no_newline ("parm u" +:+ join toks1 +:+ " " +:+ continuation) = true).
  { rewrite !no_newline_app.
    rewrite (join_no_newline _ (value_tokens_are_tokens _ V1)). reflexivity. }
  assert (Hone : no_newline ("parm u" +:+ join (toks1 ++ toks2)) = true).
  { rewrite no_newline_app.
    rewrite (join_no_newline _ (value_tokens_are_tokens _ V12)). reflexivity. }
  assert (Hl : String.eqb ("parm u" +:+ join toks1 +:+ " " +:+ continuation) ""
               = false) by reflexivity.
  split.
  - intros Hend filename garbage deg0 ctrlPts0 weights0 rational0 [r Hr].
    revert Hr. unfold curve.curveReadOBJ. rewrite getlines_unlines.
    + rewrite <- app_assoc. unfold curve.read_lines.
      apply (curve_scan_no_return ctrlPts0 weights0 pre); try assumption.
      * intros st n r' Hn. simpl in Hn. destruct n as [|[|n]]; [lia | lia |].
        cbn [app curve.scan]. rewrite Hl.
        rewrite (curve_parm_u_head st (join toks1 +:+ " " +:+ continuation))
          by (apply delimited_join; reflexivity).
        rewrite (words_of_marked_line toks1 V1).
        rewrite (read_list_cut T_of_flt _ toks1 toks2 _ H1 H2). discriminate.
      * discriminate.
      * apply Nat.le_refl.
    + apply Forall_app. split; [exact Hnl|]. constructor; [exact Hhead | constructor].
    + exact Hlast.
  - intros filename garbage deg0 ctrlPts0 weights0 rational0.
    unfold curve.curveReadOBJ.
    rewrite <- (str_app_nil_r (unlines (pre ++ [_; _]))).
    rewrite <- (str_app_nil_r (unlines (pre ++ [_]))).
    rewrite !getlines_unlines;
      [| apply Forall_app; split; [exact Hnl|]; constructor; [exact Hone | constructor]
       | reflexivity
       | apply Forall_app; split; [exact Hnl|];
         constructor; [exact Hhead | constructor; [exact Hlast | constructor]]
       | reflexivity].
    rewrite <- !app_assoc. unfold curve.read_lines.
    apply (curve_scan_prefix ctrlPts0 weights0 pre);
      [exact Hbs | | apply Nat.le_refl..].
    intros st n m Hn Hm. simpl in Hn, Hm.
    destruct n as [|n]; [lia|]. destruct m as [|[|m]]; [lia | lia |].
    cbn [app curve.scan]. rewrite Hl.
    assert (Hl' : String.eqb ("parm u" +:+ join (toks1 ++ toks2)) "" = false)
      by reflexivity.
    rewrite Hl'.
    rewrite (curve_parm_u_head st (join toks1 +:+ " " +:+ continuation))
      by (apply delimited_join; reflexivity).
    rewrite (curve_parm_u_head st (join (toks1 ++ toks2)))
      by (rewrite <- (str_app_nil_r (join _)); apply delimited_join; reflexivity).
    rewrite (words_of_marked_line toks1 V1).
    rewrite read_list_continue by (apply value_tokens_not_marker; exact V1).
    rewrite (words_of_marked_line toks2 V2).
    rewrite <- (str_app_nil_r (join (toks1 ++ toks2))) at 2.
    rewrite words_join; [|apply value_tokens_are_tokens; exact V12 | reflexivity].
    change (words "") with (@nil string). rewrite app_nil_r.
    rewrite read_list_no_marker by (apply value_tokens_not_marker; exact V12).
    rewrite replay_list_app.
    destruct (replay_list T_of_flt toks1 (curve.temp_knots st)) as [v1| | | | |];
      cbn [obind]; try reflexivity.
    rewrite read_list_continue by (apply value_tokens_not_marker; exact V2).
    destruct (replay_list T_of_flt toks2 v1) as [v2| | | | |];
      cbn [obind]; try reflexivity.
    change (words "") with (@nil string). rewrite read_list_nil.
    cbn [obind fst snd String.eqb]. destruct n, m; reflexivity.
Qed.

End CutFile.

Lemma file_cut_after_a_marker_witness :
  ~ returns
      (curve.curveReadOBJ "crv.obj"
         (Some (unlines (["v 0 0 0 1"; "cstype bspline"; "deg 1"; "curv 0 1 1"]
                         ++ ["parm u" +:+ join ["0"; "0"] +:+ " " +:+ continuation])
                +:+ (join ["1"] +:+ " " +:+ continuation)))
         no_garbage 0 [] [] false)
  /\ curve.curveReadOBJ "crv.obj"
       (Some (unlines (["v 0 0 0 1"; "cstype bspline"; "deg 1"; "curv 0 1 1"]
                       ++ ["parm u" +:+ join ["0"; "0"] +:+ " " +:+ continuation;
                           join ["1"] +:+ " " +:+ continuation])))
       no_garbage 0 [] [] false
     = curve.curveReadOBJ "crv.obj"
         (Some (unlines (["v 0 0 0 1"; "cstype bspline"; "deg 1"; "curv 0 1 1"]
                         ++ ["parm u" +:+ join (["0"; "0"] ++ ["1"])])))
         no_garbage 0 [] [] false.
Proof.
  assert (H1 : Forall (fun t => is_value_token t = true /\ stof t <> None) ["0"; "0"]).
  { repeat (constructor; [split; [reflexivity | vm_compute; discriminate]|]).
    constructor. }
  assert (H2 : Forall (fun t => is_value_token t = true /\ stof t <> None) ["1"]).
  { repeat (constructor; [split; [reflexivity | vm_compute; discriminate]|]).
    constructor. }
  assert (Hnl : Forall (fun l => no_newline l = true)
                  ["v 0 0 0 1"; "cstype bspline"; "deg 1"; "curv 0 1 1"])
    by (repeat constructor).
  assert (Hbs : Forall (fun l => no_backslash l = true)
                  ["v 0 0 0 1"; "cstype bspline"; "deg 1"; "curv 0 1 1"])
    by (repeat constructor).
  assert (Hend : Forall (fun l => ~ In "end" (words l))
                   ["v 0 0 0 1"; "cstype bspline"; "deg 1"; "curv 0 1 1"]).
  { vm_compute. repeat constructor; intros Hin; simpl in Hin; intuition discriminate. }
  destruct (file_cut_after_a_marker ["0"; "0"] ["1"] _ H1 H2 Hnl Hbs) as [Hcut Hnewline].
  split.
  - exact (Hcut Hend "crv.obj" no_garbage 0 [] [] false).
  - exact (Hnewline "crv.obj" no_garbage 0 [] [] false).
Defined.


(** * What the output vectors held before the call *)

Section PreviousContents.
Context `{Numerics}.

(** The loop of the build writes every element, so that two pairs of
    vectors of the same length that agree on the elements written so far
    end up the same. *)
Lemma curve_fill_overwrites st count : forall i a b a2 b2,
  length a = (i + count)%nat -> length b = (i + count)%nat ->
  length a2 = (i + count)%nat -> length b2 = (i + count)%nat ->
  take i a = take i a2 -> take i b = take i b2 ->
  curve.fill st count i (a, b) = curve.fill st count i (a2, b2).
Proof.
  induction count as [|count IH]; intros i a b a2 b2 Ha Hb Ha2 Hb2 Hta Htb.
  - rewrite !take_ge in Hta by lia. rewrite !take_ge in Htb by lia.
    subst. reflexivity.
  - cbn [curve.fill]. unfold curve.fill_step. rewrite Ha, Ha2.
    destruct (negb (i <? i + S count)%nat); [reflexivity|].
    destruct (at_index "indices[num]" (curve.indices st) (Z.of_nat i)) as [idx| | | | |];
      try reflexivity.
    cbn [obind].
    destruct (at_index "ctrl_pts_buf[indices[num] - 1]" (curve.ctrl_pts_buf st) (idx - 1))
      as [p| | | | |]; try reflexivity.
    cbn [obind].
    destruct (at_index "weights_buf[indices[num] - 1]" (curve.weights_buf st) (idx - 1))
      as [w| | | | |]; try reflexivity.
    cbn [obind]. apply IH; rewrite ?length_insert; try lia.
    + rewrite (take_S_r (<[i:=p]> a) i p) by (apply list_lookup_insert_eq; lia).
      rewrite (take_S_r (<[i:=p]> a2) i p) by (apply list_lookup_insert_eq; lia).
      rewrite !take_insert_ge by lia. rewrite Hta. reflexivity.
    + rewrite (take_S_r (<[i:=w]> b) i w) by (apply list_lookup_insert_eq; lia).
      rewrite (take_S_r (<[i:=w]> b2) i w) by (apply list_lookup_insert_eq; lia).
      rewrite !take_insert_ge by lia. rewrite Htb. reflexivity.
Qed.

(** X16.  What [curveReadOBJ] does, and the control points and weights of
    the curve that it returns, do not depend on what the vectors passed
    for the control points and the weights held before the call. *)
Theorem curve_previous_contents_are_not_used (filename : string)
    (contents : option string) (garbage : ToParse) (deg0 : Z) (rational0 : bool)
    (ctrlPts0 ctrlPts1 : list vec3) (weights0 weights1 : list T) :
  curve.curveReadOBJ filename contents garbage deg0 ctrlPts0 weights0 rational0
  = curve.curveReadOBJ filename contents garbage deg0 ctrlPts1 weights1 rational0.
Proof.
  destruct contents as [text|]; [|reflexivity].
  unfold curve.curveReadOBJ, curve.read_lines. apply obind_ext. intros st.
  unfold curve.build. apply obind_ext. intros _.
  set (num_cp := to_int (to_uint (to_uint (to_int (Z.of_nat (length (curve.temp_knots st))))
                                  - curve.deg st) - 1)).
  unfold vector_resize. destruct (num_cp <? 0); [reflexivity|]. cbn [obind].
  rewrite (curve_fill_overwrites st (Z.to_nat num_cp) 0
             (resize (Z.to_nat num_cp) (Vec3 T_zero T_zero T_zero) ctrlPts0)
             (resize (Z.to_nat num_cp) T_zero weights0)
             (resize (Z.to_nat num_cp) (Vec3 T_zero T_zero T_zero) ctrlPts1)
             (resize (Z.to_nat num_cp) T_zero weights1));
    rewrite ?length_resize; reflexivity.
Qed.

End PreviousContents.

(** * The coordinates that the public curve readers keep *)

Section KeptCoordinates.
Context `{Numerics}.
Variable dim : nat.
Hypothesis dim_at_most_3 : (dim <= 3)%nat.

Lemma from_vec3_take v :
  from_vec3 dim 0 v = Returns (take dim (vec3_coords v)).
Proof. destruct dim as [|[|[|[|d]]]]; [reflexivity..|lia]. Qed.

Lemma omap_from_vec3_take vs :
  omap (from_vec3 dim 0) vs = Returns (map (fun v => take dim (vec3_coords v)) vs).
Proof.
  induction vs as [|v vs IH]; [reflexivity|].
  cbn [omap map]. rewrite from_vec3_take, IH. reflexivity.
Qed.

End KeptCoordinates.

Section PublicCurveReaders.
Context `{Numerics}.

(** X17.  For [dim] at most 3, the public curve readers keep the first
    [dim] coordinates of every control point that the internal reader
    returns and drop the others; the reader of a [Curve] also drops the
    weights, and both drop the rational flag of the file.  When the
    internal reader does not return, neither do they. *)
Theorem public_curve_readers_keep_dim_coordinates (dim : nat) (filename : string)
    (contents : option string) (garbage : ToParse) (rat : bool) :
  (dim <= 3)%nat ->
  (forall (crv : Curve.t) r,
     curve.curveReadOBJ filename contents garbage (Curve.degree crv) [] [] rat
     = Returns r ->
     curveReadOBJ_Curve dim filename contents garbage rat crv
     = Returns {| Curve.degree := curve.r_deg r; Curve.knots := curve.r_knots r;
                  Curve.control_points :=
                    map (fun v => take dim (vec3_coords v)) (curve.r_ctrlPts r) |})
  /\ (forall (crv : RationalCurve.t) r,
        curve.curveReadOBJ filename contents garbage (RationalCurve.degree crv) []
          (RationalCurve.weights crv) rat = Returns r ->
        curveReadOBJ_RationalCurve dim filename contents garbage rat crv
        = Returns {| RationalCurve.degree := curve.r_deg r;
                     RationalCurve.knots := curve.r_knots r;
                     RationalCurve.control_points :=
                       map (fun v => take dim (vec3_coords v)) (curve.r_ctrlPts r);
                     RationalCurve.weights := curve.r_weights r |})
  /\ (forall (crv : Curve.t) c,
        curveReadOBJ_Curve dim filename contents garbage rat crv = Returns c ->
        exists r,
          curve.curveReadOBJ filename contents garbage (Curve.degree crv) [] [] rat
          = Returns r)
  /\ (forall (crv : RationalCurve.t) c,
        curveReadOBJ_RationalCurve dim filename contents garbage rat crv = Returns c ->
        exists r,
          curve.curveReadOBJ filename contents garbage (RationalCurve.degree crv) []
            (RationalCurve.weights crv) rat
          = Returns r).
Proof.
  intros Hdim. split; [|split; [|split]].
  - intros crv r Hr. unfold curveReadOBJ_Curve. rewrite Hr. cbn [obind].
    rewrite (omap_from_vec3_take dim Hdim). reflexivity.
  - intros crv r Hr. unfold curveReadOBJ_RationalCurve. rewrite Hr. cbn [obind].
    rewrite (omap_from_vec3_take dim Hdim). reflexivity.
  - intros crv c Hc. unfold curveReadOBJ_Curve in Hc.
    apply obind_returns in Hc as (r & Hr & _). exists r. exact Hr.
  - intros crv c Hc. unfold curveReadOBJ_RationalCurve in Hc.
    apply obind_returns in Hc as (r & Hr & _). exists r. exact Hr.
Qed.

End PublicCurveReaders.

Lemma public_curve_readers_keep_dim_coordinates_witness :
  curveReadOBJ_Curve 2 "crv.obj" (Some two_point_curve_file) no_garbage false a_curve
  = Returns {| Curve.degree := 1; Curve.knots := [0; 0; 1; 1];
               Curve.control_points := [[1; 2]; [0; 0]] |}.
Proof.
  assert (Hr : curve.curveReadOBJ "crv.obj" (Some two_point_curve_file) no_garbage
                 (Curve.degree a_curve) [] [] false = Returns two_point_curve)
    by (vm_compute; reflexivity).
  exact (proj1 (public_curve_readers_keep_dim_coordinates 2 "crv.obj"
                  (Some two_point_curve_file) no_garbage false (le_S 2 2 (le_n 2)))
           a_curve two_point_curve Hr).
Defined.


(** * The [cstype] records that are not accepted *)

Section OtherTypes.
Context `{Numerics}.

Lemma cstype_record_other t s :
  is_token t = true -> delimited s = true ->
  t <> "bspline" -> t <> "rat" ->
  cstype_record {| buf := " " +:+ t +:+ s; failbit := false |} = None.
Proof.
  intros Ht Hs Hb Hr. unfold cstype_record.
  rewrite (get_token_space_word t s Ht Hs).
  apply String.eqb_neq in Hb, Hr.
  change (default "" (Some t)) with t. rewrite Hb, Hr. reflexivity.
Qed.

Lemma cstype_record_blank b :
  skipws b = "" -> cstype_record {| buf := b; failbit := false |} = None.
Proof.
  intros Hb. unfold cstype_record. rewrite (get_token_blank b Hb). reflexivity.
Qed.

Lemma cstype_record_rat_blank b :
  delimited b = true -> skipws b = "" ->
  cstype_record {| buf := " " +:+ "rat" +:+ b; failbit := false |} = None.
Proof.
  intros Hd Hb. unfold cstype_record.
  rewrite (get_token_space_word "rat" b eq_refl Hd).
  change (default "" (Some "rat")) with "rat". cbn [String.eqb Ascii.eqb Bool.eqb].
  rewrite (get_token_blank b Hb). reflexivity.
Qed.

Lemma cstype_record_rat_other t s :
  is_token t = true -> delimited s = true -> t <> "bspline" ->
  cstype_record {| buf := " " +:+ "rat" +:+ " " +:+ t +:+ s; failbit := false |} = None.
Proof.
  intros Ht Hs Hb. unfold cstype_record.
  rewrite (get_token_space_word "rat" (" " +:+ t +:+ s) eq_refl eq_refl).
  change (default "" (Some "rat")) with "rat". cbn [String.eqb Ascii.eqb Bool.eqb].
  rewrite (get_token_space_word t s Ht Hs).
  apply String.eqb_neq in Hb. change (default "" (Some t)) with t. rewrite Hb.
  reflexivity.
Qed.

(** A [cstype] line that the record does not accept leaves the state as it
    is after the line and its keyword have been read. *)
Lemma cstype_line_not_accepted r :
  delimited r = true ->
  cstype_record {| buf := r; failbit := false |} = None ->
  (forall file st,
     curve.process_line file (curve.with_line ("cstype" +:+ r) st)
     = Returns (Next, file,
         curve.with_start "cstype" (curve.with_line ("cstype" +:+ r) st)))
  /\ (forall file st,
        surface.process_line file (surface.with_line ("cstype" +:+ r) st)
        = Returns (Next, file,
            surface.with_start "cstype" (surface.with_line ("cstype" +:+ r) st))).
Proof.
  intros Hd Hnone. split; intros file st.
  - rewrite (curve_process_keyword "cstype" r file st eq_refl Hd).
    cbn [String.eqb Ascii.eqb Bool.eqb]. unfold curve.on_cstype.
    rewrite Hnone. reflexivity.
  - rewrite (surface_process_keyword "cstype" r file st eq_refl Hd).
    cbn [String.eqb Ascii.eqb Bool.eqb]. unfold surface.on_cstype.
    rewrite Hnone. reflexivity.
Qed.

(** X18.  A [cstype] record is accepted only when the type is [bspline]
    or [rat bspline].  A record with another type token changes neither
    the rational flag nor the flags of the required records, and is not
    reported: the readers go on to the next line.  The same holds for a
    record without a type, for [rat] alone and for [rat] followed by a
    token other than [bspline]: then the state is the one in which the
    line and its keyword have been read, and nothing else has changed. *)
Theorem cstype_of_another_type_is_ignored (t s : string) :
  is_token t = true -> delimited s = true ->
  t <> "bspline" -> t <> "rat" ->
  (forall file st,
     curve.process_line file (curve.with_line ("cstype" +:+ " " +:+ t +:+ s) st)
     = Returns (Next, file,
         {| curve.sline := "cstype" +:+ " " +:+ t +:+ s; curve.start := "cstype";
            curve.deg := curve.deg st; curve.rational := curve.rational st;
            curve.parsed := curve.parsed st;
            curve.ctrl_pts_buf := curve.ctrl_pts_buf st;
            curve.weights_buf := curve.weights_buf st;
            curve.indices := curve.indices st;
            curve.temp_knots := curve.temp_knots st |}))
  /\ (forall file st,
        surface.process_line file
          (surface.with_line ("cstype" +:+ " " +:+ t +:+ s) st)
        = Returns (Next, file,
            {| surface.sline := "cstype" +:+ " " +:+ t +:+ s;
               surface.start := "cstype";
               surface.deg_u := surface.deg_u st; surface.deg_v := surface.deg_v st;
               surface.rational := surface.rational st;
               surface.parsed := surface.parsed st;
               surface.ctrl_pts_buf := surface.ctrl_pts_buf st;
               surface.weights_buf := surface.weights_buf st;
               surface.indices := surface.indices st;
               surface.temp_uknots := surface.temp_uknots st;
               surface.temp_vknots := surface.temp_vknots st |}))
  /\ (forall r,
        delimited r = true ->
        skipws r = ""
        \/ (exists b, r = " " +:+ "rat" +:+ b /\ delimited b = true /\ skipws b = "")
        \/ (exists t2 s2, r = " " +:+ "rat" +:+ " " +:+ t2 +:+ s2
                          /\ is_token t2 = true /\ delimited s2 = true
                          /\ t2 <> "bspline") ->
        (forall file st,
           curve.process_line file (curve.with_line ("cstype" +:+ r) st)
           = Returns (Next, file,
               curve.with_start "cstype" (curve.with_line ("cstype" +:+ r) st)))
        /\ (forall file st,
              surface.process_line file (surface.with_line ("cstype" +:+ r) st)
              = Returns (Next, file,
                  surface.with_start "cstype"
                    (surface.with_line ("cstype" +:+ r) st)))).
Proof.
  intros Ht Hs Hb Hr. split; [|split].
  3: { intros r Hd [Hblank | [(b & -> & Hdb & Hblank) | (t2 & s2 & -> & Ht2 & Hs2 & Hne)]];
       apply cstype_line_not_accepted; try exact Hd.
       - apply cstype_record_blank. exact Hblank.
       - apply cstype_record_rat_blank; assumption.
       - apply cstype_record_rat_other; assumption. }
  - intros file st.
    rewrite (curve_process_keyword "cstype" (" " +:+ t +:+ s) file st eq_refl eq_refl).
    cbn [String.eqb Ascii.eqb Bool.eqb]. unfold curve.on_cstype.
    rewrite (cstype_record_other t s Ht Hs Hb Hr). reflexivity.
  - intros file st.
    rewrite (surface_process_keyword "cstype" (" " +:+ t +:+ s) file st eq_refl eq_refl).
    cbn [String.eqb Ascii.eqb Bool.eqb]. unfold surface.on_cstype.
    rewrite (cstype_record_other t s Ht Hs Hb Hr). reflexivity.
Qed.

End OtherTypes.

Lemma cstype_of_another_type_is_ignored_witness :
  curve.process_line [] (curve.with_line "cstype bezier" (curve.initial no_garbage 0 true))
  = Returns (Next, [],
      {| curve.sline := "cstype bezier"; curve.start := "cstype"; curve.deg := 0;
         curve.rational := true; curve.parsed := no_garbage;
         curve.ctrl_pts_buf := []; curve.weights_buf := [];
         curve.indices := []; curve.temp_knots := [] |}).
Proof.
  assert (Hb : "bezier" <> "bspline") by discriminate.
  assert (Hr : "bezier" <> "rat") by discriminate.
  exact (proj1 (cstype_of_another_type_is_ignored (H := numerics) "bezier" ""
                  eq_refl eq_refl Hb Hr) [] (curve.initial no_garbage 0 true)).
Defined.


(** * A file without the record [end] *)

Section EndIsOptional.
Context `{Numerics}.

Lemma curve_fill_start s st count : forall i acc,
  curve.fill (curve.with_start s st) count i acc = curve.fill st count i acc.
Proof.
  induction count as [|count IH]; intros i acc; [reflexivity|]. simpl.
  replace (curve.fill_step (curve.with_start s st) i acc) with (curve.fill_step st i acc)
    by (destruct acc; reflexivity).
  apply obind_ext. intros acc'. apply IH.
Qed.

(** What is built does not depend on the last keyword read. *)
Lemma curve_build_start ctrlPts0 weights0 s st :
  curve.build ctrlPts0 weights0 (curve.with_start s st)
  = curve.build ctrlPts0 weights0 st.
Proof.
  unfold curve.build. simpl. apply obind_ext. intros _.
  apply obind_ext. intros cp. apply obind_ext. intros w.
  rewrite curve_fill_start. reflexivity.
Qed.

Lemma surface_fill_u_start s st count : forall i j acc,
  surface.fill_u (surface.with_start s st) count i j acc
  = surface.fill_u st count i j acc.
Proof.
  induction count as [|count IH]; intros i j acc; [reflexivity|]. simpl.
  replace (surface.fill_step (surface.with_start s st) i j acc)
    with (surface.fill_step st i j acc) by (destruct acc as [[? ?] ?]; reflexivity).
  apply obind_ext. intros acc'. apply IH.
Qed.

Lemma surface_fill_v_start s st nu count : forall j acc,
  surface.fill_v (surface.with_start s st) nu count j acc
  = surface.fill_v st nu count j acc.
Proof.
  induction count as [|count IH]; intros j acc; [reflexivity|]. simpl.
  rewrite surface_fill_u_start. apply obind_ext. intros acc'. apply IH.
Qed.

Lemma surface_build_start ctrlPts0 weights0 s st :
  surface.build ctrlPts0 weights0 (surface.with_start s st)
  = surface.build ctrlPts0 weights0 st.
Proof.
  unfold surface.build. simpl. apply obind_ext. intros _.
  apply obind_ext. intros cp. apply obind_ext. intros w.
  rewrite surface_fill_v_start. reflexivity.
Qed.

(** X19.  The record [end] is optional: a file that stops without it is
    read to its last line and gives what the same file followed by [end]
    gives, in both readers. *)
Theorem end_record_is_optional (pre : list string) (l : string) (ss : istringstream) :
  Forall (fun l => no_backslash l = true) pre ->
  get_token {| buf := l; failbit := false |} = (Some "end", ss) ->
  (forall garbage deg0 ctrlPts0 weights0 rational0,
     curve.read_lines pre garbage deg0 ctrlPts0 weights0 rational0
     = curve.read_lines (pre ++ [l]) garbage deg0 ctrlPts0 weights0 rational0)
  /\ (forall garbage deg_u0 deg_v0 ctrlPts0 weights0 rational0,
        surface.read_lines pre garbage deg_u0 deg_v0 ctrlPts0 weights0 rational0
        = surface.read_lines (pre ++ [l]) garbage deg_u0 deg_v0 ctrlPts0 weights0
            rational0).
Proof.
  intros Hpre Htok.
  assert (Hl : String.eqb l "" = false).
  { apply not_empty_eqb. intros ->. discriminate Htok. }
  split.
  - intros garbage deg0 ctrlPts0 weights0 rational0. unfold curve.read_lines.
    rewrite <- (app_nil_r pre) at 1 2.
    apply (curve_scan_prefix ctrlPts0 weights0 pre [] [l]);
      [exact Hpre | | apply Nat.le_refl..].
    intros st n m _ Hm. simpl in Hm. destruct m as [|m]; [lia|].
    replace (curve.scan n [] st) with (Returns st) by (destruct n; reflexivity).
    cbn [curve.scan]. rewrite Hl. unfold curve.process_line.
    cbn [curve.sline curve.with_line]. rewrite Htok.
    change (curve_result ctrlPts0 weights0 (Returns st)
            = curve.build ctrlPts0 weights0
                (curve.with_start "end" (curve.with_line l st))).
    rewrite curve_build_start, curve_build_sline. reflexivity.
  - intros garbage deg_u0 deg_v0 ctrlPts0 weights0 rational0. unfold surface.read_lines.
    rewrite <- (app_nil_r pre) at 1 2.
    apply (surface_scan_prefix ctrlPts0 weights0 pre [] [l]);
      [exact Hpre | | apply Nat.le_refl..].
    intros st n m _ Hm. simpl in Hm. destruct m as [|m]; [lia|].
    replace (surface.scan n [] st) with (Returns st) by (destruct n; reflexivity).
    cbn [surface.scan]. rewrite Hl. unfold surface.process_line.
    cbn [surface.sline surface.with_line]. rewrite Htok.
    change (surface_result ctrlPts0 weights0 (Returns st)
            = surface.build ctrlPts0 weights0
                (surface.with_start "end" (surface.with_line l st))).
    rewrite surface_build_start, surface_build_sline. reflexivity.
Qed.

End EndIsOptional.

Lemma end_record_is_optional_witness :
  curve.read_lines
    ["v 0 0 0 1"; "v 1 0 0 1"; "cstype bspline"; "deg 1"; "curv 0 1 1 2";
     "parm u 0 0 1 1"] no_garbage 0 [] [] false
  = curve.read_lines
      (["v 0 0 0 1"; "v 1 0 0 1"; "cstype bspline"; "deg 1"; "curv 0 1 1 2";
        "parm u 0 0 1 1"] ++ ["end"]) no_garbage 0 [] [] false.
Proof.
  assert (Hpre : Forall (fun l => no_backslash l = true)
                   ["v 0 0 0 1"; "v 1 0 0 1"; "cstype bspline"; "deg 1";
                    "curv 0 1 1 2"; "parm u 0 0 1 1"]) by (repeat constructor).
  assert (Htok : get_token {| buf := "end"; failbit := false |}
                 = (Some "end", {| buf := ""; failbit := false |})) by reflexivity.
  exact (proj1 (end_record_is_optional _ "end" _ Hpre Htok) no_garbage 0 [] [] false).
Defined.


(** * What the output grids held before the call *)

Lemma same_cells_set {A : Type} (nu nv i j : nat) (a a2 : array2 A) (v : A) :
  (i < nu)%nat -> (j < nv)%nat ->
  same_cells nu nv (j * nu + i) a a2 ->
  same_cells nu nv (S (j * nu + i)) (array2_set a i j v) (array2_set a2 i j v).
Proof.
  intros Hi Hj (Hr & Hc & Hr2 & Hc2 & Hl & Hl2 & Hsame).
  unfold same_cells, array2_set. cbn [rows cols data]. rewrite !length_insert.
  repeat split; try assumption.
  intros k (i' & j' & Hi' & Hj' & -> & Hlt). rewrite Hc, Hc2.
  assert (Hpos : (i * nv + j < nu * nv)%nat) by nia.
  destruct (decide (i' * nv + j' = i * nv + j)%nat) as [Heq | Hne].
  - rewrite Heq. rewrite !list_lookup_insert_eq by lia. reflexivity.
  - rewrite !list_lookup_insert_ne by lia. apply Hsame.
    exists i', j'. repeat split; try assumption.
    destruct (decide (j' * nu + i' = j * nu + i)%nat) as [Hsame_cell | Hother]; [|lia].
    destruct (cell_position_inj j' i' j i nu Hi' Hi Hsame_cell) as [-> ->].
    contradiction.
Qed.

Lemma same_cells_all {A : Type} (nu nv : nat) (a a2 : array2 A) :
  same_cells nu nv (nv * nu) a a2 -> a = a2.
Proof.
  intros (Hr & Hc & Hr2 & Hc2 & Hl & Hl2 & Hsame).
  apply array2_ext; [congruence | congruence |].
  apply list_eq. intros k. destruct (decide (k < nu * nv)%nat) as [Hk | Hk].
  - apply Hsame. destruct (cell_of_position k nu nv Hk) as (i & j & Hi & Hj & ->).
    exists i, j. repeat split; try assumption. nia.
  - rewrite !lookup_ge_None_2 by lia. reflexivity.
Qed.

Section SurfacePreviousContents.
Context `{Numerics}.
Variable st : surface.scan_state.
Variables nu nv : nat.

Lemma surface_fill_step_same i j cp w cp2 w2 :
  (i < nu)%nat -> (j < nv)%nat ->
  same_cells nu nv (j * nu + i) cp cp2 -> same_cells nu nv (j * nu + i) w w2 ->
  (exists cp' w' cp2' w2',
     surface.fill_step st i j (cp, w, (j * nu + i)%nat)
     = Returns (cp', w', S (j * nu + i))
     /\ surface.fill_step st i j (cp2, w2, (j * nu + i)%nat)
        = Returns (cp2', w2', S (j * nu + i))
     /\ same_cells nu nv (S (j * nu + i)) cp' cp2'
     /\ same_cells nu nv (S (j * nu + i)) w' w2')
  \/ (surface.fill_step st i j (cp, w, (j * nu + i)%nat)
      = surface.fill_step st i j (cp2, w2, (j * nu + i)%nat)
      /\ ~ returns (surface.fill_step st i j (cp, w, (j * nu + i)%nat))).
Proof.
  intros Hi Hj Hcp Hw.
  pose proof Hcp as (Hr & Hc & Hr2 & Hc2 & _).
  unfold surface.fill_step. rewrite Hr, Hc, Hr2, Hc2.
  destruct (negb ((i <? nu)%nat && (j <? nv)%nat)).
  { right. split; [reflexivity|]. intros [x Hx]. discriminate Hx. }
  destruct (at_index "indices[num]" (surface.indices st) (Z.of_nat (j * nu + i)))
    as [idx| | | | |]; cbn [obind];
    try (right; split; [reflexivity|]; intros [x Hx]; discriminate Hx).
  destruct (at_index "ctrl_pts_buf[indices[num] - 1]" (surface.ctrl_pts_buf st) (idx - 1))
    as [p| | | | |]; cbn [obind];
    try (right; split; [reflexivity|]; intros [x Hx]; discriminate Hx).
  destruct (at_index "weights_buf[indices[num] - 1]" (surface.weights_buf st) (idx - 1))
    as [wv| | | | |]; cbn [obind];
    try (right; split; [reflexivity|]; intros [x Hx]; discriminate Hx).
  left. eexists _, _, _, _. split; [reflexivity|]. split; [reflexivity|].
  split; apply same_cells_set; assumption.
Qed.

Lemma surface_fill_u_same count : forall i j cp w cp2 w2,
  (i + count = nu)%nat -> (j < nv)%nat ->
  same_cells nu nv (j * nu + i) cp cp2 -> same_cells nu nv (j * nu + i) w w2 ->
  (exists cp' w' cp2' w2',
     surface.fill_u st count i j (cp, w, (j * nu + i)%nat)
     = Returns (cp', w', (S j * nu)%nat)
     /\ surface.fill_u st count i j (cp2, w2, (j * nu + i)%nat)
        = Returns (cp2', w2', (S j * nu)%nat)
     /\ same_cells nu nv (S j * nu) cp' cp2'
     /\ same_cells nu nv (S j * nu) w' w2')
  \/ (surface.fill_u st count i j (cp, w, (j * nu + i)%nat)
      = surface.fill_u st count i j (cp2, w2, (j * nu + i)%nat)
      /\ ~ returns (surface.fill_u st count i j (cp, w, (j * nu + i)%nat))).
Proof.
  induction count as [|count IH]; intros i j cp w cp2 w2 Hcount Hj Hcp Hw.
  - left. exists cp, w, cp2, w2. cbn [surface.fill_u].
    replace (S j * nu)%nat with (j * nu + i)%nat by lia. auto.
  - cbn [surface.fill_u].
    destruct (surface_fill_step_same i j cp w cp2 w2)
      as [(cp1 & w1 & cp3 & w3 & -> & -> & Hcp1 & Hw1) | [-> Hno]];
      [lia | exact Hj | exact Hcp | exact Hw | |].
    + cbn [obind].
      replace (S (j * nu + i)) with (j * nu + S i)%nat in * by lia.
      apply IH; [lia | exact Hj | exact Hcp1 | exact Hw1].
    + right. split; [reflexivity|]. intros [x Hx].
      apply obind_returns in Hx as (a & Ha & _). apply Hno. exists a. exact Ha.
Qed.

Lemma surface_fill_v_same count : forall j cp w cp2 w2,
  (j + count = nv)%nat ->
  same_cells nu nv (j * nu) cp cp2 -> same_cells nu nv (j * nu) w w2 ->
  (exists cp' w' cp2' w2' num,
     surface.fill_v st nu count j (cp, w, (j * nu)%nat) = Returns (cp', w', num)
     /\ surface.fill_v st nu count j (cp2, w2, (j * nu)%nat) = Returns (cp2', w2', num)
     /\ same_cells nu nv (nv * nu) cp' cp2'
     /\ same_cells nu nv (nv * nu) w' w2')
  \/ (surface.fill_v st nu count j (cp, w, (j * nu)%nat)
      = surface.fill_v st nu count j (cp2, w2, (j * nu)%nat)
      /\ ~ returns (surface.fill_v st nu count j (cp, w, (j * nu)%nat))).
Proof.
  induction count as [|count IH]; intros j cp w cp2 w2 Hcount Hcp Hw.
  - left. exists cp, w, cp2, w2, (j * nu)%nat. cbn [surface.fill_v].
    replace (nv * nu)%nat with (j * nu)%nat by nia. auto.
  - cbn [surface.fill_v].
    replace (j * nu)%nat with (j * nu + 0)%nat in * by lia.
    destruct (surface_fill_u_same nu 0 j cp w cp2 w2)
      as [(cp1 & w1 & cp3 & w3 & -> & -> & Hcp1 & Hw1) | [-> Hno]];
      [lia | lia | exact Hcp | exact Hw | |].
    + cbn [obind]. apply IH; [lia | exact Hcp1 | exact Hw1].
    + right. split; [reflexivity|]. intros [x Hx].
      apply obind_returns in Hx as (a & Ha & _). apply Hno. exists a. exact Ha.
Qed.

End SurfacePreviousContents.

Section SurfaceReaderInputs.
Context `{Numerics}.

Lemma same_cells_resized {A : Type} (nu nv : nat) (val : A) (d d2 : list A) :
  same_cells nu nv (0 * nu)
    (Array2 nu nv (resize (nu * nv) val d)) (Array2 nu nv (resize (nu * nv) val d2)).
Proof.
  unfold same_cells. cbn [rows cols data]. rewrite !length_resize.
  repeat split. intros k (i & j & _ & _ & _ & Hlt). simpl in Hlt. lia.
Qed.

(** X20.  What [surfaceReadOBJ] does, and the grids of control points and
    weights of the surface that it returns, do not depend on what the
    grids passed for them held before the call. *)
Theorem surface_previous_contents_are_not_used (filename : string)
    (contents : option string) (garbage : ToParse) (deg_u0 deg_v0 : Z)
    (rational0 : bool) (ctrlPts0 ctrlPts1 : array2 vec3) (weights0 weights1 : array2 T) :
  surface.surfaceReadOBJ filename contents garbage deg_u0 deg_v0 ctrlPts0 weights0
    rational0
  = surface.surfaceReadOBJ filename contents garbage deg_u0 deg_v0 ctrlPts1 weights1
      rational0.
Proof.
  destruct contents as [text|]; [|reflexivity].
  unfold surface.surfaceReadOBJ, surface.read_lines. apply obind_ext. intros st.
  unfold surface.build. apply obind_ext. intros _.
  set (nu := to_int (to_uint (to_uint (to_int (Z.of_nat (length (surface.temp_uknots st))))
                                - surface.deg_u st) - 1)).
  set (nv := to_int (to_uint (to_uint (to_int (Z.of_nat (length (surface.temp_vknots st))))
                                - surface.deg_v st) - 1)).
  unfold array2_resize. destruct ((nu <? 0) || (nv <? 0)); [reflexivity|].
  cbn [obind].
  pose proof (surface_fill_v_same st (Z.to_nat nu) (Z.to_nat nv) (Z.to_nat nv) 0
              (Array2 (Z.to_nat nu) (Z.to_nat nv)
                 (resize (Z.to_nat nu * Z.to_nat nv) (Vec3 T_zero T_zero T_zero)
                    (data ctrlPts0)))
              (Array2 (Z.to_nat nu) (Z.to_nat nv)
                 (resize (Z.to_nat nu * Z.to_nat nv) T_zero (data weights0)))
              (Array2 (Z.to_nat nu) (Z.to_nat nv)
                 (resize (Z.to_nat nu * Z.to_nat nv) (Vec3 T_zero T_zero T_zero)
                    (data ctrlPts1)))
              (Array2 (Z.to_nat nu) (Z.to_nat nv)
                 (resize (Z.to_nat nu * Z.to_nat nv) T_zero (data weights1)))
              (Nat.add_0_l _) (same_cells_resized _ _ _ _ _)
              (same_cells_resized _ _ _ _ _)) as Hfill.
  change (0 * Z.to_nat nu)%nat with O in Hfill.
  destruct Hfill as [(cp' & w' & cp2' & w2' & num & -> & -> & Hcp & Hw) | [-> _]];
    [| reflexivity].
  cbn [obind fst snd].
  rewrite (same_cells_all _ _ _ _ Hcp), (same_cells_all _ _ _ _ Hw). reflexivity.
Qed.

End SurfaceReaderInputs.
